(** * FreeImage bitmap store ([Source/FreeImage/BitmapAccess.cpp])

    A shallow embedding of the in-memory bitmap object of FreeImageRe:
    the size calculator, the allocator and its accessors, the thumbnail
    and ICC slots, the metadata store, the clone engine and the colour
    classifier, over an explicit heap of C++ objects.

    Conventions.
    - C integers are [Z] with the wrap-around of their type written out
      ([u32], [u16], [u8], [s32], [size_t]).
    - A C pointer to an object is [option loc]; [None] is [nullptr].
    - Every function that touches memory runs in the monad [M]: it gets
      the heap and returns [Some (result, heap')], or [None] when the
      C++ program has no defined behaviour there (a freed or foreign
      object is read, a copy leaves its block, an [assert] fails).
    - A [double] is a [spec_float] of the Standard Library at precision
      53 and maximal exponent 1024, rounded to nearest even. *)

From Stdlib Require Import ZArith Lia Bool.
From Stdlib Require Import Floats.SpecFloat.
From stdpp Require Import base option list gmap strings.

Open Scope Z_scope.

(** ** Machine integers *)

Definition wrap (bits x : Z) : Z := x mod 2 ^ bits.

Definition u8 (x : Z) : Z := wrap 8 x.
Definition u16 (x : Z) : Z := wrap 16 x.
Definition u32 (x : Z) : Z := wrap 32 x.

(** [int]: the two's complement reading of the low 32 bits. *)
Definition s32 (x : Z) : Z :=
  let r := u32 x in if r <? 2 ^ 31 then r else r - 2 ^ 32.

(** [abs] of <stdlib.h> on [int]; [abs(INT_MIN)] is undefined in C and
    wraps back to [INT_MIN] on the usual two's complement targets. *)
Definition abs_int (x : Z) : Z := s32 (Z.abs (s32 x)).

(** What differs between targets: the width of [size_t] and the size of
    the header record, which holds pointers. *)
Record platform := Platform {
  size_bits : Z;
  sizeof_FREEIMAGEHEADER : Z
}.

(** 4-byte pointers: 272 bytes up to [transparent], a 12-byte
    [FIICCPROFILE], then five 4-byte fields. *)
Definition ILP32 : platform :=
  {| size_bits := 32; sizeof_FREEIMAGEHEADER := 304 |}.

(** 8-byte pointers: 272 bytes, a 16-byte [FIICCPROFILE], then
    8 + 4 (+4) + 8 + 8 + 4 (+4). *)
Definition LP64 : platform :=
  {| size_bits := 64; sizeof_FREEIMAGEHEADER := 328 |}.

Definition size_t (P : platform) (x : Z) : Z := wrap (size_bits P) x.

(** ** Constants and helpers declared outside this file *)

(** Modelled from the spec: [FIBITMAP_ALIGNMENT] (FreeImage.h) is the
    alignment boundary of the palette and of the pixels; the comments of
    [FreeImage_GetInternalImageSize] give it as 16 bytes. *)
Definition FIBITMAP_ALIGNMENT : Z := 16.

(** Modelled from the spec: [sizeof(FIBITMAPINFOHEADER)] (FreeImage.h),
    the info block in the legacy device-independent-bitmap layout:
    struct size, width, height, planes, bit depth, compression, image
    size, two resolutions and two colour counts, 40 bytes. *)
Definition sizeof_FIBITMAPINFOHEADER : Z := 40.

(** Modelled from the spec: palette entries are 4-byte RGBA8 records. *)
Definition sizeof_FIRGBA8 : Z := 4.

Definition sizeof_uint32_t : Z := 4.

Definition BI_RGB : Z := 0.
Definition BI_BITFIELDS : Z := 3.

(** Modelled from the spec: [CalculateLine] (Utilities.h), the byte
    length of a scanline, [ceil(width*bpp/8)], returned as [unsigned]. *)
Definition CalculateLine (width bitdepth : Z) : Z :=
  u32 ((width * bitdepth + 7) / 8).

(** Modelled from the spec: [CalculatePitch] (Utilities.h), the line
    padded up to a 4-byte boundary, [(line + 3) & ~3] on [unsigned]. *)
Definition CalculatePitch (line : Z) : Z :=
  Z.land (u32 (line + 3)) (u32 (Z.lnot 3)).

(** Modelled from the spec: [CalculateUsedPaletteEntries] (Utilities.h),
    the palette count as a function of the bit depth alone: [1 << bpp]
    entries up to 8 bpp (16 at 4 bpp, 256 at 8 bpp), none from 16 bpp. *)
Definition CalculateUsedPaletteEntries (bit_count : Z) : Z :=
  if (1 <=? bit_count) && (bit_count <=? 8) then 2 ^ bit_count else 0.

(** ** Double precision *)

Definition prec64 : Z := 53.
Definition emax64 : Z := 1024.

Definition double : Set := spec_float.

(** The conversion of an integer to [double]. *)
Definition double_of_Z (n : Z) : double :=
  binary_normalize prec64 emax64 n 0 false.

Definition dadd : double -> double -> double := SFadd prec64 emax64.
Definition dsub : double -> double -> double := SFsub prec64 emax64.
Definition dmul : double -> double -> double := SFmul prec64 emax64.
Definition ddiv : double -> double -> double := SFdiv prec64 emax64.

(** [floor] of <math.h>: the largest integral value not above [x]; an
    integral value, a zero, an infinity and a NaN are returned as they
    are. *)
Definition dfloor (x : double) : double :=
  match x with
  | S754_finite s m e =>
      if 0 <=? e then x
      else
        let d := 2 ^ (- e) in
        let q := if s then - ((Zpos m + d - 1) / d) else Zpos m / d in
        binary_normalize prec64 emax64 q 0 s
  | _ => x
  end.

(** ** Size calculator *)

(** Padding that brings [n] to the next alignment boundary. *)
Definition align_pad (n : Z) : Z :=
  if n mod FIBITMAP_ALIGNMENT =? 0 then 0
  else FIBITMAP_ALIGNMENT - n mod FIBITMAP_ALIGNMENT.

(** The size of header record, info block and palette or masks, each
    padded: the value of [dib_size] when the [if (!header_only)] of
    [FreeImage_GetInternalImageSize] is reached. *)
Definition header_size (P : platform) (bpp : Z) (need_masks : bool) : Z :=
  let dib_size := size_t P (sizeof_FREEIMAGEHEADER P) in
  let dib_size := size_t P (dib_size + align_pad dib_size) in
  let dib_size :=
    size_t P (dib_size + (FIBITMAP_ALIGNMENT
                          - sizeof_FIBITMAPINFOHEADER mod FIBITMAP_ALIGNMENT)) in
  let dib_size := size_t P (dib_size + sizeof_FIBITMAPINFOHEADER) in
  let dib_size :=
    size_t P (dib_size
              + size_t P (sizeof_FIRGBA8 * CalculateUsedPaletteEntries bpp)) in
  let dib_size :=
    size_t P (dib_size + (if need_masks then sizeof_uint32_t * 3 else 0)) in
  size_t P (dib_size + align_pad dib_size).

(** [dib_size] after the pixel region has been added, in [size_t]. *)
Definition integer_total (P : platform) (width height bpp : Z)
    (need_masks : bool) : Z :=
  size_t P (header_size P bpp need_masks
            + size_t P (size_t P (CalculatePitch (CalculateLine width bpp))
                        * size_t P height)).

(** [dImageSize]: the same size recomputed in double precision. *)
Definition dImageSize (P : platform) (width height bpp : Z)
    (need_masks : bool) : double :=
  let dPitch :=
    dmul (dfloor (ddiv (dadd (dmul (double_of_Z bpp) (double_of_Z width))
                             (double_of_Z 31))
                       (double_of_Z 32)))
         (double_of_Z 4) in
  dadd (double_of_Z (header_size P bpp need_masks))
       (dmul dPitch (double_of_Z height)).

(** [(double)((size_t)-1) - 8 * FIBITMAP_ALIGNMENT]. *)
Definition FIBITMAP_MAX_MEMORY (P : platform) : double :=
  dsub (double_of_Z (size_t P (-1))) (double_of_Z (8 * FIBITMAP_ALIGNMENT)).

(** [a != b] and [a > b] on [double]. *)
Definition dne (a b : double) : bool := negb (SFeqb a b).
Definition dgt (a b : double) : bool := SFltb b a.

Definition FreeImage_GetInternalImageSize (P : platform) (header_only : bool)
    (width height bpp : Z) (need_masks : bool) : Z :=
  if header_only then header_size P bpp need_masks
  else
    let dib_size := integer_total P width height bpp need_masks in
    let d := dImageSize P width height bpp need_masks in
    if dne d (double_of_Z dib_size) then 0
    else if dgt d (FIBITMAP_MAX_MEMORY P) then 0
    else dib_size.

(** ** Data model *)

(** An address names one allocation; a pointer to an object is an
    optional address, a pointer to a byte an address and an offset. *)
Abbreviation loc := positive.
Abbreviation ptr := (option positive).
Abbreviation byte_ptr := (option (positive * Z)).

(** [FREE_IMAGE_TYPE]: the element types the allocator knows, the
    unknown type, and any other value of the enumeration. *)
Inductive FREE_IMAGE_TYPE :=
  | FIT_UNKNOWN | FIT_BITMAP | FIT_UINT16 | FIT_INT16 | FIT_UINT32
  | FIT_INT32 | FIT_FLOAT | FIT_DOUBLE | FIT_COMPLEXF | FIT_COMPLEX
  | FIT_RGB16 | FIT_RGBA16 | FIT_RGB32 | FIT_RGBA32 | FIT_RGBF | FIT_RGBAF
  | FIT_other (n : Z).

Inductive FREE_IMAGE_COLOR_TYPE :=
  | FIC_MINISWHITE | FIC_MINISBLACK | FIC_RGB | FIC_PALETTE
  | FIC_RGBALPHA | FIC_CMYK | FIC_YUV.

(** Modelled from the spec: the metadata models are the [int] keys of
    [METADATAMAP]; FreeImage.h numbers them, and only that the named
    ones differ matters here. *)
Definition FIMD_COMMENTS : Z := 0.
Definition FIMD_EXIF_MAIN : Z := 1.
Definition FIMD_IPTC : Z := 6.
Definition FIMD_ANIMATION : Z := 9.

(** Modelled from the spec: the ICC flag bits "is CMYK" and "is YUV". *)
Definition FIICC_COLOR_IS_CMYK : Z := 1.
Definition FIICC_COLOR_IS_YUV : Z := 2.

Record FIRGBA8 := RGBA8 { red : Z; green : Z; blue : Z; alpha : Z }.

Record FIICCPROFILE := ICCProfile {
  icc_flags : Z;
  icc_size : Z;
  icc_data : ptr
}.

Record FREEIMAGEHEADER := Header {
  type : FREE_IMAGE_TYPE;
  bkgnd_color : FIRGBA8;
  transparent_table : list Z;
  transparency_count : Z;
  transparent : bool;
  iccProfile : FIICCPROFILE;
  metadata : ptr;
  has_pixels : bool;
  thumbnail : ptr;
  external_bits : byte_ptr;
  external_pitch : Z
}.

Record FIBITMAPINFOHEADER := InfoHeader {
  biSize : Z;
  biWidth : Z;
  biHeight : Z;
  biPlanes : Z;
  biBitCount : Z;
  biCompression : Z;
  biSizeImage : Z;
  biXPelsPerMeter : Z;
  biYPelsPerMeter : Z;
  biClrUsed : Z;
  biClrImportant : Z
}.

Record FREEIMAGERGBMASKS := RGBMasks {
  red_mask : Z;
  green_mask : Z;
  blue_mask : Z
}.

(** The backing block of a bitmap: header record, info block, then the
    palette or the three masks, then the pixel bytes, which start
    [pixels_at] bytes into the block. *)
Record BLOCK := Block {
  fih : FREEIMAGEHEADER;
  bih : FIBITMAPINFOHEADER;
  palette : list FIRGBA8;
  masks : option FREEIMAGERGBMASKS;
  pixels_at : Z;
  pixels : list Z
}.

Definition block_size (b : BLOCK) : Z := pixels_at b + Z.of_nat (length (pixels b)).

(** Modelled from the spec: a tag ([FITAG], FreeImageTag.cpp) is a
    typed, counted value: key, description, numeric identifier, element
    type, element count, byte length and payload. *)
Record FITAG := Tag {
  tag_key : option string;
  tag_description : option string;
  tag_id : Z;
  tag_type : Z;
  tag_count : Z;
  tag_length : Z;
  tag_value : list Z
}.

(** What an address holds. A released object stays as [Freed], so that
    an address is never handed out twice and a dangling pointer is
    seen. *)
Inductive cell :=
  | Freed
  | CWrapper (data : ptr)                (* FIBITMAP *)
  | CBlock (b : BLOCK)                   (* the aligned block *)
  | CMetadata (m : gmap Z ptr)           (* METADATAMAP *)
  | CTagMap (t : gmap string ptr)        (* TAGMAP *)
  | CTag (t : FITAG)
  | CBytes (b : list Z).                 (* ICC bytes, caller's pixels *)

(** The program state: the heap and what the diagnostic sink got. *)
Record state := State {
  mem : gmap loc cell;
  messages : list string
}.

(** The collaborators at the boundary and the target. *)
Record environment := Environment {
  target : platform;
  FreeImage_TagDataWidth : Z -> Z;       (* FreeImageTag.cpp *)
  TagLib_getTagID_IPTC : string -> Z     (* TagLib::getTagID(IPTC, key) *)
}.

(** ** The monad of heap programs *)

Definition M (A : Type) : Type := state -> option (A * state).

#[global] Instance M_ret : MRet M := fun A x s => Some (x, s).
#[global] Instance M_bind : MBind M :=
  fun A B f m s => match m s with Some (x, s') => f x s' | None => None end.

(** No defined behaviour. *)
Definition undefined {A : Type} : M A := fun _ => None.

Definition set_mem (s : state) (h : gmap loc cell) : state :=
  {| mem := h; messages := messages s |}.

(** [malloc], [new]: a fresh address; running out of memory is not
    modelled. *)
Definition alloc (c : cell) : M loc :=
  fun s => let a := fresh (dom (mem s)) in Some (a, set_mem s (<[a := c]> (mem s))).

Definition load (a : loc) : M cell :=
  fun s => match mem s !! a with
           | Some Freed | None => None
           | Some c => Some (c, s)
           end.

Definition write (a : loc) (c : cell) : M unit :=
  fun s => Some (tt, set_mem s (<[a := c]> (mem s))).

(** An assignment through a pointer: the object must be live. *)
Definition store (a : loc) (c : cell) : M unit :=
  _ ← load a; write a c.

(** [free], [delete]. *)
Definition release (a : loc) : M unit := store a Freed.

Definition load_wrapper (a : loc) : M ptr :=
  c ← load a; match c with CWrapper d => mret d | _ => undefined end.
Definition load_block (a : loc) : M BLOCK :=
  c ← load a; match c with CBlock b => mret b | _ => undefined end.
Definition load_metadata (a : loc) : M (gmap Z ptr) :=
  c ← load a; match c with CMetadata m => mret m | _ => undefined end.
Definition load_tagmap (a : loc) : M (gmap string ptr) :=
  c ← load a; match c with CTagMap t => mret t | _ => undefined end.
Definition load_tag (a : loc) : M FITAG :=
  c ← load a; match c with CTag t => mret t | _ => undefined end.
Definition load_bytes (a : loc) : M (list Z) :=
  c ← load a; match c with CBytes b => mret b | _ => undefined end.

(** Dereference of an object pointer. *)
Definition deref (p : ptr) : M loc :=
  match p with Some a => mret a | None => undefined end.

(** [dib->data] and the block it points to. *)
Definition block_of (dib : loc) : M (loc * BLOCK) :=
  d ← load_wrapper dib; d ← deref d; b ← load_block d; mret (d, b).

Fixpoint forM {A : Type} (l : list A) (f : A -> M unit) : M unit :=
  match l with
  | [] => mret tt
  | x :: l => f x;; forM l f
  end.

(** [FreeImage_OutputMessageProc]: hand a message to the sink. *)
Definition FreeImage_OutputMessageProc (msg : string) : M unit :=
  fun s => Some (tt, {| mem := mem s; messages := messages s ++ [msg] |}).

(** ** Tags *)

(** Modelled from the spec: the tag functions of FreeImageTag.cpp. A
    clone is a new tag object equal in key, type, count and payload; a
    null tag clones to null, is deleted without effect and reads as
    zero. *)
Definition FreeImage_CloneTag (tag : ptr) : M ptr :=
  match tag with
  | Some a => t ← load_tag a; c ← alloc (CTag t); mret (Some c)
  | None => mret None
  end.

Definition FreeImage_DeleteTag (tag : ptr) : M unit :=
  match tag with
  | Some a => _ ← load_tag a; release a
  | None => mret tt
  end.

Definition FreeImage_GetTagKey (tag : ptr) : M (option string) :=
  match tag with
  | Some a => t ← load_tag a; mret (tag_key t)
  | None => mret None
  end.

Definition FreeImage_GetTagType (tag : ptr) : M Z :=
  match tag with
  | Some a => t ← load_tag a; mret (tag_type t)
  | None => mret 0
  end.

Definition FreeImage_GetTagCount (tag : ptr) : M Z :=
  match tag with
  | Some a => t ← load_tag a; mret (tag_count t)
  | None => mret 0
  end.

Definition FreeImage_GetTagLength (tag : ptr) : M Z :=
  match tag with
  | Some a => t ← load_tag a; mret (tag_length t)
  | None => mret 0
  end.

Definition FreeImage_GetTagValue (tag : ptr) : M (option (list Z)) :=
  match tag with
  | Some a => t ← load_tag a; mret (Some (tag_value t))
  | None => mret None
  end.

Definition set_tag_key (k : option string) (t : FITAG) : FITAG :=
  {| tag_key := k; tag_description := tag_description t; tag_id := tag_id t;
     tag_type := tag_type t; tag_count := tag_count t;
     tag_length := tag_length t; tag_value := tag_value t |}.

Definition set_tag_id (i : Z) (t : FITAG) : FITAG :=
  {| tag_key := tag_key t; tag_description := tag_description t; tag_id := i;
     tag_type := tag_type t; tag_count := tag_count t;
     tag_length := tag_length t; tag_value := tag_value t |}.

Definition FreeImage_SetTagKey (tag : ptr) (key : string) : M bool :=
  match tag with
  | Some a => t ← load_tag a; store a (CTag (set_tag_key (Some key) t));; mret true
  | None => mret false
  end.

Definition FreeImage_SetTagID (tag : ptr) (id : Z) : M bool :=
  match tag with
  | Some a => t ← load_tag a; store a (CTag (set_tag_id id t));; mret true
  | None => mret false
  end.

(** ** Accessors *)

Definition set_fih (f : FREEIMAGEHEADER) (b : BLOCK) : BLOCK :=
  {| fih := f; bih := bih b; palette := palette b; masks := masks b;
     pixels_at := pixels_at b; pixels := pixels b |}.

Definition set_bih (i : FIBITMAPINFOHEADER) (b : BLOCK) : BLOCK :=
  {| fih := fih b; bih := i; palette := palette b; masks := masks b;
     pixels_at := pixels_at b; pixels := pixels b |}.

Definition set_pixels (p : list Z) (b : BLOCK) : BLOCK :=
  {| fih := fih b; bih := bih b; palette := palette b; masks := masks b;
     pixels_at := pixels_at b; pixels := p |}.

Definition set_iccProfile (p : FIICCPROFILE) (f : FREEIMAGEHEADER) : FREEIMAGEHEADER :=
  {| type := type f; bkgnd_color := bkgnd_color f;
     transparent_table := transparent_table f;
     transparency_count := transparency_count f; transparent := transparent f;
     iccProfile := p; metadata := metadata f; has_pixels := has_pixels f;
     thumbnail := thumbnail f; external_bits := external_bits f;
     external_pitch := external_pitch f |}.

Definition set_metadata (m : ptr) (f : FREEIMAGEHEADER) : FREEIMAGEHEADER :=
  {| type := type f; bkgnd_color := bkgnd_color f;
     transparent_table := transparent_table f;
     transparency_count := transparency_count f; transparent := transparent f;
     iccProfile := iccProfile f; metadata := m; has_pixels := has_pixels f;
     thumbnail := thumbnail f; external_bits := external_bits f;
     external_pitch := external_pitch f |}.

Definition set_thumbnail (t : ptr) (f : FREEIMAGEHEADER) : FREEIMAGEHEADER :=
  {| type := type f; bkgnd_color := bkgnd_color f;
     transparent_table := transparent_table f;
     transparency_count := transparency_count f; transparent := transparent f;
     iccProfile := iccProfile f; metadata := metadata f;
     has_pixels := has_pixels f; thumbnail := t;
     external_bits := external_bits f; external_pitch := external_pitch f |}.

Definition set_external (p : byte_ptr) (pitch : Z) (f : FREEIMAGEHEADER) : FREEIMAGEHEADER :=
  {| type := type f; bkgnd_color := bkgnd_color f;
     transparent_table := transparent_table f;
     transparency_count := transparency_count f; transparent := transparent f;
     iccProfile := iccProfile f; metadata := metadata f;
     has_pixels := has_pixels f; thumbnail := thumbnail f;
     external_bits := p; external_pitch := pitch |}.

Definition set_resolution_x (r : Z) (i : FIBITMAPINFOHEADER) : FIBITMAPINFOHEADER :=
  {| biSize := biSize i; biWidth := biWidth i; biHeight := biHeight i;
     biPlanes := biPlanes i; biBitCount := biBitCount i;
     biCompression := biCompression i; biSizeImage := biSizeImage i;
     biXPelsPerMeter := r; biYPelsPerMeter := biYPelsPerMeter i;
     biClrUsed := biClrUsed i; biClrImportant := biClrImportant i |}.

Definition set_resolution_y (r : Z) (i : FIBITMAPINFOHEADER) : FIBITMAPINFOHEADER :=
  {| biSize := biSize i; biWidth := biWidth i; biHeight := biHeight i;
     biPlanes := biPlanes i; biBitCount := biBitCount i;
     biCompression := biCompression i; biSizeImage := biSizeImage i;
     biXPelsPerMeter := biXPelsPerMeter i; biYPelsPerMeter := r;
     biClrUsed := biClrUsed i; biClrImportant := biClrImportant i |}.

(** A write to a field of [(FREEIMAGEHEADER * )dib->data]. *)
Definition modify_header (dib : loc) (f : FREEIMAGEHEADER -> FREEIMAGEHEADER) : M unit :=
  '(d, b) ← block_of dib; store d (CBlock (set_fih (f (fih b)) b)).

(** A write to a field of [FreeImage_GetInfoHeader(dib)]. *)
Definition modify_info (dib : loc) (f : FIBITMAPINFOHEADER -> FIBITMAPINFOHEADER) : M unit :=
  '(d, b) ← block_of dib; store d (CBlock (set_bih (f (bih b)) b)).

(** Where the info block starts in the backing block. The C code works
    on the absolute address; the block is aligned, so the offset from
    its start is padded alike. *)
Definition info_offset (P : platform) : Z :=
  let lp := sizeof_FREEIMAGEHEADER P in
  let lp := lp + align_pad lp in
  lp + (FIBITMAP_ALIGNMENT - sizeof_FIBITMAPINFOHEADER mod FIBITMAP_ALIGNMENT).

Definition FreeImage_GetInfoHeader (P : platform) (dib : ptr) : M byte_ptr :=
  match dib with
  | None => mret None
  | Some a => d ← load_wrapper a; d ← deref d; mret (Some (d, info_offset P))
  end.

Definition FreeImage_GetImageType (dib : ptr) : M FREE_IMAGE_TYPE :=
  match dib with
  | Some a => '(_, b) ← block_of a; mret (type (fih b))
  | None => mret FIT_UNKNOWN
  end.

Definition FreeImage_HasPixels (dib : ptr) : M bool :=
  match dib with
  | Some a => '(_, b) ← block_of a; mret (has_pixels (fih b))
  | None => mret false
  end.

Definition FreeImage_HasRGBMasks (dib : ptr) : M bool :=
  match dib with
  | Some a => '(_, b) ← block_of a; mret (biCompression (bih b) =? BI_BITFIELDS)
  | None => mret false
  end.

Definition FreeImage_GetWidth (dib : ptr) : M Z :=
  match dib with
  | Some a => '(_, b) ← block_of a; mret (u32 (biWidth (bih b)))
  | None => mret 0
  end.

Definition FreeImage_GetHeight (dib : ptr) : M Z :=
  match dib with
  | Some a => '(_, b) ← block_of a; mret (u32 (biHeight (bih b)))
  | None => mret 0
  end.

Definition FreeImage_GetBPP (dib : ptr) : M Z :=
  match dib with
  | Some a => '(_, b) ← block_of a; mret (biBitCount (bih b))
  | None => mret 0
  end.

Definition FreeImage_GetLine (dib : ptr) : M Z :=
  match dib with
  | Some _ =>
      w ← FreeImage_GetWidth dib; bpp ← FreeImage_GetBPP dib;
      mret (u32 (u32 (w * bpp) + 7) / 8)
  | None => mret 0
  end.

Definition FreeImage_GetPitch (dib : ptr) : M Z :=
  match dib with
  | Some a =>
      '(_, b) ← block_of a;
      match external_bits (fih b) with
      | Some _ => mret (external_pitch (fih b))
      | None =>
          line ← FreeImage_GetLine dib;
          mret (Z.land (u32 (line + 3)) (u32 (Z.lnot 3)))
      end
  | None => mret 0
  end.

Definition FreeImage_GetColorsUsed (dib : ptr) : M Z :=
  match dib with
  | Some a => '(_, b) ← block_of a; mret (biClrUsed (bih b))
  | None => mret 0
  end.

Definition FreeImage_GetDotsPerMeterX (dib : ptr) : M Z :=
  match dib with
  | Some a => '(_, b) ← block_of a; mret (u32 (biXPelsPerMeter (bih b)))
  | None => mret 0
  end.

Definition FreeImage_GetDotsPerMeterY (dib : ptr) : M Z :=
  match dib with
  | Some a => '(_, b) ← block_of a; mret (u32 (biYPelsPerMeter (bih b)))
  | None => mret 0
  end.

Definition FreeImage_SetDotsPerMeterX (dib : ptr) (res : Z) : M unit :=
  match dib with
  | Some a => modify_info a (set_resolution_x (s32 res))
  | None => mret tt
  end.

Definition FreeImage_SetDotsPerMeterY (dib : ptr) (res : Z) : M unit :=
  match dib with
  | Some a => modify_info a (set_resolution_y (s32 res))
  | None => mret tt
  end.

Definition FreeImage_GetPalette (P : platform) (dib : ptr) : M byte_ptr :=
  match dib with
  | Some a =>
      bpp ← FreeImage_GetBPP dib;
      if bpp <? 16 then
        d ← load_wrapper a; d ← deref d;
        mret (Some (d, info_offset P + sizeof_FIBITMAPINFOHEADER))
      else mret None
  | None => mret None
  end.

(** The address of the three masks, right after the info block. *)
Definition FreeImage_GetRGBMasks (P : platform) (dib : ptr) : M byte_ptr :=
  has ← FreeImage_HasRGBMasks dib;
  if has : bool then
    a ← deref dib; d ← load_wrapper a; d ← deref d;
    mret (Some (d, info_offset P + sizeof_FIBITMAPINFOHEADER))
  else mret None.

(** A read of [masks-><field>] through [FreeImage_GetRGBMasks]; the
    block must hold mask words there. *)
Definition read_masks (dib : ptr) : M (option FREEIMAGERGBMASKS) :=
  has ← FreeImage_HasRGBMasks dib;
  if has : bool then
    a ← deref dib; '(_, b) ← block_of a;
    match masks b with Some m => mret (Some m) | None => undefined end
  else mret None.

(** Modelled from the spec: the default channel masks of 24- and 32-bit
    pixels (FreeImage.h), in the blue-green-red byte order. *)
Definition FI_RGBA_RED_MASK : Z := 0x00FF0000.
Definition FI_RGBA_GREEN_MASK : Z := 0x0000FF00.
Definition FI_RGBA_BLUE_MASK : Z := 0x000000FF.

Definition get_mask (field : FREEIMAGERGBMASKS -> Z) (default : Z) (dib : ptr) : M Z :=
  image_type ← FreeImage_GetImageType dib;
  match image_type with
  | FIT_BITMAP =>
      m ← read_masks dib;
      match m with
      | Some m => mret (field m)
      | None => bpp ← FreeImage_GetBPP dib; mret (if 24 <=? bpp then default else 0)
      end
  | _ => mret 0
  end.

Definition FreeImage_GetRedMask : ptr -> M Z := get_mask red_mask FI_RGBA_RED_MASK.
Definition FreeImage_GetGreenMask : ptr -> M Z := get_mask green_mask FI_RGBA_GREEN_MASK.
Definition FreeImage_GetBlueMask : ptr -> M Z := get_mask blue_mask FI_RGBA_BLUE_MASK.

Definition FreeImage_GetThumbnail (dib : ptr) : M ptr :=
  match dib with
  | Some a => '(_, b) ← block_of a; mret (thumbnail (fih b))
  | None => mret None
  end.

Definition FreeImage_GetICCProfile (dib : ptr) : M (option FIICCPROFILE) :=
  match dib with
  | Some a => '(_, b) ← block_of a; mret (Some (iccProfile (fih b)))
  | None => mret None
  end.

Definition FreeImage_GetBits (P : platform) (dib : ptr) : M byte_ptr :=
  has ← FreeImage_HasPixels dib;
  if negb has then mret None
  else
    a ← deref dib; '(d, b) ← block_of a;
    match external_bits (fih b) with
    | Some p => mret (Some p)
    | None =>
        colors ← FreeImage_GetColorsUsed dib;
        has_masks ← FreeImage_HasRGBMasks dib;
        let lp := info_offset P + sizeof_FIBITMAPINFOHEADER + sizeof_FIRGBA8 * colors in
        let lp := lp + (if has_masks : bool then sizeof_uint32_t * 3 else 0) in
        let lp := lp + align_pad lp in
        mret (Some (d, lp))
    end.

(** Modelled from the spec: [FreeImage_GetScanLine] (PixelAccess.cpp):
    scanline [y] starts [y] pitches after the first pixel byte; a bitmap
    without pixels has no scanline. *)
Definition FreeImage_GetScanLine (P : platform) (dib : ptr) (scanline : Z) : M byte_ptr :=
  has ← FreeImage_HasPixels dib;
  if negb has then mret None
  else
    bits ← FreeImage_GetBits P dib;
    pitch ← FreeImage_GetPitch dib;
    match bits with
    | Some (l, off) => mret (Some (l, off + pitch * scanline))
    | None => mret None
    end.

(** ** Raw bytes *)

Definition slice (off len : Z) (l : list Z) : list Z :=
  take (Z.to_nat len) (drop (Z.to_nat off) l).

Definition splice (off : Z) (new l : list Z) : list Z :=
  take (Z.to_nat off) l ++ new ++ drop (Z.to_nat off + length new) l.

(** [len] bytes read at [p]: from a caller's buffer, or from the pixel
    region of a block. Reading past the object, or the structured part
    of a block as raw bytes, is outside the model. *)
Definition read_bytes (p : byte_ptr) (len : Z) : M (list Z) :=
  '(a, off) ← match p with Some q => mret q | None => undefined end;
  c ← load a;
  match c with
  | CBytes l =>
      if (0 <=? off) && (0 <=? len) && (off + len <=? Z.of_nat (length l))
      then mret (slice off len l) else undefined
  | CBlock b =>
      let i := off - pixels_at b in
      if (0 <=? i) && (0 <=? len) && (i + len <=? Z.of_nat (length (pixels b)))
      then mret (slice i len (pixels b)) else undefined
  | _ => undefined
  end.

Definition write_bytes (p : byte_ptr) (new : list Z) : M unit :=
  '(a, off) ← match p with Some q => mret q | None => undefined end;
  c ← load a;
  match c with
  | CBytes l =>
      if (0 <=? off) && (off + Z.of_nat (length new) <=? Z.of_nat (length l))
      then store a (CBytes (splice off new l)) else undefined
  | CBlock b =>
      let i := off - pixels_at b in
      if (0 <=? i) && (i + Z.of_nat (length new) <=? Z.of_nat (length (pixels b)))
      then store a (CBlock (set_pixels (splice i new (pixels b)) b)) else undefined
  | _ => undefined
  end.

(** ** Metadata store: set and get *)

Definition is_null {A : Type} (p : option A) : bool :=
  match p with Some _ => false | None => true end.

Definition invalid_count_message (key : string) : string :=
  "Invalid data count for tag '" +:+ key +:+ "'".

(** [FreeImage_SetMetadata(model, dib, key, tag)]. *)
Definition FreeImage_SetMetadata (E : environment) (model : Z) (dib : ptr)
    (key : option string) (tag : ptr) : M bool :=
  match dib with
  | None => mret false
  | Some a =>
      '(_, b) ← block_of a;
      (* get the metadata model *)
      mdp ← deref (metadata (fih b));
      md ← load_metadata mdp;
      let tagmap : ptr := default None (md !! model) in
      match key with
      | Some key =>
          if is_null tag && is_null tagmap then
            (* remove a tag from an unknown tagmap, nothing to do *)
            mret true
          else
            tm ← match tagmap with
                 | Some tm => mret tm
                 | None =>
                     (* this model doesn't exist: create it *)
                     tm ← alloc (CTagMap ∅);
                     store mdp (CMetadata (<[model := Some tm]> md));;
                     mret tm
                 end;
            match tag with
            | Some _ =>
                (* first check the tag *)
                k ← FreeImage_GetTagKey tag;
                (if decide (k = Some key) then mret true
                 else FreeImage_SetTagKey tag key);;
                count ← FreeImage_GetTagCount tag;
                ty ← FreeImage_GetTagType tag;
                len ← FreeImage_GetTagLength tag;
                if negb (u32 (count * FreeImage_TagDataWidth E ty) =? len) then
                  FreeImage_OutputMessageProc (invalid_count_message key);;
                  mret false
                else
                  (* fill the tag ID if possible and if it's needed *)
                  (if model =? FIMD_IPTC
                   then FreeImage_SetTagID tag (u16 (TagLib_getTagID_IPTC E key))
                   else mret true);;
                  (* delete existing tag *)
                  t ← load_tagmap tm;
                  FreeImage_DeleteTag (default None (t !! key));;
                  (* create a new tag *)
                  c ← FreeImage_CloneTag tag;
                  store tm (CTagMap (<[key := c]> t));;
                  mret true
            | None =>
                (* delete existing tag *)
                t ← load_tagmap tm;
                match t !! key with
                | Some old =>
                    FreeImage_DeleteTag old;;
                    store tm (CTagMap (delete key t))
                | None => mret tt
                end;;
                mret true
            end
      | None =>
          (* destroy the metadata model *)
          match tagmap with
          | Some tm =>
              t ← load_tagmap tm;
              forM (map_to_list t) (fun e => FreeImage_DeleteTag e.2);;
              release tm;;
              store mdp (CMetadata (delete model md));;
              mret true
          | None => mret true
          end
      end
  end.

(** [FreeImage_GetMetadata(model, dib, key, &tag)]: the result and
    what is left in [*tag]. *)
Definition FreeImage_GetMetadata (model : Z) (dib : ptr) (key : option string) : M (bool * ptr) :=
  match dib, key with
  | Some a, Some key =>
      '(_, b) ← block_of a;
      mdp ← deref (metadata (fih b));
      md ← load_metadata mdp;
      match md !! model with
      | Some tagmap =>
          tm ← deref tagmap;
          t ← load_tagmap tm;
          let tag : ptr := default None (t !! key) in
          mret (negb (is_null tag), tag)
      | None => mret (false, None)
      end
  | _, _ => mret (false, None)
  end.

(** ** ICC profile slot *)

Definition set_icc_data (p : ptr) (size : Z) (f : FREEIMAGEHEADER) : FREEIMAGEHEADER :=
  set_iccProfile {| icc_flags := icc_flags (iccProfile f); icc_size := size; icc_data := p |} f.

Definition set_icc_flags (flags : Z) (f : FREEIMAGEHEADER) : FREEIMAGEHEADER :=
  set_iccProfile {| icc_flags := flags; icc_size := icc_size (iccProfile f);
                    icc_data := icc_data (iccProfile f) |} f.

Definition FreeImage_DestroyICCProfile (E : environment) (dib : ptr) : M unit :=
  match dib with
  | Some a =>
      '(_, b) ← block_of a;
      match icc_data (iccProfile (fih b)) with
      | Some p => _ ← load_bytes p; release p
      | None => mret tt
      end;;
      (* clear the profile but preserve profile->flags *)
      modify_header a (set_icc_data None 0)
  | None => mret tt
  end;;
  (* destroy also Exif-Main ICC profile *)
  _ ← FreeImage_SetMetadata E FIMD_EXIF_MAIN dib (Some "InterColorProfile") None;
  mret tt.

(** [FreeImage_CreateICCProfile(dib, data, size)]; a negative [size]
    is a request [malloc] refuses. *)
Definition FreeImage_CreateICCProfile (E : environment) (dib : ptr) (data : ptr) (size : Z) : M unit :=
  FreeImage_DestroyICCProfile E dib;;
  match dib with
  | Some a =>
      if size =? 0 then mret tt
      else if size <? 0 then modify_header a (fun f => set_icc_data None (icc_size (iccProfile f)) f)
      else
        src ← deref data;
        bytes ← read_bytes (Some (src, 0)) size;
        p ← alloc (CBytes bytes);
        modify_header a (set_icc_data (Some p) (u32 size))
  | None => mret tt
  end.

(** ** Allocation *)

(** Modelled from the spec: [sizeof] of the pixel type of each element
    type (FreeImage.h), its native width in bytes. *)
Definition sizeof_pixel (t : FREE_IMAGE_TYPE) : option Z :=
  match t with
  | FIT_UINT16 | FIT_INT16 => Some 2
  | FIT_UINT32 | FIT_INT32 | FIT_FLOAT => Some 4
  | FIT_DOUBLE | FIT_COMPLEXF => Some 8
  | FIT_COMPLEX => Some 16
  | FIT_RGB16 => Some 6
  | FIT_RGBA16 => Some 8
  | FIT_RGB32 | FIT_RGBF => Some 12
  | FIT_RGBA32 | FIT_RGBAF => Some 16
  | FIT_BITMAP | FIT_UNKNOWN | FIT_other _ => None
  end.

(** The [switch (type)] of [FreeImage_AllocateBitmap]: the bit depth
    that will be stored and [need_masks]; [None] where it returns. *)
Definition check_bit_depth (t : FREE_IMAGE_TYPE) (bpp : Z) : option (Z * bool) :=
  match t with
  | FIT_BITMAP =>
      if (bpp =? 1) || (bpp =? 2) || (bpp =? 4) || (bpp =? 8) then Some (bpp, false)
      else if bpp =? 16 then Some (bpp, true)
      else if (bpp =? 24) || (bpp =? 32) then Some (bpp, false)
      else Some (8, false)
  | _ =>
      match sizeof_pixel t with
      | Some n => Some (8 * n, false)
      | None => None
      end
  end.

Definition zero_rgba : FIRGBA8 := {| red := 0; green := 0; blue := 0; alpha := 0 |}.

Definition grey (i : Z) : FIRGBA8 :=
  {| red := u8 i; green := u8 i; blue := u8 i; alpha := 0 |}.

(** The palette after [memset] and the [if (bpp == 8)] loop. *)
Definition initial_palette (bpp : Z) : list FIRGBA8 :=
  if bpp =? 8 then grey <$> seqZ 0 256
  else replicate (Z.to_nat (CalculateUsedPaletteEntries bpp)) zero_rgba.

Definition initial_header (t : FREE_IMAGE_TYPE) (header_only : bool)
    (md : ptr) (ext_bits : byte_ptr) (ext_pitch : Z) : FREEIMAGEHEADER :=
  {| type := t;
     bkgnd_color := zero_rgba;
     transparent_table := replicate 256 0xff;
     transparency_count := 0;
     transparent := false;
     iccProfile := {| icc_flags := 0; icc_size := 0; icc_data := None |};
     metadata := md;
     has_pixels := negb header_only;
     thumbnail := None;
     external_bits := ext_bits;
     external_pitch := ext_pitch |}.

Definition initial_info (width height bpp : Z) (need_masks : bool) : FIBITMAPINFOHEADER :=
  {| biSize := sizeof_FIBITMAPINFOHEADER;
     biWidth := width;
     biHeight := height;
     biPlanes := 1;
     biBitCount := u16 bpp;
     biCompression := if need_masks then BI_BITFIELDS else BI_RGB;
     biSizeImage := 0;
     biXPelsPerMeter := 2835;
     biYPelsPerMeter := 2835;
     biClrUsed := CalculateUsedPaletteEntries bpp;
     biClrImportant := CalculateUsedPaletteEntries bpp |}.

Definition FreeImage_AllocateBitmap (E : environment) (header_only : bool)
    (ext_bits : byte_ptr) (ext_pitch : Z) (t : FREE_IMAGE_TYPE)
    (width height bpp red_mask green_mask blue_mask : Z) : M ptr :=
  let P := target E in
  (* check input variables *)
  let width := abs_int width in
  let height := abs_int height in
  if negb ((0 <? width) && (0 <? height)) then mret None
  else if negb (is_null ext_bits) && (ext_pitch =? 0) then mret None
  else if negb (is_null ext_bits) && header_only then undefined (* assert *)
  else
    (* check pixel bit depth *)
    match check_bit_depth t bpp with
    | None => mret None
    | Some (bpp, need_masks) =>
        bitmap ← alloc (CWrapper None);
        (* when using a user provided pixel buffer, force a 'header only'
           allocation *)
        let dib_size :=
          FreeImage_GetInternalImageSize P (header_only || negb (is_null ext_bits))
            width height bpp need_masks in
        if dib_size =? 0 then release bitmap;; mret None
        else
          let hs := header_size P bpp need_masks in
          (* the zero-filled block, with the header and the info block,
             the palette and the masks written out *)
          data ← alloc (CBlock
            {| fih := initial_header t header_only None ext_bits ext_pitch;
               bih := initial_info width height bpp need_masks;
               palette := initial_palette bpp;
               masks := if need_masks
                        then Some {| red_mask := red_mask; green_mask := green_mask;
                                     blue_mask := blue_mask |}
                        else None;
               pixels_at := hs;
               pixels := replicate (Z.to_nat (dib_size - hs)) 0 |});
          store bitmap (CWrapper (Some data));;
          (* initialize metadata models list *)
          md ← alloc (CMetadata ∅);
          modify_header bitmap (set_metadata (Some md));;
          mret (Some bitmap)
    end.

Definition FreeImage_AllocateHeaderForBits (E : environment) (ext_bits : byte_ptr)
    (ext_pitch : Z) (t : FREE_IMAGE_TYPE) (width height bpp r g b : Z) : M ptr :=
  FreeImage_AllocateBitmap E false ext_bits ext_pitch t width height bpp r g b.

Definition FreeImage_AllocateHeaderT (E : environment) (header_only : bool)
    (t : FREE_IMAGE_TYPE) (width height bpp r g b : Z) : M ptr :=
  FreeImage_AllocateBitmap E header_only None 0 t width height bpp r g b.

Definition FreeImage_AllocateHeader (E : environment) (header_only : bool)
    (width height bpp r g b : Z) : M ptr :=
  FreeImage_AllocateBitmap E header_only None 0 FIT_BITMAP width height bpp r g b.

Definition FreeImage_Allocate (E : environment) (width height bpp r g b : Z) : M ptr :=
  FreeImage_AllocateBitmap E false None 0 FIT_BITMAP width height bpp r g b.

Definition FreeImage_AllocateT (E : environment) (t : FREE_IMAGE_TYPE)
    (width height bpp r g b : Z) : M ptr :=
  FreeImage_AllocateBitmap E false None 0 t width height bpp r g b.

(** ** Teardown, clone and thumbnail *)

(** [FreeImage_Unload]; [fuel] bounds the depth of the thumbnail
    chain. *)
Fixpoint FreeImage_Unload (fuel : nat) (dib : ptr) : M unit :=
  match dib with
  | None => mret tt
  | Some a =>
      match fuel with
      | O => undefined
      | S fuel =>
          data ← load_wrapper a;
          match data with
          | Some d =>
              b ← load_block d;
              (* delete possible icc profile ... *)
              match icc_data (iccProfile (fih b)) with
              | Some p => release p
              | None => mret tt
              end;;
              (* delete metadata models *)
              mdp ← deref (metadata (fih b));
              md ← load_metadata mdp;
              forM (map_to_list md) (fun i =>
                match i.2 with
                | Some tm =>
                    t ← load_tagmap tm;
                    forM (map_to_list t) (fun j => FreeImage_DeleteTag j.2);;
                    release tm
                | None => mret tt
                end);;
              release mdp;;
              (* delete embedded thumbnail *)
              FreeImage_Unload fuel (thumbnail (fih b));;
              (* delete bitmap ... *)
              release d
          | None => mret tt
          end;;
          (* ... and the wrapper *)
          release a
      end
  end.

(** [memcpy(new_dib->data, dib->data, n)] on two backing blocks: the
    header record, the info block, the palette or masks, and the first
    [n - pixels_at] pixel bytes. The copy must stay inside both blocks;
    a copy that ends inside the structured part, or between blocks laid
    out differently, is outside the model. *)
Definition memcpy_block (dst src : loc) (n : Z) : M unit :=
  s ← load_block src;
  d ← load_block dst;
  if n =? 0 then mret tt
  else if (n <=? block_size s) && (n <=? block_size d)
          && (pixels_at s =? pixels_at d) && (pixels_at d <=? n)
          && (length (palette s) =? length (palette d))%nat
          && eqb (is_null (masks s)) (is_null (masks d))
  then
    store dst (CBlock
      {| fih := fih s; bih := bih s; palette := palette s; masks := masks s;
         pixels_at := pixels_at d;
         pixels := splice 0 (slice 0 (n - pixels_at d) (pixels s)) (pixels d) |})
  else undefined.

(** The metadata loop of [FreeImage_Clone] and of
    [FreeImage_CloneMetadata]: a new tag map filled, key by key, with a
    clone of every tag of [src_tagmap]. *)
Definition clone_into (dst_tagmap : loc) (j : string * ptr) : M unit :=
  dst_tag ← FreeImage_CloneTag j.2;
  (* assign key and tag value *)
  t ← load_tagmap dst_tagmap;
  store dst_tagmap (CTagMap (<[j.1 := dst_tag]> t)).

Definition clone_tagmap (src_tagmap : loc) : M loc :=
  dst_tagmap ← alloc (CTagMap ∅);
  st ← load_tagmap src_tagmap;
  (* fill the model *)
  forM (map_to_list st) (clone_into dst_tagmap);;
  mret dst_tagmap.

(** The assignment of [dst_tagmap] to the entry of [model] in the
    destination map. *)
Definition assign_model (dst_metadata : loc) (model : Z) (dst_tagmap : loc) : M unit :=
  md ← load_metadata dst_metadata;
  store dst_metadata (CMetadata (<[model := Some dst_tagmap]> md)).

(** One turn of the model loop of [FreeImage_Clone], for the entry [i]
    of the source map. *)
Definition copy_model (dst_metadata : loc) (i : Z * ptr) : M unit :=
  match i.2 with
  | Some src_tagmap =>
      (* create a metadata model, fill it, assign model and tagmap *)
      clone_tagmap src_tagmap ≫= assign_model dst_metadata i.1
  | None => mret tt
  end.

(** [FreeImage_SetThumbnail], over the two functions it calls. *)
Definition SetThumbnail_with (unload : ptr -> M unit) (clone : ptr -> M ptr)
    (dib thumbnail : ptr) : M bool :=
  match dib with
  | None => mret false
  | Some a =>
      currentThumbnail ← FreeImage_GetThumbnail dib;
      if decide (currentThumbnail = thumbnail) then mret true
      else
        unload currentThumbnail;;
        has ← FreeImage_HasPixels thumbnail;
        t ← (if has : bool then clone thumbnail else mret None);
        modify_header a (set_thumbnail t);;
        mret true
  end.

(** What [FreeImage_Clone] does to the header it copied: the ICC
    profile link is reset, the metadata link restored, and the thumbnail
    link and the external buffer link are reset. *)
Definition reset_links (dst_metadata : ptr) (f : FREEIMAGEHEADER) : FREEIMAGEHEADER :=
  set_external None 0
    (set_thumbnail None
       (set_metadata dst_metadata
          (set_iccProfile {| icc_flags := 0; icc_size := 0; icc_data := None |} f))).

(** One turn of the last loop of [FreeImage_Clone]: [linesize] bytes of
    the caller's buffer go to scanline [y] of the new bitmap. *)
Definition copy_external_line (P : platform) (new_dib : ptr) (ext_bits : loc * Z)
    (pitch linesize : Z) (y : Z) : M unit :=
  line ← FreeImage_GetScanLine P new_dib y;
  bytes ← read_bytes (Some (ext_bits.1, ext_bits.2 + y * pitch)) linesize;
  write_bytes line bytes.

(** The body of [FreeImage_Clone] for a non-null [dib], over the two
    functions that [FreeImage_SetThumbnail] calls. *)
Definition Clone_with (E : environment) (unload : ptr -> M unit) (clone : ptr -> M ptr)
    (a : loc) : M ptr :=
  let P := target E in
  let dib : ptr := Some a in
  t ← FreeImage_GetImageType dib;
  width ← FreeImage_GetWidth dib;
  height ← FreeImage_GetHeight dib;
  bpp ← FreeImage_GetBPP dib;
  '(src_data, src) ← block_of a;
  (* if the FIBITMAP is a wrapper to a user provided pixel buffer,
     get a pointer to this buffer *)
  let ext_bits := external_bits (fih src) in
  (* check for pixel availability ... *)
  has ← FreeImage_HasPixels dib;
  let header_only := negb has in
  (* check whether this image has masks defined ... *)
  let need_masks :=
    (bpp =? 16) && (match t with FIT_BITMAP => true | _ => false end) in
  (* allocate a new dib *)
  r ← FreeImage_GetRedMask dib;
  g ← FreeImage_GetGreenMask dib;
  b ← FreeImage_GetBlueMask dib;
  new_dib ← FreeImage_AllocateHeaderT E header_only t width height bpp r g b;
  match new_dib with
  | None => mret None
  | Some na =>
      '(new_data, new) ← block_of na;
      (* save metadata links *)
      let src_metadata := metadata (fih src) in
      let dst_metadata := metadata (fih new) in
      let dib_size :=
        FreeImage_GetInternalImageSize P (header_only || negb (is_null ext_bits))
          width height bpp need_masks in
      (* copy the bitmap + internal pointers *)
      memcpy_block new_data src_data dib_size;;
      modify_header na (reset_links dst_metadata);;
      (* copy possible ICC profile *)
      icc ← FreeImage_GetICCProfile dib;
      FreeImage_CreateICCProfile E new_dib
        (from_option icc_data None icc) (from_option icc_size 0 icc);;
      modify_header na (set_icc_flags (from_option icc_flags 0 icc));;
      (* copy metadata models *)
      smp ← deref src_metadata;
      dmp ← deref dst_metadata;
      smd ← load_metadata smp;
      forM (map_to_list smd) (copy_model dmp);;
      (* copy the thumbnail *)
      th ← FreeImage_GetThumbnail dib;
      SetThumbnail_with unload clone new_dib th;;
      (* copy user provided pixel buffer (if any) *)
      match ext_bits with
      | Some eb =>
          pitch ← FreeImage_GetPitch dib;
          linesize ← FreeImage_GetLine dib;
          forM (seqZ 0 height) (copy_external_line P new_dib eb pitch linesize)
      | None => mret tt
      end;;
      mret new_dib
  end.

(** [FreeImage_Clone]; [fuel] bounds the depth of the thumbnail
    chain. *)
Fixpoint FreeImage_Clone (E : environment) (fuel : nat) (dib : ptr) : M ptr :=
  match dib with
  | None => mret None
  | Some a =>
      match fuel with
      | O => undefined
      | S fuel => Clone_with E (FreeImage_Unload fuel) (FreeImage_Clone E fuel) a
      end
  end.

Definition FreeImage_SetThumbnail (E : environment) (fuel : nat) (dib thumbnail : ptr) : M bool :=
  SetThumbnail_with (FreeImage_Unload fuel) (FreeImage_Clone E fuel) dib thumbnail.

(** ** Metadata store: clone *)

(** One turn of the model loop of [FreeImage_CloneMetadata], for the
    entry [i] of the source map. *)
Definition clone_model (E : environment) (dst : ptr) (dst_metadata : loc)
    (i : Z * ptr) : M unit :=
  if i.1 =? FIMD_ANIMATION then mret tt
  else
    match i.2 with
    | Some src_tagmap =>
        dmd ← load_metadata dst_metadata;
        (if is_null (dmd !! i.1) then mret tt
         else
           (* destroy dst model *)
           _ ← FreeImage_SetMetadata E i.1 dst None None; mret tt);;
        (* create a metadata model, fill it, assign model and tagmap *)
        clone_tagmap src_tagmap ≫= assign_model dst_metadata i.1
    | None => mret tt
    end.

Definition FreeImage_CloneMetadata (E : environment) (dst src : ptr) : M bool :=
  match src, dst with
  | Some s, Some d =>
      (* get metadata links *)
      '(_, sb) ← block_of s;
      '(_, db) ← block_of d;
      smp ← deref (metadata (fih sb));
      dmp ← deref (metadata (fih db));
      smd ← load_metadata smp;
      (* copy metadata models, *except* the FIMD_ANIMATION model *)
      forM (map_to_list smd) (clone_model E dst dmp);;
      (* clone resolution *)
      x ← FreeImage_GetDotsPerMeterX src;
      FreeImage_SetDotsPerMeterX dst x;;
      y ← FreeImage_GetDotsPerMeterY src;
      FreeImage_SetDotsPerMeterY dst y;;
      mret true
  | _, _ => mret false
  end.

(** ** Colour classifier *)

Definition is_rgb (r g b : Z) (c : FIRGBA8) : bool :=
  (red c =? r) && (green c =? g) && (blue c =? b).

(** A read of [rgb[i]] in the palette of a block. *)
Definition palette_entry (b : BLOCK) (i : Z) : M FIRGBA8 :=
  if i <? 0 then undefined
  else match palette b !! Z.to_nat i with
       | Some c => mret c
       | None => undefined
       end.

(** The [case 1] of [FreeImage_GetColorType2]. *)
Definition classify_1bpp (b : BLOCK) : M FREE_IMAGE_COLOR_TYPE :=
  rgb0 ← palette_entry b 0;
  '(i, found) ←
    (if is_rgb 0 0 0 rgb0 then
       rgb1 ← palette_entry b 1;
       mret (1, is_rgb 255 255 255 rgb1)
     else mret (0, false));
  if found : bool then mret FIC_MINISBLACK
  else
    rgb ← palette_entry b i;
    if is_rgb 255 255 255 rgb then
      rgb' ← palette_entry b (i + 1);
      if is_rgb 0 0 0 rgb' then mret FIC_MINISWHITE else mret FIC_PALETTE
    else mret FIC_PALETTE.

(** The loop of [case 4: case 8:], from index [i] on, with [n] turns
    left. *)
Fixpoint grey_ramp_scan (b : BLOCK) (ncolors : Z) (n : nat) (i : Z)
    (minisblack : bool) : M FREE_IMAGE_COLOR_TYPE :=
  match n with
  | O => mret (if minisblack then FIC_MINISBLACK else FIC_MINISWHITE)
  | S n =>
      rgb ← palette_entry b i;
      if negb (red rgb =? green rgb) || negb (red rgb =? blue rgb) then mret FIC_PALETTE
      else if negb (red rgb =? i) then
        if negb (ncolors - i - 1 =? red rgb) then mret FIC_PALETTE
        else grey_ramp_scan b ncolors n (i + 1) false
      else grey_ramp_scan b ncolors n (i + 1) minisblack
  end.

Definition classify_palette (dib : ptr) (b : BLOCK) : M FREE_IMAGE_COLOR_TYPE :=
  colors ← FreeImage_GetColorsUsed dib;
  let ncolors := s32 colors in
  grey_ramp_scan b ncolors (Z.to_nat ncolors) 0 true.

Definition has_flag (flags flag : Z) : bool := Z.land flags flag =? flag.

(** Modelled from the spec: a pixel of a 32-bit bitmap is a 4-byte
    record whose last byte is the alpha channel. *)
Definition alpha_of_pixel (line : loc * Z) (x : Z) : M Z :=
  bytes ← read_bytes (Some (line.1, line.2 + 4 * x + 3)) 1;
  mret (default 0 (head bytes)).

(** The inner loop of the alpha scan: is some pixel of the line not
    fully opaque? *)
Fixpoint line_has_alpha (line : loc * Z) (xs : list Z) : M bool :=
  match xs with
  | [] => mret false
  | x :: xs =>
      a ← alpha_of_pixel line x;
      if negb (a =? 0xFF) then mret true else line_has_alpha line xs
  end.

Fixpoint image_has_alpha (P : platform) (dib : ptr) (width : Z) (ys : list Z) : M bool :=
  match ys with
  | [] => mret false
  | y :: ys =>
      line ← FreeImage_GetScanLine P dib y;
      line ← match line with Some l => mret l | None => undefined end;
      found ← line_has_alpha line (seqZ 0 width);
      if found : bool then mret true else image_has_alpha P dib width ys
  end.

Definition FreeImage_GetColorType2 (P : platform) (dib : ptr) (scan_alpha : bool)
    : M FREE_IMAGE_COLOR_TYPE :=
  image_type ← FreeImage_GetImageType dib;
  icc_profile ← FreeImage_GetICCProfile dib;
  let flags := from_option icc_flags 0 icc_profile in
  match image_type with
  | FIT_BITMAP =>
      (* standard image type *)
      a ← deref dib;
      '(_, b) ← block_of a;
      bpp ← FreeImage_GetBPP dib;
      if bpp =? 1 then classify_1bpp b
      else if (bpp =? 4) || (bpp =? 8) then classify_palette dib b
      else if (bpp =? 16) || (bpp =? 24) then
        mret (if has_flag flags FIICC_COLOR_IS_YUV then FIC_YUV else FIC_RGB)
      else if bpp =? 32 then
        if has_flag flags FIICC_COLOR_IS_CMYK then mret FIC_CMYK
        else if has_flag flags FIICC_COLOR_IS_YUV then mret FIC_YUV
        else
          has ← FreeImage_HasPixels dib;
          if scan_alpha && has then
            (* check for fully opaque alpha layer *)
            height ← FreeImage_GetHeight dib;
            width ← FreeImage_GetWidth dib;
            found ← image_has_alpha P dib width (seqZ 0 height);
            mret (if found : bool then FIC_RGBALPHA else FIC_RGB)
          else mret FIC_RGBALPHA
      else mret FIC_MINISBLACK
  | FIT_UINT16 =>
      (* 16-bit greyscale TIF can be either FIC_MINISBLACK (the most
         common case) or FIC_MINISWHITE *)
      '(found, photometricTag) ←
        FreeImage_GetMetadata FIMD_EXIF_MAIN dib (Some "PhotometricInterpretation");
      if found : bool then
        value ← FreeImage_GetTagValue photometricTag;
        match value with
        | Some (lo :: hi :: _) =>
            mret (if (lo =? 0) && (hi =? 0) then FIC_MINISWHITE else FIC_MINISBLACK)
        | _ => undefined
        end
      else mret FIC_MINISBLACK
  | FIT_RGB32 | FIT_RGB16 | FIT_RGBF =>
      mret (if negb (is_null icc_profile) && has_flag flags FIICC_COLOR_IS_YUV
            then FIC_YUV else FIC_RGB)
  | FIT_RGBA32 | FIT_RGBA16 | FIT_RGBAF =>
      mret (if negb (is_null icc_profile) && has_flag flags FIICC_COLOR_IS_CMYK
            then FIC_CMYK
            else if negb (is_null icc_profile) && has_flag flags FIICC_COLOR_IS_YUV
            then FIC_YUV else FIC_RGBALPHA)
  | _ => mret FIC_MINISBLACK
  end.

Definition FreeImage_GetColorType (P : platform) (dib : ptr) : M FREE_IMAGE_COLOR_TYPE :=
  FreeImage_GetColorType2 P dib true.

(** ** Vocabulary of the properties *)

(** [a] is the wrapper of a live bitmap whose block [b] is at [d]. *)
Definition bitmap_at (s : state) (a d : loc) (b : BLOCK) : Prop :=
  mem s !! a = Some (CWrapper (Some d)) /\ mem s !! d = Some (CBlock b).

(** [FreeImage_GetLine] on the fields of a block. *)
Definition line_of (b : BLOCK) : Z :=
  u32 (u32 (u32 (biWidth (bih b)) * biBitCount (bih b)) + 7) / 8.

(** [FreeImage_GetPitch] on the fields of a block. *)
Definition pitch_of (b : BLOCK) : Z :=
  match external_bits (fih b) with
  | Some _ => external_pitch (fih b)
  | None => Z.land (u32 (line_of b + 3)) (u32 (Z.lnot 3))
  end.

(** The request of 100000 x 100000 pixels at 32 bpp on a 32-bit
    [size_t]: refused, with a positive wrapped total. *)
Definition refused_32 (hs : Z) : bool :=
  let P := {| size_bits := 32; sizeof_FREEIMAGEHEADER := hs |} in
  forallb (fun need_masks =>
    (FreeImage_GetInternalImageSize P false 100000 100000 32 need_masks =? 0)
    && (0 <? integer_total P 100000 100000 32 need_masks)) [false; true].

(** The block that [FreeImage_AllocateBitmap] leaves behind: [bpp] and
    [need_masks] are what its [switch] decided, [md] is the new
    metadata map and [dib_size] the size it asked for. *)
Definition allocated_block (P : platform) (header_only : bool) (ext_bits : byte_ptr)
    (ext_pitch : Z) (t : FREE_IMAGE_TYPE) (width height bpp : Z) (need_masks : bool)
    (red_mask green_mask blue_mask : Z) (md : loc) (dib_size : Z) : BLOCK :=
  {| fih := initial_header t header_only (Some md) ext_bits ext_pitch;
     bih := initial_info width height bpp need_masks;
     palette := initial_palette bpp;
     masks := if need_masks
              then Some {| red_mask := red_mask; green_mask := green_mask;
                           blue_mask := blue_mask |}
              else None;
     pixels_at := header_size P bpp need_masks;
     pixels := replicate (Z.to_nat (dib_size - header_size P bpp need_masks)) 0 |}.

(** The element types the allocator accepts. *)
Definition supported (t : FREE_IMAGE_TYPE) : Prop :=
  t = FIT_BITMAP \/ is_Some (sizeof_pixel t).

(** The bit depths of the generic bitmap type. *)
Definition bitmap_depths : list Z := [1; 2; 4; 8; 16; 24; 32].

(** An environment for the examples: the 64-bit target, tags of two
    bytes per element for type 3, four for type 4 and one otherwise, and
    a lookup table that knows no key. *)
Definition example_environment : environment :=
  {| target := LP64;
     FreeImage_TagDataWidth := fun t => if t =? 3 then 2 else if t =? 4 then 4 else 1;
     TagLib_getTagID_IPTC := fun _ => -1 |}.

Definition empty_state : state := {| mem := ∅; messages := [] |}.

(** The state a run ends in. *)
Definition final_state {A : Type} (r : option (A * state)) : state :=
  from_option snd empty_state r.

(** Example runs. *)
Definition allocate_16bpp : option (ptr * state) :=
  FreeImage_AllocateBitmap example_environment false None 0 FIT_BITMAP 3 2 16
    0xF800 0x07E0 0x001F empty_state.

Definition allocate_24bpp : option (ptr * state) :=
  FreeImage_AllocateBitmap example_environment false None 0 FIT_BITMAP 3 2 24 0 0 0
    empty_state.

Definition caller_buffer : state :=
  {| mem := {[ 1%positive := CBytes [1; 2; 3; 4; 5; 6; 7; 8; 9; 10] ]}; messages := [] |}.

Definition allocate_for_bits : option (ptr * state) :=
  FreeImage_AllocateHeaderForBits example_environment (Some (1%positive, 0)) 5
    FIT_BITMAP 3 2 8 0 0 0 caller_buffer.

(** A palette entry that the loop of the 4- and 8-bit case lets pass at
    index [i]: grey, and either [i] or its mirror image. *)
Definition ramp_entry (ncolors i : Z) (c : FIRGBA8) : Prop :=
  red c = green c /\ red c = blue c /\ (red c = i \/ red c = ncolors - i - 1).

(** The three colour channels of [c] are [v]. *)
Definition grey_level (v : Z) (c : FIRGBA8) : Prop :=
  red c = v /\ green c = v /\ blue c = v.

(** Every index from [i] on, [n] of them, has a palette entry. *)
Definition entries_from (b : BLOCK) (i : Z) (n : nat) : Prop :=
  forall j, i <= j < i + Z.of_nat n -> is_Some (palette b !! Z.to_nat j).

Definition set_palette (p : list FIRGBA8) (b : BLOCK) : BLOCK :=
  {| fih := fih b; bih := bih b; palette := p; masks := masks b;
     pixels_at := pixels_at b; pixels := pixels b |}.

(** The caller fills the palette through [FreeImage_GetPalette]. *)
Definition fill_palette (dib : ptr) (p : list FIRGBA8) : M unit :=
  a ← deref dib; '(d, b) ← block_of a; store d (CBlock (set_palette p b)).

(** Sixteen grey entries: the first as in the forward ramp, the others
    as in the reversed ramp. *)
Definition mixed_grey_palette : list FIRGBA8 :=
  grey 0 :: ((fun i => grey (15 - i)) <$> seqZ 1 15).

(** A 4-bit bitmap with this palette. *)
Definition mixed_grey_bitmap : option (ptr * state) :=
  (dib ← FreeImage_Allocate example_environment 1 1 4 0 0 0;
   fill_palette dib mixed_grey_palette;;
   mret dib) empty_state.

(** A tag that declares no element but one byte of payload: its count
    times any element width is not its length. *)
Definition malformed_tag : FITAG :=
  {| tag_key := None; tag_description := None; tag_id := 0; tag_type := 1;
     tag_count := 0; tag_length := 1; tag_value := [0] |}.

(** A new bitmap without metadata, and the malformed tag beside it. *)
Definition before_malformed_tag (E : environment) : option (ptr * ptr * state) :=
  match (dib ← FreeImage_Allocate E 1 1 8 0 0 0;
         tag ← alloc (CTag malformed_tag);
         mret (dib, Some tag)) empty_state with
  | Some (dib, tag, s) => Some (dib, tag, s)
  | None => None
  end.

(** [FreeImage_SetMetadata(FIMD_COMMENTS, dib, "k", tag)] there. *)
Definition set_malformed_tag (E : environment) : option (bool * state) :=
  match before_malformed_tag E with
  | Some (dib, tag, s) => FreeImage_SetMetadata E FIMD_COMMENTS dib (Some "k") tag s
  | None => None
  end.

(** The metadata map of a bitmap, as the heap has it. *)
Definition metadata_of (s : state) (dib : loc) : option (gmap Z ptr) :=
  match block_of dib s with
  | Some (_, b, _) =>
      match metadata (fih b) with
      | Some mdp => match mem s !! mdp with Some (CMetadata m) => Some m | _ => None end
      | None => None
      end
  | None => None
  end.

(** A bitmap with a thumbnail: a 2 x 2 bitmap set as the thumbnail of a
    4 x 4 one. *)
Definition bitmap_with_thumbnail : option (ptr * state) :=
  (dib ← FreeImage_Allocate example_environment 4 4 24 0 0 0;
   small ← FreeImage_Allocate example_environment 2 2 24 0 0 0;
   FreeImage_SetThumbnail example_environment 2 dib small;;
   mret dib) empty_state.

(** The entry [p'] of a tag map in [s'] is a clone of the entry [p] of
    a tag map of [s]: null for null, and for a tag a tag object that did
    not exist in [s], with the content the tag has in [s] when it is
    an object of [s]. *)
Definition clone_of (s s' : state) (p p' : ptr) : Prop :=
  match p with
  | None => p' = None
  | Some t =>
      exists t' c, p' = Some t' /\ mem s !! t' = None /\ mem s' !! t' = Some (CTag c)
                   /\ (is_Some (mem s !! t) -> mem s !! t = Some (CTag c))
  end.

(** The tag map [T'] of [s'] holds a clone of every entry of [T], under
    the same keys, and nothing else. *)
Definition copy_of (s s' : state) (T T' : gmap string ptr) : Prop :=
  forall k, match T !! k with
            | Some p => exists p', T' !! k = Some p' /\ clone_of s s' p p'
            | None => T' !! k = None
            end.

(** Nothing that exists in [s], but for [a], differs in [s']. *)
Definition same_but (a : loc) (s s' : state) : Prop :=
  (forall x c, mem s !! x = Some c -> x <> a -> mem s' !! x = Some c)
  /\ dom (mem s) ⊆ dom (mem s')
  /\ messages s' = messages s.

(** Nothing that exists in [s] differs in [s']. *)
Definition extends (s s' : state) : Prop :=
  mem s ⊆ mem s' /\ messages s' = messages s.

(** Every pointer held by a metadata map or by a tag map is the
    address of an object that was allocated (and possibly released). *)
Definition ptr_closed (D : gset loc) (p : ptr) : Prop :=
  match p with Some a => a ∈ D | None => True end.

#[global] Instance ptr_closed_dec (D : gset loc) (p : ptr) : Decision (ptr_closed D p).
Proof. destruct p; cbn; apply _. Defined.

Definition cell_closed (D : gset loc) (c : cell) : Prop :=
  match c with
  | CMetadata m => map_Forall (fun _ p => ptr_closed D p) m
  | CTagMap t => map_Forall (fun _ p => ptr_closed D p) t
  | _ => True
  end.

#[global] Instance cell_closed_dec (D : gset loc) (c : cell) : Decision (cell_closed D c).
Proof. destruct c; cbn; apply _. Defined.

Definition closed (s : state) : Prop :=
  map_Forall (fun _ c => cell_closed (dom (mem s)) c) (mem s).

(** Between [s0] and [s] no object of [s0] other than [dmp] changed
    otherwise than by being released. *)
Definition old_decay (dmp : loc) (s0 s : state) : Prop :=
  (forall a c, mem s0 !! a = Some c -> a <> dmp ->
               mem s !! a = Some c \/ mem s !! a = Some Freed)
  /\ dom (mem s0) ⊆ dom (mem s)
  /\ messages s = messages s0.

(** The objects created since [s0], and the released ones, are in [s']
    as they are in [s]. *)
Definition new_kept (s0 s s' : state) : Prop :=
  (forall a c, mem s0 !! a = None -> mem s !! a = Some c -> mem s' !! a = Some c)
  /\ (forall a, mem s !! a = Some Freed -> mem s' !! a = Some Freed).

(** The tag map [tm] and its tags, as they were in [s0], are released
    in [s]. *)
Definition model_released (s0 s : state) (tm : loc) : Prop :=
  mem s !! tm = Some Freed
  /\ forall T k t, mem s0 !! tm = Some (CTagMap T) -> T !! k = Some (Some t) ->
                   mem s !! t = Some Freed.

(** The entry [entry] of the destination map in [s] is a new tag map
    with a clone of every tag that the tag map [tm_s] had in [s0], and
    the model that the destination had under [m] in [s0] is released. *)
Definition model_copied (s0 s : state) (DMD0 : gmap Z ptr) (m : Z) (tm_s : loc)
    (entry : option ptr) : Prop :=
  exists tm_d T_s T_d,
    entry = Some (Some tm_d)
    /\ mem s0 !! tm_d = None
    /\ mem s0 !! tm_s = Some (CTagMap T_s)
    /\ mem s !! tm_d = Some (CTagMap T_d)
    /\ copy_of s0 s T_s T_d
    /\ (forall tm_old, DMD0 !! m = Some (Some tm_old) -> model_released s0 s tm_old).

(** The block of the destination after the two resolution writes. *)
Definition with_resolution (x y : Z) (b : BLOCK) : BLOCK :=
  set_bih (set_resolution_y (s32 y) (set_resolution_x (s32 x) (bih b))) b.

#[global] Instance closed_dec (s : state) : Decision (closed s).
Proof. unfold closed. apply _. Defined.

(** The block and the metadata map at an address, for the examples. *)
Definition block_at (s : state) (a : loc) : BLOCK :=
  match mem s !! a with
  | Some (CBlock b) => b
  | _ => set_pixels [] (allocated_block LP64 true None 0 FIT_UNKNOWN 0 0 0 false 0 0 0 1%positive 0)
  end.

Definition metadata_at (s : state) (a : loc) : gmap Z ptr :=
  match mem s !! a with
  | Some (CMetadata m) => m
  | _ => ∅
  end.

(** A text tag of two characters. *)
Definition text_tag : FITAG :=
  {| tag_key := None; tag_description := None; tag_id := 0; tag_type := 2;
     tag_count := 2; tag_length := 2; tag_value := [104; 0] |}.

(** Two bitmaps: the first (handle 1) with a comment and an animation
    tag, the second (handle 4) with another comment. *)
Definition two_bitmaps : option (unit * state) :=
  (src ← FreeImage_Allocate example_environment 1 1 24 0 0 0;
   dst ← FreeImage_Allocate example_environment 1 1 24 0 0 0;
   t ← alloc (CTag text_tag);
   FreeImage_SetMetadata example_environment FIMD_COMMENTS src (Some "a") (Some t);;
   FreeImage_SetMetadata example_environment FIMD_ANIMATION src (Some "x") (Some t);;
   FreeImage_SetMetadata example_environment FIMD_COMMENTS dst (Some "old") (Some t);;
   mret tt) empty_state.

(** The metadata of the first cloned into the second. *)
Definition clone_metadata_example : option (bool * state) :=
  FreeImage_CloneMetadata example_environment (Some 4%positive) (Some 1%positive)
    (final_state two_bitmaps).

(** ** Vocabulary of the clone *)

(** [need_masks] as [FreeImage_Clone] computes it from its source. *)
Definition need_masks_of (b : BLOCK) : bool :=
  (biBitCount (bih b) =? 16)
  && match type (fih b) with FIT_BITMAP => true | _ => false end.

(** The number of bytes of the source block that [FreeImage_Clone]
    copies. *)
Definition copy_size (P : platform) (b : BLOCK) : Z :=
  FreeImage_GetInternalImageSize P
    (negb (has_pixels (fih b)) || negb (is_null (external_bits (fih b))))
    (u32 (biWidth (bih b))) (u32 (biHeight (bih b))) (biBitCount (bih b))
    (need_masks_of b).

(** [FreeImage_AllocateHeaderT] does not refuse the type and the
    dimensions that [FreeImage_Clone] reads from [b]. *)
Definition allocator_accepts (P : platform) (b : BLOCK) : Prop :=
  match check_bit_depth (type (fih b)) (biBitCount (bih b)) with
  | Some (bpp, need_masks) =>
      0 < abs_int (u32 (biWidth (bih b)))
      /\ 0 < abs_int (u32 (biHeight (bih b)))
      /\ FreeImage_GetInternalImageSize P (negb (has_pixels (fih b)))
           (abs_int (u32 (biWidth (bih b)))) (abs_int (u32 (biHeight (bih b))))
           bpp need_masks <> 0
  | None => False
  end.

(** The block [b'] has the image of [b]: element type, pixel
    availability, background and transparency, the whole info block,
    the palette and the masks. *)
Definition same_image (b b' : BLOCK) : Prop :=
  type (fih b') = type (fih b)
  /\ has_pixels (fih b') = has_pixels (fih b)
  /\ bkgnd_color (fih b') = bkgnd_color (fih b)
  /\ transparent_table (fih b') = transparent_table (fih b)
  /\ transparency_count (fih b') = transparency_count (fih b)
  /\ transparent (fih b') = transparent (fih b)
  /\ bih b' = bih b
  /\ palette b' = palette b
  /\ masks b' = masks b.

(** What the accessors answer about a bitmap. *)
Record description : Type := {
  d_type : FREE_IMAGE_TYPE;
  d_width : Z;
  d_height : Z;
  d_bpp : Z;
  d_red_mask : Z;
  d_green_mask : Z;
  d_blue_mask : Z
}.

Definition describes (s : state) (dib : ptr) (d : description) : Prop :=
  FreeImage_GetImageType dib s = Some (d_type d, s)
  /\ FreeImage_GetWidth dib s = Some (d_width d, s)
  /\ FreeImage_GetHeight dib s = Some (d_height d, s)
  /\ FreeImage_GetBPP dib s = Some (d_bpp d, s)
  /\ FreeImage_GetRedMask dib s = Some (d_red_mask d, s)
  /\ FreeImage_GetGreenMask dib s = Some (d_green_mask d, s)
  /\ FreeImage_GetBlueMask dib s = Some (d_blue_mask d, s).

(** The pixel bytes that the bulk copy brings: the pixel region of [b']
    starts where that of [b] does and agrees with it up to the copied
    size. *)
Definition owned_pixels_copied (P : platform) (b b' : BLOCK) : Prop :=
  pixels_at b' = pixels_at b
  /\ slice 0 (copy_size P b - pixels_at b) (pixels b')
     = slice 0 (copy_size P b - pixels_at b) (pixels b).

(** Every scanline of the caller's buffer [eb] that the source [b]
    wraps in [s] is, in [s'], the content of the same scanline of the
    bitmap [dst], inside the block [dd]. *)
Definition external_lines_copied (P : platform) (s s' : state) (b : BLOCK)
    (eb : loc * Z) (dst dd : loc) : Prop :=
  forall y row,
    0 <= y < u32 (biHeight (bih b)) ->
    read_bytes (Some (eb.1, eb.2 + y * pitch_of b)) (line_of b) s = Some (row, s) ->
    exists o,
      FreeImage_GetScanLine P (Some dst) y s' = Some (Some (dd, o), s')
      /\ read_bytes (Some (dd, o)) (line_of b) s' = Some (row, s').

(** The profile [p'] of [s'] is a copy of the profile [p] of [s]: the
    same flags and size, and the bytes in a buffer that did not exist in
    [s]. *)
Definition icc_copied (s s' : state) (p p' : FIICCPROFILE) : Prop :=
  icc_flags p' = icc_flags p
  /\ (0 <= icc_size p -> icc_size p' = u32 (icc_size p))
  /\ (icc_size p = 0 -> icc_data p' = None)
  /\ (0 < icc_size p ->
      exists q', icc_data p' = Some q' /\ mem s !! q' = None
        /\ forall q l, icc_data p = Some q ->
             read_bytes (Some (q, 0)) (icc_size p) s = Some (l, s) ->
             mem s' !! q' = Some (CBytes l)).

(** The metadata map [DMD] of [s'] is a deep copy of the map [SMD] of
    [s]: a new tag map with a clone of every tag for each model that has
    a tag map, and no entry for the others. *)
Definition metadata_copied (s s' : state) (SMD DMD : gmap Z ptr) : Prop :=
  forall m, match SMD !! m with
            | Some (Some tm) => model_copied s s' ∅ m tm (DMD !! m)
            | _ => DMD !! m = None
            end.

(** The thumbnail [th'] of the clone, given the thumbnail [th] of the
    source: none for none and for a thumbnail without pixels; otherwise,
    when the allocator accepts the thumbnail's dimensions, a bitmap that
    did not exist in [s], with the same image when the copied size is
    not zero. *)
Definition thumbnail_copied (P : platform) (s s' : state) (th th' : ptr) : Prop :=
  match th with
  | None => th' = None
  | Some t =>
      forall td tb, bitmap_at s t td tb ->
        if has_pixels (fih tb) then
          (allocator_accepts P tb -> th' <> None)
          /\ forall t', th' = Some t' ->
               exists td' tb', bitmap_at s' t' td' tb'
                 /\ mem s !! t' = None /\ mem s !! td' = None
                 /\ (copy_size P tb <> 0 -> same_image tb tb')
        else th' = None
  end.

(** No object of [s] other than the caller's tag is changed by a
    [FreeImage_SetMetadata] on the bitmap [dst] of [s']. *)
Definition metadata_independent (E : environment) (s s' : state) (dst : loc) : Prop :=
  forall model key tag r s'',
    FreeImage_SetMetadata E model (Some dst) key tag s' = Some (r, s'') ->
    forall x c, mem s !! x = Some c -> tag <> Some x -> mem s'' !! x = Some c.

(** [FreeImage_GetBits] on the fields of a block that owns its pixels:
    the offset of the first pixel byte. *)
Definition bits_offset (P : platform) (b : BLOCK) : Z :=
  let lp := info_offset P + sizeof_FIBITMAPINFOHEADER + sizeof_FIRGBA8 * biClrUsed (bih b) in
  let lp := lp + (if biCompression (bih b) =? BI_BITFIELDS then sizeof_uint32_t * 3 else 0) in
  lp + align_pad lp.

(** What a run of [FreeImage_Clone] on the bitmap [t] that returns [r]
    leaves: nothing that existed is changed, the allocator's refusal is
    the only source of a null result, and a non-null result is a bitmap
    that did not exist, with the same image when the copied size is not
    zero. *)
Definition clone_result (P : platform) (s s' : state) (t : loc) (r : ptr) : Prop :=
  extends s s'
  /\ forall td tb, bitmap_at s t td tb ->
       (allocator_accepts P tb -> r <> None)
       /\ forall t', r = Some t' ->
            exists td' tb', bitmap_at s' t' td' tb'
              /\ mem s !! t' = None /\ mem s !! td' = None
              /\ (copy_size P tb <> 0 -> same_image tb tb').

(** What [FreeImage_Clone] leaves when it returns [dst] for a source
    whose block is [sb]: a bitmap whose wrapper, block and metadata map
    did not exist in [s], that owns its pixels, with a copy of the
    thumbnail and of the ICC profile; when the copied size is not zero
    it has the image and the pixels of the source; and when the source
    has a metadata map in a heap without pointers to unallocated
    memory, its metadata map is a deep copy of it. *)
Definition cloned (P : platform) (s s' : state) (sb : BLOCK) (dst : loc) : Prop :=
  exists dd db md DMD,
    bitmap_at s' dst dd db
    /\ mem s !! dst = None /\ mem s !! dd = None
    /\ external_bits (fih db) = None /\ external_pitch (fih db) = 0
    /\ metadata (fih db) = Some md /\ mem s !! md = None
    /\ mem s' !! md = Some (CMetadata DMD)
    /\ thumbnail_copied P s s' (thumbnail (fih sb)) (thumbnail (fih db))
    /\ icc_copied s s' (iccProfile (fih sb)) (iccProfile (fih db))
    /\ (copy_size P sb <> 0 ->
        same_image sb db
        /\ match external_bits (fih sb) with
           | None => owned_pixels_copied P sb db
           | Some eb => external_lines_copied P s s' sb eb dst dd
           end)
    /\ (forall smp SMD, metadata (fih sb) = Some smp ->
          mem s !! smp = Some (CMetadata SMD) -> closed s ->
          metadata_copied s s' SMD DMD).

(** A 2 x 2 bitmap of 24 bits (handle 1) with six bytes written to its
    first scanline, a thumbnail, a comment tag and an ICC profile of
    three bytes. *)
Definition furnished_bitmap : option (ptr * state) :=
  (dib ← FreeImage_Allocate example_environment 2 2 24 0 0 0;
   line ← FreeImage_GetScanLine LP64 dib 0;
   write_bytes line [10; 20; 30; 40; 50; 60];;
   small ← FreeImage_Allocate example_environment 1 1 24 0 0 0;
   FreeImage_SetThumbnail example_environment 2 dib small;;
   t ← alloc (CTag text_tag);
   FreeImage_SetMetadata example_environment FIMD_COMMENTS dib (Some "a") (Some t);;
   icc ← alloc (CBytes [1; 2; 3]);
   FreeImage_CreateICCProfile example_environment dib (Some icc) 3;;
   mret dib) empty_state.

(** Its clone. *)
Definition clone_example : option (ptr * state) :=
  FreeImage_Clone example_environment 2 (Some 1%positive) (final_state furnished_bitmap).

(** The clone of the bitmap that wraps the caller's buffer of ten
    bytes, two scanlines of three bytes five bytes apart. *)
Definition clone_of_wrapper_example : option (ptr * state) :=
  FreeImage_Clone example_environment 1 (Some 2%positive) (final_state allocate_for_bits).


(** * More of the bitmap store *)

(** ** Ownership *)

(** The tags that the tag map at [tm] holds. *)
Definition tags_of (s : state) (tm : loc) : list loc :=
  match mem s !! tm with
  | Some (CTagMap T) => omap id (map_to_list T).*2
  | _ => []
  end.

Definition is_tag (s : state) (t : loc) : Prop :=
  match mem s !! t with Some (CTag _) => True | _ => False end.

#[global] Instance is_tag_dec (s : state) (t : loc) : Decision (is_tag s t).
Proof. unfold is_tag. destruct (mem s !! t) as [[]|]; apply _. Defined.

(** The entry [p] of a metadata map is null or a live tag map whose
    tags are live and held once. *)
Definition model_owned (s : state) (p : ptr) : Prop :=
  match p with
  | Some tm =>
      match mem s !! tm with
      | Some (CTagMap _) => Forall (is_tag s) (tags_of s tm) /\ NoDup (tags_of s tm)
      | _ => False
      end
  | None => True
  end.

#[global] Instance model_owned_dec (s : state) (p : ptr) : Decision (model_owned s p).
Proof. unfold model_owned. destruct p as [tm|]; [|apply _]. destruct (mem s !! tm) as [[]|]; apply _. Defined.

(** The tag map of an entry and its tags. *)
Definition model_objects (s : state) (p : ptr) : list loc :=
  match p with Some tm => tm :: tags_of s tm | None => [] end.

(** Every model of [MD] is owned. *)
Definition owned (s : state) (MD : gmap Z ptr) : Prop :=
  map_Forall (fun _ p => model_owned s p) MD.

(** No object of a model of [MD] is an object of a model of [MD'];
    with [apart], of another model of [MD']. *)
Definition separate (s : state) (apart : bool) (MD MD' : gmap Z ptr) : Prop :=
  map_Forall (fun m p =>
    map_Forall (fun m' p' =>
      (apart = true /\ m = m')
      \/ Forall (fun x => x ∉ model_objects s p') (model_objects s p)) MD') MD.

(** The ownership that [FreeImage_CloneMetadata] relies on: the models
    of source and destination are owned, and the objects of a model of
    the destination belong neither to the source nor to another model of
    the destination. *)
Definition clone_metadata_ready (s : state) (DMD SMD : gmap Z ptr) : Prop :=
  owned s SMD /\ owned s DMD /\ separate s false DMD SMD /\ separate s true DMD DMD.

#[global] Instance clone_metadata_ready_dec (s : state) (DMD SMD : gmap Z ptr) :
  Decision (clone_metadata_ready s DMD SMD).
Proof. unfold clone_metadata_ready, owned, separate. apply _. Defined.

(** The cells of a bitmap: its wrapper and its backing block. *)
Definition is_bitmap_cell (c : cell) : Prop :=
  match c with CWrapper _ | CBlock _ => True | _ => False end.

(** ** Metadata store: count *)

(** [FreeImage_GetMetadataCount(model, dib)]. *)
Definition FreeImage_GetMetadataCount (model : Z) (dib : ptr) : M Z :=
  match dib with
  | None => mret 0
  | Some a =>
      '(_, b) ← block_of a;
      (* get the metadata model *)
      mdp ← deref (metadata (fih b));
      md ← load_metadata mdp;
      match md !! model with
      | Some (Some tm) =>
          t ← load_tagmap tm;
          (* get the tag count *)
          mret (u32 (Z.of_nat (size t)))
      | _ => mret 0   (* this model doesn't exist *)
      end
  end.

(** ** Vocabulary of the metadata store *)

(** The tag that [FreeImage_SetMetadata] stores a clone of: the
    caller's tag with the key assigned when it was missing or another,
    and with the looked-up identifier for the IPTC model. *)
Definition stored_tag (E : environment) (model : Z) (key : string) (t : FITAG) : FITAG :=
  let t1 := if decide (tag_key t = Some key) then t else set_tag_key (Some key) t in
  if model =? FIMD_IPTC then set_tag_id (u16 (TagLib_getTagID_IPTC E key)) t1 else t1.

(** The tag map that the model has, empty when the model has none. *)
Definition tags_in (s : state) (p : ptr) : gmap string ptr :=
  match p with
  | Some tm => match mem s !! tm with Some (CTagMap T) => T | _ => ∅ end
  | None => ∅
  end.

(** What a [FreeImage_SetMetadata] with a key relies on: the entry [p]
    of the model is null or a live tag map, and the tag it holds under
    [key], if any, is a live tag other than the caller's. *)
Definition slot_ready (s : state) (p : ptr) (key : string) (tag : ptr) : Prop :=
  match p with
  | Some tm =>
      match mem s !! tm with
      | Some (CTagMap T) =>
          match T !! key with
          | Some (Some old) => tag <> Some old /\ is_tag s old
          | _ => True
          end
      | _ => False
      end
  | None => True
  end.

#[global] Instance slot_ready_dec (s : state) (p : ptr) (key : string) (tag : ptr) :
  Decision (slot_ready s p key tag).
Proof.
  unfold slot_ready. destruct p as [tm|]; [|apply _].
  destruct (mem s !! tm) as [[| | | |T| |]|]; try apply _.
  destruct (T !! key) as [[old|]|]; apply _.
Defined.

(** The tag is well counted: its element count times the width of its
    element type is its byte length, in [unsigned] arithmetic. *)
Definition well_counted (E : environment) (t : FITAG) : Prop :=
  u32 (tag_count t * FreeImage_TagDataWidth E (tag_type t)) = tag_length t.

(** A new bitmap of one pixel and, beside it, the text tag. *)
Definition bitmap_and_tag : option (ptr * ptr * state) :=
  match (dib ← FreeImage_Allocate example_environment 1 1 8 0 0 0;
         tag ← alloc (CTag text_tag);
         mret (dib, Some tag)) empty_state with
  | Some (dib, tag, s) => Some (dib, tag, s)
  | None => None
  end.

(** The state after the tag is stored under the key "a" of the
    comments. *)
Definition stored_comment : option (bool * state) :=
  FreeImage_SetMetadata example_environment FIMD_COMMENTS (Some 1%positive) (Some "a")
    (Some 4%positive) (final_state (A := ptr * ptr) bitmap_and_tag).

(** The tag stored at an address; the text tag where there is none. *)
Definition tag_at (s : state) (a : loc) : FITAG :=
  match mem s !! a with
  | Some (CTag t) => t
  | _ => text_tag
  end.

(** ** Teardown *)

(** One turn of the model loop of [FreeImage_Unload]. *)
Definition unload_model (i : Z * ptr) : M unit :=
  match i.2 with
  | Some tm =>
      t ← load_tagmap tm;
      forM (map_to_list t) (fun j => FreeImage_DeleteTag j.2);;
      release tm
  | None => mret tt
  end.

#[global] Instance owned_dec (s : state) (MD : gmap Z ptr) : Decision (owned s MD).
Proof. unfold owned. apply _. Defined.

#[global] Instance separate_dec (s : state) (apart : bool) (MD MD' : gmap Z ptr) :
  Decision (separate s apart MD MD').
Proof. unfold separate. apply _. Defined.

(** ** Background colour *)

Definition set_bkgnd_color (c : FIRGBA8) (f : FREEIMAGEHEADER) : FREEIMAGEHEADER :=
  {| type := type f; bkgnd_color := c;
     transparent_table := transparent_table f;
     transparency_count := transparency_count f; transparent := transparent f;
     iccProfile := iccProfile f; metadata := metadata f; has_pixels := has_pixels f;
     thumbnail := thumbnail f; external_bits := external_bits f;
     external_pitch := external_pitch f |}.

Definition FreeImage_HasBackgroundColor (dib : ptr) : M bool :=
  match dib with
  | Some a => '(_, b) ← block_of a; mret (negb (alpha (bkgnd_color (fih b)) =? 0))
  | None => mret false
  end.

(** The [for] loop of [FreeImage_GetBackgroundColor]: the first index
    of [indices] whose palette entry has the red, green and blue of [c]. *)
Fixpoint background_index (b : BLOCK) (c : FIRGBA8) (indices : list Z) : M (option Z) :=
  match indices with
  | [] => mret None
  | i :: indices =>
      p ← palette_entry b i;
      if is_rgb (red c) (green c) (blue c) p then mret (Some i)
      else background_index b c indices
  end.

(** [FreeImage_GetBackgroundColor(dib, bkcolor)]; [bkcolor] tells
    whether the out pointer is not null. The result, and what was
    written to [*bkcolor] when something was. *)
Definition FreeImage_GetBackgroundColor (dib : ptr) (bkcolor : bool)
    : M (bool * option FIRGBA8) :=
  match dib with
  | Some a =>
      if bkcolor then
        has ← FreeImage_HasBackgroundColor dib;
        if has : bool then
          (* get the background color *)
          '(_, b) ← block_of a;
          let c := bkgnd_color (fih b) in
          (* get the background index *)
          bpp ← FreeImage_GetBPP dib;
          index ← (if bpp =? 8 then
                     colors ← FreeImage_GetColorsUsed dib;
                     background_index b c (seqZ 0 colors)
                   else mret None);
          mret (true, Some {| red := red c; green := green c; blue := blue c;
                              alpha := from_option u8 0 index |})
        else mret (false, None)
      else mret (false, None)
  | None => mret (false, None)
  end.

(** [FreeImage_SetBackgroundColor(dib, bkcolor)]; [bkcolor] is what the
    pointer shows, if it is not null. *)
Definition FreeImage_SetBackgroundColor (dib : ptr) (bkcolor : option FIRGBA8) : M bool :=
  match dib with
  | Some a =>
      match bkcolor with
      | Some c =>
          (* set the background color, enable the file background color *)
          modify_header a (set_bkgnd_color
            {| red := red c; green := green c; blue := blue c; alpha := 1 |})
      | None =>
          (* clear and disable the file background color *)
          modify_header a (set_bkgnd_color zero_rgba)
      end;;
      mret true
  | None => mret false
  end.

(** ** Transparency *)

Definition set_transparent (t : bool) (f : FREEIMAGEHEADER) : FREEIMAGEHEADER :=
  {| type := type f; bkgnd_color := bkgnd_color f;
     transparent_table := transparent_table f;
     transparency_count := transparency_count f; transparent := t;
     iccProfile := iccProfile f; metadata := metadata f; has_pixels := has_pixels f;
     thumbnail := thumbnail f; external_bits := external_bits f;
     external_pitch := external_pitch f |}.

Definition set_transparency (table : list Z) (count : Z) (t : bool)
    (f : FREEIMAGEHEADER) : FREEIMAGEHEADER :=
  {| type := type f; bkgnd_color := bkgnd_color f;
     transparent_table := table;
     transparency_count := count; transparent := t;
     iccProfile := iccProfile f; metadata := metadata f; has_pixels := has_pixels f;
     thumbnail := thumbnail f; external_bits := external_bits f;
     external_pitch := external_pitch f |}.

Definition FreeImage_IsTransparent (P : platform) (dib : ptr) : M bool :=
  match dib with
  | Some a =>
      image_type ← FreeImage_GetImageType dib;
      match image_type with
      | FIT_BITMAP =>
          bpp ← FreeImage_GetBPP dib;
          if bpp =? 32 then
            ct ← FreeImage_GetColorType P dib;
            mret (match ct with FIC_RGBALPHA => true | _ => false end)
          else
            '(_, b) ← block_of a; mret (transparent (fih b))
      | FIT_RGBA16 | FIT_RGBAF =>
          icc ← FreeImage_GetICCProfile dib;
          mret (negb (has_flag (from_option icc_flags 0 icc) FIICC_COLOR_IS_CMYK))
      | _ => mret false
      end
  | None => mret false
  end.

(** [FreeImage_GetTransparencyTable]: the table of the header, as its
    256 bytes. *)
Definition FreeImage_GetTransparencyTable (dib : ptr) : M (option (list Z)) :=
  match dib with
  | Some a => '(_, b) ← block_of a; mret (Some (transparent_table (fih b)))
  | None => mret None
  end.

Definition FreeImage_SetTransparent (dib : ptr) (enabled : bool) : M unit :=
  match dib with
  | Some a =>
      bpp ← FreeImage_GetBPP dib;
      if (bpp <=? 8) || (bpp =? 32) then modify_header a (set_transparent enabled)
      else modify_header a (set_transparent false)
  | None => mret tt
  end.

Definition FreeImage_GetTransparencyCount (dib : ptr) : M Z :=
  match dib with
  | Some a => '(_, b) ← block_of a; mret (u32 (transparency_count (fih b)))
  | None => mret 0
  end.

Definition FreeImage_SetTransparencyTable (dib : ptr) (table : byte_ptr) (count : Z)
    : M unit :=
  match dib with
  | Some a =>
      let count := Z.max 0 (Z.min count 256) in
      bpp ← FreeImage_GetBPP dib;
      if bpp <=? 8 then
        new ← match table with
              | Some _ => read_bytes table count
              | None => mret (replicate (Z.to_nat count) 0xff)
              end;
        modify_header a (fun f =>
          set_transparency (splice 0 new (transparent_table f)) count (0 <? count) f)
      else mret tt
  | None => mret tt
  end.

(** [FreeImage_SetTransparentIndex]; a [malloc] of a negative [count]
    is refused, and the [memset] that follows has no defined
    behaviour. *)
Definition FreeImage_SetTransparentIndex (dib : ptr) (index : Z) : M unit :=
  match dib with
  | Some _ =>
      colors ← FreeImage_GetColorsUsed dib;
      let count := s32 colors in
      if count =? 0 then mret tt
      else if count <? 0 then undefined
      else
        let filled := replicate (Z.to_nat count) 0xFF in
        new_tt ← alloc (CBytes (if (0 <=? index) && (index <? count)
                                then <[Z.to_nat index := 0x00]> filled else filled));
        FreeImage_SetTransparencyTable dib (Some (new_tt, 0)) count;;
        release new_tt
  | None => mret tt
  end.

(** The loop of [FreeImage_GetTransparentIndex] over the indices. *)
Fixpoint first_transparent (tt : option (list Z)) (indices : list Z) : M Z :=
  match indices with
  | [] => mret (-1)
  | i :: indices =>
      v ← match tt with
          | Some t => match t !! Z.to_nat i with Some v => mret v | None => undefined end
          | None => undefined
          end;
      if v =? 0 then mret i else first_transparent tt indices
  end.

Definition FreeImage_GetTransparentIndex (dib : ptr) : M Z :=
  count ← FreeImage_GetTransparencyCount dib;
  tt ← FreeImage_GetTransparencyTable dib;
  first_transparent tt (seqZ 0 (s32 count)).

(** A new 8-bit bitmap of one pixel and, beside it, a buffer of three
    bytes. *)
Definition bitmap_and_table : option (ptr * loc * state) :=
  match (dib ← FreeImage_Allocate example_environment 1 1 8 0 0 0;
         table ← alloc (CBytes [0; 255; 7]);
         mret (dib, table)) empty_state with
  | Some (dib, table, s) => Some (dib, table, s)
  | None => None
  end.

(** ** Vocabulary of the alpha scan *)

(** The alpha byte of pixel [x] of scanline [y] of a 32-bit block that
    owns its pixels: the last of the four bytes of the pixel. *)
Definition alpha_byte (P : platform) (b : BLOCK) (y x : Z) : Z :=
  default 0
    (pixels b !! Z.to_nat (bits_offset P b + pitch_of b * y + 4 * x + 3 - pixels_at b)).

(** Some pixel of the image is not fully opaque. *)
Definition some_alpha (P : platform) (b : BLOCK) : bool :=
  existsb (fun y =>
    existsb (fun x => negb (alpha_byte P b y x =? 0xFF)) (seqZ 0 (u32 (biWidth (bih b)))))
    (seqZ 0 (u32 (biHeight (bih b)))).

(** A 32-bit bitmap of one pixel, whose bytes are then written. *)
Definition written_pixel (bytes : list Z) : option (unit * state) :=
  (dib ← FreeImage_Allocate example_environment 1 1 32 0 0 0;
   line ← FreeImage_GetScanLine LP64 dib 0;
   write_bytes line bytes) empty_state.

(** * Properties *)

(** ** Running heap programs *)

Lemma bind_inv {A B : Type} (m : M A) (f : A -> M B) (s : state) (r : B * state) :
  (m ≫= f) s = Some r -> exists a s1, m s = Some (a, s1) /\ f a s1 = Some r.
Proof.
  unfold mbind, M_bind. destruct (m s) as [[a s1]|]; [eauto | discriminate].
Qed.

Lemma bind_run {A B : Type} (m : M A) (f : A -> M B) (s s1 : state) (a : A) :
  m s = Some (a, s1) -> (m ≫= f) s = f a s1.
Proof. unfold mbind, M_bind. intros ->. reflexivity. Qed.

Lemma mret_inv {A : Type} (x : A) (s : state) (r : A * state) :
  (mret x : M A) s = Some r -> r = (x, s).
Proof. unfold mret, M_ret. congruence. Qed.

Lemma undefined_inv {A : Type} (s : state) (r : A * state) :
  (undefined : M A) s = Some r -> False.
Proof. discriminate. Qed.

Lemma load_inv (a : loc) (s : state) (c : cell) (s' : state) :
  load a s = Some (c, s') -> s' = s /\ mem s !! a = Some c /\ c <> Freed.
Proof.
  unfold load. destruct (mem s !! a) as [[]|] eqn:E; intros H;
    try discriminate; inversion H; subst; repeat split; congruence.
Qed.

Lemma load_run (a : loc) (s : state) (c : cell) :
  mem s !! a = Some c -> c <> Freed -> load a s = Some (c, s).
Proof. unfold load. intros -> H. destruct c; congruence. Qed.

(** One step of the inversion of a run that gave a result. *)
Ltac inv_M_step :=
  match goal with
  | H : (_ ≫= _) _ = Some _ |- _ =>
      let a := fresh "a" in let s := fresh "s" in let H1 := fresh "H" in
      apply bind_inv in H as (a & s & H1 & H)
  | H : mret _ _ = Some _ |- _ => apply mret_inv in H; simplify_eq
  | H : undefined _ = Some _ |- _ => discriminate H
  | H : load _ _ = Some (_, _) |- _ =>
      let Hl := fresh "Hl" in let Hf := fresh "Hf" in
      apply load_inv in H as (-> & Hl & Hf)
  | H : (match ?x with _ => _ end) _ = Some _ |- _ =>
      let E := fresh "E" in destruct x eqn:E; try discriminate H
  | H : (if ?x then _ else _) _ = Some _ |- _ =>
      let E := fresh "E" in destruct x eqn:E; try discriminate H
  end.

Ltac inv_M := repeat inv_M_step.

Lemma block_of_inv (a : loc) (s s' : state) (d : loc) (b : BLOCK) :
  block_of a s = Some ((d, b), s') -> s' = s /\ bitmap_at s a d b.
Proof.
  unfold block_of, load_wrapper, load_block, deref. intros H.
  inv_M. split; [reflexivity | split; assumption].
Qed.

Lemma block_of_run (a : loc) (s : state) (d : loc) (b : BLOCK) :
  bitmap_at s a d b -> block_of a s = Some ((d, b), s).
Proof.
  intros [Ha Hd].
  unfold block_of, load_wrapper, load_block, deref, load, mbind, M_bind, mret, M_ret.
  rewrite Ha. cbn. rewrite Hd. reflexivity.
Qed.

(** A read of the block of a live bitmap. *)
Lemma read_block_run {A : Type} (f : loc * BLOCK -> M A) (a : loc) (s : state)
    (d : loc) (b : BLOCK) :
  bitmap_at s a d b -> (block_of a ≫= f) s = f (d, b) s.
Proof. intros H. apply bind_run, block_of_run, H. Qed.

Section AccessorRuns.
Context (s : state) (a d : loc) (b : BLOCK) (Hb : bitmap_at s a d b).

Lemma GetImageType_run : FreeImage_GetImageType (Some a) s = Some (type (fih b), s).
Proof. unfold FreeImage_GetImageType. by rewrite (read_block_run _ _ _ _ _ Hb). Qed.

Lemma HasPixels_run : FreeImage_HasPixels (Some a) s = Some (has_pixels (fih b), s).
Proof. unfold FreeImage_HasPixels. by rewrite (read_block_run _ _ _ _ _ Hb). Qed.

Lemma HasRGBMasks_run :
  FreeImage_HasRGBMasks (Some a) s = Some (biCompression (bih b) =? BI_BITFIELDS, s).
Proof. unfold FreeImage_HasRGBMasks. by rewrite (read_block_run _ _ _ _ _ Hb). Qed.

Lemma GetWidth_run : FreeImage_GetWidth (Some a) s = Some (u32 (biWidth (bih b)), s).
Proof. unfold FreeImage_GetWidth. by rewrite (read_block_run _ _ _ _ _ Hb). Qed.

Lemma GetHeight_run : FreeImage_GetHeight (Some a) s = Some (u32 (biHeight (bih b)), s).
Proof. unfold FreeImage_GetHeight. by rewrite (read_block_run _ _ _ _ _ Hb). Qed.

Lemma GetBPP_run : FreeImage_GetBPP (Some a) s = Some (biBitCount (bih b), s).
Proof. unfold FreeImage_GetBPP. by rewrite (read_block_run _ _ _ _ _ Hb). Qed.

Lemma GetColorsUsed_run : FreeImage_GetColorsUsed (Some a) s = Some (biClrUsed (bih b), s).
Proof. unfold FreeImage_GetColorsUsed. by rewrite (read_block_run _ _ _ _ _ Hb). Qed.

Lemma GetDotsPerMeterX_run :
  FreeImage_GetDotsPerMeterX (Some a) s = Some (u32 (biXPelsPerMeter (bih b)), s).
Proof. unfold FreeImage_GetDotsPerMeterX. by rewrite (read_block_run _ _ _ _ _ Hb). Qed.

Lemma GetDotsPerMeterY_run :
  FreeImage_GetDotsPerMeterY (Some a) s = Some (u32 (biYPelsPerMeter (bih b)), s).
Proof. unfold FreeImage_GetDotsPerMeterY. by rewrite (read_block_run _ _ _ _ _ Hb). Qed.

Lemma GetThumbnail_run : FreeImage_GetThumbnail (Some a) s = Some (thumbnail (fih b), s).
Proof. unfold FreeImage_GetThumbnail. by rewrite (read_block_run _ _ _ _ _ Hb). Qed.

Lemma GetICCProfile_run :
  FreeImage_GetICCProfile (Some a) s = Some (Some (iccProfile (fih b)), s).
Proof. unfold FreeImage_GetICCProfile. by rewrite (read_block_run _ _ _ _ _ Hb). Qed.

Lemma GetLine_run : FreeImage_GetLine (Some a) s = Some (line_of b, s).
Proof.
  unfold FreeImage_GetLine.
  rewrite (bind_run _ _ _ _ _ GetWidth_run), (bind_run _ _ _ _ _ GetBPP_run).
  reflexivity.
Qed.

Lemma GetPitch_run : FreeImage_GetPitch (Some a) s = Some (pitch_of b, s).
Proof.
  unfold FreeImage_GetPitch, pitch_of. rewrite (read_block_run _ _ _ _ _ Hb).
  destruct (external_bits (fih b)); [reflexivity|].
  by rewrite (bind_run _ _ _ _ _ GetLine_run).
Qed.
End AccessorRuns.

(** ** Size calculator *)

Section SizeCalculator.

Lemma SFeqb_finite_inv s1 m1 e1 s2 m2 e2 :
  SFeqb (S754_finite s1 m1 e1) (S754_finite s2 m2 e2) = true ->
  s1 = s2 /\ m1 = m2 /\ e1 = e2.
Proof.
  unfold SFeqb, SFcompare.
  change (Pos.compare_cont Eq m1 m2) with (Pos.compare m1 m2).
  destruct s1, s2; try discriminate;
    destruct (Z.compare_spec e1 e2); try discriminate;
    destruct (Pos.compare_spec m1 m2); try discriminate; auto.
Qed.

(** Two doubles that compare equal are the same, or both zero. *)
Lemma SFeqb_inv (a b : double) :
  SFeqb a b = true ->
  a = b \/ exists s1 s2, a = S754_zero s1 /\ b = S754_zero s2.
Proof.
  destruct a as [sa|sa| |sa ma ea], b as [sb|sb| |sb mb eb]; intros H;
    try (left; apply SFeqb_finite_inv in H as (-> & -> & ->); reflexivity);
    try (right; eauto; fail);
    unfold SFeqb, SFcompare in H;
    try destruct sa; try destruct sb; try discriminate; left; reflexivity.
Qed.

(** Two doubles that compare equal compare alike with a third. *)
Lemma SFltb_eq_compat (a b c : double) :
  SFeqb a b = true -> SFltb c a = SFltb c b.
Proof.
  intros H. destruct (SFeqb_inv _ _ H) as [-> | (s1 & s2 & -> & ->)]; [reflexivity|].
  destruct c; reflexivity.
Qed.

Lemma refused_cases (d dt mx : double) (total : Z) :
  dne d dt = true \/ dgt d mx = true \/ dgt dt mx = true ->
  (if dne d dt then 0 else if dgt d mx then 0 else total) = 0.
Proof.
  destruct (dne d dt) eqn:Hne; [reflexivity|].
  intros [H | [H | H]]; [discriminate | rewrite H; reflexivity |].
  apply negb_false_iff in Hne.
  unfold dgt in H |- *.
  rewrite (SFltb_eq_compat d dt mx Hne), H. reflexivity.
Qed.

(** The three reasons for which a full size request is refused. *)
Lemma GetInternalImageSize_refused (P : platform) (width height bpp : Z) (need_masks : bool) :
  dne (dImageSize P width height bpp need_masks)
      (double_of_Z (integer_total P width height bpp need_masks)) = true
  \/ dgt (dImageSize P width height bpp need_masks) (FIBITMAP_MAX_MEMORY P) = true
  \/ dgt (double_of_Z (integer_total P width height bpp need_masks))
         (FIBITMAP_MAX_MEMORY P) = true ->
  FreeImage_GetInternalImageSize P false width height bpp need_masks = 0.
Proof. exact (refused_cases _ _ _ _). Qed.

Lemma forallb_seqZ (f : Z -> bool) (n i : Z) :
  forallb f (seqZ 0 n) = true -> 0 <= i < n -> f i = true.
Proof.
  intros H Hi. rewrite forallb_forall in H. apply H.
  apply list_elem_of_In, elem_of_seqZ. lia.
Qed.

Lemma refused_32_spec (hs : Z) (need_masks : bool) :
  refused_32 hs = true ->
  FreeImage_GetInternalImageSize {| size_bits := 32; sizeof_FREEIMAGEHEADER := hs |}
    false 100000 100000 32 need_masks = 0
  /\ 0 < integer_total {| size_bits := 32; sizeof_FREEIMAGEHEADER := hs |}
            100000 100000 32 need_masks.
Proof.
  unfold refused_32. cbv zeta. intros H.
  rewrite forallb_forall in H.
  assert (Hm : In need_masks [false; true]) by (destruct need_masks; simpl; auto).
  apply H in Hm. apply andb_true_iff in Hm as [H1 H2].
  split; [apply Z.eqb_eq | apply Z.ltb_lt]; assumption.
Qed.

(** Every header record below 4096 bytes, with and without masks. *)
Lemma refused_on_32_bits : forallb refused_32 (seqZ 0 4096) = true.
Proof. vm_compute. reflexivity. Qed.

End SizeCalculator.

(** C3. A full size request whose recomputation in double precision
    disagrees with the integer total, or whose total (in double
    precision, as either side of the comparison) exceeds the largest
    [size_t] minus eight alignments, yields the failure sentinel 0; and a
    request of 100000 x 100000 pixels at 32 bpp yields 0 on every target
    with a 32-bit [size_t] (and a header record below 4096 bytes),
    although the wrapped integer total is positive. *)
Theorem C3_size_overflow_sentinel :
  (forall (P : platform) (width height bpp : Z) (need_masks : bool),
      dne (dImageSize P width height bpp need_masks)
          (double_of_Z (integer_total P width height bpp need_masks)) = true
      \/ dgt (dImageSize P width height bpp need_masks) (FIBITMAP_MAX_MEMORY P) = true
      \/ dgt (double_of_Z (integer_total P width height bpp need_masks))
             (FIBITMAP_MAX_MEMORY P) = true ->
      FreeImage_GetInternalImageSize P false width height bpp need_masks = 0)
  /\ (forall (hs : Z) (need_masks : bool),
         0 <= hs < 4096 ->
         FreeImage_GetInternalImageSize {| size_bits := 32; sizeof_FREEIMAGEHEADER := hs |}
           false 100000 100000 32 need_masks = 0
         /\ 0 < integer_total {| size_bits := 32; sizeof_FREEIMAGEHEADER := hs |}
                   100000 100000 32 need_masks).
Proof.
  split; [exact GetInternalImageSize_refused|].
  intros hs need_masks Hhs. apply refused_32_spec.
  exact (forallb_seqZ refused_32 4096 hs refused_on_32_bits Hhs).
Qed.

(** The request of the specification on the 32-bit target. *)
Lemma C3_size_overflow_sentinel_witness :
  0 <= 304 < 4096
  /\ FreeImage_GetInternalImageSize ILP32 false 100000 100000 32 false = 0.
Proof.
  split; [lia|].
  exact (proj1 (proj2 C3_size_overflow_sentinel 304 false ltac:(lia))).
Defined.

(** ** Null-tolerant accessors *)

(** C8. On a null handle every accessor returns a null pointer, zero or
    false, and leaves the state as it is: width, height, bits per
    pixel, line and pitch, colours used, palette, info block, pixel
    pointer, the two flags and the three masks. *)
Theorem C8_accessors_on_null_handle (P : platform) (s : state) :
  FreeImage_GetWidth None s = Some (0, s)
  /\ FreeImage_GetHeight None s = Some (0, s)
  /\ FreeImage_GetBPP None s = Some (0, s)
  /\ FreeImage_GetLine None s = Some (0, s)
  /\ FreeImage_GetPitch None s = Some (0, s)
  /\ FreeImage_GetColorsUsed None s = Some (0, s)
  /\ FreeImage_GetPalette P None s = Some (None, s)
  /\ FreeImage_GetInfoHeader P None s = Some (None, s)
  /\ FreeImage_GetBits P None s = Some (None, s)
  /\ FreeImage_HasPixels None s = Some (false, s)
  /\ FreeImage_HasRGBMasks None s = Some (false, s)
  /\ FreeImage_GetRedMask None s = Some (0, s)
  /\ FreeImage_GetGreenMask None s = Some (0, s)
  /\ FreeImage_GetBlueMask None s = Some (0, s).
Proof. repeat split; reflexivity. Qed.

(** ** Allocation *)

Lemma alloc_inv (c : cell) (s : state) (a : loc) (s' : state) :
  alloc c s = Some (a, s') ->
  mem s !! a = None /\ mem s' = <[a := c]> (mem s) /\ messages s' = messages s.
Proof.
  unfold alloc. intros H. inversion H; subst; clear H. cbn.
  split; [|split; reflexivity].
  apply not_elem_of_dom, is_fresh.
Qed.

Lemma write_inv (a : loc) (c : cell) (s : state) (u : unit) (s' : state) :
  write a c s = Some (u, s') ->
  mem s' = <[a := c]> (mem s) /\ messages s' = messages s.
Proof. unfold write. intros H. inversion H; subst. split; reflexivity. Qed.

Lemma store_inv (a : loc) (c : cell) (s : state) (u : unit) (s' : state) :
  store a c s = Some (u, s') ->
  (exists c0, mem s !! a = Some c0 /\ c0 <> Freed)
  /\ mem s' = <[a := c]> (mem s) /\ messages s' = messages s.
Proof.
  unfold store. intros H. inv_M.
  apply write_inv in H as [? ?]. eauto.
Qed.

Lemma modify_header_inv (a : loc) (f : FREEIMAGEHEADER -> FREEIMAGEHEADER)
    (s : state) (u : unit) (s' : state) :
  modify_header a f s = Some (u, s') ->
  exists d b, bitmap_at s a d b
    /\ mem s' = <[d := CBlock (set_fih (f (fih b)) b)]> (mem s)
    /\ messages s' = messages s.
Proof.
  unfold modify_header. intros H.
  apply bind_inv in H as ([d b] & s1 & H1 & H).
  apply block_of_inv in H1 as [-> Hb].
  apply store_inv in H as (_ & ? & ?). eauto.
Qed.

Lemma modify_info_inv (a : loc) (f : FIBITMAPINFOHEADER -> FIBITMAPINFOHEADER)
    (s : state) (u : unit) (s' : state) :
  modify_info a f s = Some (u, s') ->
  exists d b, bitmap_at s a d b
    /\ mem s' = <[d := CBlock (set_bih (f (bih b)) b)]> (mem s)
    /\ messages s' = messages s.
Proof.
  unfold modify_info. intros H.
  apply bind_inv in H as ([d b] & s1 & H1 & H).
  apply block_of_inv in H1 as [-> Hb].
  apply store_inv in H as (_ & ? & ?). eauto.
Qed.

(** What a successful allocation leaves: three new objects, and
    nothing else touched. *)
Lemma AllocateBitmap_inv (E : environment) (header_only : bool) (ext_bits : byte_ptr)
    (ext_pitch : Z) (t : FREE_IMAGE_TYPE) (width height bpp r g b : Z)
    (s : state) (a : loc) (s' : state) :
  FreeImage_AllocateBitmap E header_only ext_bits ext_pitch t width height bpp r g b s
    = Some (Some a, s') ->
  exists bpp' need_masks d md,
    let dib_size :=
      FreeImage_GetInternalImageSize (target E) (header_only || negb (is_null ext_bits))
        (abs_int width) (abs_int height) bpp' need_masks in
    check_bit_depth t bpp = Some (bpp', need_masks)
    /\ 0 < abs_int width /\ 0 < abs_int height
    /\ (ext_bits <> None -> ext_pitch <> 0 /\ header_only = false)
    /\ dib_size <> 0
    /\ mem s !! a = None /\ mem s !! d = None /\ mem s !! md = None
    /\ a <> d /\ a <> md /\ d <> md
    /\ mem s' =
         <[d := CBlock (allocated_block (target E) header_only ext_bits ext_pitch t
                          (abs_int width) (abs_int height) bpp' need_masks r g b md dib_size)]>
           (<[md := CMetadata ∅]> (<[a := CWrapper (Some d)]> (mem s)))
    /\ messages s' = messages s.
Proof.
  unfold FreeImage_AllocateBitmap. cbv zeta. intros H.
  destruct (negb _) eqn:Hdim; [inv_M|]. apply negb_false_iff, andb_true_iff in Hdim as [Hw Hh].
  apply Z.ltb_lt in Hw, Hh.
  destruct (negb (is_null ext_bits) && (ext_pitch =? 0)) eqn:Hp; [inv_M|].
  destruct (negb (is_null ext_bits) && header_only) eqn:Hho; [inv_M|].
  destruct (check_bit_depth t bpp) as [[bpp' need_masks]|] eqn:Hcheck; [|inv_M].
  apply bind_inv in H as (bitmap & s1 & H1 & H). apply alloc_inv in H1 as (Ha & Hm1 & Hg1).
  destruct (FreeImage_GetInternalImageSize _ _ _ _ _ _ =? 0) eqn:Hsize.
  { apply bind_inv in H as (? & ? & _ & H). inv_M. }
  apply Z.eqb_neq in Hsize.
  apply bind_inv in H as (data & s2 & H2 & H). apply alloc_inv in H2 as (Hd & Hm2 & Hg2).
  apply bind_inv in H as ([] & s3 & H3 & H). apply store_inv in H3 as (_ & Hm3 & Hg3).
  apply bind_inv in H as (md & s4 & H4 & H). apply alloc_inv in H4 as (Hmd & Hm4 & Hg4).
  apply bind_inv in H as ([] & s5 & H5 & H).
  apply modify_header_inv in H5 as (d' & b' & [Hba Hbd] & Hm5 & Hg5).
  apply mret_inv in H. inversion H; subst a s5; clear H.
  rewrite Hm1 in Hd. apply lookup_insert_None in Hd as [Hd Hne1].
  rewrite Hm3, Hm2, Hm1 in Hmd.
  apply lookup_insert_None in Hmd as [Hmd Hne2].
  apply lookup_insert_None in Hmd as [Hmd Hne3].
  apply lookup_insert_None in Hmd as [Hmd _].
  rewrite Hm4, Hm3 in Hba. rewrite lookup_insert_ne, lookup_insert_eq in Hba by done.
  inversion Hba; subst d'; clear Hba.
  rewrite Hm4, Hm3, Hm2 in Hbd.
  rewrite !lookup_insert_ne, lookup_insert_eq in Hbd by done.
  inversion Hbd; subst b'; clear Hbd.
  exists bpp', need_masks, data, md. cbv zeta.
  split; [reflexivity|]. split; [assumption|]. split; [assumption|].
  split.
  { intros Hext. destruct ext_bits; [|done]. cbn in Hp, Hho.
    split; [by apply Z.eqb_neq | assumption]. }
  split; [assumption|].
  repeat match goal with |- _ /\ _ => split end;
    try assumption; try congruence.
  rewrite Hm5, Hm4, Hm3, Hm2, Hm1. apply map_eq. intros i.
  rewrite !lookup_insert. repeat case_decide; simplify_eq; reflexivity.
Qed.

(** The new bitmap, as the accessors see it. *)
Lemma AllocateBitmap_bitmap_at (s' : state) (h : gmap loc cell) (a d md : loc) (b : BLOCK) :
  a <> d -> a <> md -> d <> md ->
  mem s' = <[d := CBlock b]> (<[md := CMetadata ∅]> (<[a := CWrapper (Some d)]> h)) ->
  bitmap_at s' a d b.
Proof.
  intros ? ? ? Hm. unfold bitmap_at. rewrite Hm.
  split; rewrite !lookup_insert; repeat case_decide; simplify_eq; reflexivity.
Qed.

(** An element type outside the supported ones makes the allocator
    return null. *)
Lemma AllocateBitmap_unsupported (E : environment) (header_only : bool)
    (ext_bits : byte_ptr) (ext_pitch : Z) (t : FREE_IMAGE_TYPE)
    (width height bpp r g b : Z) (s : state) (res : ptr) (s' : state) :
  ~ supported t ->
  FreeImage_AllocateBitmap E header_only ext_bits ext_pitch t width height bpp r g b s
    = Some (res, s') ->
  res = None /\ s' = s.
Proof.
  intros Hns H. destruct res as [a|].
  - apply AllocateBitmap_inv in H as (bpp' & nm & _ & _ & Hc & _). exfalso. apply Hns.
    unfold supported, check_bit_depth in *.
    destruct t; auto; right; cbn in *; try discriminate; eauto.
  - split; [reflexivity|]. revert H. unfold FreeImage_AllocateBitmap. cbv zeta.
    assert (Hc : check_bit_depth t bpp = None).
    { unfold supported, check_bit_depth in *.
      destruct t; cbn; try reflexivity; exfalso; apply Hns; auto; right; cbn; eauto. }
    rewrite Hc. intros H. inv_M; reflexivity.
Qed.

(** ** Heap steps *)

Lemma load_wrapper_inv (a : loc) (s : state) (d : ptr) (s' : state) :
  load_wrapper a s = Some (d, s') -> s' = s /\ mem s !! a = Some (CWrapper d).
Proof. unfold load_wrapper. intros H. inv_M. done. Qed.

Lemma load_block_inv (a : loc) (s : state) (b : BLOCK) (s' : state) :
  load_block a s = Some (b, s') -> s' = s /\ mem s !! a = Some (CBlock b).
Proof. unfold load_block. intros H. inv_M. done. Qed.

Lemma load_metadata_inv (a : loc) (s : state) (m : gmap Z ptr) (s' : state) :
  load_metadata a s = Some (m, s') -> s' = s /\ mem s !! a = Some (CMetadata m).
Proof. unfold load_metadata. intros H. inv_M. done. Qed.

Lemma load_tagmap_inv (a : loc) (s : state) (t : gmap string ptr) (s' : state) :
  load_tagmap a s = Some (t, s') -> s' = s /\ mem s !! a = Some (CTagMap t).
Proof. unfold load_tagmap. intros H. inv_M. done. Qed.

Lemma load_tag_inv (a : loc) (s : state) (t : FITAG) (s' : state) :
  load_tag a s = Some (t, s') -> s' = s /\ mem s !! a = Some (CTag t).
Proof. unfold load_tag. intros H. inv_M. done. Qed.

Lemma load_bytes_inv (a : loc) (s : state) (l : list Z) (s' : state) :
  load_bytes a s = Some (l, s') -> s' = s /\ mem s !! a = Some (CBytes l).
Proof. unfold load_bytes. intros H. inv_M. done. Qed.

Lemma deref_inv (p : ptr) (s : state) (a : loc) (s' : state) :
  deref p s = Some (a, s') -> s' = s /\ p = Some a.
Proof. unfold deref. intros H. inv_M. done. Qed.

Lemma release_inv (a : loc) (s : state) (u : unit) (s' : state) :
  release a s = Some (u, s') ->
  (exists c, mem s !! a = Some c /\ c <> Freed)
  /\ mem s' = <[a := Freed]> (mem s) /\ messages s' = messages s.
Proof. apply store_inv. Qed.

(** The loop rule: an invariant over the elements done so far. *)
Lemma forM_invariant {A : Type} (f : A -> M unit) (I : list A -> state -> Prop)
    (l : list A) (s : state) (u : unit) (s' : state) :
  forM l f s = Some (u, s') ->
  I [] s ->
  (forall pre x post s1 u1 s2,
      l = pre ++ x :: post -> I pre s1 -> f x s1 = Some (u1, s2) -> I (pre ++ [x]) s2) ->
  I l s'.
Proof.
  intros Hrun H0 Hstep.
  assert (Hgen : forall post pre s1, l = pre ++ post -> I pre s1 ->
                   forM post f s1 = Some (u, s') -> I l s').
  { induction post as [|x post IH]; intros pre s1 Hl Hpre Hr.
    - cbn in Hr. apply mret_inv in Hr. inversion Hr; subst.
      rewrite app_nil_r. exact Hpre.
    - cbn [forM] in Hr. apply bind_inv in Hr as (u1 & s2 & Hx & Hr).
      apply (IH (pre ++ [x]) s2).
      + rewrite <- app_assoc. exact Hl.
      + eapply Hstep; eassumption.
      + exact Hr. }
  exact (Hgen l [] s eq_refl H0 Hrun).
Qed.

(** ** Tags *)

Lemma DeleteTag_inv (p : ptr) (s : state) (u : unit) (s' : state) :
  FreeImage_DeleteTag p s = Some (u, s') ->
  match p with
  | None => s' = s
  | Some t => (exists c, mem s !! t = Some (CTag c))
              /\ mem s' = <[t := Freed]> (mem s) /\ messages s' = messages s
  end.
Proof.
  unfold FreeImage_DeleteTag. destruct p as [t|]; intros H.
  - apply bind_inv in H as (c & s1 & H1 & H). apply load_tag_inv in H1 as [-> Hc].
    apply release_inv in H as (_ & ? & ?). eauto.
  - apply mret_inv in H. by inversion H.
Qed.

Lemma CloneTag_inv (p : ptr) (s : state) (q : ptr) (s' : state) :
  FreeImage_CloneTag p s = Some (q, s') ->
  match p with
  | None => q = None /\ s' = s
  | Some t => exists c t', q = Some t' /\ mem s !! t = Some (CTag c)
                /\ mem s !! t' = None
                /\ mem s' = <[t' := CTag c]> (mem s) /\ messages s' = messages s
  end.
Proof.
  unfold FreeImage_CloneTag. destruct p as [t|]; intros H.
  - apply bind_inv in H as (c & s1 & H1 & H). apply load_tag_inv in H1 as [-> Hc].
    apply bind_inv in H as (t' & s2 & H2 & H). apply alloc_inv in H2 as (? & ? & ?).
    apply mret_inv in H. inversion H; subst. eauto 10.
  - apply mret_inv in H. by inversion H.
Qed.

(** The loop that deletes the tags of a tag map: every non-null tag of
    the list was a live tag and is released; nothing else changes. *)
Lemma delete_tags_inv {K : Type} (l : list (K * ptr)) (s : state) (u : unit) (s' : state) :
  forM l (fun e => FreeImage_DeleteTag e.2) s = Some (u, s') ->
  (forall t, Some t ∈ l.*2 -> (exists c, mem s !! t = Some (CTag c))
                              /\ mem s' !! t = Some Freed)
  /\ (forall a, Some a ∉ l.*2 -> mem s' !! a = mem s !! a)
  /\ dom (mem s') = dom (mem s)
  /\ messages s' = messages s.
Proof.
  revert s. induction l as [|[k p] l IH]; intros s H.
  - cbn in H. apply mret_inv in H. inversion H; subst.
    split; [intros t Ht; by apply elem_of_nil in Ht | done].
  - cbn [forM] in H. apply bind_inv in H as (u1 & s1 & H1 & H).
    apply DeleteTag_inv in H1. cbn [snd] in H1.
    destruct (IH _ H) as (Hfreed & Hsame & Hdom & Hmsg). clear IH H.
    destruct p as [t|].
    + destruct H1 as ((c & Hc) & Hm1 & Hg1).
      assert (Ht : Some t ∉ l.*2).
      { intros Hin. destruct (Hfreed t Hin) as ((c' & Hc') & _).
        rewrite Hm1, lookup_insert_eq in Hc'. discriminate. }
      split; [|split; [|split]].
      * intros t' Ht'. cbn in Ht'. apply elem_of_cons in Ht' as [Heq|Hin].
        -- inversion Heq; subst t'. split; [eauto|].
           rewrite (Hsame t Ht), Hm1. apply lookup_insert_eq.
        -- destruct (Hfreed t' Hin) as ((c' & Hc') & Hf). split; [|exact Hf].
           rewrite Hm1 in Hc'. rewrite lookup_insert_ne in Hc'; [eauto|].
           intros ->. done.
      * intros a Ha. cbn in Ha. apply not_elem_of_cons in Ha as [Hne Hin].
        rewrite (Hsame a Hin), Hm1. apply lookup_insert_ne. congruence.
      * rewrite Hdom, Hm1. apply dom_insert_lookup_L. eauto.
      * congruence.
    + subst s1. split; [|split; [|split]]; try done.
      * intros t Ht. cbn in Ht. apply elem_of_cons in Ht as [Heq|Hin]; [discriminate|].
        by apply Hfreed.
      * intros a Ha. cbn in Ha. apply not_elem_of_cons in Ha as [_ Hin]. by apply Hsame.
Qed.

(** ** Cloning a tag map *)

Lemma extends_refl (s : state) : extends s s.
Proof. split; reflexivity. Qed.

Lemma extends_trans (s1 s2 s3 : state) : extends s1 s2 -> extends s2 s3 -> extends s1 s3.
Proof. intros [H1 G1] [H2 G2]. split; [by etrans | congruence]. Qed.

Lemma extends_lookup (s s' : state) (a : loc) (c : cell) :
  extends s s' -> mem s !! a = Some c -> mem s' !! a = Some c.
Proof. intros [H _] Ha. eapply lookup_weaken; eassumption. Qed.

Lemma extends_dom (s s' : state) : extends s s' -> dom (mem s) ⊆ dom (mem s').
Proof. intros [H _]. by apply subseteq_dom. Qed.

Lemma extends_fresh (s s' : state) (a : loc) :
  extends s s' -> mem s' !! a = None -> mem s !! a = None.
Proof.
  intros [H _] Ha. destruct (mem s !! a) as [c|] eqn:E; [|done].
  rewrite (lookup_weaken _ _ _ _ E H) in Ha. done.
Qed.

Lemma extends_bitmap_at (s s' : state) (a d : loc) (b : BLOCK) :
  extends s s' -> bitmap_at s a d b -> bitmap_at s' a d b.
Proof. intros He [Ha Hd]. split; eapply extends_lookup; eassumption. Qed.

Lemma alloc_extends (c : cell) (s : state) (a : loc) (s' : state) :
  alloc c s = Some (a, s') -> extends s s' /\ mem s !! a = None /\ mem s' !! a = Some c.
Proof.
  intros H. apply alloc_inv in H as (Ha & Hm & Hg).
  split; [split; [|exact Hg] | split; [exact Ha|]].
  - rewrite Hm. by apply insert_subseteq.
  - rewrite Hm. apply lookup_insert_eq.
Qed.

Lemma same_but_refl (a : loc) (s : state) : same_but a s s.
Proof. split; [auto | split; reflexivity]. Qed.

Lemma same_but_trans (a : loc) (s1 s2 s3 : state) :
  same_but a s1 s2 -> same_but a s2 s3 -> same_but a s1 s3.
Proof.
  intros (H1 & D1 & G1) (H2 & D2 & G2). split; [|split; [set_solver | congruence]].
  intros x c Hx Hne. apply H2; [|exact Hne]. by apply H1.
Qed.

Lemma extends_same_but (a : loc) (s s' : state) : extends s s' -> same_but a s s'.
Proof.
  intros He. split; [|split; [by apply extends_dom | apply He]].
  intros x c Hx _. by eapply extends_lookup.
Qed.

Lemma store_same_but (a : loc) (c : cell) (s : state) (u : unit) (s' : state) :
  store a c s = Some (u, s') -> same_but a s s' /\ mem s' !! a = Some c.
Proof.
  intros H. apply store_inv in H as ((c0 & Hc0 & _) & Hm & Hg).
  split; [split; [|split; [|exact Hg]]|].
  - intros x cx Hx Hne. rewrite Hm. by rewrite lookup_insert_ne.
  - rewrite Hm, dom_insert_L. set_solver.
  - rewrite Hm. apply lookup_insert_eq.
Qed.

Lemma same_but_fresh (a : loc) (s s' : state) (x : loc) :
  same_but a s s' -> mem s' !! x = None -> mem s !! x = None.
Proof.
  intros (_ & Hd & _) Hx. apply not_elem_of_dom. apply not_elem_of_dom in Hx. set_solver.
Qed.

(** One turn of the tag loop: the tag is cloned into a new object and
    the clone is entered under the key. *)
Lemma clone_into_inv (tm' : loc) (k : string) (p : ptr) (s : state) (u : unit)
    (s' : state) (T0 : gmap string ptr) :
  mem s !! tm' = Some (CTagMap T0) ->
  clone_into tm' (k, p) s = Some (u, s') ->
  exists p', mem s' !! tm' = Some (CTagMap (<[k := p']> T0))
    /\ same_but tm' s s'
    /\ clone_of s s' p p'.
Proof.
  intros Htm H. unfold clone_into in H. cbn [fst snd] in H.
  apply bind_inv in H as (p' & s1 & H1 & H). apply CloneTag_inv in H1.
  apply bind_inv in H as (T & s2 & H2 & H). apply load_tagmap_inv in H2 as [-> HT].
  apply store_same_but in H as [Hsb Hst].
  exists p'. destruct p as [t|].
  - destruct H1 as (c & t' & -> & Hc & Hnew & Hm1 & Hg1).
    assert (Hne : t' <> tm') by (intros ->; congruence).
    assert (He : extends s s1).
    { split; [|exact Hg1]. rewrite Hm1. by apply insert_subseteq. }
    rewrite Hm1, lookup_insert_ne in HT by done.
    rewrite Htm in HT. inversion HT; subst T.
    split; [exact Hst|]. split.
    + eapply same_but_trans; [apply extends_same_but, He | exact Hsb].
    + exists t', c. split; [reflexivity|]. split; [exact Hnew|]. split; [|by intros _].
      apply Hsb; [|exact Hne]. rewrite Hm1. apply lookup_insert_eq.
  - destruct H1 as [-> ->]. rewrite Htm in HT. inversion HT; subst T.
    split; [exact Hst|]. split; [exact Hsb | reflexivity].
Qed.

Lemma clone_of_weaken (s0 s s' s'' : state) (a : loc) (p p' : ptr) :
  same_but a s0 s -> same_but a s' s'' ->
  (forall t, p = Some t -> t <> a) -> (forall t, p' = Some t -> t <> a) ->
  clone_of s s' p p' -> clone_of s0 s'' p p'.
Proof.
  intros H0 H2 Hpa Hp'a. unfold clone_of. destruct p as [t|]; [|done].
  intros (t' & c & -> & Hnew & Hc & Hsrc).
  exists t', c. split; [reflexivity|]. split; [by eapply same_but_fresh|].
  split; [apply H2; [exact Hc | by apply Hp'a]|].
  intros [c0 Hc0]. pose proof (proj1 H0 _ _ Hc0 (Hpa t eq_refl)) as Hs.
  rewrite <- (Hsrc ltac:(eauto)). by rewrite Hs.
Qed.

(** The tag loop of [clone_tagmap] over a list of entries with
    distinct keys, the new tag map holding [T0] at the start: the
    entries of the list are cloned, the other keys are as in [T0]. *)
Lemma clone_loop_inv (tm' : loc) (l : list (string * ptr)) (s : state) (u : unit)
    (s' : state) (T0 : gmap string ptr) :
  NoDup l.*1 ->
  mem s !! tm' = Some (CTagMap T0) ->
  forM l (clone_into tm') s = Some (u, s') ->
  exists T', mem s' !! tm' = Some (CTagMap T')
    /\ same_but tm' s s'
    /\ (forall k, k ∉ l.*1 -> T' !! k = T0 !! k)
    /\ (forall k p, (k, p) ∈ l -> exists p', T' !! k = Some p' /\ clone_of s s' p p').
Proof.
  revert s T0. induction l as [|[k p] l IH]; intros s T0 Hnd Htm H.
  - cbn in H. apply mret_inv in H. inversion H; subst.
    exists T0. split; [exact Htm|]. split; [apply same_but_refl|].
    split; [done|]. intros k p Hin. by apply elem_of_nil in Hin.
  - cbn [forM] in H. apply bind_inv in H as (u1 & s1 & H1 & H).
    destruct (clone_into_inv _ _ _ _ _ _ _ Htm H1) as (p' & Htm1 & Hsb1 & Hcl).
    cbn in Hnd. apply NoDup_cons in Hnd as [Hk Hnd].
    destruct (IH _ _ Hnd Htm1 H) as (T' & Htm' & Hsb & Hout & Hin).
    exists T'. split; [exact Htm'|]. split; [by eapply same_but_trans|]. split.
    + intros k' Hk'. cbn in Hk'. apply not_elem_of_cons in Hk' as [Hne Hk'].
      rewrite (Hout k' Hk'). apply lookup_insert_ne. congruence.
    + intros k' q Hq. apply elem_of_cons in Hq as [Heq|Hq].
      * inversion Heq; subst k' q. exists p'. split.
        -- rewrite (Hout k Hk). apply lookup_insert_eq.
        -- eapply (clone_of_weaken s s s1 s' tm'); try eassumption.
           ++ apply same_but_refl.
           ++ intros t -> ->. destruct Hcl as (t' & c & _ & _ & _ & Hsrc).
              specialize (Hsrc ltac:(eauto)). congruence.
           ++ intros t -> ->. destruct p as [t0|]; [|done].
              destruct Hcl as (t' & c & [= <-] & Hnew & _). congruence.
      * destruct (Hin k' q Hq) as (q' & Hq' & Hcl'). exists q'. split; [exact Hq'|].
        eapply (clone_of_weaken s s1 s' s' tm'); try eassumption.
        -- apply same_but_refl.
        -- intros t -> ->. destruct Hcl' as (t' & c & _ & _ & _ & Hsrc).
           specialize (Hsrc ltac:(eauto)). congruence.
        -- intros t -> ->. destruct q as [t0|]; [|done].
           destruct Hcl' as (t' & c & [= <-] & _ & Hc & _). congruence.
Qed.

Lemma clone_of_extends (s0 s s' : state) (p p' : ptr) :
  extends s0 s -> clone_of s s' p p' -> clone_of s0 s' p p'.
Proof.
  intros He. unfold clone_of. destruct p as [t|]; [|done].
  intros (t' & c & -> & Hnew & Hc & Hsrc). exists t', c.
  split; [reflexivity|]. split; [by eapply extends_fresh|]. split; [exact Hc|].
  intros [c0 Hc0]. pose proof (extends_lookup _ _ _ _ He Hc0) as Hs.
  rewrite <- (Hsrc ltac:(eauto)). by rewrite Hs.
Qed.

(** [clone_tagmap]: a new tag map that holds a clone of every entry of
    the source; nothing that existed is touched. *)
Lemma clone_tagmap_inv (tm : loc) (s : state) (tm' : loc) (s' : state) :
  clone_tagmap tm s = Some (tm', s') ->
  exists T T',
    mem s !! tm' = None
    /\ mem s' !! tm' = Some (CTagMap T')
    /\ extends s s'
    /\ copy_of s s' T T'
    /\ (is_Some (mem s !! tm) -> mem s !! tm = Some (CTagMap T)).
Proof.
  unfold clone_tagmap. intros H.
  apply bind_inv in H as (a & s1 & H1 & H). apply alloc_extends in H1 as (He1 & Hnew & Ha).
  apply bind_inv in H as (T & s2 & H2 & H). apply load_tagmap_inv in H2 as [-> HT].
  apply bind_inv in H as (u & s3 & H3 & H). apply mret_inv in H. inversion H; subst a s3.
  destruct (clone_loop_inv _ _ _ _ _ ∅ (NoDup_fst_map_to_list T) Ha H3)
    as (T' & HT' & Hsb & Hout & Hin).
  exists T, T'. split; [exact Hnew|]. split; [exact HT'|].
  assert (He : extends s s').
  { split; [|destruct Hsb as (_ & _ & ->); apply He1].
    apply map_subseteq_spec. intros x c Hx. apply Hsb.
    - by eapply extends_lookup.
    - intros ->. congruence. }
  split; [exact He|]. split.
  - intros k. destruct (T !! k) as [p|] eqn:Hk.
    + destruct (Hin k p) as (p' & Hp' & Hcl); [by apply elem_of_map_to_list|].
      exists p'. split; [exact Hp'|]. exact (clone_of_extends _ _ _ _ _ He1 Hcl).
    + rewrite Hout; [apply lookup_empty|].
      intros Hin'. apply list_elem_of_fmap in Hin' as ([k' p] & -> & Hin').
      apply elem_of_map_to_list in Hin'. cbn in Hk. congruence.
  - intros [c Hc]. pose proof (extends_lookup _ _ _ _ He1 Hc). congruence.
Qed.

(** A new model for [m]: the clone of a tag map is entered in the
    metadata map at [dmp], which is the only object that changes. *)
Lemma copy_model_inv (dmp : loc) (m : Z) (tm : loc) (s : state) (u : unit)
    (s' : state) (DMD : gmap Z ptr) :
  mem s !! dmp = Some (CMetadata DMD) ->
  (clone_tagmap tm ≫= assign_model dmp m) s = Some (u, s') ->
  exists tm' T T',
    mem s !! tm' = None
    /\ mem s' !! dmp = Some (CMetadata (<[m := Some tm']> DMD))
    /\ mem s' !! tm' = Some (CTagMap T')
    /\ same_but dmp s s'
    /\ copy_of s s' T T'
    /\ (is_Some (mem s !! tm) -> mem s !! tm = Some (CTagMap T)).
Proof.
  intros Hd H. apply bind_inv in H as (tm' & s1 & H1 & H).
  apply clone_tagmap_inv in H1 as (T & T' & Hnew & HT' & He & Hcopy & Hsrc).
  unfold assign_model in H.
  apply bind_inv in H as (MD & s2 & H2 & H). apply load_metadata_inv in H2 as [-> HMD].
  rewrite (extends_lookup _ _ _ _ He Hd) in HMD. inversion HMD; subst MD.
  apply store_same_but in H as [Hsb Hst].
  assert (Hne : tm' <> dmp) by (intros ->; congruence).
  exists tm', T, T'. split; [exact Hnew|]. split; [exact Hst|].
  split; [by apply Hsb|].
  split; [eapply same_but_trans; [apply extends_same_but, He | exact Hsb]|].
  split; [|exact Hsrc].
  intros k. specialize (Hcopy k). destruct (T !! k) as [p|]; [|exact Hcopy].
  destruct Hcopy as (p' & Hp' & Hcl). exists p'. split; [exact Hp'|].
  unfold clone_of in *. destruct p as [t|]; [|exact Hcl].
  destruct Hcl as (t' & c & -> & Hn & Hc & Hs). exists t', c.
  split; [reflexivity|]. split; [exact Hn|]. split; [|exact Hs].
  apply Hsb; [exact Hc|]. intros ->.
  pose proof (extends_lookup _ _ _ _ He Hd). congruence.
Qed.

(** ** Destroying a model *)

(** [FreeImage_SetMetadata(model, dib, NULL, NULL)] on a live bitmap:
    when the model has a tag map, its tags and the tag map are released
    and the entry is erased; otherwise nothing happens. *)
Lemma destroy_model_inv (E : environment) (m : Z) (s : state) (dst dd : loc)
    (db : BLOCK) (dmp : loc) (DMD : gmap Z ptr) (r : bool) (s' : state) :
  bitmap_at s dst dd db -> metadata (fih db) = Some dmp ->
  mem s !! dmp = Some (CMetadata DMD) ->
  FreeImage_SetMetadata E m (Some dst) None None s = Some (r, s') ->
  r = true
  /\ match DMD !! m with
     | Some (Some tm) =>
         exists T, mem s !! tm = Some (CTagMap T)
           /\ mem s' !! dmp = Some (CMetadata (delete m DMD))
           /\ mem s' !! tm = Some Freed
           /\ (forall k t, T !! k = Some (Some t) ->
                 (exists c, mem s !! t = Some (CTag c)) /\ mem s' !! t = Some Freed)
           /\ (forall a, a <> dmp -> a <> tm -> (forall k, T !! k <> Some (Some a)) ->
                 mem s' !! a = mem s !! a)
           /\ dom (mem s') = dom (mem s)
           /\ messages s' = messages s
     | _ => s' = s
     end.
Proof.
  intros Hb Hmd Hd H. unfold FreeImage_SetMetadata in H.
  rewrite (read_block_run _ _ _ _ _ Hb) in H. cbv beta iota in H. rewrite Hmd in H.
  rewrite (bind_run _ _ s s dmp) in H by reflexivity.
  apply bind_inv in H as (MD & s1 & H1 & H). apply load_metadata_inv in H1 as [-> HMD].
  rewrite Hd in HMD. inversion HMD; subst MD. clear HMD.
  destruct (DMD !! m) as [[tm|]|] eqn:Hm; cbn [default] in H.
  2,3: apply mret_inv in H; inversion H; done.
  apply bind_inv in H as (T & s1 & H1 & H). apply load_tagmap_inv in H1 as [-> HT].
  apply bind_inv in H as (u1 & s1 & H1 & H).
  apply delete_tags_inv in H1 as (Hfreed & Hsame & Hdom1 & Hg1).
  apply bind_inv in H as (u2 & s2 & H2 & H).
  apply release_inv in H2 as (_ & Hm2 & Hg2).
  apply bind_inv in H as (u3 & s3 & H3 & H).
  apply store_inv in H3 as (_ & Hm3 & Hg3).
  apply mret_inv in H. inversion H; subst r s3. clear H.
  split; [reflexivity|]. exists T. split; [exact HT|].
  assert (Htags : forall k t, T !! k = Some (Some t) -> Some t ∈ (map_to_list T).*2).
  { intros k t Hk. apply list_elem_of_fmap. exists (k, Some t).
    split; [reflexivity | by apply elem_of_map_to_list]. }
  assert (Hne : tm <> dmp) by (intros ->; congruence).
  split; [rewrite Hm3; apply lookup_insert_eq|].
  split; [rewrite Hm3, lookup_insert_ne, Hm2 by done; apply lookup_insert_eq|].
  split; [|split; [|split]].
  - intros k t Hk. destruct (Hfreed t (Htags k t Hk)) as (Hlive & Hf).
    split; [exact Hlive|].
    destruct Hlive as [c Hc].
    rewrite Hm3, lookup_insert_ne, Hm2, lookup_insert_ne by (intros ->; congruence).
    exact Hf.
  - intros a Ha1 Ha2 Ha3.
    rewrite Hm3, lookup_insert_ne, Hm2, lookup_insert_ne by done.
    apply Hsame. intros Hin. apply list_elem_of_fmap in Hin as ([k p] & Hp & Hin).
    apply elem_of_map_to_list in Hin. cbn in Hp. subst p. by apply (Ha3 k).
  - rewrite Hm3, Hm2, !dom_insert_L, Hdom1.
    assert (dmp ∈ dom (mem s)) by (apply elem_of_dom; eauto).
    assert (tm ∈ dom (mem s)) by (apply elem_of_dom; eauto).
    set_solver.
  - congruence.
Qed.

Lemma read_masks_run (s : state) (a d : loc) (b : BLOCK) (m : FREEIMAGERGBMASKS) :
  bitmap_at s a d b -> biCompression (bih b) = BI_BITFIELDS -> masks b = Some m ->
  read_masks (Some a) s = Some (Some m, s).
Proof.
  intros Hb Hc Hm. unfold read_masks.
  rewrite (bind_run _ _ _ _ _ (HasRGBMasks_run _ _ _ _ Hb)), Hc.
  change (BI_BITFIELDS =? BI_BITFIELDS) with true. cbv iota.
  rewrite (bind_run _ _ s s a) by reflexivity.
  rewrite (read_block_run _ _ _ _ _ Hb), Hm. reflexivity.
Qed.

Lemma get_mask_run (field : FREEIMAGERGBMASKS -> Z) (default : Z)
    (s : state) (a d : loc) (b : BLOCK) (m : FREEIMAGERGBMASKS) :
  bitmap_at s a d b -> type (fih b) = FIT_BITMAP ->
  biCompression (bih b) = BI_BITFIELDS -> masks b = Some m ->
  get_mask field default (Some a) s = Some (field m, s).
Proof.
  intros Hb Ht Hc Hm. unfold get_mask.
  rewrite (bind_run _ _ _ _ _ (GetImageType_run _ _ _ _ Hb)), Ht.
  rewrite (bind_run _ _ _ _ _ (read_masks_run _ _ _ _ _ Hb Hc Hm)). reflexivity.
Qed.

Lemma u16_small (x : Z) : 0 <= x < 2 ^ 16 -> u16 x = x.
Proof. intros H. unfold u16, wrap. apply Z.mod_small. lia. Qed.

Lemma check_bit_depth_bitmap (bpp bpp' : Z) (nm : bool) :
  check_bit_depth FIT_BITMAP bpp = Some (bpp', nm) ->
  (bpp ∈ bitmap_depths -> bpp' = bpp)
  /\ (bpp ∉ bitmap_depths -> bpp' = 8)
  /\ nm = (bpp =? 16)
  /\ bpp' ∈ bitmap_depths.
Proof.
  unfold check_bit_depth, bitmap_depths.
  rewrite !elem_of_cons, elem_of_nil.
  destruct (Z.eqb_spec bpp 1), (Z.eqb_spec bpp 2), (Z.eqb_spec bpp 4),
    (Z.eqb_spec bpp 8), (Z.eqb_spec bpp 16), (Z.eqb_spec bpp 24), (Z.eqb_spec bpp 32);
    cbn; intros [= <- <-]; try lia; intuition lia.
Qed.

(** C5. What the allocator stores as bit depth. For the generic bitmap
    type a requested depth among 1, 2, 4, 8, 16, 24, 32 is kept and any
    other is replaced by 8; at 16 bpp the compression mode is the
    mask-bearing one and the three masks are the caller's, at any other
    depth the mode is plain and no masks are stored; every other
    supported type gets its native width, whatever was requested; an
    unsupported type makes the allocation fail. *)
Theorem C5_allocate_bit_depth (E : environment) (header_only : bool)
    (ext_bits : byte_ptr) (ext_pitch : Z) (t : FREE_IMAGE_TYPE)
    (width height bpp r g b : Z) (s : state) (res : ptr) (s' : state) :
  FreeImage_AllocateBitmap E header_only ext_bits ext_pitch t width height bpp r g b s
    = Some (res, s') ->
  (~ supported t -> res = None)
  /\ (forall a, res = Some a ->
      exists d blk, bitmap_at s' a d blk
        /\ type (fih blk) = t
        /\ FreeImage_GetBPP (Some a) s' = Some (biBitCount (bih blk), s')
        /\ (t = FIT_BITMAP ->
              (bpp ∈ bitmap_depths -> biBitCount (bih blk) = bpp)
              /\ (bpp ∉ bitmap_depths -> biBitCount (bih blk) = 8)
              /\ (bpp = 16 ->
                    biCompression (bih blk) = BI_BITFIELDS
                    /\ masks blk = Some {| red_mask := r; green_mask := g; blue_mask := b |}
                    /\ FreeImage_HasRGBMasks (Some a) s' = Some (true, s')
                    /\ FreeImage_GetRedMask (Some a) s' = Some (r, s')
                    /\ FreeImage_GetGreenMask (Some a) s' = Some (g, s')
                    /\ FreeImage_GetBlueMask (Some a) s' = Some (b, s'))
              /\ (bpp <> 16 ->
                    biCompression (bih blk) = BI_RGB /\ masks blk = None
                    /\ FreeImage_HasRGBMasks (Some a) s' = Some (false, s')))
        /\ (forall n, sizeof_pixel t = Some n ->
              biBitCount (bih blk) = 8 * n /\ biCompression (bih blk) = BI_RGB)).
Proof.
  intros H. split.
  - intros Hns. eapply AllocateBitmap_unsupported; eassumption.
  - intros a ->.
    apply AllocateBitmap_inv in H
      as (bpp' & nm & d & md & Hc & _ & _ & _ & _ & _ & _ & _ & Had & Hamd & Hdmd & Hm & _).
    pose proof (AllocateBitmap_bitmap_at _ _ _ _ _ _ Had Hamd Hdmd Hm) as Hb.
    match type of Hb with bitmap_at _ _ _ ?B => set (blk := B) in * end.
    assert (Ht : type (fih blk) = t) by reflexivity.
    assert (Hbc : biBitCount (bih blk) = u16 bpp') by reflexivity.
    assert (Hcomp : biCompression (bih blk) = if nm then BI_BITFIELDS else BI_RGB)
      by reflexivity.
    assert (Hmasks : masks blk
                     = if nm then Some {| red_mask := r; green_mask := g; blue_mask := b |}
                       else None) by reflexivity.
    clearbody blk. clear Hm.
    exists d, blk. split; [exact Hb|]. split; [exact Ht|].
    split; [exact (GetBPP_run _ _ _ _ Hb)|]. split.
    + intros ->. apply check_bit_depth_bitmap in Hc as (Hin & Hout & -> & Hd).
      assert (Hu : u16 bpp' = bpp').
      { apply u16_small. unfold bitmap_depths in Hd.
        repeat (apply elem_of_cons in Hd as [->|Hd]; [lia|]). by apply elem_of_nil in Hd. }
      rewrite Hbc, Hu. split; [exact Hin|]. split; [exact Hout|]. split.
      * intros ->. change (16 =? 16) with true in *. cbv iota in Hcomp, Hmasks.
        split; [exact Hcomp|]. split; [exact Hmasks|].
        split; [rewrite (HasRGBMasks_run _ _ _ _ Hb), Hcomp; reflexivity|].
        repeat split.
        -- exact (get_mask_run red_mask _ _ _ _ _ _ Hb Ht Hcomp Hmasks).
        -- exact (get_mask_run green_mask _ _ _ _ _ _ Hb Ht Hcomp Hmasks).
        -- exact (get_mask_run blue_mask _ _ _ _ _ _ Hb Ht Hcomp Hmasks).
      * intros Hne. apply Z.eqb_neq in Hne. rewrite Hne in Hcomp, Hmasks.
        split; [exact Hcomp|]. split; [exact Hmasks|].
        rewrite (HasRGBMasks_run _ _ _ _ Hb), Hcomp. reflexivity.
    + intros n Hn. rewrite Hbc, Hcomp. unfold check_bit_depth in Hc.
      destruct t; cbn in Hn; simplify_eq; cbn in Hc; simplify_eq; split; reflexivity.
Qed.

(** A 16-bit allocation with the 5-6-5 masks. *)
Lemma C5_allocate_bit_depth_witness :
  allocate_16bpp = Some (Some 1%positive, final_state allocate_16bpp)
  /\ FreeImage_GetRedMask (Some 1%positive) (final_state allocate_16bpp)
     = Some (0xF800, final_state allocate_16bpp).
Proof.
  assert (Hrun : allocate_16bpp = Some (Some 1%positive, final_state allocate_16bpp))
    by (vm_compute; reflexivity).
  split; [exact Hrun|].
  destruct (proj2 (C5_allocate_bit_depth _ _ _ _ _ _ _ _ _ _ _ _ _ _ Hrun) 1%positive eq_refl)
    as (d & blk & _ & _ & _ & Hbitmap & _).
  exact (proj1 (proj2 (proj2 (proj2 (proj1 (proj2 (proj2 (Hbitmap eq_refl))) eq_refl))))).
Defined.

(** ** Line and pitch *)

Lemma land_mask_4 (y : Z) :
  0 <= y < 2 ^ 32 -> Z.land y (u32 (Z.lnot 3)) = 4 * (y / 4).
Proof.
  intros Hy. change (u32 (Z.lnot 3)) with (Z.shiftl (Z.ones 30) 2).
  replace (4 * (y / 4)) with (Z.shiftl (Z.shiftr y 2) 2)
    by (rewrite Z.shiftl_mul_pow2, Z.shiftr_div_pow2 by lia; change (2 ^ 2) with 4; lia).
  apply Z.bits_inj'. intros n Hn.
  rewrite Z.land_spec, !Z.shiftl_spec by lia.
  destruct (Z.ltb_spec n 2) as [Hlt|Hge].
  - rewrite !(Z.testbit_neg_r _ (n - 2)) by lia. apply andb_false_r.
  - rewrite Z.shiftr_spec by lia. replace (n - 2 + 2) with n by lia.
    destruct (Z.ltb_spec n 32) as [Hlt|Hge'].
    + rewrite Z.ones_spec_low by lia. apply andb_true_r.
    + rewrite Z.ones_spec_high by lia. rewrite andb_false_r.
      symmetry. apply Z.bits_above_log2; [lia|].
      destruct (Z.eq_dec y 0) as [->|]; [cbn; lia|].
      apply Z.log2_lt_pow2; [lia|].
      eapply Z.lt_le_trans; [apply Hy|]. apply Z.pow_le_mono_r; lia.
Qed.

Lemma line_of_bound (b : BLOCK) : 0 <= line_of b < 2 ^ 29.
Proof.
  unfold line_of, u32, wrap.
  set (x := ((_ mod _ * _) mod _ + 7) mod 2 ^ 32).
  assert (0 <= x < 2 ^ 32) by (apply Z.mod_pos_bound; lia).
  split; [apply Z.div_pos; lia|].
  apply Z.div_lt_upper_bound; lia.
Qed.

(** The pitch of a bitmap that owns its pixels is the line size rounded
    up to a multiple of 4. *)
Lemma pitch_of_owned (b : BLOCK) :
  external_bits (fih b) = None ->
  pitch_of b = 4 * ((line_of b + 3) / 4).
Proof.
  intros He. unfold pitch_of. rewrite He.
  pose proof (line_of_bound b) as Hl.
  assert (Hu : u32 (line_of b + 3) = line_of b + 3).
  { unfold u32, wrap. apply Z.mod_small. lia. }
  rewrite Hu. apply land_mask_4. lia.
Qed.

Lemma pitch_of_owned_bounds (b : BLOCK) :
  external_bits (fih b) = None ->
  line_of b <= pitch_of b /\ pitch_of b mod 4 = 0.
Proof.
  intros He. rewrite (pitch_of_owned b He).
  split.
  - pose proof (Z.div_mod (line_of b + 3) 4 ltac:(lia)).
    pose proof (Z.mod_pos_bound (line_of b + 3) 4 ltac:(lia)). lia.
  - rewrite Z.mul_comm. apply Z.mod_mul. lia.
Qed.

(** C6. After a successful allocation of a generic bitmap, the pitch of
    a bitmap that owns its pixels is at least the line size and a
    multiple of 4; the pitch of a bitmap that wraps a caller's buffer is
    the pitch the caller gave. *)
Theorem C6_pitch_of_allocation (E : environment) (header_only : bool)
    (ext_bits : byte_ptr) (ext_pitch width height bpp r g b : Z)
    (s : state) (a : loc) (s' : state) :
  FreeImage_AllocateBitmap E header_only ext_bits ext_pitch FIT_BITMAP
    width height bpp r g b s = Some (Some a, s') ->
  exists line pitch,
    FreeImage_GetLine (Some a) s' = Some (line, s')
    /\ FreeImage_GetPitch (Some a) s' = Some (pitch, s')
    /\ (ext_bits = None -> line <= pitch /\ pitch mod 4 = 0)
    /\ (ext_bits <> None -> pitch = ext_pitch).
Proof.
  intros H.
  apply AllocateBitmap_inv in H
    as (bpp' & nm & d & md & Hc & _ & _ & _ & _ & _ & _ & _ & Had & Hamd & Hdmd & Hm & _).
  pose proof (AllocateBitmap_bitmap_at _ _ _ _ _ _ Had Hamd Hdmd Hm) as Hb.
  eexists _, _. split; [exact (GetLine_run _ _ _ _ Hb)|].
  split; [exact (GetPitch_run _ _ _ _ Hb)|]. split.
  - intros ->. by apply pitch_of_owned_bounds.
  - intros Hext. unfold pitch_of. cbn. destruct ext_bits; [reflexivity | done].
Qed.

(** A 3 x 2 bitmap at 24 bpp: lines of 9 bytes at a pitch of 12. *)
Lemma C6_pitch_of_allocation_witness :
  allocate_24bpp = Some (Some 1%positive, final_state allocate_24bpp)
  /\ exists line pitch,
       FreeImage_GetLine (Some 1%positive) (final_state allocate_24bpp)
         = Some (line, final_state allocate_24bpp)
       /\ FreeImage_GetPitch (Some 1%positive) (final_state allocate_24bpp)
          = Some (pitch, final_state allocate_24bpp)
       /\ (@None (loc * Z) = None -> line <= pitch /\ pitch mod 4 = 0)
       /\ (@None (loc * Z) <> None -> pitch = 0).
Proof.
  assert (Hrun : allocate_24bpp = Some (Some 1%positive, final_state allocate_24bpp))
    by (vm_compute; reflexivity).
  split; [exact Hrun|].
  exact (C6_pitch_of_allocation _ _ _ _ _ _ _ _ _ _ _ _ _ Hrun).
Defined.

(** ** Wrapping a caller's buffer *)

Lemma GetBits_external_run (P : platform) (s : state) (a d : loc) (b : BLOCK) (p : loc * Z) :
  bitmap_at s a d b -> has_pixels (fih b) = true -> external_bits (fih b) = Some p ->
  FreeImage_GetBits P (Some a) s = Some (Some p, s).
Proof.
  intros Hb Hp He. unfold FreeImage_GetBits.
  rewrite (bind_run _ _ _ _ _ (HasPixels_run _ _ _ _ Hb)), Hp.
  change (negb true) with false. cbv iota.
  rewrite (bind_run _ _ s s a) by reflexivity.
  rewrite (read_block_run _ _ _ _ _ Hb), He. reflexivity.
Qed.

(** C9. A successful allocation around a caller's buffer has pixels,
    hands back the caller's pointer and the caller's pitch, which is not
    zero, and its backing block is a header-only block: as large as the
    size calculator says for a header-only bitmap, with no pixel bytes
    of its own. *)
Theorem C9_external_buffer_allocation (E : environment) (ext : loc * Z)
    (ext_pitch : Z) (t : FREE_IMAGE_TYPE) (width height bpp r g b : Z)
    (s : state) (a : loc) (s' : state) :
  FreeImage_AllocateHeaderForBits E (Some ext) ext_pitch t width height bpp r g b s
    = Some (Some a, s') ->
  ext_pitch <> 0
  /\ FreeImage_HasPixels (Some a) s' = Some (true, s')
  /\ FreeImage_GetBits (target E) (Some a) s' = Some (Some ext, s')
  /\ FreeImage_GetPitch (Some a) s' = Some (ext_pitch, s')
  /\ exists d blk,
       bitmap_at s' a d blk
       /\ pixels blk = []
       /\ block_size blk
          = FreeImage_GetInternalImageSize (target E) true
              (biWidth (bih blk)) (biHeight (bih blk)) (biBitCount (bih blk))
              (biCompression (bih blk) =? BI_BITFIELDS).
Proof.
  unfold FreeImage_AllocateHeaderForBits. intros H.
  apply AllocateBitmap_inv in H
    as (bpp' & nm & d & md & Hc & _ & _ & Hext & _ & _ & _ & _ & Had & Hamd & Hdmd & Hm & _).
  pose proof (AllocateBitmap_bitmap_at _ _ _ _ _ _ Had Hamd Hdmd Hm) as Hb.
  destruct (Hext ltac:(done)) as [Hpitch _].
  split; [exact Hpitch|].
  split; [exact (HasPixels_run _ _ _ _ Hb)|].
  split; [by apply (GetBits_external_run _ _ _ _ _ _ Hb)|].
  split; [exact (GetPitch_run _ _ _ _ Hb)|].
  assert (Hbpp : u16 bpp' = bpp').
  { apply u16_small. unfold check_bit_depth in Hc. destruct t.
    2: { apply check_bit_depth_bitmap in Hc as (_ & _ & _ & Hd). unfold bitmap_depths in Hd.
         repeat (apply elem_of_cons in Hd as [->|Hd]; [lia|]). by apply elem_of_nil in Hd. }
    all: cbn in Hc; simplify_eq; lia. }
  match type of Hb with bitmap_at _ _ _ ?B => set (blk := B) in * end.
  assert (Hpx : pixels blk = []).
  { unfold blk, allocated_block, pixels. cbn [negb is_null orb].
    unfold FreeImage_GetInternalImageSize. by rewrite Z.sub_diag. }
  assert (Hat : pixels_at blk = header_size (target E) bpp' nm) by reflexivity.
  assert (Hbc : biBitCount (bih blk) = u16 bpp') by reflexivity.
  assert (Hcomp : (biCompression (bih blk) =? BI_BITFIELDS) = nm)
    by (destruct nm; reflexivity).
  clearbody blk. exists d, blk.
  split; [exact Hb|]. split; [exact Hpx|].
  unfold block_size, FreeImage_GetInternalImageSize.
  rewrite Hpx, Hat, Hbc, Hbpp, Hcomp. cbn [length]. lia.
Qed.

(** A 3 x 2 bitmap at 8 bpp around a buffer of two lines of 5 bytes. *)
Lemma C9_external_buffer_allocation_witness :
  allocate_for_bits = Some (Some 2%positive, final_state allocate_for_bits)
  /\ FreeImage_GetBits LP64 (Some 2%positive) (final_state allocate_for_bits)
     = Some (Some (1%positive, 0), final_state allocate_for_bits).
Proof.
  assert (Hrun : allocate_for_bits = Some (Some 2%positive, final_state allocate_for_bits))
    by (vm_compute; reflexivity).
  split; [exact Hrun|].
  exact (proj1 (proj2 (proj2
    (C9_external_buffer_allocation _ _ _ _ _ _ _ _ _ _ _ _ _ Hrun)))).
Defined.

(** ** Colour classifier *)

Section GreyRamp.
Context (b : BLOCK) (ncolors : Z).

Lemma palette_entry_run (i : Z) (c : FIRGBA8) (s : state) :
  0 <= i -> palette b !! Z.to_nat i = Some c -> palette_entry b i s = Some (c, s).
Proof.
  intros Hi Hc. unfold palette_entry.
  destruct (Z.ltb_spec i 0); [lia|]. rewrite Hc. reflexivity.
Qed.

(** What the loop returns, from any index and any value of the flag:
    palette-indexed as soon as one entry is neither grey, nor at its
    place in the forward ramp, nor at its place in the reversed ramp;
    otherwise min-is-black when the flag is still set and every entry
    is at its place in the forward ramp, and min-is-white in all other
    cases. *)
Lemma grey_ramp_scan_result (n : nat) (i : Z) (minisblack : bool) (s : state) :
  0 <= i -> entries_from b i n ->
  exists r, grey_ramp_scan b ncolors n i minisblack s = Some (r, s)
    /\ (r = FIC_PALETTE <->
        exists j c, i <= j < i + Z.of_nat n /\ palette b !! Z.to_nat j = Some c
                    /\ ~ ramp_entry ncolors j c)
    /\ (r = FIC_MINISBLACK <->
        minisblack = true
        /\ forall j c, i <= j < i + Z.of_nat n -> palette b !! Z.to_nat j = Some c ->
                       red c = green c /\ red c = blue c /\ red c = j).
Proof.
  revert i minisblack. induction n as [|n IH]; intros i mb Hi Hall.
  - cbn. exists (if mb then FIC_MINISBLACK else FIC_MINISWHITE).
    split; [reflexivity|]. split.
    + split; [destruct mb; discriminate|]. intros (j & c & Hj & _). lia.
    + split; [destruct mb; [split; [done | intros; lia] | discriminate]|].
      intros [-> _]. reflexivity.
  - destruct (Hall i ltac:(lia)) as [c Hc].
    assert (Hrest : entries_from b (i + 1) n) by (intros j Hj; apply Hall; lia).
    cbn [grey_ramp_scan]. rewrite (bind_run _ _ _ _ _ (palette_entry_run i c s Hi Hc)).
    destruct (negb (red c =? green c) || negb (red c =? blue c)) eqn:Hgrey.
    { exists FIC_PALETTE. split; [reflexivity|]. split.
      - split; [|reflexivity]. intros _. exists i, c. split; [lia|]. split; [exact Hc|].
        intros (Hg & Hb & _). rewrite <- Hg, <- Hb, !Z.eqb_refl in Hgrey. discriminate.
      - split; [discriminate|]. intros [_ Hfwd].
        destruct (Hfwd i c ltac:(lia) Hc) as (Hg & Hb & _).
        rewrite <- Hg, <- Hb, !Z.eqb_refl in Hgrey. discriminate. }
    apply orb_false_iff in Hgrey as [Hg Hb].
    apply negb_false_iff, Z.eqb_eq in Hg, Hb.
    destruct (negb (red c =? i)) eqn:Hfwd.
    + apply negb_true_iff, Z.eqb_neq in Hfwd.
      destruct (negb (ncolors - i - 1 =? red c)) eqn:Hrev.
      * apply negb_true_iff, Z.eqb_neq in Hrev.
        exists FIC_PALETTE. split; [reflexivity|]. split.
        -- split; [|reflexivity]. intros _. exists i, c. split; [lia|]. split; [exact Hc|].
           intros (_ & _ & [?|?]); lia.
        -- split; [discriminate|]. intros [_ Hf].
           destruct (Hf i c ltac:(lia) Hc) as (_ & _ & ?). lia.
      * apply negb_false_iff, Z.eqb_eq in Hrev.
        destruct (IH (i + 1) false ltac:(lia) Hrest) as (r & Hr & Hpal & Hblack).
        exists r. split; [exact Hr|]. split.
        -- rewrite Hpal. split.
           ++ intros (j & c' & Hj & Hc' & Hbad). exists j, c'. split; [lia | done].
           ++ intros (j & c' & Hj & Hc' & Hbad). exists j, c'.
              split; [|done]. destruct (Z.eq_dec j i) as [->|]; [|lia].
              exfalso. apply Hbad. rewrite Hc in Hc'. inversion Hc'; subst c'.
              split; [done|]. split; [done|]. right. lia.
        -- rewrite Hblack. split; [intros [? _]; discriminate|].
           intros [_ Hf]. destruct (Hf i c ltac:(lia) Hc) as (_ & _ & ?). lia.
    + apply negb_false_iff, Z.eqb_eq in Hfwd.
      destruct (IH (i + 1) mb ltac:(lia) Hrest) as (r & Hr & Hpal & Hblack).
      exists r. split; [exact Hr|]. split.
      * rewrite Hpal. split.
        -- intros (j & c' & Hj & Hc' & Hbad). exists j, c'. split; [lia | done].
        -- intros (j & c' & Hj & Hc' & Hbad). exists j, c'.
           split; [|done]. destruct (Z.eq_dec j i) as [->|]; [|lia].
           exfalso. apply Hbad. rewrite Hc in Hc'. inversion Hc'; subst c'.
           split; [done|]. split; [done|]. left. exact Hfwd.
      * rewrite Hblack. split.
        -- intros [-> Hf]. split; [reflexivity|]. intros j c' Hj Hc'.
           destruct (Z.eq_dec j i) as [->|]; [|apply Hf; [lia | done]].
           rewrite Hc in Hc'. inversion Hc'; subst c'. done.
        -- intros [-> Hf]. split; [reflexivity|]. intros j c' Hj Hc'.
           apply Hf; [lia | done].
Qed.
End GreyRamp.

Lemma grey_ramp_scan_range (b : BLOCK) (ncolors : Z) (n : nat) (i : Z)
    (minisblack : bool) (s : state) (r : FREE_IMAGE_COLOR_TYPE) (s' : state) :
  grey_ramp_scan b ncolors n i minisblack s = Some (r, s') ->
  r = FIC_PALETTE \/ r = FIC_MINISBLACK \/ r = FIC_MINISWHITE.
Proof.
  revert i minisblack s. induction n as [|n IH]; intros i mb s; cbn [grey_ramp_scan].
  - intros H. apply mret_inv in H. inversion H. destruct mb; auto.
  - intros H. apply bind_inv in H as (c & s1 & _ & H).
    repeat inv_M_step; auto; eapply IH; eassumption.
Qed.

(** The classifier on a live generic bitmap of 4 or 8 bits per pixel
    whose used palette entries are all there: palette-indexed exactly
    when some used entry is not grey or is at neither of its two ramp
    places, min-is-black exactly when every used entry is at its place
    in the forward ramp, min-is-white in every other case, which
    includes the palettes that mix the two ramps. *)
Lemma GetColorType2_palette (P : platform) (scan_alpha : bool) (s : state)
    (a d : loc) (b : BLOCK) :
  bitmap_at s a d b -> type (fih b) = FIT_BITMAP ->
  biBitCount (bih b) = 4 \/ biBitCount (bih b) = 8 ->
  entries_from b 0 (Z.to_nat (s32 (biClrUsed (bih b)))) ->
  exists r, FreeImage_GetColorType2 P (Some a) scan_alpha s = Some (r, s)
    /\ (r = FIC_PALETTE <->
        exists j c, 0 <= j < s32 (biClrUsed (bih b)) /\ palette b !! Z.to_nat j = Some c
                    /\ ~ ramp_entry (s32 (biClrUsed (bih b))) j c)
    /\ (r = FIC_MINISBLACK <->
        forall j c, 0 <= j < s32 (biClrUsed (bih b)) ->
                    palette b !! Z.to_nat j = Some c -> grey_level j c)
    /\ (r = FIC_PALETTE \/ r = FIC_MINISBLACK \/ r = FIC_MINISWHITE).
Proof.
  intros Hb Ht Hbpp Hall.
  set (ncolors := s32 (biClrUsed (bih b))) in *.
  destruct (grey_ramp_scan_result b ncolors (Z.to_nat ncolors) 0 true s ltac:(lia) Hall)
    as (r & Hr & Hpal & Hblack).
  assert (Hrange : forall j, 0 <= j < 0 + Z.of_nat (Z.to_nat ncolors) <-> 0 <= j < ncolors) by lia.
  exists r. split.
  - unfold FreeImage_GetColorType2.
    rewrite (bind_run _ _ _ _ _ (GetImageType_run _ _ _ _ Hb)).
    rewrite (bind_run _ _ _ _ _ (GetICCProfile_run _ _ _ _ Hb)). rewrite Ht.
    rewrite (bind_run _ _ s s a) by reflexivity.
    rewrite (read_block_run _ _ _ _ _ Hb).
    rewrite (bind_run _ _ _ _ _ (GetBPP_run _ _ _ _ Hb)).
    assert (Hcase : (biBitCount (bih b) =? 1) = false
                    /\ ((biBitCount (bih b) =? 4) || (biBitCount (bih b) =? 8)) = true)
      by (destruct Hbpp as [-> | ->]; split; reflexivity).
    destruct Hcase as [-> ->]. unfold classify_palette.
    rewrite (bind_run _ _ _ _ _ (GetColorsUsed_run _ _ _ _ Hb)). exact Hr.
  - split; [|split].
    + rewrite Hpal. split; intros (j & c & Hj & Hc & Hbad); exists j, c;
        (split; [apply Hrange, Hj | done]).
    + rewrite Hblack. unfold grey_level. split.
      * intros [_ Hf] j c Hj Hc. destruct (Hf j c ltac:(lia) Hc) as (? & ? & ?).
        repeat split; congruence.
      * intros Hf. split; [reflexivity|]. intros j c Hj Hc.
        destruct (Hf j c ltac:(lia) Hc) as (? & ? & ?). repeat split; congruence.
    + eapply grey_ramp_scan_range, Hr.
Qed.

(** C1. A 4-bit generic bitmap whose sixteen palette entries are all
    grey, the first at its place in the forward ramp and the fifteen
    others at their places in the reversed ramp: neither ramp is
    complete, and the classifier answers min-is-white, not
    palette-indexed. *)
Theorem C1_mixed_grey_palette_is_min_is_white :
  mixed_grey_bitmap = Some (Some 1%positive, final_state mixed_grey_bitmap)
  /\ FreeImage_GetBPP (Some 1%positive) (final_state mixed_grey_bitmap)
     = Some (4, final_state mixed_grey_bitmap)
  /\ FreeImage_GetColorsUsed (Some 1%positive) (final_state mixed_grey_bitmap)
     = Some (16, final_state mixed_grey_bitmap)
  /\ Forall (fun c => red c = green c /\ red c = blue c) mixed_grey_palette
  /\ Forall2 (fun i c => red c = i \/ red c = 16 - 1 - i) (seqZ 0 16) mixed_grey_palette
  /\ ~ Forall2 (fun i c => red c = i) (seqZ 0 16) mixed_grey_palette
  /\ ~ Forall2 (fun i c => red c = 16 - 1 - i) (seqZ 0 16) mixed_grey_palette
  /\ FreeImage_GetColorType2 LP64 (Some 1%positive) true (final_state mixed_grey_bitmap)
     = Some (FIC_MINISWHITE, final_state mixed_grey_bitmap).
Proof.
  split; [vm_compute; reflexivity|].
  split; [vm_compute; reflexivity|].
  split; [vm_compute; reflexivity|].
  split; [apply (bool_decide_unpack _); vm_compute; exact I|].
  split; [apply (bool_decide_unpack _); vm_compute; exact I|].
  split; [apply (bool_decide_unpack _); vm_compute; exact I|].
  split; [apply (bool_decide_unpack _); vm_compute; exact I|].
  vm_compute. reflexivity.
Qed.

(** ** Metadata store: a malformed tag *)

(** C2. On a new bitmap, which has no metadata model, setting a tag
    whose count times element width differs from its length (whatever
    the element widths are) returns false and hands one message to the
    sink; but the metadata map, empty before the call, holds afterwards
    an entry for the model, with an empty tag map. *)
Theorem C2_malformed_tag_creates_model (width : Z -> Z) (tag_id : string -> Z) :
  let E := {| target := LP64; FreeImage_TagDataWidth := width;
              TagLib_getTagID_IPTC := tag_id |} in
  exists s s',
    before_malformed_tag E = Some (Some 1%positive, Some 4%positive, s)
    /\ u32 (tag_count malformed_tag * width (tag_type malformed_tag))
       <> tag_length malformed_tag
    /\ metadata_of s 1%positive = Some ∅
    /\ set_malformed_tag E = Some (false, s')
    /\ messages s = [] /\ messages s' = [invalid_count_message "k"]
    /\ metadata_of s' 1%positive = Some {[ FIMD_COMMENTS := Some 5%positive ]}
    /\ mem s' !! 5%positive = Some (CTagMap ∅).
Proof.
  intros E. eexists _, _.
  split; [vm_compute; reflexivity|].
  split; [vm_compute; discriminate|].
  split; [vm_compute; reflexivity|].
  split; [vm_compute; reflexivity|].
  split; [reflexivity|].
  split; [vm_compute; reflexivity|].
  split; vm_compute; reflexivity.
Qed.

(** ** Thumbnail *)

(** C10. Setting as thumbnail the very handle that is the current
    thumbnail of a live bitmap returns true and changes nothing: no
    unload, no clone, the same state. *)
Theorem C10_set_current_thumbnail_is_noop (E : environment) (fuel : nat)
    (s : state) (dib d : loc) (b : BLOCK) :
  bitmap_at s dib d b ->
  FreeImage_SetThumbnail E fuel (Some dib) (thumbnail (fih b)) s = Some (true, s).
Proof.
  intros Hb. unfold FreeImage_SetThumbnail, SetThumbnail_with.
  rewrite (bind_run _ _ _ _ _ (GetThumbnail_run _ _ _ _ Hb)).
  rewrite decide_True by reflexivity. reflexivity.
Qed.

(** A bitmap whose thumbnail is the clone at address 7. *)
Lemma C10_set_current_thumbnail_is_noop_witness :
  FreeImage_GetThumbnail (Some 1%positive) (final_state bitmap_with_thumbnail)
    = Some (Some 7%positive, final_state bitmap_with_thumbnail)
  /\ FreeImage_SetThumbnail example_environment 0 (Some 1%positive) (Some 7%positive)
       (final_state bitmap_with_thumbnail)
     = Some (true, final_state bitmap_with_thumbnail).
Proof.
  assert (Hb : exists b, bitmap_at (final_state bitmap_with_thumbnail) 1%positive 2%positive b
                         /\ thumbnail (fih b) = Some 7%positive).
  { eexists. split; [split; vm_compute; reflexivity | vm_compute; reflexivity]. }
  destruct Hb as (b & Hb & Ht). split.
  - pose proof (GetThumbnail_run _ _ _ _ Hb) as Hg. rewrite Ht in Hg. exact Hg.
  - rewrite <- Ht. exact (C10_set_current_thumbnail_is_noop _ _ _ _ _ _ Hb).
Defined.

(** ** Metadata store: clone *)

Lemma closed_metadata (s : state) (a : loc) (M : gmap Z ptr) (m : Z) (tm : loc) :
  closed s -> mem s !! a = Some (CMetadata M) -> M !! m = Some (Some tm) ->
  is_Some (mem s !! tm).
Proof.
  intros Hc Ha Hm. apply elem_of_dom.
  exact (map_Forall_lookup_1 _ _ _ _ (map_Forall_lookup_1 _ _ _ _ Hc Ha) Hm).
Qed.

Lemma closed_tagmap (s : state) (a : loc) (T : gmap string ptr) (k : string) (t : loc) :
  closed s -> mem s !! a = Some (CTagMap T) -> T !! k = Some (Some t) ->
  is_Some (mem s !! t).
Proof.
  intros Hc Ha Hk. apply elem_of_dom.
  exact (map_Forall_lookup_1 _ _ _ _ (map_Forall_lookup_1 _ _ _ _ Hc Ha) Hk).
Qed.

Lemma old_decay_refl (dmp : loc) (s : state) : old_decay dmp s s.
Proof. split; [auto | split; reflexivity]. Qed.

(** A live object of [s] that existed in [s0] is as it was. *)
Lemma old_decay_live (dmp : loc) (s0 s : state) (a : loc) (c0 c : cell) :
  old_decay dmp s0 s -> mem s0 !! a = Some c0 -> a <> dmp ->
  mem s !! a = Some c -> c <> Freed -> c0 = c.
Proof.
  intros (H & _ & _) H0 Hne Hs Hlive.
  destruct (H a c0 H0 Hne) as [H1|H1]; congruence.
Qed.

Lemma new_kept_refl (s0 s : state) : new_kept s0 s s.
Proof. split; auto. Qed.

Lemma new_kept_trans (s0 s1 s2 s3 : state) :
  dom (mem s0) ⊆ dom (mem s1) -> dom (mem s1) ⊆ dom (mem s2) ->
  new_kept s0 s1 s2 -> new_kept s0 s2 s3 -> new_kept s0 s1 s3.
Proof.
  intros _ _ [H1 F1] [H2 F2]. split.
  - intros a c Hn Ha. apply H2; [exact Hn|]. by apply H1.
  - intros a Ha. by apply F2, F1.
Qed.

Section CloneMetadataStep.
Context (E : environment) (s0 : state) (dst dd : loc) (db : BLOCK) (dmp : loc)
  (DMD0 : gmap Z ptr).
Context (Hb : bitmap_at s0 dst dd db) (Hmd : metadata (fih db) = Some dmp)
  (Hdmp : mem s0 !! dmp = Some (CMetadata DMD0)) (Hclosed : closed s0).

(** The destination bitmap, wherever it is still live, is as in [s0]. *)
Lemma old_decay_bitmap (s : state) (d : loc) (b : BLOCK) :
  old_decay dmp s0 s -> bitmap_at s dst d b -> d = dd /\ b = db.
Proof.
  intros Hod [Ha Hd]. destruct Hb as [Ha0 Hd0].
  assert (Hw : CWrapper (Some dd) = CWrapper (Some d)).
  { eapply (old_decay_live dmp s0 s dst); try eassumption; [congruence | done]. }
  inversion Hw; subst d. split; [reflexivity|].
  assert (Hc : CBlock db = CBlock b).
  { eapply (old_decay_live dmp s0 s dd); try eassumption; [congruence | done]. }
  by inversion Hc.
Qed.

(** The optional destruction of the destination model inside one turn
    of the loop. *)
Lemma destroy_in_loop (s1 : state) (DMD1 : gmap Z ptr) (m : Z) (u : unit) (s1' : state) :
  old_decay dmp s0 s1 ->
  mem s1 !! dmp = Some (CMetadata DMD1) ->
  DMD1 !! m = DMD0 !! m ->
  (if is_null (DMD1 !! m) then mret tt
   else _ ← FreeImage_SetMetadata E m (Some dst) None None; mret tt) s1 = Some (u, s1') ->
  (forall a c, mem s1 !! a = Some c -> a <> dmp ->
     mem s1' !! a = Some c \/ (mem s1' !! a = Some Freed /\ is_Some (mem s0 !! a) /\ c <> Freed))
  /\ dom (mem s1') = dom (mem s1)
  /\ messages s1' = messages s1
  /\ (exists DMD1', mem s1' !! dmp = Some (CMetadata DMD1')
        /\ forall m', m' <> m -> DMD1' !! m' = DMD1 !! m')
  /\ (forall tm_old, DMD0 !! m = Some (Some tm_old) -> model_released s0 s1' tm_old).
Proof.
  intros Hod Hd1 Hm H.
  assert (Hnop : s1' = s1 -> (forall tm_old, DMD0 !! m <> Some (Some tm_old)) ->
    (forall a c, mem s1 !! a = Some c -> a <> dmp ->
       mem s1' !! a = Some c \/ (mem s1' !! a = Some Freed /\ is_Some (mem s0 !! a) /\ c <> Freed))
    /\ dom (mem s1') = dom (mem s1)
    /\ messages s1' = messages s1
    /\ (exists DMD1', mem s1' !! dmp = Some (CMetadata DMD1')
          /\ forall m', m' <> m -> DMD1' !! m' = DMD1 !! m')
    /\ (forall tm_old, DMD0 !! m = Some (Some tm_old) -> model_released s0 s1' tm_old)).
  { intros -> Hno. split; [auto|]. split; [reflexivity|]. split; [reflexivity|].
    split; [eauto|]. intros tm_old Ho. by destruct (Hno tm_old). }
  destruct (DMD1 !! m) as [q|] eqn:Hq; cbn [is_null] in H.
  2: { apply mret_inv in H. apply Hnop; [congruence|]. intros ? Hx. rewrite <- Hm in Hx. discriminate Hx. }
  apply bind_inv in H as (r & s2 & H & Hret). apply mret_inv in Hret.
  assert (s2 = s1') by congruence. subst s2. clear Hret.
  assert (Hlive : bitmap_at s1 dst dd db).
  { pose proof H as H'. unfold FreeImage_SetMetadata in H'.
    apply bind_inv in H' as ([d b] & s2 & Hblk & _).
    apply block_of_inv in Hblk as [_ Hblk].
    destruct (old_decay_bitmap _ _ _ Hod Hblk) as [-> ->]. exact Hblk. }
  destruct (destroy_model_inv _ _ _ _ _ _ _ _ _ _ Hlive Hmd Hd1 H) as [_ Hdes].
  rewrite Hq in Hdes. destruct q as [tm_old|].
  2: { apply Hnop; [exact Hdes|]. intros ? Hx. rewrite <- Hm in Hx. discriminate Hx. }
  clear Hnop.
  destruct Hdes as (T & HT & Hd1' & Htm & Htags & Hframe & Hdom & Hg).
  assert (Hold : mem s0 !! tm_old = Some (CTagMap T)).
  { destruct (closed_metadata _ _ _ _ _ Hclosed Hdmp (eq_sym Hm)) as [c0 Hc0].
    rewrite Hc0. f_equal.
    eapply (old_decay_live dmp s0 s1 tm_old); try eassumption; [congruence | done]. }
  split; [|split; [exact Hdom | split; [exact Hg | split]]].
  - intros a c Ha Hne.
    destruct (decide (a = tm_old)) as [->|Hne2].
    { right. split; [exact Htm|]. split; [eauto | congruence]. }
    destruct (decide (map_Exists (fun _ p => p = Some a) T)) as [(k & p & Hk & ->)|Hnot].
    { right. destruct (Htags k a Hk) as ([c' Hc'] & Hf). split; [exact Hf|].
      split; [by eapply closed_tagmap | congruence]. }
    left. rewrite Hframe; [exact Ha | exact Hne | exact Hne2 |].
    intros k Hk. apply Hnot. exists k, (Some a). done.
  - exists (delete m DMD1). split; [exact Hd1'|].
    intros m' Hne. by apply lookup_delete_ne.
  - intros tm_old' Ho. rewrite <- Hm in Ho. inversion Ho; subst tm_old'.
    split; [exact Htm|]. intros T' k t HT' Hk. rewrite Hold in HT'. inversion HT'; subst T'.
    by destruct (Htags k t Hk).
Qed.

(** One turn of the model loop. *)
Lemma clone_model_step (s1 : state) (DMD1 : gmap Z ptr) (m : Z) (p : ptr) (u : unit)
    (s2 : state) :
  old_decay dmp s0 s1 ->
  mem s1 !! dmp = Some (CMetadata DMD1) ->
  DMD1 !! m = DMD0 !! m ->
  (forall tm, p = Some tm -> is_Some (mem s0 !! tm)) ->
  clone_model E (Some dst) dmp (m, p) s1 = Some (u, s2) ->
  old_decay dmp s0 s2
  /\ new_kept s0 s1 s2
  /\ exists DMD2, mem s2 !! dmp = Some (CMetadata DMD2)
       /\ (forall m', m' <> m -> DMD2 !! m' = DMD1 !! m')
       /\ match p with
          | Some tm_s =>
              if m =? FIMD_ANIMATION then DMD2 !! m = DMD1 !! m
              else model_copied s0 s2 DMD0 m tm_s (DMD2 !! m)
          | None => DMD2 !! m = DMD1 !! m
          end.
Proof.
  intros Hod Hd1 Hm Hsrc H. unfold clone_model in H. cbn [fst snd] in H.
  assert (Hnop : s2 = s1 ->
    old_decay dmp s0 s2 /\ new_kept s0 s1 s2
    /\ exists DMD2, mem s2 !! dmp = Some (CMetadata DMD2)
         /\ (forall m', m' <> m -> DMD2 !! m' = DMD1 !! m')
         /\ DMD2 !! m = DMD1 !! m).
  { intros ->. split; [exact Hod|]. split; [apply new_kept_refl|]. eauto. }
  destruct (m =? FIMD_ANIMATION) eqn:Hanim.
  { apply mret_inv in H. destruct Hnop as (? & ? & DMD2 & ? & ? & ?); [congruence|].
    split; [done|]. split; [done|]. exists DMD2. destruct p; done. }
  destruct p as [tm_s|].
  2: { apply mret_inv in H. apply Hnop. congruence. }
  clear Hnop.
  apply bind_inv in H as (MD & s1a & H1 & H). apply load_metadata_inv in H1 as [-> HMD].
  rewrite Hd1 in HMD. inversion HMD; subst MD. clear HMD.
  apply bind_inv in H as (u1 & s1' & Hdes & H).
  destruct (destroy_in_loop _ _ _ _ _ Hod Hd1 Hm Hdes)
    as (Hda & Hdom & Hg & (DMD1' & Hd1' & Hother) & Hrel).
  destruct (copy_model_inv _ _ _ _ _ _ _ Hd1' H)
    as (tm_d & T & T_d & Hnew & Hd2 & Htd & Hsb & Hcopy & HT).
  destruct Hod as (Hod & Hod_dom & Hod_g).
  destruct Hsb as (Hsb & Hsb_dom & Hsb_g).
  assert (Hdmp0 : forall a c, mem s0 !! a = Some c -> a <> dmp ->
                    mem s1' !! a = Some c \/ mem s1' !! a = Some Freed).
  { intros a c Ha Hne. destruct (Hod a c Ha Hne) as [Ha1|Ha1];
      destruct (Hda _ _ Ha1 Hne) as [?|(? & _)]; auto. }
  assert (Hdom0 : forall a, is_Some (mem s0 !! a) -> is_Some (mem s1' !! a)).
  { intros a Ha. apply elem_of_dom. rewrite Hdom. apply Hod_dom. by apply elem_of_dom. }
  assert (Hfresh0 : forall a, mem s1' !! a = None -> mem s0 !! a = None).
  { intros a Ha. destruct (mem s0 !! a) eqn:E0; [|done].
    destruct (Hdom0 a ltac:(eauto)) as [? ?]. congruence. }
  assert (Hlive0 : forall a c, is_Some (mem s0 !! a) -> mem s1' !! a = Some c ->
                     c <> Freed -> (forall M, c <> CMetadata M) -> mem s0 !! a = Some c).
  { intros a c [c0 Hc0] Hc Hl Hnm. assert (a <> dmp) by (intros ->; apply (Hnm DMD1'); congruence).
    destruct (Hdmp0 a c0 Hc0 ltac:(done)); congruence. }
  split; [|split].
  - split; [|split].
    + intros a c Ha Hne. destruct (Hdmp0 a c Ha Hne) as [Hx|Hx]; [left | right];
        by apply Hsb.
    + rewrite Hdom in Hsb_dom. set_solver.
    + congruence.
  - split.
    + intros a c Hn Ha. assert (Hne : a <> dmp) by (intros ->; congruence).
      apply Hsb; [|exact Hne].
      destruct (Hda _ _ Ha Hne) as [?|(_ & [? ?] & _)]; [done | congruence].
    + intros a Ha. assert (Hne : a <> dmp) by (intros ->; congruence).
      apply Hsb; [|exact Hne]. destruct (Hda _ _ Ha Hne) as [?|(? & _)]; done.
  - exists (<[m := Some tm_d]> DMD1'). split; [exact Hd2|]. split.
    + intros m' Hne. rewrite lookup_insert_ne by done. by apply Hother.
    + rewrite lookup_insert_eq.
      assert (HTs : mem s0 !! tm_s = Some (CTagMap T)).
      { apply Hlive0; [by apply Hsrc | apply HT, Hdom0; by apply Hsrc | done | done]. }
      exists tm_d, T, T_d. split; [reflexivity|]. split; [by apply Hfresh0|].
      split; [exact HTs|]. split; [exact Htd|]. split.
      * intros k. specialize (Hcopy k). destruct (T !! k) as [q|]; [|exact Hcopy].
        destruct Hcopy as (q' & Hq' & Hcl). exists q'. split; [exact Hq'|].
        unfold clone_of in *. destruct q as [t|]; [|exact Hcl].
        destruct Hcl as (t' & c & -> & Hn & Hc & Hs). exists t', c.
        split; [reflexivity|]. split; [by apply Hfresh0|]. split; [exact Hc|].
        intros Ht. apply Hlive0; [exact Ht | apply Hs, Hdom0, Ht | done | done].
      * intros tm_old Ho. destruct (Hrel tm_old Ho) as [Hf Hft]. split.
        -- apply Hsb; [exact Hf|]. intros ->. congruence.
        -- intros T' k t HT' Hk. apply Hsb; [by eapply Hft|]. intros ->.
           pose proof (Hft _ _ _ HT' Hk). congruence.
Qed.
End CloneMetadataStep.

Lemma clone_of_kept (s0 s1 s2 : state) (p p' : ptr) :
  new_kept s0 s1 s2 -> clone_of s0 s1 p p' -> clone_of s0 s2 p p'.
Proof.
  intros [Hk _]. unfold clone_of. destruct p as [t|]; [|done].
  intros (t' & c & -> & Hn & Hc & Hs). exists t', c. eauto 10.
Qed.

Lemma model_copied_kept (s0 s1 s2 : state) (DMD0 : gmap Z ptr) (m : Z) (tm : loc)
    (e : option ptr) :
  new_kept s0 s1 s2 -> model_copied s0 s1 DMD0 m tm e -> model_copied s0 s2 DMD0 m tm e.
Proof.
  intros Hk (tm_d & T_s & T_d & He & Hn & Hs & Hd & Hcopy & Hrel).
  exists tm_d, T_s, T_d. split; [exact He|]. split; [exact Hn|]. split; [exact Hs|].
  split; [by apply Hk|]. split.
  - intros k. specialize (Hcopy k). destruct (T_s !! k); [|exact Hcopy].
    destruct Hcopy as (p' & ? & ?). exists p'. split; [done|]. by eapply clone_of_kept.
  - intros tm_old Ho. destruct (Hrel tm_old Ho) as [Hf Hft]. split; [by apply Hk|].
    intros T k t HT Hkt. apply Hk. by eapply Hft.
Qed.

(** The model loop of [FreeImage_CloneMetadata]: the models of the
    source other than the animation model are copied over, the other
    entries of the destination map stay. *)
Lemma clone_models_inv (E : environment) (s0 : state) (dst dd : loc) (db : BLOCK)
    (dmp smp : loc) (DMD0 SMD : gmap Z ptr) (u : unit) (s : state) :
  bitmap_at s0 dst dd db -> metadata (fih db) = Some dmp ->
  mem s0 !! dmp = Some (CMetadata DMD0) -> mem s0 !! smp = Some (CMetadata SMD) ->
  closed s0 ->
  forM (map_to_list SMD) (clone_model E (Some dst) dmp) s0 = Some (u, s) ->
  old_decay dmp s0 s
  /\ exists DMD, mem s !! dmp = Some (CMetadata DMD)
       /\ (forall m, m = FIMD_ANIMATION \/ SMD !! m = None \/ SMD !! m = Some None ->
                     DMD !! m = DMD0 !! m)
       /\ (forall m tm, m <> FIMD_ANIMATION -> SMD !! m = Some (Some tm) ->
                        model_copied s0 s DMD0 m tm (DMD !! m)).
Proof.
  intros Hb Hmd Hdmp Hsmp Hclosed Hrun.
  set (Inv := fun (pre : list (Z * ptr)) (s : state) =>
    old_decay dmp s0 s
    /\ exists DMD, mem s !! dmp = Some (CMetadata DMD)
         /\ (forall m, (forall tm, (m, Some tm) ∈ pre -> m = FIMD_ANIMATION) ->
                       DMD !! m = DMD0 !! m)
         /\ (forall m tm, (m, Some tm) ∈ pre -> m <> FIMD_ANIMATION ->
                          model_copied s0 s DMD0 m tm (DMD !! m))).
  assert (Hinv : Inv (map_to_list SMD) s).
  { eapply (forM_invariant _ Inv); [exact Hrun | |].
    - split; [apply old_decay_refl|]. exists DMD0. split; [exact Hdmp|].
      split; [done|]. intros m tm Hin. by apply elem_of_nil in Hin.
    - intros pre [m p] post s1 u1 s2 Hl (Hod & DMD1 & Hd1 & Hkeep & Hcop) Hstep.
      assert (Hnd : NoDup (pre ++ (m, p) :: post).*1)
        by (rewrite <- Hl; apply NoDup_fst_map_to_list).
      assert (Hfresh : forall q, (m, q) ∉ pre).
      { intros q Hq. rewrite fmap_app in Hnd. apply NoDup_app in Hnd as (_ & Hnd & _).
        apply (Hnd m); [|cbn; left].
        apply list_elem_of_fmap. by exists (m, q). }
      assert (Hsrc : forall tm, p = Some tm -> is_Some (mem s0 !! tm)).
      { intros tm ->. eapply (closed_metadata s0 smp SMD m tm); [done | done |].
        apply elem_of_map_to_list. rewrite Hl. apply elem_of_app. right. left. }
      assert (Hm : DMD1 !! m = DMD0 !! m).
      { apply Hkeep. intros tm Hin. by destruct (Hfresh (Some tm)). }
      destruct (clone_model_step E s0 dst dd db dmp DMD0 Hb Hmd Hdmp Hclosed
                  s1 DMD1 m p u1 s2 Hod Hd1 Hm Hsrc Hstep)
        as (Hod2 & Hkept & DMD2 & Hd2 & Hother & Hthis).
      split; [exact Hod2|]. exists DMD2. split; [exact Hd2|]. split.
      + intros m' Hm'. destruct (decide (m' = m)) as [->|Hne].
        * rewrite <- Hm. destruct p as [tm|]; [|exact Hthis].
          destruct (m =? FIMD_ANIMATION) eqn:Ha; [exact Hthis|].
          apply Z.eqb_neq in Ha. destruct Ha. apply (Hm' tm).
          apply elem_of_app. right. by apply list_elem_of_singleton.
        * rewrite (Hother m' Hne). apply Hkeep. intros tm Hin. apply (Hm' tm).
          apply elem_of_app. by left.
      + intros m' tm Hin Hna. apply elem_of_app in Hin as [Hin|Hin].
        * assert (Hne : m' <> m) by (intros ->; by destruct (Hfresh (Some tm))).
          rewrite (Hother m' Hne). eapply model_copied_kept; [exact Hkept|].
          by apply Hcop.
        * apply list_elem_of_singleton in Hin. inversion Hin; subst m' p.
          apply Z.eqb_neq in Hna. by rewrite Hna in Hthis. }
  destruct Hinv as (Hod & DMD & Hd & Hkeep & Hcop).
  split; [exact Hod|]. exists DMD. split; [exact Hd|]. split.
  - intros m Hm. apply Hkeep. intros tm Hin. apply elem_of_map_to_list in Hin.
    destruct Hm as [?|[Hm|Hm]]; [done | congruence | congruence].
  - intros m tm Hna Hm. apply Hcop; [|exact Hna]. by apply elem_of_map_to_list.
Qed.

Lemma u32_s32 (x : Z) : u32 (s32 x) = u32 x.
Proof.
  unfold s32, u32, wrap. cbv zeta.
  assert (0 <= x mod 2 ^ 32 < 2 ^ 32) by (apply Z.mod_pos_bound; lia).
  destruct (Z.ltb_spec (x mod 2 ^ 32) (2 ^ 31)).
  - apply Z.mod_mod. lia.
  - replace (x mod 2 ^ 32 - 2 ^ 32) with (x mod 2 ^ 32 + (-1) * 2 ^ 32) by lia.
    rewrite Z.mod_add by lia. apply Z.mod_mod. lia.
Qed.

(** A model copy is not affected by writes to blocks. *)
Lemma model_copied_blocks (s0 s1 s2 : state) (DMD0 : gmap Z ptr) (m : Z) (tm : loc)
    (e : option ptr) :
  (forall a c, mem s1 !! a = Some c -> (forall b, c <> CBlock b) -> mem s2 !! a = Some c) ->
  model_copied s0 s1 DMD0 m tm e -> model_copied s0 s2 DMD0 m tm e.
Proof.
  intros Hk (tm_d & T_s & T_d & He & Hn & Hs & Hd & Hcopy & Hrel).
  exists tm_d, T_s, T_d. split; [exact He|]. split; [exact Hn|]. split; [exact Hs|].
  split; [by apply Hk|]. split.
  - intros k. specialize (Hcopy k). destruct (T_s !! k) as [p|]; [|exact Hcopy].
    destruct Hcopy as (p' & ? & Hcl). exists p'. split; [done|].
    unfold clone_of in *. destruct p as [t|]; [|done].
    destruct Hcl as (t' & c & -> & ? & ? & ?). exists t', c.
    split; [done|]. split; [done|]. split; [by apply Hk | done].
  - intros tm_old Ho. destruct (Hrel tm_old Ho) as [Hf Hft]. split; [by apply Hk|].
    intros T k t HT Hkt. apply Hk; [by eapply Hft | done].
Qed.



(** ** Byte ranges *)

Lemma length_slice (off len : Z) (l : list Z) :
  0 <= off -> 0 <= len -> off + len <= Z.of_nat (length l) ->
  length (slice off len l) = Z.to_nat len.
Proof.
  intros Ho Hl Hb. unfold slice. rewrite length_take, length_drop. lia.
Qed.

Lemma length_splice (off : Z) (new l : list Z) :
  0 <= off -> off + Z.of_nat (length new) <= Z.of_nat (length l) ->
  length (splice off new l) = length l.
Proof.
  intros Ho Hb. unfold splice.
  rewrite !length_app, length_take, length_drop. lia.
Qed.

Lemma lookup_slice (off len : Z) (l : list Z) (k : nat) :
  slice off len l !! k
  = if decide (k < Z.to_nat len)%nat then l !! (Z.to_nat off + k)%nat else None.
Proof. unfold slice. rewrite lookup_take, lookup_drop. reflexivity. Qed.

Lemma lookup_splice (off : Z) (new l : list Z) (k : nat) :
  0 <= off -> off + Z.of_nat (length new) <= Z.of_nat (length l) ->
  splice off new l !! k
  = if decide (k < Z.to_nat off)%nat then l !! k
    else if decide (k < Z.to_nat off + length new)%nat then new !! (k - Z.to_nat off)%nat
         else l !! k.
Proof.
  intros Ho Hb. unfold splice.
  assert (Hlt : length (take (Z.to_nat off) l) = Z.to_nat off)
    by (rewrite length_take; lia).
  destruct (decide (k < Z.to_nat off)%nat) as [Hk|Hk].
  - rewrite lookup_app_l by lia. apply lookup_take_lt. lia.
  - rewrite lookup_app_r by lia. rewrite Hlt.
    destruct (decide (k < Z.to_nat off + length new)%nat) as [Hk'|Hk'].
    + rewrite lookup_app_l by lia. reflexivity.
    + rewrite lookup_app_r by lia. rewrite lookup_drop. f_equal. lia.
Qed.

(** The bytes just written are read back. *)
Lemma slice_splice_same (off : Z) (new l : list Z) :
  0 <= off -> off + Z.of_nat (length new) <= Z.of_nat (length l) ->
  slice off (Z.of_nat (length new)) (splice off new l) = new.
Proof.
  intros Ho Hb. apply list_eq. intros k.
  rewrite lookup_slice, lookup_splice by assumption.
  rewrite Nat2Z.id.
  destruct (decide (k < length new)%nat) as [Hk|Hk].
  - rewrite decide_False by lia. rewrite decide_True by lia. f_equal. lia.
  - symmetry. apply lookup_ge_None. lia.
Qed.

(** A write leaves the ranges that it does not overlap. *)
Lemma slice_splice_other (i n off : Z) (new l : list Z) :
  0 <= off -> off + Z.of_nat (length new) <= Z.of_nat (length l) ->
  0 <= i -> 0 <= n ->
  i + n <= off \/ off + Z.of_nat (length new) <= i ->
  slice i n (splice off new l) = slice i n l.
Proof.
  intros Ho Hb Hi Hn Hdis. apply list_eq. intros k.
  rewrite !lookup_slice, lookup_splice by assumption.
  destruct (decide (k < Z.to_nat n)%nat) as [Hk|Hk]; [|reflexivity].
  destruct Hdis as [Hd|Hd].
  - rewrite decide_True by lia. reflexivity.
  - rewrite decide_False by lia. rewrite decide_False by lia. reflexivity.
Qed.

Lemma slice_all (l : list Z) : slice 0 (Z.of_nat (length l)) l = l.
Proof. unfold slice. cbn. rewrite Nat2Z.id. apply firstn_all. Qed.

(** [read_bytes] in the pixel region of a block. *)
Lemma read_bytes_block (s : state) (a : loc) (b : BLOCK) (off len : Z) :
  mem s !! a = Some (CBlock b) ->
  0 <= off - pixels_at b -> 0 <= len ->
  off - pixels_at b + len <= Z.of_nat (length (pixels b)) ->
  read_bytes (Some (a, off)) len s = Some (slice (off - pixels_at b) len (pixels b), s).
Proof.
  intros Ha H1 H2 H3. unfold read_bytes.
  rewrite (bind_run _ _ s s (a, off)) by reflexivity.
  rewrite (bind_run _ _ s s (CBlock b)) by (by apply load_run).
  cbv zeta.
  destruct (Z.leb_spec 0 (off - pixels_at b)); [|lia].
  destruct (Z.leb_spec 0 len); [|lia].
  destruct (Z.leb_spec (off - pixels_at b + len) (Z.of_nat (length (pixels b)))); [|lia].
  reflexivity.
Qed.

(** A successful [read_bytes] gives as many bytes as asked for, and
    depends on the object it reads only. *)
Lemma read_bytes_inv (p : byte_ptr) (len : Z) (s : state) (l : list Z) (s' : state) :
  read_bytes p len s = Some (l, s') ->
  s' = s /\ length l = Z.to_nat len
  /\ exists a off c, p = Some (a, off) /\ mem s !! a = Some c
       /\ forall s2, mem s2 !! a = Some c -> read_bytes p len s2 = Some (l, s2).
Proof.
  unfold read_bytes. intros H.
  apply bind_inv in H as ([a off] & s1 & H1 & H).
  destruct p as [q|]; [|discriminate].
  apply mret_inv in H1. inversion H1; subst q s1. clear H1.
  apply bind_inv in H as (c & s1 & H1 & H). apply load_inv in H1 as (-> & Hc & Hf).
  destruct c as [| | b | | | | bytes]; try discriminate.
  - cbv zeta in H.
    destruct ((0 <=? off - pixels_at b) && (0 <=? len)
              && (off - pixels_at b + len <=? Z.of_nat (length (pixels b)))) eqn:Hc3;
      [|discriminate].
    apply mret_inv in H. inversion H; subst l s'. clear H.
    apply andb_true_iff in Hc3 as [Hc3 Hc2]. apply andb_true_iff in Hc3 as [Hc0 Hc1].
    apply Z.leb_le in Hc0, Hc1, Hc2.
    split; [reflexivity|]. split; [apply length_slice; lia|].
    exists a, off, (CBlock b). split; [reflexivity|]. split; [exact Hc|].
    intros s2 H2. apply read_bytes_block; assumption.
  - destruct ((0 <=? off) && (0 <=? len) && (off + len <=? Z.of_nat (length bytes))) eqn:Hc3;
      [|discriminate].
    apply mret_inv in H. inversion H; subst l s'. clear H.
    pose proof Hc3 as Hc3'.
    apply andb_true_iff in Hc3 as [Hc3 Hc2]. apply andb_true_iff in Hc3 as [Hc0 Hc1].
    apply Z.leb_le in Hc0, Hc1, Hc2.
    split; [reflexivity|]. split; [apply length_slice; lia|].
    exists a, off, (CBytes bytes). split; [reflexivity|]. split; [exact Hc|].
    intros s2 H2. unfold read_bytes.
    rewrite (bind_run _ _ s2 s2 (a, off)) by reflexivity.
    rewrite (bind_run _ _ s2 s2 (CBytes bytes)) by (by apply load_run).
    cbv beta iota. rewrite Hc3'. reflexivity.
Qed.

(** [write_bytes] in the pixel region of a block. *)
Lemma write_bytes_block_inv (a : loc) (off : Z) (new : list Z) (s : state) (u : unit)
    (s' : state) (b : BLOCK) :
  mem s !! a = Some (CBlock b) ->
  write_bytes (Some (a, off)) new s = Some (u, s') ->
  0 <= off - pixels_at b
  /\ off - pixels_at b + Z.of_nat (length new) <= Z.of_nat (length (pixels b))
  /\ mem s' = <[a := CBlock (set_pixels (splice (off - pixels_at b) new (pixels b)) b)]> (mem s)
  /\ messages s' = messages s.
Proof.
  intros Ha H. unfold write_bytes in H.
  rewrite (bind_run _ _ s s (a, off)) in H by reflexivity.
  rewrite (bind_run _ _ s s (CBlock b)) in H by (by apply load_run).
  cbv zeta in H.
  destruct ((0 <=? off - pixels_at b)
            && (off - pixels_at b + Z.of_nat (length new) <=? Z.of_nat (length (pixels b))))
    eqn:Hc; [|discriminate].
  apply andb_true_iff in Hc as [H0 H1]. apply Z.leb_le in H0, H1.
  apply store_inv in H as (_ & Hm & Hg). auto.
Qed.

(** ** The bulk copy *)

Lemma memcpy_block_inv (dst src : loc) (n : Z) (s : state) (u : unit) (s' : state)
    (sb nb : BLOCK) :
  mem s !! src = Some (CBlock sb) -> mem s !! dst = Some (CBlock nb) ->
  n <> 0 ->
  memcpy_block dst src n s = Some (u, s') ->
  pixels_at sb = pixels_at nb
  /\ 0 <= n - pixels_at nb <= Z.of_nat (length (pixels sb))
  /\ mem s' = <[dst := CBlock
                  {| fih := fih sb; bih := bih sb; palette := palette sb; masks := masks sb;
                     pixels_at := pixels_at nb;
                     pixels := splice 0 (slice 0 (n - pixels_at nb) (pixels sb)) (pixels nb) |}]>
                (mem s)
  /\ messages s' = messages s.
Proof.
  intros Hs Hd Hn H. unfold memcpy_block in H.
  apply bind_inv in H as (sb' & s1 & H1 & H). apply load_block_inv in H1 as [-> Hs'].
  apply bind_inv in H as (nb' & s1 & H1 & H). apply load_block_inv in H1 as [-> Hd'].
  rewrite Hs in Hs'. rewrite Hd in Hd'. inversion Hs'; inversion Hd'; subst sb' nb'.
  destruct (Z.eqb_spec n 0) as [|_]; [done|].
  destruct (_ && _) eqn:Hc in H; [|discriminate].
  repeat (apply andb_true_iff in Hc as [Hc ?]).
  apply store_inv in H as (_ & Hm & Hg).
  apply Z.leb_le in Hc.
  repeat match goal with
         | H : (_ <=? _) = true |- _ => apply Z.leb_le in H
         | H : (_ =? _) = true |- _ => apply Z.eqb_eq in H
         end.
  unfold block_size in *.
  split; [assumption|]. split; [lia|]. split; assumption.
Qed.

(** The copied bytes are the first bytes of the destination. *)
Lemma slice_splice_prefix (k : Z) (src dst : list Z) :
  0 <= k <= Z.of_nat (length src) ->
  slice 0 k (splice 0 (slice 0 k src) dst) = slice 0 k src.
Proof.
  intros Hk. unfold splice, slice. change (Z.to_nat 0) with 0%nat.
  rewrite !drop_0, take_0. cbn [app].
  set (X := take (Z.to_nat k) src).
  assert (HX : length X = Z.to_nat k) by (unfold X; rewrite length_take; lia).
  rewrite <- HX at 1. apply take_app_length.
Qed.

(** ** What [FreeImage_SetMetadata] touches *)

Lemma store_other (a : loc) (c0 : cell) (s : state) (u : unit) (s' : state) (y : loc) :
  store a c0 s = Some (u, s') -> y <> a -> mem s' !! y = mem s !! y.
Proof. intros H Hne. apply store_inv in H as (_ & -> & _). by apply lookup_insert_ne. Qed.

Lemma alloc_other (c0 : cell) (s : state) (a : loc) (s' : state) (y : loc) :
  alloc c0 s = Some (a, s') -> is_Some (mem s !! y) ->
  y <> a /\ mem s' !! y = mem s !! y.
Proof.
  intros H [c Hy]. apply alloc_inv in H as (Ha & -> & _).
  assert (y <> a) by (intros ->; congruence).
  split; [done | by apply lookup_insert_ne].
Qed.

(** A read of a field of a tag. *)
Lemma tag_field_inv {A : Type} (f : FITAG -> A) (tg : loc) (s : state) (v : A) (s' : state) :
  (load_tag tg ≫= fun t => mret (f t)) s = Some (v, s') ->
  s' = s /\ exists t, mem s !! tg = Some (CTag t) /\ v = f t.
Proof.
  intros H. apply bind_inv in H as (t & s1 & H1 & H). apply load_tag_inv in H1 as [-> Ht].
  apply mret_inv in H. inversion H; subst. eauto.
Qed.

(** A write to a field of a tag. *)
Lemma tag_update_inv (f : FITAG -> FITAG) (tg : loc) (s : state) (r : bool) (s' : state) :
  (load_tag tg ≫= fun t => store tg (CTag (f t));; mret true) s = Some (r, s') ->
  exists t, mem s !! tg = Some (CTag t)
    /\ mem s' !! tg = Some (CTag (f t))
    /\ forall y, y <> tg -> mem s' !! y = mem s !! y.
Proof.
  intros H. apply bind_inv in H as (t & s1 & H1 & H). apply load_tag_inv in H1 as [-> Ht].
  apply bind_inv in H as (u & s1 & H1 & H).
  apply mret_inv in H. inversion H; subst r s1. clear H.
  exists t. split; [exact Ht|].
  split; [apply store_inv in H1 as (_ & -> & _); apply lookup_insert_eq|].
  intros y Hy. eapply store_other; eassumption.
Qed.

(** [FreeImage_SetMetadata] on a live bitmap leaves every object other
    than the metadata map, the tag map of the model and its tags, and
    the caller's tag. *)
Lemma SetMetadata_frame (E : environment) (model : Z) (a d : loc) (b : BLOCK)
    (mdp : loc) (MD : gmap Z ptr) (key : option string) (tag : ptr)
    (s : state) (r : bool) (s' : state) (x : loc) (c : cell) :
  bitmap_at s a d b -> metadata (fih b) = Some mdp ->
  mem s !! mdp = Some (CMetadata MD) ->
  FreeImage_SetMetadata E model (Some a) key tag s = Some (r, s') ->
  mem s !! x = Some c -> x <> mdp -> tag <> Some x ->
  (forall tm, MD !! model = Some (Some tm) ->
     x <> tm /\ forall T k, mem s !! tm = Some (CTagMap T) -> T !! k <> Some (Some x)) ->
  mem s' !! x = Some c.
Proof.
  intros Hb Hmd HMD H Hx Hxm Hxt Hmodel.
  unfold FreeImage_SetMetadata in H.
  rewrite (read_block_run _ _ _ _ _ Hb) in H. cbv beta iota in H. rewrite Hmd in H.
  rewrite (bind_run _ _ s s mdp) in H by reflexivity.
  apply bind_inv in H as (MD' & s1 & H1 & H). apply load_metadata_inv in H1 as [-> HMD'].
  rewrite HMD in HMD'. inversion HMD'; subst MD'. clear HMD'.
  cbv zeta in H.
  destruct key as [key|].
  2:{ (* the model is destroyed *)
    destruct (MD !! model) as [[tm|]|] eqn:Hm; cbn [default] in H.
    2,3: apply mret_inv in H; inversion H; subst; exact Hx.
    destruct (Hmodel tm eq_refl) as (Hxtm & HxT).
    apply bind_inv in H as (T & s1 & H1 & H). apply load_tagmap_inv in H1 as [-> HT].
    apply bind_inv in H as (u1 & s1 & H1 & H).
    apply delete_tags_inv in H1 as (_ & Hsame & _ & _).
    apply bind_inv in H as (u2 & s2 & H2 & H).
    apply bind_inv in H as (u3 & s3 & H3 & H).
    apply mret_inv in H. inversion H; subst r s3. clear H.
    rewrite (store_other _ _ _ _ _ x H3 Hxm).
    unfold release in H2. rewrite (store_other _ _ _ _ _ x H2 Hxtm).
    rewrite Hsame; [exact Hx|].
    intros Hin. apply list_elem_of_fmap in Hin as ([k p] & Hp & Hin).
    apply elem_of_map_to_list in Hin. cbn in Hp. subst p. exact (HxT T k HT Hin). }
  destruct (is_null tag && is_null (default None (MD !! model))) eqn:Hnull.
  { apply mret_inv in H. inversion H; subst; exact Hx. }
  apply bind_inv in H as (tm & s1 & H1 & H).
  (* the tag map of the model, created when there is none *)
  assert (Htm : mem s1 !! x = Some c /\ x <> tm
                /\ forall T k, mem s1 !! tm = Some (CTagMap T) -> T !! k <> Some (Some x)).
  { destruct (MD !! model) as [[tm0|]|] eqn:Hm; cbn [default] in H1.
    - apply mret_inv in H1. inversion H1; subst tm0 s1.
      destruct (Hmodel tm eq_refl) as (Hxtm & HxT). done.
    - apply bind_inv in H1 as (tm1 & s2 & H2 & H1).
      apply bind_inv in H1 as (u3 & s3 & H3 & H1).
      apply mret_inv in H1. inversion H1; subst tm1 s3. clear H1.
      destruct (alloc_other _ _ _ _ x H2 ltac:(eauto)) as (Hne & Hx2).
      pose proof (alloc_extends _ _ _ _ H2) as (_ & _ & Hnew).
      assert (Htmne : tm <> mdp).
      { intros ->. apply alloc_inv in H2 as (Hfresh & _). congruence. }
      split; [rewrite (store_other _ _ _ _ _ x H3 Hxm), Hx2; exact Hx|].
      split; [exact Hne|].
      intros T k HT. rewrite (store_other _ _ _ _ _ tm H3 Htmne), Hnew in HT.
      inversion HT. by rewrite lookup_empty.
    - apply bind_inv in H1 as (tm1 & s2 & H2 & H1).
      apply bind_inv in H1 as (u3 & s3 & H3 & H1).
      apply mret_inv in H1. inversion H1; subst tm1 s3. clear H1.
      destruct (alloc_other _ _ _ _ x H2 ltac:(eauto)) as (Hne & Hx2).
      pose proof (alloc_extends _ _ _ _ H2) as (_ & _ & Hnew).
      assert (Htmne : tm <> mdp).
      { intros ->. apply alloc_inv in H2 as (Hfresh & _). congruence. }
      split; [rewrite (store_other _ _ _ _ _ x H3 Hxm), Hx2; exact Hx|].
      split; [exact Hne|].
      intros T k HT. rewrite (store_other _ _ _ _ _ tm H3 Htmne), Hnew in HT.
      inversion HT. by rewrite lookup_empty. }
  clear H1 Hx Hmodel HMD Hb. destruct Htm as (Hx & Hxtm & HxT).
  destruct tag as [tg|].
  2:{ (* the key is removed *)
    apply bind_inv in H as (T & s2 & H2 & H). apply load_tagmap_inv in H2 as [-> HT].
    apply bind_inv in H as (u3 & s3 & H3 & H).
    apply mret_inv in H. inversion H; subst r s3. clear H.
    destruct (T !! key) as [old|] eqn:Hold.
    - apply bind_inv in H3 as (u4 & s4 & H4 & H3).
      rewrite (store_other _ _ _ _ _ x H3 Hxtm).
      apply DeleteTag_inv in H4. destruct old as [o|]; [|by subst s4].
      destruct H4 as (_ & -> & _). rewrite lookup_insert_ne; [exact Hx|].
      intros <-. exact (HxT T key HT Hold).
    - apply mret_inv in H3. inversion H3; subst. exact Hx. }
  assert (Hxtg : x <> tg) by congruence.
  (* first check the tag *)
  unfold FreeImage_GetTagKey, FreeImage_GetTagCount, FreeImage_GetTagType,
    FreeImage_GetTagLength, FreeImage_SetTagKey, FreeImage_SetTagID in H.
  apply bind_inv in H as (k & s2 & H2 & H). apply tag_field_inv in H2 as (-> & t0 & Ht0 & _).
  apply bind_inv in H as (r3 & s3 & H3 & H).
  assert (Hkey : (exists t, mem s3 !! tg = Some (CTag t))
                 /\ forall y, y <> tg -> mem s3 !! y = mem s1 !! y).
  { destruct (decide (k = Some key)).
    - apply mret_inv in H3. inversion H3; subst. eauto.
    - apply tag_update_inv in H3 as (t & _ & Ht & Hother). eauto. }
  clear H3 Ht0. destruct Hkey as ((t3 & Ht3) & Hother3).
  apply bind_inv in H as (count & s4 & H4 & H). apply tag_field_inv in H4 as (-> & _).
  apply bind_inv in H as (ty & s4 & H4 & H). apply tag_field_inv in H4 as (-> & _).
  apply bind_inv in H as (len & s4 & H4 & H). apply tag_field_inv in H4 as (-> & _).
  destruct (negb _) in H.
  { apply bind_inv in H as (u5 & s5 & H5 & H).
    apply mret_inv in H. inversion H; subst r s5. clear H.
    unfold FreeImage_OutputMessageProc in H5. inversion H5; subst s'. cbn.
    rewrite (Hother3 x Hxtg). exact Hx. }
  apply bind_inv in H as (r5 & s5 & H5 & H).
  assert (Hid : (exists t, mem s5 !! tg = Some (CTag t))
                /\ forall y, y <> tg -> mem s5 !! y = mem s1 !! y).
  { destruct (model =? FIMD_IPTC).
    - apply tag_update_inv in H5 as (t & _ & Ht & Hother).
      split; [eauto|]. intros y Hy. rewrite (Hother y Hy). by apply Hother3.
    - apply mret_inv in H5. inversion H5; subst. eauto. }
  clear H5 Ht3 Hother3. destruct Hid as ((t5 & Ht5) & Hother5).
  (* delete existing tag, create a new tag *)
  apply bind_inv in H as (T & s6 & H6 & H). apply load_tagmap_inv in H6 as [-> HT].
  assert (Htmtg : tm <> tg) by (intros ->; congruence).
  rewrite (Hother5 tm Htmtg) in HT.
  apply bind_inv in H as (u7 & s7 & H7 & H).
  apply bind_inv in H as (cl & s8 & H8 & H).
  apply bind_inv in H as (u9 & s9 & H9 & H).
  apply mret_inv in H. inversion H; subst r s9. clear H.
  rewrite (store_other _ _ _ _ _ x H9 Hxtm).
  assert (Hx7 : mem s7 !! x = Some c).
  { apply DeleteTag_inv in H7.
    destruct (T !! key) as [[o|]|] eqn:Hold; cbn in H7.
    - destruct H7 as (_ & -> & _). rewrite lookup_insert_ne.
      + rewrite (Hother5 x Hxtg). exact Hx.
      + intros <-. exact (HxT T key HT Hold).
    - subst s7. rewrite (Hother5 x Hxtg). exact Hx.
    - subst s7. rewrite (Hother5 x Hxtg). exact Hx. }
  apply CloneTag_inv in H8 as (c8 & t8 & _ & _ & Hfresh & -> & _).
  rewrite lookup_insert_ne; [exact Hx7|]. intros <-. congruence.
Qed.

(** ** Cloning a bitmap *)

Lemma bind_unfold {A B : Type} (m : M A) (f : A -> M B) (s : state) :
  (m ≫= f) s = match m s with Some (a, s1) => f a s1 | None => None end.
Proof. unfold mbind, M_bind. destruct (m s) as [[]|]; reflexivity. Qed.

Lemma read_masks_block (s : state) (a d : loc) (b : BLOCK) :
  bitmap_at s a d b ->
  read_masks (Some a) s
  = if biCompression (bih b) =? BI_BITFIELDS
    then match masks b with Some m => Some (Some m, s) | None => None end
    else Some (None, s).
Proof.
  intros Hb. unfold read_masks.
  rewrite (bind_run _ _ _ _ _ (HasRGBMasks_run _ _ _ _ Hb)).
  destruct (biCompression (bih b) =? BI_BITFIELDS); [|reflexivity].
  rewrite (bind_run _ _ s s a) by reflexivity.
  rewrite (read_block_run _ _ _ _ _ Hb). destruct (masks b); reflexivity.
Qed.

(** The mask accessors read the element type, the info block and the
    mask words only. *)
Lemma get_mask_same (field : FREEIMAGERGBMASKS -> Z) (default : Z) (s s' : state)
    (a d a' d' : loc) (b b' : BLOCK) (v : Z) :
  bitmap_at s a d b -> bitmap_at s' a' d' b' ->
  type (fih b') = type (fih b) -> bih b' = bih b -> masks b' = masks b ->
  get_mask field default (Some a) s = Some (v, s) ->
  get_mask field default (Some a') s' = Some (v, s').
Proof.
  intros Hb Hb' Ht Hi Hm H. unfold get_mask in *.
  rewrite (bind_run _ _ _ _ _ (GetImageType_run _ _ _ _ Hb)) in H.
  rewrite (bind_run _ _ _ _ _ (GetImageType_run _ _ _ _ Hb')). rewrite Ht.
  destruct (type (fih b)); try (apply mret_inv in H; inversion H; reflexivity).
  rewrite bind_unfold, (read_masks_block _ _ _ _ Hb) in H.
  rewrite bind_unfold, (read_masks_block _ _ _ _ Hb'), Hi, Hm.
  destruct (biCompression (bih b) =? BI_BITFIELDS).
  - destruct (masks b) as [m|]; [|discriminate].
    apply mret_inv in H. inversion H. reflexivity.
  - rewrite (bind_run _ _ _ _ _ (GetBPP_run _ _ _ _ Hb)) in H.
    rewrite (bind_run _ _ _ _ _ (GetBPP_run _ _ _ _ Hb')), Hi.
    apply mret_inv in H. inversion H. reflexivity.
Qed.

Lemma describes_same (s s' : state) (a d a' d' : loc) (b b' : BLOCK) (dsc : description) :
  bitmap_at s a d b -> bitmap_at s' a' d' b' ->
  type (fih b') = type (fih b) -> bih b' = bih b -> masks b' = masks b ->
  describes s (Some a) dsc -> describes s' (Some a') dsc.
Proof.
  intros Hb Hb' Ht Hi Hm (H1 & H2 & H3 & H4 & H5 & H6 & H7).
  rewrite (GetImageType_run _ _ _ _ Hb) in H1. rewrite (GetWidth_run _ _ _ _ Hb) in H2.
  rewrite (GetHeight_run _ _ _ _ Hb) in H3. rewrite (GetBPP_run _ _ _ _ Hb) in H4.
  inversion H1; inversion H2; inversion H3; inversion H4.
  unfold describes.
  rewrite (GetImageType_run _ _ _ _ Hb'), (GetWidth_run _ _ _ _ Hb'),
    (GetHeight_run _ _ _ _ Hb'), (GetBPP_run _ _ _ _ Hb'), Ht, Hi.
  repeat split; try congruence;
    [apply (get_mask_same _ _ s s' a d a' d' b b') ..]; assumption.
Qed.

Lemma bitmap_at_inj (s : state) (a d d' : loc) (b b' : BLOCK) :
  bitmap_at s a d b -> bitmap_at s a d' b' -> d' = d /\ b' = b.
Proof.
  intros [Ha Hd] [Ha' Hd']. rewrite Ha in Ha'. inversion Ha'; subst d'.
  rewrite Hd in Hd'. inversion Hd'. done.
Qed.

Lemma bitmap_at_ne (s : state) (a d : loc) (b : BLOCK) : bitmap_at s a d b -> a <> d.
Proof. intros [Ha Hd] ->. congruence. Qed.

(** A write to the header of a live bitmap changes its block only. *)
Lemma modify_header_at (a d : loc) (b : BLOCK) (f : FREEIMAGEHEADER -> FREEIMAGEHEADER)
    (s : state) (u : unit) (s' : state) :
  bitmap_at s a d b ->
  modify_header a f s = Some (u, s') ->
  bitmap_at s' a d (set_fih (f (fih b)) b) /\ same_but d s s'.
Proof.
  intros Hb H. pose proof (bitmap_at_ne _ _ _ _ Hb) as Hne.
  apply modify_header_inv in H as (d' & b' & Hb' & Hm & Hg).
  destruct (bitmap_at_inj _ _ _ _ _ _ Hb Hb') as [-> ->].
  destruct Hb as [Ha Hd].
  split; [split|split; [|split]].
  - rewrite Hm, lookup_insert_ne by done. exact Ha.
  - rewrite Hm. apply lookup_insert_eq.
  - intros x c Hx Hxd. rewrite Hm, lookup_insert_ne by done. exact Hx.
  - rewrite Hm, dom_insert_L. set_solver.
  - exact Hg.
Qed.

Lemma same_but_bitmap_at (x : loc) (s s' : state) (a d : loc) (b : BLOCK) :
  same_but x s s' -> a <> x -> d <> x -> bitmap_at s a d b -> bitmap_at s' a d b.
Proof. intros (H & _) Ha Hd [H1 H2]. split; apply H; assumption. Qed.

(** Removing a key from a model that has no tag map does nothing. *)
Lemma SetMetadata_remove_absent (E : environment) (model : Z) (key : string) (s : state)
    (a d : loc) (b : BLOCK) (md : loc) (MD : gmap Z ptr) :
  bitmap_at s a d b -> metadata (fih b) = Some md ->
  mem s !! md = Some (CMetadata MD) -> default None (MD !! model) = None ->
  FreeImage_SetMetadata E model (Some a) (Some key) None s = Some (true, s).
Proof.
  intros Hb Hmd HMD Hno. unfold FreeImage_SetMetadata.
  rewrite (read_block_run _ _ _ _ _ Hb). cbv beta iota. rewrite Hmd.
  rewrite (bind_run _ _ s s md) by reflexivity.
  rewrite (bind_run _ _ s s MD).
  2:{ unfold load_metadata. rewrite (bind_run _ _ s s (CMetadata MD)); [reflexivity|].
      by apply load_run. }
  cbv zeta. rewrite Hno. reflexivity.
Qed.

(** [FreeImage_CreateICCProfile] on a bitmap that has no profile and no
    metadata yet: the profile slot gets the size and, in a new buffer,
    the bytes; the flags are kept. The state [s0] is an earlier one in
    which the block of the bitmap did not exist. *)
Lemma CreateICCProfile_inv (E : environment) (s0 s : state) (na nd : loc) (nb : BLOCK)
    (md : loc) (data : ptr) (size : Z) (u : unit) (s' : state) :
  extends s0 s -> mem s0 !! nd = None ->
  bitmap_at s na nd nb -> icc_data (iccProfile (fih nb)) = None ->
  metadata (fih nb) = Some md -> mem s !! md = Some (CMetadata ∅) ->
  FreeImage_CreateICCProfile E (Some na) data size s = Some (u, s') ->
  exists icc',
    bitmap_at s' na nd (set_fih (set_iccProfile icc' (fih nb)) nb)
    /\ same_but nd s s'
    /\ icc_flags icc' = icc_flags (iccProfile (fih nb))
    /\ (0 <= size -> icc_size icc' = u32 size)
    /\ (size = 0 -> icc_data icc' = None)
    /\ (0 < size ->
        exists q', icc_data icc' = Some q' /\ mem s !! q' = None
          /\ forall q l, data = Some q ->
               read_bytes (Some (q, 0)) size s0 = Some (l, s0) ->
               mem s' !! q' = Some (CBytes l)).
Proof.
  intros He Hnd Hb Hicc Hmd HMD H.
  assert (Hmdne : md <> nd) by (intros ->; destruct Hb; congruence).
  unfold FreeImage_CreateICCProfile, FreeImage_DestroyICCProfile in H.
  apply bind_inv in H as (u1 & s1 & H1 & H).
  apply bind_inv in H1 as (u2 & s2 & H2 & H1).
  rewrite (read_block_run _ _ _ _ _ Hb) in H2. cbv beta iota in H2. rewrite Hicc in H2.
  apply bind_inv in H2 as (u3 & s3 & H3 & H2).
  apply mret_inv in H3. inversion H3; subst u3 s3. clear H3.
  destruct (modify_header_at _ _ _ _ _ _ _ Hb H2) as (Hb2 & Hsb2). clear H2.
  set (nb2 := set_fih (set_icc_data None 0 (fih nb)) nb) in *.
  assert (HMD2 : mem s2 !! md = Some (CMetadata ∅)) by (by apply Hsb2).
  apply bind_inv in H1 as (r3 & s3 & H3 & H1).
  rewrite (SetMetadata_remove_absent E _ _ s2 na nd nb2 md ∅ Hb2 Hmd HMD2 eq_refl) in H3.
  inversion H3; subst r3 s3. clear H3.
  apply mret_inv in H1. inversion H1; subst u1 s1. clear H1.
  destruct (Z.eqb_spec size 0) as [Hz|Hz].
  { apply mret_inv in H. inversion H; subst u s'. clear H.
    exists (iccProfile (fih nb2)).
    split; [exact Hb2|]. split; [exact Hsb2|]. split; [reflexivity|].
    split; [intros _; subst size; reflexivity|].
    split; [reflexivity|]. lia. }
  destruct (Z.ltb_spec size 0) as [Hneg|Hpos].
  { destruct (modify_header_at _ _ _ _ _ _ _ Hb2 H) as (Hb3 & Hsb3).
    exists (iccProfile (fih nb2)).
    split; [exact Hb3|]. split; [eapply same_but_trans; eassumption|].
    split; [reflexivity|]. split; [lia|]. split; lia. }
  apply bind_inv in H as (q & s3 & H3 & H).
  destruct data as [q0|]; [|discriminate]. apply mret_inv in H3. inversion H3; subst q0 s3.
  clear H3.
  apply bind_inv in H as (bytes & s3 & H3 & H).
  apply read_bytes_inv in H3 as (-> & Hlen & (a & off & c & Hp & Hc & Hread)).
  inversion Hp; subst a off. clear Hp.
  apply bind_inv in H as (q' & s4 & H4 & H).
  apply alloc_extends in H4 as (He4 & Hq' & Hq'4).
  pose proof (extends_bitmap_at _ _ _ _ _ He4 Hb2) as Hb4.
  destruct (modify_header_at _ _ _ _ _ _ _ Hb4 H) as (Hb5 & Hsb5).
  assert (Hq'ne : q' <> nd) by (intros ->; destruct Hb2; congruence).
  exists {| icc_flags := icc_flags (iccProfile (fih nb)); icc_size := u32 size;
            icc_data := Some q' |}.
  split; [exact Hb5|].
  split.
  { eapply same_but_trans; [exact Hsb2|].
    eapply same_but_trans; [apply extends_same_but, He4 | exact Hsb5]. }
  split; [reflexivity|]. split; [reflexivity|]. split; [lia|].
  intros _. exists q'. split; [reflexivity|].
  split; [eapply same_but_fresh; eassumption|].
  intros q1 l [= <-] Hl.
  apply read_bytes_inv in Hl as (_ & _ & (a & off & c0 & Hp & Hc0 & Hread0)).
  inversion Hp; subst a off. clear Hp.
  assert (Hqne : q <> nd) by (intros ->; congruence).
  assert (Hc2 : mem s2 !! q = Some c0).
  { apply Hsb2; [|exact Hqne]. eapply extends_lookup; eassumption. }
  rewrite Hc in Hc2. inversion Hc2; subst c0.
  pose proof (Hread s2 Hc) as Hr1. pose proof (Hread0 s2 Hc) as Hr2.
  rewrite Hr1 in Hr2. inversion Hr2; subst l.
  apply Hsb5; [exact Hq'4 | exact Hq'ne].
Qed.

Lemma extends_same_but_fresh (a : loc) (s0 s s1 : state) :
  extends s0 s -> same_but a s s1 -> mem s0 !! a = None -> extends s0 s1.
Proof.
  intros He (Hs & _ & Hg) Ha. split; [|destruct He; congruence].
  apply map_subseteq_spec. intros x c Hx. apply Hs.
  - eapply extends_lookup; eassumption.
  - intros ->. congruence.
Qed.

(** A model copy is not affected by a change to an object that is
    neither a tag map nor a tag. *)
Lemma model_copied_other (x : loc) (s0 s1 s2 : state) (m : Z) (tm : loc) (e : option ptr) :
  same_but x s1 s2 ->
  (forall T, mem s1 !! x <> Some (CTagMap T)) -> (forall c, mem s1 !! x <> Some (CTag c)) ->
  model_copied s0 s1 ∅ m tm e -> model_copied s0 s2 ∅ m tm e.
Proof.
  intros (Hk & _) HnT Hnt (tm_d & T_s & T_d & He & Hn & Hs & Hd & Hcopy & Hrel).
  exists tm_d, T_s, T_d. split; [exact He|]. split; [exact Hn|]. split; [exact Hs|].
  split; [apply Hk; [exact Hd | intros ->; by eapply HnT]|]. split.
  - intros k. specialize (Hcopy k). destruct (T_s !! k) as [p|]; [|exact Hcopy].
    destruct Hcopy as (p' & ? & Hcl). exists p'. split; [done|].
    unfold clone_of in *. destruct p as [t|]; [|done].
    destruct Hcl as (t' & c & -> & ? & Hc & ?). exists t', c.
    split; [done|]. split; [done|]. split; [|done].
    apply Hk; [exact Hc | intros ->; by eapply Hnt].
  - intros tm_old Ho. rewrite lookup_empty in Ho. discriminate.
Qed.

(** The model loop of [FreeImage_Clone], from a state [s] in which the
    destination map at [dmp], an object that did not exist in [s0], is
    empty. *)
Lemma copy_models_inv (s0 s : state) (dmp smp : loc) (SMD : gmap Z ptr) (u : unit)
    (s' : state) :
  extends s0 s -> mem s0 !! dmp = None -> mem s !! dmp = Some (CMetadata ∅) ->
  mem s0 !! smp = Some (CMetadata SMD) -> closed s0 ->
  forM (map_to_list SMD) (copy_model dmp) s = Some (u, s') ->
  same_but dmp s s'
  /\ exists DMD, mem s' !! dmp = Some (CMetadata DMD) /\ metadata_copied s0 s' SMD DMD.
Proof.
  intros He Hnew Hdmp Hsmp Hclosed Hrun.
  set (Inv := fun (pre : list (Z * ptr)) (s1 : state) =>
    same_but dmp s s1
    /\ exists DMD, mem s1 !! dmp = Some (CMetadata DMD)
         /\ (forall m, (forall tm, (m, Some tm) ∉ pre) -> DMD !! m = None)
         /\ (forall m tm, (m, Some tm) ∈ pre -> model_copied s0 s1 ∅ m tm (DMD !! m))).
  assert (Hinv : Inv (map_to_list SMD) s').
  { eapply (forM_invariant _ Inv); [exact Hrun | |].
    - split; [apply same_but_refl|]. exists ∅. split; [exact Hdmp|].
      split; [intros; apply lookup_empty|]. intros m tm Hin. by apply elem_of_nil in Hin.
    - intros pre [m p] post s1 u1 s2 Hl (Hsb & DMD1 & Hd1 & Habs & Hcop) Hstep.
      assert (Hnd : NoDup (pre ++ (m, p) :: post).*1)
        by (rewrite <- Hl; apply NoDup_fst_map_to_list).
      assert (Hfresh : forall q, (m, q) ∉ pre).
      { intros q Hq. rewrite fmap_app in Hnd. apply NoDup_app in Hnd as (_ & Hnd & _).
        apply (Hnd m); [|cbn; left].
        apply list_elem_of_fmap. by exists (m, q). }
      unfold copy_model in Hstep. cbn [fst snd] in Hstep.
      destruct p as [tm|].
      + destruct (copy_model_inv dmp m tm s1 u1 s2 DMD1 Hd1 Hstep)
          as (tm' & T & T' & Hn' & Hd2 & HT' & Hsb2 & Hcopy & Hsrc).
        pose proof (extends_same_but_fresh _ _ _ _ He Hsb Hnew) as He1.
        assert (Hlive : mem s0 !! tm = Some (CTagMap T)).
        { destruct (closed_metadata s0 smp SMD m tm Hclosed Hsmp) as [c Hc].
          { apply elem_of_map_to_list. rewrite Hl. apply elem_of_app. right. left. }
          pose proof (extends_lookup _ _ _ _ He1 Hc) as Hc1.
          rewrite (Hsrc (ex_intro _ c Hc1)) in Hc1. congruence. }
        split; [eapply same_but_trans; eassumption|].
        exists (<[m := Some tm']> DMD1). split; [exact Hd2|]. split.
        * intros m' Hm'. rewrite lookup_insert_ne.
          -- apply Habs. intros tm0 Hin. apply (Hm' tm0). apply elem_of_app. by left.
          -- intros <-. apply (Hm' tm). apply elem_of_app. right.
             by apply list_elem_of_singleton.
        * intros m' tm0 Hin. apply elem_of_app in Hin as [Hin|Hin].
          -- assert (Hne : m' <> m) by (intros ->; by destruct (Hfresh (Some tm0))).
             rewrite lookup_insert_ne by done.
             eapply (model_copied_other dmp); [exact Hsb2 | | | by apply Hcop];
               intros ?; congruence.
          -- apply list_elem_of_singleton in Hin. inversion Hin; subst m' tm0.
             rewrite lookup_insert_eq. exists tm', T, T'.
             split; [reflexivity|].
             split; [eapply extends_fresh; eassumption|].
             split; [exact Hlive|]. split; [exact HT'|].
             split; [|intros tm_old Ho; rewrite lookup_empty in Ho; discriminate].
             intros k. specialize (Hcopy k). destruct (T !! k) as [q|]; [|exact Hcopy].
             destruct Hcopy as (q' & Hq' & Hcl). exists q'. split; [exact Hq'|].
             eapply clone_of_extends; eassumption.
      + apply mret_inv in Hstep. inversion Hstep; subst u1 s2. clear Hstep.
        split; [exact Hsb|]. exists DMD1. split; [exact Hd1|]. split.
        * intros m' Hm'. apply Habs. intros tm0 Hin. apply (Hm' tm0).
          apply elem_of_app. by left.
        * intros m' tm0 Hin. apply elem_of_app in Hin as [Hin|Hin]; [by apply Hcop|].
          apply list_elem_of_singleton in Hin. discriminate. }
  destruct Hinv as (Hsb & DMD & Hd & Habs & Hcop).
  split; [exact Hsb|]. exists DMD. split; [exact Hd|].
  intros m. destruct (SMD !! m) as [[tm|]|] eqn:Hm.
  - apply Hcop. by apply elem_of_map_to_list.
  - apply Habs. intros tm Hin. apply elem_of_map_to_list in Hin. congruence.
  - apply Habs. intros tm Hin. apply elem_of_map_to_list in Hin. congruence.
Qed.

Lemma set_fih_id (b : BLOCK) : set_fih (fih b) b = b.
Proof. by destruct b. Qed.

Lemma set_thumbnail_id (f : FREEIMAGEHEADER) : set_thumbnail (thumbnail f) f = f.
Proof. by destruct f. Qed.

Lemma HasPixels_inv (t : loc) (s : state) (has : bool) (s' : state) :
  FreeImage_HasPixels (Some t) s = Some (has, s') ->
  s' = s /\ exists td tb, bitmap_at s t td tb /\ has = has_pixels (fih tb).
Proof.
  unfold FreeImage_HasPixels. intros H.
  apply bind_inv in H as ([td tb] & s1 & H1 & H). apply block_of_inv in H1 as [-> Hb].
  apply mret_inv in H. inversion H; subst. eauto.
Qed.

(** The thumbnail copy, seen from an earlier state [s0] and a later
    state [s'] that differs from [s1] in an object [x] of [s]. *)
Lemma thumbnail_copied_frame (P : platform) (s0 s s1 s' : state) (x : loc) (th th' : ptr) :
  extends s0 s -> same_but x s1 s' -> is_Some (mem s !! x) ->
  thumbnail_copied P s s1 th th' -> thumbnail_copied P s0 s' th th'.
Proof.
  intros He Hsb [cx Hx] H. unfold thumbnail_copied in *. destruct th as [t|]; [|exact H].
  intros td tb Ht. specialize (H td tb (extends_bitmap_at _ _ _ _ _ He Ht)).
  destruct (has_pixels (fih tb)); [|exact H].
  destruct H as (Hacc & Hsome). split; [exact Hacc|].
  intros t' Ht'. destruct (Hsome t' Ht') as (td' & tb' & Hb' & Hn1 & Hn2 & Hsame).
  exists td', tb'.
  split; [eapply same_but_bitmap_at; [exact Hsb | | | exact Hb']; intros ->; congruence|].
  split; [eapply extends_fresh; eassumption|].
  split; [eapply extends_fresh; eassumption | exact Hsame].
Qed.

Section CloneBody.
Context (E : environment) (unload : ptr -> M unit) (clone : ptr -> M ptr).
Context (Hunload : forall s, unload None s = Some (tt, s)).
Context (Hclone : forall t s r s',
  clone (Some t) s = Some (r, s') -> clone_result (target E) s s' t r).

(** [FreeImage_SetThumbnail] on the new bitmap, which has no thumbnail
    yet. *)
Lemma SetThumbnail_in_clone (s0 s : state) (na nd : loc) (nb : BLOCK) (th : ptr)
    (r : bool) (s' : state) :
  extends s0 s ->
  bitmap_at s na nd nb -> thumbnail (fih nb) = None ->
  SetThumbnail_with unload clone (Some na) th s = Some (r, s') ->
  exists th',
    bitmap_at s' na nd (set_fih (set_thumbnail th' (fih nb)) nb)
    /\ same_but nd s s'
    /\ forall s'', same_but nd s' s'' -> thumbnail_copied (target E) s0 s'' th th'.
Proof.
  intros He Hb Hth H. unfold SetThumbnail_with in H.
  rewrite (bind_run _ _ _ _ _ (GetThumbnail_run _ _ _ _ Hb)), Hth in H.
  destruct (decide (None = th)) as [<-|Hne].
  { apply mret_inv in H. inversion H; subst r s'. exists None.
    split; [|split; [apply same_but_refl | intros; exact eq_refl]].
    rewrite <- Hth, set_thumbnail_id, set_fih_id. exact Hb. }
  destruct th as [t|]; [|done].
  rewrite (bind_run _ _ _ _ _ (Hunload s)) in H.
  apply bind_inv in H as (has & s1 & H1 & H).
  apply HasPixels_inv in H1 as (-> & td & tb & Ht & ->).
  apply bind_inv in H as (th' & s1 & H1 & H).
  apply bind_inv in H as (u2 & s2 & H2 & H).
  apply mret_inv in H. inversion H; subst r s2. clear H.
  exists th'.
  assert (Hcases : extends s s1 /\ thumbnail_copied (target E) s s1 (Some t) th').
  { destruct (has_pixels (fih tb)) eqn:Hhas.
    - destruct (Hclone _ _ _ _ H1) as (He1 & Hres).
      split; [exact He1|].
      intros td0 tb0 Ht0. destruct (bitmap_at_inj _ _ _ _ _ _ Ht Ht0) as [-> ->].
      rewrite Hhas. exact (Hres td tb Ht).
    - apply mret_inv in H1. inversion H1; subst th' s1.
      split; [apply extends_refl|].
      intros td0 tb0 Ht0. destruct (bitmap_at_inj _ _ _ _ _ _ Ht Ht0) as [-> ->].
      by rewrite Hhas. }
  destruct Hcases as (He1 & Hcopied).
  pose proof (extends_bitmap_at _ _ _ _ _ He1 Hb) as Hb1.
  destruct (modify_header_at _ _ _ _ _ _ _ Hb1 H2) as (Hb2 & Hsb2).
  split; [exact Hb2|].
  split; [eapply same_but_trans; [apply extends_same_but, He1 | exact Hsb2]|].
  intros s'' Hsb3.
  eapply thumbnail_copied_frame;
    [exact He | exact (same_but_trans nd _ _ _ Hsb2 Hsb3) | | exact Hcopied].
  destruct Hb as [_ Hblk]. eauto.
Qed.

End CloneBody.

(** ** Scanlines of a bitmap that owns its pixels *)

Lemma GetScanLine_owned (P : platform) (s : state) (a d : loc) (b : BLOCK) (y : Z) :
  bitmap_at s a d b -> external_bits (fih b) = None ->
  FreeImage_GetScanLine P (Some a) y s
  = Some (if has_pixels (fih b) then Some (d, bits_offset P b + pitch_of b * y) else None, s).
Proof.
  intros Hb He. unfold FreeImage_GetScanLine.
  rewrite (bind_run _ _ _ _ _ (HasPixels_run _ _ _ _ Hb)).
  destruct (has_pixels (fih b)) eqn:Hp; [|reflexivity]. cbn [negb].
  assert (Hbits : FreeImage_GetBits P (Some a) s = Some (Some (d, bits_offset P b), s)).
  { unfold FreeImage_GetBits.
    rewrite (bind_run _ _ _ _ _ (HasPixels_run _ _ _ _ Hb)), Hp. cbn [negb].
    rewrite (bind_run _ _ s s a) by reflexivity.
    rewrite (read_block_run _ _ _ _ _ Hb), He.
    rewrite (bind_run _ _ _ _ _ (GetColorsUsed_run _ _ _ _ Hb)).
    rewrite (bind_run _ _ _ _ _ (HasRGBMasks_run _ _ _ _ Hb)). reflexivity. }
  rewrite (bind_run _ _ _ _ _ Hbits).
  rewrite (bind_run _ _ _ _ _ (GetPitch_run _ _ _ _ Hb)). reflexivity.
Qed.

(** The last loop of [FreeImage_Clone]: from a state [s] in which the
    new bitmap, whose block did not exist in [s0], owns its pixels, the
    pixel region of the new bitmap is the only thing written; and when
    the line size is that of the new bitmap, every scanline that the
    caller's buffer had in [s0] is in that region. *)
Lemma copy_external_lines_inv (P : platform) (s0 s : state) (na nd : loc) (nb : BLOCK)
    (eb : loc * Z) (pitch linesize height : Z) (u : unit) (s' : state) :
  extends s0 s -> mem s0 !! nd = None ->
  bitmap_at s na nd nb -> external_bits (fih nb) = None ->
  forM (seqZ 0 height) (copy_external_line P (Some na) eb pitch linesize) s = Some (u, s') ->
  exists px,
    bitmap_at s' na nd (set_pixels px nb)
    /\ same_but nd s s'
    /\ (linesize = line_of nb ->
        forall y row,
          0 <= y < height ->
          read_bytes (Some (eb.1, eb.2 + y * pitch)) linesize s0 = Some (row, s0) ->
          exists o,
            FreeImage_GetScanLine P (Some na) y s' = Some (Some (nd, o), s')
            /\ read_bytes (Some (nd, o)) linesize s' = Some (row, s')).
Proof.
  intros He Hnd Hb Hext Hrun.
  pose proof (line_of_bound nb) as HL.
  destruct (pitch_of_owned_bounds nb Hext) as [Hpl _].
  set (at_line := fun y => bits_offset P nb + pitch_of nb * y - pixels_at nb).
  set (Inv := fun (pre : list Z) (s1 : state) =>
    same_but nd s s1
    /\ exists px,
         bitmap_at s1 na nd (set_pixels px nb)
         /\ (linesize = line_of nb ->
             forall y, y ∈ pre ->
               has_pixels (fih nb) = true
               /\ 0 <= at_line y
               /\ at_line y + line_of nb <= Z.of_nat (length px)
               /\ forall row,
                    read_bytes (Some (eb.1, eb.2 + y * pitch)) (line_of nb) s0
                      = Some (row, s0) ->
                    slice (at_line y) (line_of nb) px = row)).
  assert (Hinv : Inv (seqZ 0 height) s').
  { eapply (forM_invariant _ Inv); [exact Hrun | |].
    - split; [apply same_but_refl|]. exists (pixels nb).
      split; [destruct nb; exact Hb|].
      intros _ y Hy. by apply elem_of_nil in Hy.
    - intros pre y post s1 u1 s2 Hl (Hsb & px & Hb1 & Hrows) Hstep.
      assert (Hnodup : NoDup (pre ++ y :: post)) by (rewrite <- Hl; apply NoDup_seqZ).
      assert (Hy : 0 <= y).
      { assert (y ∈ seqZ 0 height) by (rewrite Hl; apply elem_of_app; right; left).
        apply elem_of_seqZ in H. lia. }
      assert (Hpre : forall y', y' ∈ pre -> 0 <= y' /\ y' <> y).
      { intros y' Hin. split.
        - assert (y' ∈ seqZ 0 height) by (rewrite Hl; apply elem_of_app; by left).
          apply elem_of_seqZ in H. lia.
        - intros ->. apply NoDup_app in Hnodup as (_ & Hno & _).
          apply (Hno y Hin). left. }
      unfold copy_external_line in Hstep. cbn [fst snd] in Hstep.
      rewrite (bind_run _ _ _ _ _ (GetScanLine_owned P _ _ _ _ y Hb1 Hext)) in Hstep.
      apply bind_inv in Hstep as (bytes & s1' & Hread & Hstep).
      apply read_bytes_inv in Hread as (-> & Hlen & (a & off & c & Hp & Hc & Hsame)).
      inversion Hp; subst a off. clear Hp.
      change (has_pixels (fih (set_pixels px nb))) with (has_pixels (fih nb)) in Hstep.
      destruct (has_pixels (fih nb)) eqn:Hhas; [|discriminate].
      destruct Hb1 as [Hw1 Hblk1].
      destruct (write_bytes_block_inv _ _ _ _ _ _ _ Hblk1 Hstep) as (H0 & H1 & Hm & Hg).
      change (pixels_at (set_pixels px nb)) with (pixels_at nb) in *.
      change (pixels (set_pixels px nb)) with px in *.
      change (pitch_of (set_pixels px nb)) with (pitch_of nb) in *.
      change (bits_offset P (set_pixels px nb)) with (bits_offset P nb) in *.
      fold (at_line y) in H0, H1, Hm.
      assert (Hne : na <> nd) by (intros ->; congruence).
      split.
      { eapply same_but_trans; [exact Hsb|]. split; [|split; [|exact Hg]].
        - intros x cx Hx Hxd. rewrite Hm, lookup_insert_ne by done. exact Hx.
        - rewrite Hm, dom_insert_L. set_solver. }
      exists (splice (at_line y) bytes px).
      split.
      { split; rewrite Hm; [by rewrite lookup_insert_ne | by rewrite lookup_insert_eq]. }
      intros Heq y' Hin. specialize (Hrows Heq). subst linesize.
      assert (Hlen' : Z.of_nat (length bytes) = line_of nb) by lia.
      apply elem_of_app in Hin as [Hin|Hin].
      + destruct (Hrows y' Hin) as (_ & Hb0 & Hb1' & Hrow).
        destruct (Hpre y' Hin) as [Hy' Hyy].
        rewrite length_splice by lia.
        split; [reflexivity|]. split; [exact Hb0|]. split; [exact Hb1'|].
        intros row Hr. rewrite slice_splice_other; [by apply Hrow | lia | lia | lia | lia |].
        unfold at_line. nia.
      + apply list_elem_of_singleton in Hin. subst y'.
        rewrite length_splice by lia.
        split; [reflexivity|]. split; [exact H0|]. split; [lia|].
        intros row Hr. rewrite <- Hlen'. rewrite slice_splice_same by lia.
        apply read_bytes_inv in Hr as (_ & _ & (a & off & c0 & Hp & Hc0 & Hsame0)).
        inversion Hp; subst a off. clear Hp.
        assert (Hc1 : mem s1 !! eb.1 = Some c0).
        { apply Hsb; [by eapply extends_lookup | intros Heq; congruence]. }
        rewrite Hc in Hc1. inversion Hc1; subst c0.
        pose proof (Hsame s1 Hc) as Hr1. pose proof (Hsame0 s1 Hc) as Hr2.
        congruence. }
  destruct Hinv as (Hsb & px & Hb' & Hrows).
  exists px. split; [exact Hb'|]. split; [exact Hsb|].
  intros Heq y row Hy Hr. specialize (Hrows Heq). subst linesize.
  destruct (Hrows y) as (Hhas & H0 & H1 & Hrow).
  { apply elem_of_seqZ. lia. }
  exists (bits_offset P nb + pitch_of nb * y).
  rewrite (GetScanLine_owned P _ _ _ _ y Hb' Hext).
  change (has_pixels (fih (set_pixels px nb))) with (has_pixels (fih nb)). rewrite Hhas.
  split; [reflexivity|].
  destruct Hb' as [_ Hblk].
  rewrite (read_bytes_block _ _ _ _ _ Hblk); [by rewrite <- (Hrow row Hr) | | lia |];
    change (pixels_at (set_pixels px nb)) with (pixels_at nb);
    change (pixels (set_pixels px nb)) with px; fold (at_line y); lia.
Qed.

(** ** The steps of [FreeImage_Clone] *)

Lemma get_mask_state (field : FREEIMAGERGBMASKS -> Z) (default : Z) (s : state)
    (a d : loc) (b : BLOCK) (v : Z) (s' : state) :
  bitmap_at s a d b -> get_mask field default (Some a) s = Some (v, s') -> s' = s.
Proof.
  intros Hb H. unfold get_mask in H.
  rewrite (bind_run _ _ _ _ _ (GetImageType_run _ _ _ _ Hb)) in H.
  destruct (type (fih b)); try (apply mret_inv in H; inversion H; reflexivity).
  rewrite bind_unfold, (read_masks_block _ _ _ _ Hb) in H.
  destruct (biCompression (bih b) =? BI_BITFIELDS).
  - destruct (masks b) as [m|]; [|discriminate].
    apply mret_inv in H. inversion H. reflexivity.
  - rewrite (bind_run _ _ _ _ _ (GetBPP_run _ _ _ _ Hb)) in H.
    apply mret_inv in H. inversion H. reflexivity.
Qed.

(** A refusal of the allocator: nothing that existed is changed, and
    the type, the dimensions or the size were not acceptable. *)
Lemma AllocateHeaderT_refusal (E : environment) (header_only : bool)
    (t : FREE_IMAGE_TYPE) (width height bpp r g b : Z) (s s' : state) :
  FreeImage_AllocateHeaderT E header_only t width height bpp r g b s = Some (None, s') ->
  extends s s'
  /\ ~ match check_bit_depth t bpp with
       | Some (bpp', need_masks) =>
           0 < abs_int width /\ 0 < abs_int height
           /\ FreeImage_GetInternalImageSize (target E) header_only
                (abs_int width) (abs_int height) bpp' need_masks <> 0
       | None => False
       end.
Proof.
  unfold FreeImage_AllocateHeaderT, FreeImage_AllocateBitmap. cbv zeta. intros H.
  destruct (negb _) eqn:Hdim in H.
  { apply mret_inv in H. inversion H; subst. split; [apply extends_refl|].
    apply negb_true_iff, andb_false_iff in Hdim.
    destruct (check_bit_depth t bpp) as [[]|]; [|tauto].
    intros (? & ? & _). destruct Hdim as [Hd|Hd]; apply Z.ltb_ge in Hd; lia. }
  cbn [is_null negb andb] in H.
  destruct (check_bit_depth t bpp) as [[bpp' need_masks]|].
  2:{ apply mret_inv in H. inversion H; subst. split; [apply extends_refl | tauto]. }
  apply bind_inv in H as (bitmap & s1 & H1 & H).
  rewrite orb_false_r in H.
  destruct (Z.eqb_spec (FreeImage_GetInternalImageSize (target E) header_only
                          (abs_int width) (abs_int height) bpp' need_masks) 0) as [Hz|Hz].
  - apply bind_inv in H as (u2 & s2 & H2 & H).
    apply mret_inv in H. inversion H; subst s2. clear H.
    split; [|tauto].
    apply alloc_extends in H1 as (He1 & Hnew & _).
    eapply extends_same_but_fresh; [exact He1 | | exact Hnew].
    unfold release in H2. apply store_same_but in H2 as [H2 _]. exact H2.
  - apply bind_inv in H as (data & s2 & H2 & H).
    apply bind_inv in H as (u3 & s3 & H3 & H).
    apply bind_inv in H as (md & s4 & H4 & H).
    apply bind_inv in H as (u5 & s5 & H5 & H).
    apply mret_inv in H. discriminate.
Qed.

(** What a successful allocation leaves, as the steps of the clone
    need it. *)
Lemma AllocateHeaderT_success (E : environment) (header_only : bool)
    (t : FREE_IMAGE_TYPE) (width height bpp r g b : Z) (s : state) (na : loc) (s' : state) :
  FreeImage_AllocateHeaderT E header_only t width height bpp r g b s = Some (Some na, s') ->
  exists nd md nb,
    extends s s'
    /\ mem s !! na = None /\ mem s !! nd = None /\ mem s !! md = None
    /\ na <> md /\ nd <> md
    /\ bitmap_at s' na nd nb
    /\ mem s' !! md = Some (CMetadata ∅)
    /\ metadata (fih nb) = Some md.
Proof.
  unfold FreeImage_AllocateHeaderT. intros H.
  apply AllocateBitmap_inv in H
    as (bpp' & nm & nd & md & _ & _ & _ & _ & _ & Hna & Hnd & Hmd & Hne1 & Hne2 & Hne3 & Hm & Hg).
  cbv zeta in Hm.
  eexists nd, md, _.
  split.
  { split; [|exact Hg]. rewrite Hm.
    etrans; [|apply insert_subseteq; rewrite !lookup_insert_ne by done; exact Hnd].
    etrans; [|apply insert_subseteq; rewrite !lookup_insert_ne by done; exact Hmd].
    by apply insert_subseteq. }
  split; [exact Hna|]. split; [exact Hnd|]. split; [exact Hmd|].
  split; [exact Hne2|]. split; [exact Hne3|].
  split; [exact (AllocateBitmap_bitmap_at _ _ _ _ _ _ Hne1 Hne2 Hne3 Hm)|].
  split; [|reflexivity].
  rewrite Hm, lookup_insert_ne, lookup_insert_eq by done. reflexivity.
Qed.

Lemma copy_models_frame (dmp : loc) (l : list (Z * ptr)) (D0 : gmap Z ptr) (s : state)
    (u : unit) (s' : state) :
  mem s !! dmp = Some (CMetadata D0) ->
  forM l (copy_model dmp) s = Some (u, s') ->
  same_but dmp s s' /\ exists DMD, mem s' !! dmp = Some (CMetadata DMD).
Proof.
  intros Hd Hrun.
  apply (forM_invariant _
           (fun _ s1 => same_but dmp s s1 /\ exists DMD, mem s1 !! dmp = Some (CMetadata DMD))
           _ _ _ _ Hrun).
  - split; [apply same_but_refl | eauto].
  - intros pre [m p] post s1 u1 s2 _ (Hsb & DMD1 & Hd1) Hstep.
    unfold copy_model in Hstep. cbn [fst snd] in Hstep. destruct p as [tm|].
    + destruct (copy_model_inv dmp m tm s1 u1 s2 DMD1 Hd1 Hstep)
        as (tm' & T & T' & _ & Hd2 & _ & Hsb2 & _).
      split; [eapply same_but_trans; eassumption | eauto].
    + apply mret_inv in Hstep. inversion Hstep; subst. eauto.
Qed.

Lemma metadata_copied_other (x : loc) (b : BLOCK) (s0 s1 s2 : state) (SMD DMD : gmap Z ptr) :
  same_but x s1 s2 -> mem s1 !! x = Some (CBlock b) ->
  metadata_copied s0 s1 SMD DMD -> metadata_copied s0 s2 SMD DMD.
Proof.
  intros Hsb Hx H m. specialize (H m). destruct (SMD !! m) as [[tm|]|]; [|exact H..].
  eapply (model_copied_other x); [exact Hsb | | | exact H]; intros ?; congruence.
Qed.

(** A deep copy of the metadata is independent of the source: a
    [FreeImage_SetMetadata] on the copy changes no object of [s] other
    than the caller's tag. *)
Lemma deep_copy_independent (E : environment) (s s' : state) (dst dd : loc) (db : BLOCK)
    (md : loc) (SMD DMD : gmap Z ptr) :
  extends s s' -> bitmap_at s' dst dd db -> metadata (fih db) = Some md ->
  mem s !! md = None -> mem s' !! md = Some (CMetadata DMD) ->
  metadata_copied s s' SMD DMD ->
  metadata_independent E s s' dst.
Proof.
  intros He Hb Hmd Hnew HDMD Hcopied model key tag r s'' Hrun x c Hx Htag.
  apply (SetMetadata_frame E model dst dd db md DMD key tag s' r s'' x c Hb Hmd HDMD Hrun).
  - eapply extends_lookup; eassumption.
  - intros ->. congruence.
  - exact Htag.
  - intros tm Htm. specialize (Hcopied model). rewrite Htm in Hcopied.
    destruct (SMD !! model) as [[tm_s|]|]; [|discriminate..].
    destruct Hcopied as (tm_d & T_s & T_d & Heq & Hfresh & _ & HT_d & Hcopy & _).
    inversion Heq; subst tm_d. clear Heq.
    split; [intros ->; congruence|].
    intros T k HT Hk. rewrite HT_d in HT. inversion HT; subst T. clear HT.
    specialize (Hcopy k). destruct (T_s !! k) as [p|]; [|congruence].
    destruct Hcopy as (p' & Hp' & Hcl). rewrite Hk in Hp'. inversion Hp'; subst p'.
    unfold clone_of in Hcl. destruct p as [t|]; [|discriminate].
    destruct Hcl as (t' & c' & [= <-] & Hn & _). congruence.
Qed.

Section CloneSteps.
Context (E : environment) (unload : ptr -> M unit) (clone : ptr -> M ptr).
Context (Hunload : forall s, unload None s = Some (tt, s)).
Context (Hclone : forall t s r s',
  clone (Some t) s = Some (r, s') -> clone_result (target E) s s' t r).

(** The body of [FreeImage_Clone], step by step. *)
Lemma Clone_with_post (a : loc) (s : state) (r : ptr) (s' : state) :
  Clone_with E unload clone a s = Some (r, s') ->
  extends s s'
  /\ (exists rm gm bm,
        FreeImage_GetRedMask (Some a) s = Some (rm, s)
        /\ FreeImage_GetGreenMask (Some a) s = Some (gm, s)
        /\ FreeImage_GetBlueMask (Some a) s = Some (bm, s))
  /\ forall sd sb, bitmap_at s a sd sb ->
       (allocator_accepts (target E) sb -> r <> None)
       /\ forall dst, r = Some dst -> cloned (target E) s s' sb dst.
Proof.
  intros H. unfold Clone_with in H. cbv zeta in H.
  (* the source is a live bitmap *)
  apply bind_inv in H as (t & s1 & H1 & H).
  assert (Hsrc : exists sd sb, bitmap_at s a sd sb).
  { unfold FreeImage_GetImageType in H1.
    apply bind_inv in H1 as ([sd sb] & ? & H1 & _). apply block_of_inv in H1 as [_ ?]. eauto. }
  destruct Hsrc as (sd & sb & Hb).
  rewrite (GetImageType_run _ _ _ _ Hb) in H1. inversion H1; subst t s1. clear H1.
  rewrite (bind_run _ _ _ _ _ (GetWidth_run _ _ _ _ Hb)) in H.
  rewrite (bind_run _ _ _ _ _ (GetHeight_run _ _ _ _ Hb)) in H.
  rewrite (bind_run _ _ _ _ _ (GetBPP_run _ _ _ _ Hb)) in H.
  rewrite (read_block_run _ _ _ _ _ Hb) in H. cbv beta iota in H.
  rewrite (bind_run _ _ _ _ _ (HasPixels_run _ _ _ _ Hb)) in H.
  apply bind_inv in H as (rm & s1 & H1 & H). pose proof H1 as Hrm.
  apply (get_mask_state _ _ _ _ _ _ _ _ Hb) in H1 as ->.
  apply bind_inv in H as (gm & s1 & H1 & H). pose proof H1 as Hgm.
  apply (get_mask_state _ _ _ _ _ _ _ _ Hb) in H1 as ->.
  apply bind_inv in H as (bm & s1 & H1 & H). pose proof H1 as Hbm.
  apply (get_mask_state _ _ _ _ _ _ _ _ Hb) in H1 as ->.
  assert (Hmasks : exists rm gm bm,
            FreeImage_GetRedMask (Some a) s = Some (rm, s)
            /\ FreeImage_GetGreenMask (Some a) s = Some (gm, s)
            /\ FreeImage_GetBlueMask (Some a) s = Some (bm, s))
    by (exists rm, gm, bm; auto).
  clear Hrm Hgm Hbm.
  apply bind_inv in H as (new_dib & s1 & Halloc & H).
  destruct new_dib as [na|].
  2:{ apply mret_inv in H. inversion H; subst r s'. clear H.
      apply AllocateHeaderT_refusal in Halloc as (He & Href).
      split; [exact He|]. split; [exact Hmasks|]. intros sd' sb' Hb'.
      destruct (bitmap_at_inj _ _ _ _ _ _ Hb Hb') as [-> ->].
      split; [|discriminate]. intros Hacc. exfalso. apply Href. exact Hacc. }
  apply AllocateHeaderT_success in Halloc
    as (nd & md & nb0 & He1 & Hna & Hnd & Hmd & Hnamd & Hndmd & Hb1 & HMD1 & Hlink).
  rewrite (read_block_run _ _ _ _ _ Hb1) in H. cbv beta iota in H. rewrite Hlink in H.
  assert (Hkeep : forall si, extends s si -> bitmap_at si a sd sb)
    by (intros si Hsi; eapply extends_bitmap_at; eassumption).
  (* the bulk copy *)
  apply bind_inv in H as (u2 & s2 & Hcpy & H).
  change (FreeImage_GetInternalImageSize _ _ _ _ _ _) with (copy_size (target E) sb) in Hcpy.
  assert (Hstep2 : exists nb2,
            bitmap_at s2 na nd nb2 /\ same_but nd s1 s2
            /\ (copy_size (target E) sb <> 0 ->
                pixels_at sb = pixels_at nb0
                /\ 0 <= copy_size (target E) sb - pixels_at nb0 <= Z.of_nat (length (pixels sb))
                /\ nb2 = {| fih := fih sb; bih := bih sb; palette := palette sb;
                            masks := masks sb; pixels_at := pixels_at nb0;
                            pixels := splice 0 (slice 0 (copy_size (target E) sb - pixels_at nb0)
                                                  (pixels sb)) (pixels nb0) |})).
  { destruct (Z.eq_dec (copy_size (target E) sb) 0) as [Hz|Hnz].
    - unfold memcpy_block in Hcpy.
      apply bind_inv in Hcpy as (? & ? & Hl1 & Hcpy). apply load_block_inv in Hl1 as [-> _].
      apply bind_inv in Hcpy as (? & ? & Hl1 & Hcpy). apply load_block_inv in Hl1 as [-> _].
      rewrite Hz in Hcpy. apply mret_inv in Hcpy. inversion Hcpy; subst s2.
      exists nb0. split; [exact Hb1|]. split; [apply same_but_refl | done].
    - destruct (Hkeep s1 He1) as [_ Hsd]. pose proof Hb1 as [Hw1 Hblk1].
      destruct (memcpy_block_inv _ _ _ _ _ _ _ _ Hsd Hblk1 Hnz Hcpy) as (Hpa & Hbound & Hm & Hg).
      eexists. split; [|split; [|intros _; split; [exact Hpa|split; [exact Hbound|reflexivity]]]].
      + split; rewrite Hm; [rewrite lookup_insert_ne; [exact Hw1|] | apply lookup_insert_eq].
        intros ->. congruence.
      + split; [|split; [|exact Hg]].
        * intros x c Hx Hne. rewrite Hm, lookup_insert_ne by done. exact Hx.
        * rewrite Hm, dom_insert_L. set_solver. }
  clear Hcpy. destruct Hstep2 as (nb2 & Hb2 & Hsb2 & Hcopied).
  pose proof (extends_same_but_fresh _ _ _ _ He1 Hsb2 Hnd) as He2.
  (* the links of the new header *)
  apply bind_inv in H as (u3 & s3 & H3 & H).
  destruct (modify_header_at _ _ _ _ _ _ _ Hb2 H3) as (Hb3 & Hsb3). clear H3.
  pose proof (extends_same_but_fresh _ _ _ _ He2 Hsb3 Hnd) as He3.
  assert (HMD3 : mem s3 !! md = Some (CMetadata ∅)).
  { apply Hsb3; [|congruence]. apply Hsb2; [exact HMD1 | congruence]. }
  (* the ICC profile *)
  rewrite (bind_run _ _ _ _ _ (GetICCProfile_run _ _ _ _ (Hkeep s3 He3))) in H.
  cbn [from_option] in H.
  apply bind_inv in H as (u4 & s4 & H4 & H).
  destruct (CreateICCProfile_inv E s s3 na nd _ md _ _ _ _ He3 Hnd Hb3 eq_refl eq_refl HMD3 H4)
    as (icc' & Hb4 & Hsb4 & Hflags & Hsize & Hdata0 & Hdata).
  clear H4.
  pose proof (extends_same_but_fresh _ _ _ _ He3 Hsb4 Hnd) as He4.
  apply bind_inv in H as (u5 & s5 & H5 & H).
  destruct (modify_header_at _ _ _ _ _ _ _ Hb4 H5) as (Hb5 & Hsb5). clear H5.
  pose proof (extends_same_but_fresh _ _ _ _ He4 Hsb5 Hnd) as He5.
  assert (HMD5 : mem s5 !! md = Some (CMetadata ∅)).
  { apply Hsb5; [|congruence]. apply Hsb4; [exact HMD3 | congruence]. }
  (* the metadata models *)
  apply bind_inv in H as (smp & s5' & H6 & H). apply deref_inv in H6 as [-> Hsmp].
  rewrite (bind_run _ _ s5 s5 md) in H by reflexivity.
  apply bind_inv in H as (SMD5 & s5' & H6 & H). apply load_metadata_inv in H6 as [-> HSMD5].
  apply bind_inv in H as (u6 & s6 & Hloop & H).
  destruct (copy_models_frame md _ ∅ s5 u6 s6 HMD5 Hloop) as (Hsb6 & DMD & HDMD).
  pose proof (extends_same_but_fresh _ _ _ _ He5 Hsb6 Hmd) as He6.
  pose proof (same_but_bitmap_at md _ _ _ _ _ Hsb6 Hnamd Hndmd Hb5) as Hb6.
  (* the thumbnail *)
  rewrite (bind_run _ _ _ _ _ (GetThumbnail_run _ _ _ _ (Hkeep s6 He6))) in H.
  apply bind_inv in H as (r7 & s7 & H7 & H).
  destruct (SetThumbnail_in_clone E unload clone Hunload Hclone s s6 na nd _ _ r7 s7
              He6 Hb6 eq_refl H7) as (th' & Hb7 & Hsb7 & Hthumb).
  clear H7.
  pose proof (extends_same_but_fresh _ _ _ _ He6 Hsb7 Hnd) as He7.
  (* the caller's buffer *)
  apply bind_inv in H as (u8 & s8 & H8 & H).
  apply mret_inv in H. inversion H; subst r s8. clear H.
  set (nb7 := set_fih (set_thumbnail th' _) _) in *.
  assert (Hlast : exists px,
            bitmap_at s' na nd (set_pixels px nb7) /\ same_but nd s7 s'
            /\ (external_bits (fih sb) = None -> px = pixels nb7)
            /\ (forall eb, external_bits (fih sb) = Some eb -> line_of nb7 = line_of sb ->
                  external_lines_copied (target E) s s' sb eb na nd)).
  { destruct (external_bits (fih sb)) as [eb|] eqn:Hext.
    - rewrite (bind_run _ _ _ _ _ (GetPitch_run _ _ _ _ (Hkeep s7 He7))) in H8.
      rewrite (bind_run _ _ _ _ _ (GetLine_run _ _ _ _ (Hkeep s7 He7))) in H8.
      destruct (copy_external_lines_inv (target E) s s7 na nd nb7 eb _ _ _ _ _
                  He7 Hnd Hb7 eq_refl H8) as (px & Hb8 & Hsb8 & Hrows).
      exists px. split; [exact Hb8|]. split; [exact Hsb8|]. split; [discriminate|].
      intros eb' [= <-] Hline. intros y row Hy Hr. exact (Hrows (eq_sym Hline) y row Hy Hr).
    - apply mret_inv in H8. inversion H8; subst s'. exists (pixels nb7).
      split; [destruct nb7; exact Hb7|]. split; [apply same_but_refl|].
      split; [reflexivity | discriminate]. }
  clear H8. destruct Hlast as (px & Hb8 & Hsb8 & Hpx & Hlines).
  pose proof (extends_same_but_fresh _ _ _ _ He7 Hsb8 Hnd) as He8.
  split; [exact He8|]. split; [exact Hmasks|].
  intros sd' sb' Hb'. destruct (bitmap_at_inj _ _ _ _ _ _ Hb Hb') as [-> ->].
  split; [discriminate|]. intros dst [= <-].
  assert (HDMD8 : mem s' !! md = Some (CMetadata DMD)).
  { apply Hsb8; [|congruence]. apply Hsb7; [exact HDMD | congruence]. }
  exists nd, (set_pixels px nb7), md, DMD.
  split; [exact Hb8|]. split; [exact Hna|]. split; [exact Hnd|].
  split; [reflexivity|]. split; [reflexivity|]. split; [reflexivity|].
  split; [exact Hmd|]. split; [exact HDMD8|].
  split; [exact (Hthumb s' Hsb8)|].
  split.
  { (* the ICC profile *)
    split; [reflexivity|]. split; [exact Hsize|]. split; [exact Hdata0|].
    intros Hpos. destruct (Hdata Hpos) as (q' & Hq' & Hfresh & Hbytes).
    exists q'. split; [exact Hq'|].
    split; [exact (extends_fresh _ _ _ He3 Hfresh)|].
    intros q l Hq Hl. pose proof (Hbytes q l Hq Hl) as Hc.
    destruct Hb3 as [_ Hblk3].
    assert (q' <> nd) by (intros ->; congruence).
    assert (q' <> md) by (intros ->; congruence).
    apply Hsb8; [|done]. apply Hsb7; [|done]. apply Hsb6; [|done]. by apply Hsb5. }
  split.
  { (* the image and the pixels *)
    intros Hnz. destruct (Hcopied Hnz) as (Hpa & Hbound & Hnb2). subst nb2.
    split; [repeat split|].
    destruct (external_bits (fih sb)) as [eb|] eqn:Hext.
    - apply (Hlines eb eq_refl). reflexivity.
    - split; [exact (eq_sym Hpa)|].
      rewrite (Hpx eq_refl). cbn [pixels set_pixels nb7 set_fih].
      rewrite Hpa. apply slice_splice_prefix. exact Hbound. }
  (* the metadata *)
  intros smp0 SMD0 Hmd0 HSMD0 Hclosed.
  rewrite Hsmp in Hmd0. inversion Hmd0; subst smp0. clear Hmd0.
  pose proof (extends_lookup _ _ _ _ He5 HSMD0) as HSMD5'.
  rewrite HSMD5 in HSMD5'. inversion HSMD5'; subst SMD5. clear HSMD5'.
  destruct (copy_models_inv s s5 md smp SMD0 u6 s6 He5 Hmd HMD5 HSMD0 Hclosed Hloop)
    as (_ & DMD' & HDMD' & Hmeta).
  rewrite HDMD in HDMD'. inversion HDMD'; subst DMD'. clear HDMD'.
  destruct Hb6 as [_ Hblk6]. destruct Hb7 as [_ Hblk7].
  eapply metadata_copied_other; [exact Hsb8 | exact Hblk7 |].
  eapply metadata_copied_other; [exact Hsb7 | exact Hblk6 | exact Hmeta].
Qed.

End CloneSteps.

Lemma Unload_null (fuel : nat) (s : state) : FreeImage_Unload fuel None s = Some (tt, s).
Proof. destruct fuel; reflexivity. Qed.

(** [FreeImage_Clone] at every depth of the thumbnail chain. *)
Lemma Clone_post (E : environment) (fuel : nat) (a : loc) (s : state) (r : ptr) (s' : state) :
  FreeImage_Clone E fuel (Some a) s = Some (r, s') ->
  extends s s'
  /\ (exists rm gm bm,
        FreeImage_GetRedMask (Some a) s = Some (rm, s)
        /\ FreeImage_GetGreenMask (Some a) s = Some (gm, s)
        /\ FreeImage_GetBlueMask (Some a) s = Some (bm, s))
  /\ forall sd sb, bitmap_at s a sd sb ->
       (allocator_accepts (target E) sb -> r <> None)
       /\ forall dst, r = Some dst -> cloned (target E) s s' sb dst.
Proof.
  revert a s r s'. induction fuel as [|fuel IH]; intros a s r s' H; [discriminate|].
  cbn [FreeImage_Clone] in H.
  apply (Clone_with_post E (FreeImage_Unload fuel) (FreeImage_Clone E fuel)
           (Unload_null fuel)); [|exact H].
  intros t s1 r1 s1' H1. destruct (IH _ _ _ _ H1) as (He & _ & Hpost).
  split; [exact He|]. intros td tb Hb. destruct (Hpost td tb Hb) as (Hacc & Hcl).
  split; [exact Hacc|]. intros t' ->.
  destruct (Hcl t' eq_refl) as (dd & db & md & DMD & Hb' & Hn1 & Hn2 & _ & _ & _ & _ & _ & _ & _
                                 & Himg & _).
  exists dd, db. split; [exact Hb'|]. split; [exact Hn1|]. split; [exact Hn2|].
  intros Hnz. apply (Himg Hnz).
Qed.



(** The clone of the bitmap that wraps the caller's ten bytes (two
    scanlines of three bytes, five bytes apart): handle 5, whose block
    holds the two scanlines, each padded to four bytes, and wraps
    nothing. *)
Example clone_of_wrapper_owns_pixels :
  clone_of_wrapper_example = Some (Some 5%positive, final_state clone_of_wrapper_example)
  /\ external_bits (fih (block_at (final_state allocate_for_bits) 3%positive))
     = Some (1%positive, 0)
  /\ external_bits (fih (block_at (final_state clone_of_wrapper_example) 6%positive)) = None
  /\ pixels (block_at (final_state clone_of_wrapper_example) 6%positive)
     = [1; 2; 3; 0; 6; 7; 8; 0].
Proof.
  split; [vm_compute; reflexivity|]. split; [vm_compute; reflexivity|].
  split; vm_compute; reflexivity.
Qed.

(** ** Runs that are defined *)

Lemma store_defined (a : loc) (c c0 : cell) (s : state) :
  mem s !! a = Some c0 -> c0 <> Freed -> exists s', store a c s = Some (tt, s').
Proof.
  intros Ha Hf. unfold store. rewrite (bind_run _ _ s s c0) by (by apply load_run).
  eexists. reflexivity.
Qed.

Lemma alloc_defined (c : cell) (s : state) : exists a s', alloc c s = Some (a, s').
Proof. eexists _, _. reflexivity. Qed.

Lemma load_tag_run (a : loc) (s : state) (t : FITAG) :
  mem s !! a = Some (CTag t) -> load_tag a s = Some (t, s).
Proof.
  intros H. unfold load_tag. rewrite (bind_run _ _ s s (CTag t)); [reflexivity|].
  by apply load_run.
Qed.

Lemma load_tagmap_run (a : loc) (s : state) (T : gmap string ptr) :
  mem s !! a = Some (CTagMap T) -> load_tagmap a s = Some (T, s).
Proof.
  intros H. unfold load_tagmap. rewrite (bind_run _ _ s s (CTagMap T)); [reflexivity|].
  by apply load_run.
Qed.

Lemma load_metadata_run (a : loc) (s : state) (MD : gmap Z ptr) :
  mem s !! a = Some (CMetadata MD) -> load_metadata a s = Some (MD, s).
Proof.
  intros H. unfold load_metadata. rewrite (bind_run _ _ s s (CMetadata MD)); [reflexivity|].
  by apply load_run.
Qed.

Lemma is_tag_spec (s : state) (t : loc) : is_tag s t <-> exists c, mem s !! t = Some (CTag c).
Proof.
  unfold is_tag. destruct (mem s !! t) as [[]|]; split; try done; eauto;
    intros [? ?]; done.
Qed.

Lemma DeleteTag_defined (t : loc) (s : state) :
  is_tag s t -> exists s', FreeImage_DeleteTag (Some t) s = Some (tt, s').
Proof.
  intros Ht. apply is_tag_spec in Ht as [c Hc]. unfold FreeImage_DeleteTag.
  rewrite (bind_run _ _ _ _ _ (load_tag_run _ _ _ Hc)).
  unfold release. eapply store_defined; [exact Hc | done].
Qed.

(** The loop that deletes the tags of a tag map runs to its end when
    the tags are live and none is held twice. *)
Lemma delete_tags_defined {K : Type} (l : list (K * ptr)) (s : state) :
  Forall (is_tag s) (omap id l.*2) -> NoDup (omap id l.*2) ->
  exists s', forM l (fun e => FreeImage_DeleteTag e.2) s = Some (tt, s').
Proof.
  revert s. induction l as [|[k p] l IH]; intros s Hlive Hnd.
  - eexists. reflexivity.
  - cbn [forM snd]. destruct p as [t|]; cbn in Hlive, Hnd.
    + apply Forall_cons in Hlive as [Ht Hlive]. apply NoDup_cons in Hnd as [Hnotin Hnd].
      destruct (DeleteTag_defined t s Ht) as (s1 & H1).
      rewrite (bind_run _ _ _ _ _ H1).
      apply DeleteTag_inv in H1 as (_ & Hm & _).
      apply IH; [|exact Hnd].
      apply Forall_forall. intros t' Hin.
      pose proof (proj1 (Forall_forall _ _) Hlive t' Hin) as Ht'.
      unfold is_tag in *. rewrite Hm, lookup_insert_ne; [exact Ht'|].
      intros ->. done.
    + rewrite (bind_run _ _ s s tt) by reflexivity. apply IH; assumption.
Qed.

(** [FreeImage_SetMetadata(model, dib, NULL, NULL)] runs to its end
    when the model is owned. *)
Lemma destroy_model_defined (E : environment) (m : Z) (s : state) (dst dd : loc)
    (db : BLOCK) (dmp : loc) (DMD : gmap Z ptr) :
  bitmap_at s dst dd db -> metadata (fih db) = Some dmp ->
  mem s !! dmp = Some (CMetadata DMD) ->
  model_owned s (default None (DMD !! m)) ->
  exists s', FreeImage_SetMetadata E m (Some dst) None None s = Some (true, s').
Proof.
  intros Hb Hmd Hd Hown. unfold FreeImage_SetMetadata.
  rewrite (read_block_run _ _ _ _ _ Hb). cbv beta iota. rewrite Hmd.
  rewrite (bind_run _ _ s s dmp) by reflexivity.
  rewrite (bind_run _ _ _ _ _ (load_metadata_run _ _ _ Hd)). cbv zeta.
  destruct (default None (DMD !! m)) as [tm|]; [|eexists; reflexivity].
  unfold model_owned, tags_of in Hown.
  destruct (mem s !! tm) as [[| | | |T| |]|] eqn:HT; try done.
  destruct Hown as [Hlive Hnd].
  rewrite (bind_run _ _ _ _ _ (load_tagmap_run _ _ _ HT)).
  destruct (delete_tags_defined (map_to_list T) s Hlive Hnd) as (s1 & H1).
  rewrite (bind_run _ _ _ _ _ H1).
  destruct (delete_tags_inv _ _ _ _ H1) as (Hfreed & Hsame & _ & _).
  assert (Hkeep : forall a c, mem s !! a = Some c -> (forall t, c <> CTag t) ->
                    mem s1 !! a = Some c).
  { intros a c Ha Hc. rewrite Hsame; [exact Ha|]. intros Hin.
    destruct (Hfreed a Hin) as ([t Ht] & _). rewrite Ha in Ht. inversion Ht. by eapply Hc. }
  destruct (store_defined tm Freed _ s1 (Hkeep _ _ HT ltac:(done)) ltac:(done)) as (s2 & H2).
  unfold release. rewrite (bind_run _ _ _ _ _ H2).
  assert (Hd2 : mem s2 !! dmp = Some (CMetadata DMD)).
  { rewrite (store_other _ _ _ _ _ dmp H2); [by apply Hkeep|]. intros ->. congruence. }
  destruct (store_defined dmp (CMetadata (delete m DMD)) _ s2 Hd2 ltac:(done)) as (s3 & H3).
  rewrite (bind_run _ _ _ _ _ H3). eexists. reflexivity.
Qed.

(** The loop that fills a new tag map runs to its end when the tags of
    the list are live in [s0], an earlier state in which the new tag
    map did not exist. *)
Lemma clone_loop_defined (tm' : loc) (l : list (string * ptr)) (s0 s : state) :
  extends s0 s -> mem s0 !! tm' = None ->
  (exists T', mem s !! tm' = Some (CTagMap T')) ->
  Forall (is_tag s0) (omap id l.*2) ->
  exists s', forM l (clone_into tm') s = Some (tt, s').
Proof.
  revert s. induction l as [|[k p] l IH]; intros s He Hnew [T' HT'] Hlive.
  - eexists. reflexivity.
  - cbn [forM].
    assert (Hstep : exists q s1, FreeImage_CloneTag p s = Some (q, s1)
                      /\ extends s s1 /\ mem s1 !! tm' = Some (CTagMap T')).
    { destruct p as [t|]; cbn in Hlive.
      - apply Forall_cons in Hlive as [Ht _]. apply is_tag_spec in Ht as [c Hc].
        pose proof (extends_lookup _ _ _ _ He Hc) as Hc'.
        unfold FreeImage_CloneTag.
        rewrite (bind_run _ _ _ _ _ (load_tag_run _ _ _ Hc')).
        destruct (alloc_defined (CTag c) s) as (a & s1 & Ha).
        rewrite (bind_run _ _ _ _ _ Ha). exists (Some a), s1.
        split; [reflexivity|]. apply alloc_extends in Ha as (He1 & _ & _).
        split; [exact He1 | by eapply extends_lookup].
      - exists None, s. split; [reflexivity|]. split; [apply extends_refl | exact HT']. }
    destruct Hstep as (q & s1 & H1 & He1 & HT1).
    destruct (store_defined tm' (CTagMap (<[k := q]> T')) _ s1 HT1 ltac:(done)) as (s2 & H2).
    assert (Hturn : clone_into tm' (k, p) s = Some (tt, s2)).
    { unfold clone_into. cbn [fst snd]. rewrite (bind_run _ _ _ _ _ H1).
      rewrite (bind_run _ _ _ _ _ (load_tagmap_run _ _ _ HT1)). exact H2. }
    rewrite (bind_run _ _ _ _ _ Hturn).
    apply store_same_but in H2 as [Hsb Hst].
    apply IH.
    + eapply extends_same_but_fresh; [|exact Hsb | exact Hnew].
      eapply extends_trans; eassumption.
    + exact Hnew.
    + eauto.
    + destruct p; cbn in Hlive; [by apply Forall_cons in Hlive as [_ ?] | exact Hlive].
Qed.

(** [clone_tagmap] runs to its end on a live tag map whose tags are
    live. *)
Lemma clone_tagmap_defined (tm : loc) (s : state) (T : gmap string ptr) :
  mem s !! tm = Some (CTagMap T) -> Forall (is_tag s) (tags_of s tm) ->
  exists tm' s', clone_tagmap tm s = Some (tm', s').
Proof.
  intros HT Hlive. unfold tags_of in Hlive. rewrite HT in Hlive. unfold clone_tagmap.
  destruct (alloc_defined (CTagMap ∅) s) as (tm' & s1 & H1).
  rewrite (bind_run _ _ _ _ _ H1).
  apply alloc_extends in H1 as (He1 & Hnew & Hnew1).
  rewrite (bind_run _ _ _ _ _ (load_tagmap_run _ _ _ (extends_lookup _ _ _ _ He1 HT))).
  destruct (clone_loop_defined tm' (map_to_list T) s s1 He1 Hnew ltac:(eauto) Hlive)
    as (s2 & H2).
  rewrite (bind_run _ _ _ _ _ H2). eexists _, _. reflexivity.
Qed.

(** ** The model loop of [FreeImage_CloneMetadata] runs to its end *)

Lemma tags_of_spec (s : state) (tm : loc) (T : gmap string ptr) (a : loc) :
  mem s !! tm = Some (CTagMap T) ->
  a ∈ tags_of s tm <-> exists k, T !! k = Some (Some a).
Proof.
  intros HT. unfold tags_of. rewrite HT. rewrite list_elem_of_omap. split.
  - intros (p & Hin & Hp). cbn in Hp. subst p.
    apply list_elem_of_fmap in Hin as ([k q] & Hq & Hin). cbn in Hq. subst q.
    apply elem_of_map_to_list in Hin. eauto.
  - intros (k & Hk). exists (Some a). split; [|reflexivity].
    apply list_elem_of_fmap. exists (k, Some a). split; [reflexivity|].
    by apply elem_of_map_to_list.
Qed.

(** The objects of an owned model are a tag map and tags. *)
Lemma model_objects_kind (s : state) (p : ptr) (x : loc) :
  model_owned s p -> x ∈ model_objects s p ->
  (exists T, mem s !! x = Some (CTagMap T)) \/ (exists c, mem s !! x = Some (CTag c)).
Proof.
  unfold model_owned, model_objects. destruct p as [tm|]; [|by intros _ ?%elem_of_nil].
  destruct (mem s !! tm) as [[| | | |T| |]|] eqn:HT; try done.
  intros [Hlive _] Hin. apply elem_of_cons in Hin as [->|Hin]; [eauto|].
  right. apply is_tag_spec. exact (proj1 (Forall_forall _ _) Hlive x Hin).
Qed.

(** Ownership of a model depends on its objects only. *)
Lemma model_owned_agree (s0 s1 : state) (p : ptr) :
  (forall x, x ∈ model_objects s0 p -> mem s1 !! x = mem s0 !! x) ->
  model_owned s0 p -> model_owned s1 p /\ model_objects s1 p = model_objects s0 p.
Proof.
  unfold model_owned, model_objects. destruct p as [tm|]; [|done].
  intros Hsame Hown.
  assert (Htm : mem s1 !! tm = mem s0 !! tm) by (apply Hsame; left).
  assert (Htags : tags_of s1 tm = tags_of s0 tm) by (unfold tags_of; by rewrite Htm).
  rewrite Htm, Htags. split; [|reflexivity].
  destruct (mem s0 !! tm) as [[| | | |T| |]|]; try done.
  destruct Hown as [Hlive Hnd]. split; [|exact Hnd].
  apply Forall_forall. intros t Hin.
  pose proof (proj1 (Forall_forall _ _) Hlive t Hin) as Ht.
  unfold is_tag in *. rewrite Hsame; [exact Ht | by right].
Qed.

(** One turn of the model loop runs to its end when the model of the
    destination and the model of the source are owned and share no
    object; it changes the metadata map, the objects of the model of the
    destination and nothing else that existed. *)
Lemma clone_model_turn (E : environment) (s1 : state) (dst dd : loc) (db : BLOCK)
    (dmp : loc) (DMD1 : gmap Z ptr) (m : Z) (p : ptr) :
  bitmap_at s1 dst dd db -> metadata (fih db) = Some dmp ->
  mem s1 !! dmp = Some (CMetadata DMD1) ->
  model_owned s1 (default None (DMD1 !! m)) ->
  model_owned s1 p ->
  Forall (fun x => x ∉ model_objects s1 p) (model_objects s1 (default None (DMD1 !! m))) ->
  exists s2,
    clone_model E (Some dst) dmp (m, p) s1 = Some (tt, s2)
    /\ (forall x c, mem s1 !! x = Some c -> x <> dmp ->
          x ∉ model_objects s1 (default None (DMD1 !! m)) -> mem s2 !! x = Some c)
    /\ exists DMD2, mem s2 !! dmp = Some (CMetadata DMD2)
         /\ forall m', m' <> m -> DMD2 !! m' = DMD1 !! m'.
Proof.
  intros Hb Hmd Hd Hdown Hsown Hsep.
  unfold clone_model. cbn [fst snd].
  destruct (m =? FIMD_ANIMATION); [exists s1; eauto 10|].
  destruct p as [tm|]; [|exists s1; eauto 10].
  rewrite (bind_run _ _ _ _ _ (load_metadata_run _ _ _ Hd)).
  (* the model of the destination is destroyed *)
  assert (Hdes : exists s1',
    (if is_null (DMD1 !! m) then mret tt
     else _ ← FreeImage_SetMetadata E m (Some dst) None None; mret tt) s1 = Some (tt, s1')
    /\ (forall x c, mem s1 !! x = Some c -> x <> dmp ->
          x ∉ model_objects s1 (default None (DMD1 !! m)) -> mem s1' !! x = Some c)
    /\ exists DMD1', mem s1' !! dmp = Some (CMetadata DMD1')
         /\ forall m', m' <> m -> DMD1' !! m' = DMD1 !! m').
  { destruct (DMD1 !! m) as [q|] eqn:Hq; cbn [is_null].
    2:{ exists s1. split; [reflexivity|]. eauto. }
    destruct (destroy_model_defined E m s1 dst dd db dmp DMD1 Hb Hmd Hd) as (s1' & Hrun).
    { by rewrite Hq. }
    exists s1'. rewrite (bind_run _ _ _ _ _ Hrun). split; [reflexivity|].
    destruct (destroy_model_inv _ _ _ _ _ _ _ _ _ _ Hb Hmd Hd Hrun) as [_ Hdes].
    rewrite Hq in Hdes. destruct q as [dtm|]; [|subst s1'; eauto].
    destruct Hdes as (T & HT & Hd' & _ & _ & Hframe & _).
    split.
    - intros x c Hx Hne Hnot. cbn [default model_objects] in Hnot.
      apply not_elem_of_cons in Hnot as [Hne2 Hnot].
      rewrite Hframe; [exact Hx | exact Hne | exact Hne2 |].
      intros k Hk. apply Hnot. apply (tags_of_spec _ _ _ _ HT). eauto.
    - exists (delete m DMD1). split; [exact Hd'|].
      intros m' Hne. by apply lookup_delete_ne. }
  destruct Hdes as (s1' & Hrun1 & Hframe1 & DMD1' & Hd1' & Hother).
  rewrite (bind_run _ _ _ _ _ Hrun1).
  (* the model of the source is as it was *)
  assert (Hagree : forall x, x ∈ model_objects s1 (Some tm) -> mem s1' !! x = mem s1 !! x).
  { intros x Hin.
    destruct (model_objects_kind _ _ _ Hsown Hin) as [[T HT]|[c Hc]].
    - rewrite HT. apply Hframe1; [exact HT | intros ->; congruence |].
      intros Hin'. exact (proj1 (Forall_forall _ _) Hsep x Hin' Hin).
    - rewrite Hc. apply Hframe1; [exact Hc | intros ->; congruence |].
      intros Hin'. exact (proj1 (Forall_forall _ _) Hsep x Hin' Hin). }
  destruct (model_owned_agree s1 s1' (Some tm) Hagree Hsown) as [Hsown' _].
  unfold model_owned in Hsown'.
  destruct (mem s1' !! tm) as [[| | | |T| |]|] eqn:HT; try done.
  destruct Hsown' as [Hlive _].
  destruct (clone_tagmap_defined tm s1' T HT Hlive) as (tm' & s1'' & Hrun2).
  destruct (clone_tagmap_inv _ _ _ _ Hrun2) as (T0 & T' & Hnew & HT' & He & _ & _).
  pose proof (extends_lookup _ _ _ _ He Hd1') as Hd1''.
  destruct (store_defined dmp (CMetadata (<[m := Some tm']> DMD1')) _ s1'' Hd1'' ltac:(done))
    as (s2 & Hrun3).
  exists s2. split.
  { rewrite (bind_run _ _ _ _ _ Hrun2). unfold assign_model.
    rewrite (bind_run _ _ _ _ _ (load_metadata_run _ _ _ Hd1'')). exact Hrun3. }
  apply store_same_but in Hrun3 as [Hsb Hst]. split.
  - intros x c Hx Hne Hnot. apply Hsb; [|exact Hne].
    eapply extends_lookup; [exact He|]. by apply Hframe1.
  - eexists. split; [exact Hst|]. intros m' Hne.
    rewrite lookup_insert_ne by done. by apply Hother.
Qed.

Lemma separate_lookup (s : state) (apart : bool) (MD MD' : gmap Z ptr) (m m' : Z) (x : loc) :
  separate s apart MD MD' -> apart = false \/ m <> m' ->
  x ∈ model_objects s (default None (MD !! m)) ->
  x ∈ model_objects s (default None (MD' !! m')) -> False.
Proof.
  intros Hsep Hne Hx Hx'.
  destruct (MD !! m) as [p|] eqn:Hp; [|by apply elem_of_nil in Hx].
  destruct (MD' !! m') as [p'|] eqn:Hp'; [|by apply elem_of_nil in Hx'].
  cbn [default] in Hx, Hx'.
  pose proof (map_Forall_lookup_1 _ _ _ _ (map_Forall_lookup_1 _ _ _ _ Hsep Hp) Hp') as Hd.
  cbv beta in Hd. destruct Hd as [[Ha Hm]|Hd].
  - destruct Hne; congruence.
  - exact (proj1 (Forall_forall _ _) Hd x Hx Hx').
Qed.

Lemma owned_lookup (s : state) (MD : gmap Z ptr) (m : Z) :
  owned s MD -> model_owned s (default None (MD !! m)).
Proof.
  intros Hown. destruct (MD !! m) as [p|] eqn:Hp; [|done].
  exact (map_Forall_lookup_1 _ _ _ _ Hown Hp).
Qed.

(** The model loop runs to its end from a state [s0] that has the
    ownership it relies on, and leaves the bitmaps as they are. *)
Lemma clone_models_defined (E : environment) (s0 : state) (dst dd : loc) (db : BLOCK)
    (dmp : loc) (DMD0 SMD : gmap Z ptr) :
  bitmap_at s0 dst dd db -> metadata (fih db) = Some dmp ->
  mem s0 !! dmp = Some (CMetadata DMD0) ->
  clone_metadata_ready s0 DMD0 SMD ->
  exists s2,
    forM (map_to_list SMD) (clone_model E (Some dst) dmp) s0 = Some (tt, s2)
    /\ forall x c, mem s0 !! x = Some c -> is_bitmap_cell c -> mem s2 !! x = Some c.
Proof.
  intros Hb Hmd Hd (Hsown & Hdown & Hsep_ds & Hsep_dd).
  assert (Hgen : forall l s1 DMD1,
    NoDup l.*1 -> (forall m p, (m, p) ∈ l -> SMD !! m = Some p) ->
    mem s1 !! dmp = Some (CMetadata DMD1) ->
    (forall m p, (m, p) ∈ l -> DMD1 !! m = DMD0 !! m) ->
    (forall m p x, (m, p) ∈ l ->
       x ∈ model_objects s0 p \/ x ∈ model_objects s0 (default None (DMD0 !! m)) ->
       mem s1 !! x = mem s0 !! x) ->
    (forall x c, mem s0 !! x = Some c -> is_bitmap_cell c -> mem s1 !! x = Some c) ->
    exists s2,
      forM l (clone_model E (Some dst) dmp) s1 = Some (tt, s2)
      /\ forall x c, mem s0 !! x = Some c -> is_bitmap_cell c -> mem s2 !! x = Some c).
  { induction l as [|[m p] l IH]; intros s1 DMD1 Hnd Hl Hd1 Hkeys Hagree Hbitmaps.
    { exists s1. split; [reflexivity | exact Hbitmaps]. }
    cbn in Hnd. apply NoDup_cons in Hnd as [Hm_notin Hnd].
    assert (Hb1 : bitmap_at s1 dst dd db).
    { destruct Hb as [Hw Hblk]. split; by apply Hbitmaps. }
    assert (Hm : DMD1 !! m = DMD0 !! m) by (apply (Hkeys m p); left).
    assert (Hp : SMD !! m = Some p) by (apply Hl; left).
    pose proof (owned_lookup s0 DMD0 m Hdown) as Hdo0.
    pose proof (owned_lookup s0 SMD m Hsown) as Hso0. rewrite Hp in Hso0. cbn [default] in Hso0.
    destruct (model_owned_agree s0 s1 (default None (DMD0 !! m))) as [Hdo1 Hdobj]; [|exact Hdo0|].
    { intros x Hx. apply (Hagree m p x); [left | by right]. }
    destruct (model_owned_agree s0 s1 p) as [Hso1 Hsobj]; [|exact Hso0|].
    { intros x Hx. apply (Hagree m p x); [left | by left]. }
    rewrite <- Hm in Hdo1, Hdobj.
    destruct (clone_model_turn E s1 dst dd db dmp DMD1 m p Hb1 Hmd Hd1 Hdo1 Hso1)
      as (s2 & Hrun & Hframe & DMD2 & Hd2 & Hother).
    { apply Forall_forall. intros x Hx Hx'. rewrite Hdobj, Hm in Hx. rewrite Hsobj in Hx'.
      apply (separate_lookup s0 false DMD0 SMD m m x Hsep_ds); [by left | exact Hx |].
      by rewrite Hp. }
    assert (Hlater : forall m' p', (m', p') ∈ l -> m' <> m).
    { intros m' p' Hin ->. apply Hm_notin. apply list_elem_of_fmap. by exists (m, p'). }
    destruct (IH s2 DMD2 Hnd) as (s3 & Hrun3 & Hbitmaps3).
    - intros m' p' Hin. apply Hl. by right.
    - exact Hd2.
    - intros m' p' Hin. rewrite (Hother m' (Hlater m' p' Hin)). apply (Hkeys m' p'). by right.
    - intros m' p' x Hin Hx.
      assert (Hx1 : mem s1 !! x = mem s0 !! x) by (apply (Hagree m' p' x); [by right | exact Hx]).
      rewrite <- Hx1.
      assert (Hkind : (exists T, mem s0 !! x = Some (CTagMap T))
                      \/ (exists c, mem s0 !! x = Some (CTag c))).
      { destruct Hx as [Hx|Hx].
        - apply (model_objects_kind s0 p'); [|exact Hx].
          pose proof (owned_lookup s0 SMD m' Hsown) as Ho.
          rewrite (Hl m' p') in Ho by (by right). exact Ho.
        - exact (model_objects_kind s0 _ x (owned_lookup s0 DMD0 m' Hdown) Hx). }
      assert (Hlive : exists c, mem s1 !! x = Some c /\ forall M, c <> CMetadata M).
      { rewrite Hx1. destruct Hkind as [[T ->]|[c ->]]; eexists; split; done. }
      destruct Hlive as (c & Hc & Hnm). rewrite Hc. apply Hframe; [exact Hc | |].
      + intros ->. rewrite Hd1 in Hc. inversion Hc. by eapply Hnm.
      + rewrite Hdobj, Hm. intros Hin'. destruct Hx as [Hx|Hx].
        * apply (separate_lookup s0 false DMD0 SMD m m' x Hsep_ds); [by left | exact Hin' |].
          rewrite (Hl m' p') by (by right). exact Hx.
        * apply (separate_lookup s0 true DMD0 DMD0 m m' x Hsep_dd); [right | exact Hin' | exact Hx].
          intros ->. by apply (Hlater m' p' Hin).
    - intros x c Hx Hc. apply Hframe; [by apply Hbitmaps | |].
      + intros ->. rewrite (Hbitmaps _ _ Hx Hc) in Hd1. inversion Hd1; subst c. done.
      + intros Hin. destruct (model_objects_kind s1 _ x Hdo1 Hin) as [[T HT]|[t Ht]];
          rewrite (Hbitmaps _ _ Hx Hc) in *; simplify_eq; done.
    - exists s3. split; [|exact Hbitmaps3]. cbn [forM]. by rewrite (bind_run _ _ _ _ _ Hrun). }
  apply (Hgen (map_to_list SMD) s0 DMD0).
  - apply NoDup_fst_map_to_list.
  - intros m p Hin. by apply elem_of_map_to_list.
  - exact Hd.
  - done.
  - done.
  - done.
Qed.

(** ** Metadata store: what a stored tag leaves *)

Lemma tag_field_run {A : Type} (f : FITAG -> A) (tg : loc) (s : state) (t : FITAG) :
  mem s !! tg = Some (CTag t) ->
  (load_tag tg ≫= fun t => mret (f t)) s = Some (f t, s).
Proof. intros H. by rewrite (bind_run _ _ _ _ _ (load_tag_run _ _ _ H)). Qed.

Lemma tag_update_defined (f : FITAG -> FITAG) (tg : loc) (s : state) (t : FITAG) :
  mem s !! tg = Some (CTag t) ->
  exists s', (load_tag tg ≫= fun t => store tg (CTag (f t));; mret true) s = Some (true, s')
    /\ mem s' = <[tg := CTag (f t)]> (mem s) /\ messages s' = messages s.
Proof.
  intros H. rewrite (bind_run _ _ _ _ _ (load_tag_run _ _ _ H)).
  destruct (store_defined tg (CTag (f t)) _ s H ltac:(done)) as (s' & Hs).
  rewrite (bind_run _ _ _ _ _ Hs). exists s'. split; [reflexivity|].
  apply store_inv in Hs as (_ & ? & ?). done.
Qed.

Lemma set_tag_key_same (k : string) (t : FITAG) :
  tag_key t = Some k -> set_tag_key (Some k) t = t.
Proof. destruct t. cbn. by intros ->. Qed.

(** A stored tag, step by step: [FreeImage_SetMetadata] with a key and
    a well counted tag on a live bitmap runs to its end and returns
    true. The model has a tag map [tm] afterwards, which holds what it
    held and, under the key, a clone [c] of the caller's tag; the tag
    that was under the key is released; the caller's tag has the key. *)
Lemma SetMetadata_store (E : environment) (model : Z) (a d : loc) (b : BLOCK) (mdp : loc)
    (MD : gmap Z ptr) (key : string) (tg : loc) (t : FITAG) (s : state) :
  bitmap_at s a d b -> metadata (fih b) = Some mdp ->
  mem s !! mdp = Some (CMetadata MD) ->
  mem s !! tg = Some (CTag t) ->
  slot_ready s (default None (MD !! model)) key (Some tg) ->
  well_counted E t ->
  exists s' tm c,
    FreeImage_SetMetadata E model (Some a) (Some key) (Some tg) s = Some (true, s')
    /\ messages s' = messages s
    /\ mem s' !! mdp = Some (CMetadata (<[model := Some tm]> MD))
    /\ (default None (MD !! model) = None -> mem s !! tm = None)
    /\ (forall tm0, default None (MD !! model) = Some tm0 -> tm = tm0)
    /\ mem s' !! tm
       = Some (CTagMap (<[key := Some c]> (tags_in s (default None (MD !! model)))))
    /\ mem s !! c = None
    /\ mem s' !! c = Some (CTag (stored_tag E model key t))
    /\ mem s' !! tg = Some (CTag (stored_tag E model key t))
    /\ (forall old, tags_in s (default None (MD !! model)) !! key = Some (Some old) ->
          mem s' !! old = Some Freed)
    /\ (forall x cx, mem s !! x = Some cx -> x <> mdp -> x <> tm -> x <> tg ->
          tags_in s (default None (MD !! model)) !! key <> Some (Some x) ->
          mem s' !! x = Some cx).
Proof.
  intros Hb Hmd HMD Ht Hready Hcount.
  unfold FreeImage_SetMetadata.
  rewrite (read_block_run _ _ _ _ _ Hb). cbv beta iota. rewrite Hmd.
  rewrite (bind_run _ _ s s mdp) by reflexivity.
  rewrite (bind_run _ _ _ _ _ (load_metadata_run _ _ _ HMD)). cbv zeta.
  cbn [is_null andb].
  set (p := default None (MD !! model)) in *.
  (* the tag map of the model *)
  assert (Hmodel : exists tm s1 T,
    (match p with
     | Some tm => mret tm
     | None => tm ← alloc (CTagMap ∅);
               store mdp (CMetadata (<[model := Some tm]> MD));; mret tm
     end) s = Some (tm, s1)
    /\ messages s1 = messages s
    /\ T = tags_in s p
    /\ mem s1 !! tm = Some (CTagMap T)
    /\ mem s1 !! mdp = Some (CMetadata (<[model := Some tm]> MD))
    /\ (p = None -> mem s !! tm = None)
    /\ (forall tm0, p = Some tm0 -> tm = tm0)
    /\ (forall x cx, mem s !! x = Some cx -> x <> mdp -> mem s1 !! x = Some cx)
    /\ (forall x, mem s1 !! x = None -> mem s !! x = None)).
  { destruct p as [tm|] eqn:Hp.
    - unfold slot_ready in Hready.
      destruct (mem s !! tm) as [[| | | |T| |]|] eqn:HT; try done.
      exists tm, s, T. split; [reflexivity|]. split; [reflexivity|].
      split; [unfold tags_in; by rewrite HT|]. split; [exact HT|].
      split.
      { rewrite HMD. do 2 f_equal. symmetry. apply insert_id.
        unfold p in Hp. destruct (MD !! model) as [q|]; cbn in Hp; by subst. }
      split; [discriminate|]. split; [by intros ? [= ->]|]. done.
    - destruct (alloc_defined (CTagMap ∅) s) as (tm & s1 & H1).
      rewrite (bind_run _ _ _ _ _ H1).
      apply alloc_extends in H1 as (He1 & Hnew & Hnew1).
      destruct (store_defined mdp (CMetadata (<[model := Some tm]> MD)) _ s1
                  (extends_lookup _ _ _ _ He1 HMD) ltac:(done)) as (s2 & H2).
      rewrite (bind_run _ _ _ _ _ H2).
      apply store_same_but in H2 as [Hsb Hst].
      exists tm, s2, ∅. split; [reflexivity|].
      split; [destruct Hsb as (_ & _ & ->); apply He1|].
      split; [reflexivity|].
      assert (tm <> mdp) by (intros ->; congruence).
      split; [by apply Hsb|]. split; [exact Hst|]. split; [done|]. split; [discriminate|].
      split.
      + intros x cx Hx Hne. apply Hsb; [|exact Hne]. by eapply extends_lookup.
      + intros x Hx. eapply extends_fresh; [exact He1|]. by eapply same_but_fresh. }
  destruct Hmodel as (tm & s1 & T & Hrun1 & Hg1 & HT & HT1 & HMD1 & Hnewtm & Hsametm
                      & Hkeep1 & Hfresh1).
  rewrite (bind_run _ _ _ _ _ Hrun1). clear Hrun1.
  assert (Hne_tg_mdp : tg <> mdp) by (intros ->; congruence).
  assert (Hne_tg_tm : tg <> tm).
  { intros ->. rewrite (Hkeep1 _ _ Ht Hne_tg_mdp) in HT1. discriminate. }
  pose proof (Hkeep1 _ _ Ht Hne_tg_mdp) as Ht1.
  (* first check the tag *)
  unfold FreeImage_GetTagKey, FreeImage_GetTagCount, FreeImage_GetTagType,
    FreeImage_GetTagLength.
  rewrite (bind_run _ _ _ _ _ (tag_field_run tag_key _ _ _ Ht1)).
  set (t1 := if decide (tag_key t = Some key) then t else set_tag_key (Some key) t).
  assert (Hkey : exists s2,
    (if decide (tag_key t = Some key) then mret true else FreeImage_SetTagKey (Some tg) key) s1
      = Some (true, s2)
    /\ mem s2 = <[tg := CTag t1]> (mem s1) /\ messages s2 = messages s1).
  { unfold t1. destruct (decide (tag_key t = Some key)).
    - exists s1. split; [reflexivity|]. split; [|reflexivity]. symmetry. by apply insert_id.
    - unfold FreeImage_SetTagKey. apply tag_update_defined. exact Ht1. }
  destruct Hkey as (s2 & Hrun2 & Hm2 & Hg2).
  rewrite (bind_run _ _ _ _ _ Hrun2). clear Hrun2.
  assert (Ht2 : mem s2 !! tg = Some (CTag t1)) by (rewrite Hm2; apply lookup_insert_eq).
  rewrite (bind_run _ _ _ _ _ (tag_field_run tag_count _ _ _ Ht2)).
  rewrite (bind_run _ _ _ _ _ (tag_field_run tag_type _ _ _ Ht2)).
  rewrite (bind_run _ _ _ _ _ (tag_field_run tag_length _ _ _ Ht2)).
  assert (Hfields : tag_count t1 = tag_count t /\ tag_type t1 = tag_type t
                    /\ tag_length t1 = tag_length t).
  { unfold t1. destruct (decide _); done. }
  destruct Hfields as (-> & -> & ->).
  unfold well_counted in Hcount. rewrite Hcount, Z.eqb_refl. cbn [negb].
  (* fill the tag ID if possible and if it's needed *)
  assert (Hid : exists s3,
    (if model =? FIMD_IPTC
     then FreeImage_SetTagID (Some tg) (u16 (TagLib_getTagID_IPTC E key))
     else mret true) s2 = Some (true, s3)
    /\ mem s3 = <[tg := CTag (stored_tag E model key t)]> (mem s1)
    /\ messages s3 = messages s2).
  { unfold stored_tag. fold t1. destruct (model =? FIMD_IPTC).
    - unfold FreeImage_SetTagID.
      destruct (tag_update_defined (set_tag_id (u16 (TagLib_getTagID_IPTC E key))) tg s2 t1 Ht2)
        as (s3 & Hr & Hm & Hg).
      exists s3. split; [exact Hr|]. split; [|exact Hg]. rewrite Hm, Hm2. apply insert_insert_eq.
    - exists s2. done. }
  destruct Hid as (s3 & Hrun3 & Hm3 & Hg3).
  rewrite (bind_run _ _ _ _ _ Hrun3). clear Hrun3.
  set (t' := stored_tag E model key t) in *.
  (* delete existing tag *)
  assert (HT3 : mem s3 !! tm = Some (CTagMap T)).
  { rewrite Hm3, lookup_insert_ne by done. exact HT1. }
  rewrite (bind_run _ _ _ _ _ (load_tagmap_run _ _ _ HT3)).
  assert (Hold : forall old, T !! key = Some (Some old) ->
            old <> tg /\ old <> mdp /\ old <> tm /\ exists co, mem s !! old = Some (CTag co)).
  { intros old Hk. subst T. unfold slot_ready, tags_in in *. destruct p as [tm0|]; [|done].
    destruct (mem s !! tm0) as [[| | | |T0| |]|] eqn:HT0; try done.
    rewrite Hk in Hready. destruct Hready as [Hne Htag].
    apply is_tag_spec in Htag as [co Hco].
    split; [congruence|]. split; [intros ->; congruence|].
    split; [|eauto]. rewrite (Hsametm tm0 eq_refl). intros ->. congruence. }
  assert (Hdel : exists s4,
    FreeImage_DeleteTag (default None (T !! key)) s3 = Some (tt, s4)
    /\ messages s4 = messages s3
    /\ (forall old, T !! key = Some (Some old) -> mem s4 !! old = Some Freed)
    /\ (forall x, T !! key <> Some (Some x) -> mem s4 !! x = mem s3 !! x)).
  { destruct (T !! key) as [[old|]|] eqn:Hk; cbn [default].
    - destruct (Hold old eq_refl) as (Hn1 & Hn2 & Hn3 & co & Hco).
      destruct (DeleteTag_defined old s3) as (s4 & H4).
      { apply is_tag_spec. exists co. rewrite Hm3, lookup_insert_ne by done.
        by apply Hkeep1. }
      exists s4. split; [exact H4|]. apply DeleteTag_inv in H4 as (_ & Hm4 & Hg4).
      split; [exact Hg4|]. split.
      + intros ? [= <-]. rewrite Hm4. apply lookup_insert_eq.
      + intros x Hx. rewrite Hm4. apply lookup_insert_ne. congruence.
    - exists s3. split; [reflexivity|]. split; [reflexivity|]. split; [discriminate | done].
    - exists s3. split; [reflexivity|]. split; [reflexivity|]. split; [discriminate | done]. }
  destruct Hdel as (s4 & Hrun4 & Hg4 & Hfreed & Hsame4).
  rewrite (bind_run _ _ _ _ _ Hrun4). clear Hrun4.
  (* create a new tag *)
  assert (Ht4 : mem s4 !! tg = Some (CTag t')).
  { rewrite Hsame4; [rewrite Hm3; apply lookup_insert_eq|].
    intros Hk. by destruct (Hold tg Hk). }
  assert (HT4 : mem s4 !! tm = Some (CTagMap T)).
  { rewrite Hsame4; [exact HT3|]. intros Hk. by destruct (Hold tm Hk) as (_ & _ & ? & _). }
  assert (Hclone : exists c s5,
    FreeImage_CloneTag (Some tg) s4 = Some (Some c, s5)
    /\ mem s4 !! c = None /\ mem s5 = <[c := CTag t']> (mem s4)
    /\ messages s5 = messages s4).
  { unfold FreeImage_CloneTag.
    rewrite (bind_run _ _ _ _ _ (load_tag_run _ _ _ Ht4)).
    destruct (alloc_defined (CTag t') s4) as (c & s5 & H5).
    rewrite (bind_run _ _ _ _ _ H5). exists c, s5. split; [reflexivity|].
    by apply alloc_inv in H5. }
  destruct Hclone as (c & s5 & Hrun5 & Hnewc & Hm5 & Hg5).
  rewrite (bind_run _ _ _ _ _ Hrun5). clear Hrun5.
  assert (Hc_tm : c <> tm) by (intros ->; congruence).
  destruct (store_defined tm (CTagMap (<[key := Some c]> T)) (CTagMap T) s5) as (s6 & H6).
  { rewrite Hm5, lookup_insert_ne by done. exact HT4. }
  { done. }
  rewrite (bind_run _ _ _ _ _ H6).
  apply store_inv in H6 as (_ & Hm6 & Hg6).
  assert (Hdom4 : forall x, mem s4 !! x = None -> mem s3 !! x = None).
  { intros x Hx. destruct (decide (T !! key = Some (Some x))) as [Hk|Hk].
    - rewrite (Hfreed x Hk) in Hx. discriminate.
    - by rewrite <- (Hsame4 x Hk). }
  assert (Hc_new : mem s !! c = None).
  { apply Hfresh1. pose proof (Hdom4 c Hnewc) as Hc3. rewrite Hm3 in Hc3.
    by apply lookup_insert_None in Hc3 as [? _]. }
  exists s6, tm, c. split; [reflexivity|].
  split; [congruence|].
  assert (Hc_mdp : c <> mdp) by (intros ->; congruence).
  assert (Hmdp_tm : mdp <> tm) by (intros ->; congruence).
  split.
  { rewrite Hm6, lookup_insert_ne, Hm5, lookup_insert_ne by done.
    rewrite Hsame4; [|intros Hk; by destruct (Hold mdp Hk) as (_ & ? & _)].
    rewrite Hm3, lookup_insert_ne by done. exact HMD1. }
  split; [exact Hnewtm|]. split; [exact Hsametm|].
  split; [rewrite Hm6, <- HT; apply lookup_insert_eq|].
  split; [exact Hc_new|].
  split; [rewrite Hm6, lookup_insert_ne, Hm5 by done; apply lookup_insert_eq|].
  split.
  { rewrite Hm6, lookup_insert_ne, Hm5, lookup_insert_ne by congruence. exact Ht4. }
  split.
  { intros old Hk. rewrite <- HT in Hk. destruct (Hold old Hk) as (_ & _ & Hn & co & Hco).
    rewrite Hm6, lookup_insert_ne, Hm5, lookup_insert_ne by congruence.
    by apply Hfreed. }
  intros x cx Hx Hn1 Hn2 Hn3 Hn4. rewrite <- HT in Hn4.
  rewrite Hm6, lookup_insert_ne, Hm5, lookup_insert_ne by congruence.
  rewrite (Hsame4 x Hn4), Hm3, lookup_insert_ne by done. by apply Hkeep1.
Qed.

Lemma GetMetadata_run (model : Z) (key : string) (s : state) (a d : loc) (b : BLOCK)
    (mdp : loc) (MD : gmap Z ptr) (tm : loc) (T : gmap string ptr) :
  bitmap_at s a d b -> metadata (fih b) = Some mdp ->
  mem s !! mdp = Some (CMetadata MD) -> MD !! model = Some (Some tm) ->
  mem s !! tm = Some (CTagMap T) ->
  FreeImage_GetMetadata model (Some a) (Some key) s
  = Some ((negb (is_null (default None (T !! key))), default None (T !! key)), s).
Proof.
  intros Hb Hmd HMD Hm HT. unfold FreeImage_GetMetadata.
  rewrite (read_block_run _ _ _ _ _ Hb). cbv beta iota. rewrite Hmd.
  rewrite (bind_run _ _ s s mdp) by reflexivity.
  rewrite (bind_run _ _ _ _ _ (load_metadata_run _ _ _ HMD)), Hm.
  rewrite (bind_run _ _ s s tm) by reflexivity.
  by rewrite (bind_run _ _ _ _ _ (load_tagmap_run _ _ _ HT)).
Qed.

Lemma GetMetadata_absent (model : Z) (key : string) (s : state) (a d : loc) (b : BLOCK)
    (mdp : loc) (MD : gmap Z ptr) :
  bitmap_at s a d b -> metadata (fih b) = Some mdp ->
  mem s !! mdp = Some (CMetadata MD) -> MD !! model = None ->
  FreeImage_GetMetadata model (Some a) (Some key) s = Some ((false, None), s).
Proof.
  intros Hb Hmd HMD Hm. unfold FreeImage_GetMetadata.
  rewrite (read_block_run _ _ _ _ _ Hb). cbv beta iota. rewrite Hmd.
  rewrite (bind_run _ _ s s mdp) by reflexivity.
  by rewrite (bind_run _ _ _ _ _ (load_metadata_run _ _ _ HMD)), Hm.
Qed.

Lemma GetMetadataCount_run (model : Z) (s : state) (a d : loc) (b : BLOCK)
    (mdp : loc) (MD : gmap Z ptr) :
  bitmap_at s a d b -> metadata (fih b) = Some mdp ->
  mem s !! mdp = Some (CMetadata MD) ->
  (forall tm, MD !! model = Some (Some tm) -> exists T, mem s !! tm = Some (CTagMap T)) ->
  FreeImage_GetMetadataCount model (Some a) s
  = Some (u32 (Z.of_nat (size (tags_in s (default None (MD !! model))))), s).
Proof.
  intros Hb Hmd HMD Hlive. unfold FreeImage_GetMetadataCount.
  rewrite (read_block_run _ _ _ _ _ Hb). cbv beta iota. rewrite Hmd.
  rewrite (bind_run _ _ s s mdp) by reflexivity.
  rewrite (bind_run _ _ _ _ _ (load_metadata_run _ _ _ HMD)).
  destruct (MD !! model) as [[tm|]|] eqn:Hm; cbn [default tags_in]; try reflexivity.
  destruct (Hlive tm eq_refl) as [T HT].
  rewrite (bind_run _ _ _ _ _ (load_tagmap_run _ _ _ HT)). unfold tags_in.
  cbn [default id]. by rewrite HT.
Qed.

Lemma stored_tag_fields (E : environment) (model : Z) (key : string) (t : FITAG) :
  tag_key (stored_tag E model key t) = Some key
  /\ tag_description (stored_tag E model key t) = tag_description t
  /\ tag_type (stored_tag E model key t) = tag_type t
  /\ tag_count (stored_tag E model key t) = tag_count t
  /\ tag_length (stored_tag E model key t) = tag_length t
  /\ tag_value (stored_tag E model key t) = tag_value t.
Proof.
  unfold stored_tag. cbv zeta.
  destruct (decide (tag_key t = Some key)) as [Hk|Hk], (model =? FIMD_IPTC); cbn; done.
Qed.

(** The bitmap is not one of the objects that a stored tag touches. *)
Lemma store_keeps_bitmap (s s' : state) (a d : loc) (b : BLOCK) (mdp tm tg : loc)
    (MD : gmap Z ptr) (t : FITAG) (T : gmap string ptr) (key : string) :
  bitmap_at s a d b -> mem s !! mdp = Some (CMetadata MD) -> mem s !! tg = Some (CTag t) ->
  (mem s !! tm = None \/ exists T0, mem s !! tm = Some (CTagMap T0)) ->
  (forall old, T !! key = Some (Some old) -> is_tag s old) ->
  (forall x cx, mem s !! x = Some cx -> x <> mdp -> x <> tm -> x <> tg ->
     T !! key <> Some (Some x) -> mem s' !! x = Some cx) ->
  bitmap_at s' a d b.
Proof.
  intros [Ha Hd] HMD Ht Htm Hold Hframe.
  assert (Hkind : forall x cx, mem s !! x = Some cx -> is_bitmap_cell cx ->
            mem s' !! x = Some cx).
  { intros x cx Hx Hc. apply Hframe; [exact Hx | | | |].
    - intros ->. rewrite HMD in Hx. by inversion Hx; subst.
    - intros ->. destruct Htm as [Hn|[T0 HT0]]; rewrite Hx in *; [done|].
      by inversion HT0; subst.
    - intros ->. rewrite Ht in Hx. by inversion Hx; subst.
    - intros Hk. apply Hold, is_tag_spec in Hk as [co Hco]. rewrite Hx in Hco.
      by inversion Hco; subst. }
  split; by apply Hkind.
Qed.

(** * The metadata store as its users see it *)

(** What a successful store leaves behind, in the terms of the
    theorems below. *)
Lemma SetMetadata_stored (E : environment) (model : Z) (a d : loc) (b : BLOCK) (mdp : loc)
    (MD : gmap Z ptr) (key : string) (tg : loc) (t : FITAG) (s : state) :
  bitmap_at s a d b -> metadata (fih b) = Some mdp ->
  mem s !! mdp = Some (CMetadata MD) ->
  mem s !! tg = Some (CTag t) ->
  slot_ready s (default None (MD !! model)) key (Some tg) ->
  well_counted E t ->
  exists s' tm c,
    FreeImage_SetMetadata E model (Some a) (Some key) (Some tg) s = Some (true, s')
    /\ bitmap_at s' a d b
    /\ mem s' !! mdp = Some (CMetadata (<[model := Some tm]> MD))
    /\ mem s' !! tm = Some (CTagMap (<[key := Some c]> (tags_in s (default None (MD !! model)))))
    /\ mem s !! c = None
    /\ mem s' !! c = Some (CTag (stored_tag E model key t))
    /\ mem s' !! tg = Some (CTag (stored_tag E model key t))
    /\ (default None (MD !! model) = None -> mem s !! tm = None)
    /\ (forall tm0, default None (MD !! model) = Some tm0 -> tm = tm0)
    /\ (forall x cx, mem s !! x = Some cx -> x <> mdp -> x <> tm -> x <> tg ->
          tags_in s (default None (MD !! model)) !! key <> Some (Some x) ->
          mem s' !! x = Some cx).
Proof.
  intros Hb Hmd HMD Ht Hslot Hwc.
  destruct (SetMetadata_store E model a d b mdp MD key tg t s Hb Hmd HMD Ht Hslot Hwc)
    as (s' & tm & c & Hrun & _ & HMD' & Hnew & Hsame & HT' & Hc & Hc' & Htg' & _ & Hframe).
  exists s', tm, c. split; [exact Hrun|].
  split; [|exact (conj HMD' (conj HT' (conj Hc (conj Hc' (conj Htg' (conj Hnew (conj Hsame Hframe)))))))].
  apply (store_keeps_bitmap s s' a d b mdp tm tg MD t
           (tags_in s (default None (MD !! model))) key Hb HMD Ht); [| |exact Hframe].
  - destruct (default None (MD !! model)) as [tm0|] eqn:Hp.
    + right. rewrite (Hsame tm0 eq_refl). cbn [slot_ready] in Hslot.
      destruct (mem s !! tm0) as [[| | | |T| |]|]; try done. by exists T.
    + left. by apply Hnew.
  - intros old Hold. destruct (default None (MD !! model)) as [tm0|]; cbn [tags_in] in Hold.
    + cbn [slot_ready] in Hslot.
      destruct (mem s !! tm0) as [[| | | |T| |]|]; try done.
      rewrite Hold in Hslot. by destruct Hslot.
    + by rewrite lookup_empty in Hold.
Qed.

(** X1. A tag stored under a key is what a lookup of that key returns:
    when [FreeImage_SetMetadata] is given a live, well-counted tag and
    the entry of the model is usable, it returns [TRUE], and
    [FreeImage_GetMetadata] with the same model and key then returns
    [TRUE] with a tag object that did not exist before the store, whose
    key is the one stored under and whose other fields (type, count,
    length, value, description) are the caller's. *)
Theorem X1_stored_tag_is_found (E : environment) (model : Z) (a d : loc) (b : BLOCK)
    (mdp : loc) (MD : gmap Z ptr) (key : string) (tg : loc) (t : FITAG) (s : state) :
  bitmap_at s a d b -> metadata (fih b) = Some mdp ->
  mem s !! mdp = Some (CMetadata MD) ->
  mem s !! tg = Some (CTag t) ->
  slot_ready s (default None (MD !! model)) key (Some tg) ->
  well_counted E t ->
  exists s' c t',
    FreeImage_SetMetadata E model (Some a) (Some key) (Some tg) s = Some (true, s')
    /\ FreeImage_GetMetadata model (Some a) (Some key) s' = Some ((true, Some c), s')
    /\ mem s !! c = None
    /\ mem s' !! c = Some (CTag t')
    /\ tag_key t' = Some key
    /\ tag_type t' = tag_type t /\ tag_count t' = tag_count t
    /\ tag_length t' = tag_length t /\ tag_value t' = tag_value t
    /\ tag_description t' = tag_description t.
Proof.
  intros Hb Hmd HMD Ht Hslot Hwc.
  destruct (SetMetadata_stored E model a d b mdp MD key tg t s Hb Hmd HMD Ht Hslot Hwc)
    as (s' & tm & c & Hrun & Hb' & HMD' & HT' & Hc & Hc' & _).
  destruct (stored_tag_fields E model key t) as (Hk & Hde & Hty & Hco & Hle & Hva).
  exists s', c, (stored_tag E model key t).
  split; [exact Hrun|].
  split; [|exact (conj Hc (conj Hc' (conj Hk (conj Hty (conj Hco (conj Hle (conj Hva Hde)))))))].
  rewrite (GetMetadata_run model key s' a d b mdp _ tm _ Hb' Hmd HMD'
             (lookup_insert_eq MD model (Some tm)) HT').
  by rewrite lookup_insert_eq.
Qed.

Lemma X1_stored_tag_is_found_witness :
  exists s' c,
    stored_comment = Some (true, s')
    /\ FreeImage_GetMetadata FIMD_COMMENTS (Some 1%positive) (Some "a") s'
       = Some ((true, Some c), s')
    /\ tag_key (tag_at s' c) = Some "a"
    /\ tag_value (tag_at s' c) = tag_value text_tag.
Proof.
  set (s := final_state bitmap_and_tag).
  assert (Hb : bitmap_at s 1%positive 2%positive (block_at s 2%positive))
    by (split; vm_compute; reflexivity).
  assert (HMD : mem s !! 3%positive = Some (CMetadata (metadata_at s 3%positive)))
    by (vm_compute; reflexivity).
  assert (Ht : mem s !! 4%positive = Some (CTag text_tag)) by (vm_compute; reflexivity).
  assert (Hslot : slot_ready s (default None (metadata_at s 3%positive !! FIMD_COMMENTS))
                    "a" (Some 4%positive))
    by (apply (@bool_decide_unpack _ (slot_ready_dec s _ "a" (Some 4%positive)));
        vm_compute; exact I).
  assert (Hwc : well_counted example_environment text_tag) by (vm_compute; reflexivity).
  destruct (X1_stored_tag_is_found example_environment FIMD_COMMENTS 1%positive 2%positive
              (block_at s 2%positive) 3%positive (metadata_at s 3%positive) "a" 4%positive
              text_tag s Hb eq_refl HMD Ht Hslot Hwc)
    as (s' & c & t' & Hrun & Hget & _ & Hc & Hk & _ & _ & _ & Hv & _).
  exists s', c. unfold tag_at, stored_comment. rewrite Hc.
  exact (conj Hrun (conj Hget (conj Hk Hv))).
Defined.

(** X2. The count of a model follows the store: after a successful
    [FreeImage_SetMetadata] of a tag under a key,
    [FreeImage_GetMetadataCount] of that model is one more than the
    number of its tags before when the key was new, and the same number
    when the key was there (its tag is replaced). *)
Theorem X2_count_after_store (E : environment) (model : Z) (a d : loc) (b : BLOCK)
    (mdp : loc) (MD : gmap Z ptr) (key : string) (tg : loc) (t : FITAG) (s : state) :
  bitmap_at s a d b -> metadata (fih b) = Some mdp ->
  mem s !! mdp = Some (CMetadata MD) ->
  mem s !! tg = Some (CTag t) ->
  slot_ready s (default None (MD !! model)) key (Some tg) ->
  well_counted E t ->
  let T := tags_in s (default None (MD !! model)) in
  exists s',
    FreeImage_GetMetadataCount model (Some a) s = Some (u32 (Z.of_nat (size T)), s)
    /\ FreeImage_SetMetadata E model (Some a) (Some key) (Some tg) s = Some (true, s')
    /\ FreeImage_GetMetadataCount model (Some a) s'
       = Some (u32 (Z.of_nat (size T) + (if T !! key is Some _ then 0 else 1)), s').
Proof.
  intros Hb Hmd HMD Ht Hslot Hwc T.
  destruct (SetMetadata_stored E model a d b mdp MD key tg t s Hb Hmd HMD Ht Hslot Hwc)
    as (s' & tm & c & Hrun & Hb' & HMD' & HT' & _).
  exists s'. split; [|split; [exact Hrun|]].
  - apply (GetMetadataCount_run model s a d b mdp MD Hb Hmd HMD).
    intros tm0 Hm. rewrite Hm in Hslot. unfold slot_ready in Hslot.
    cbn [default id] in Hslot.
    destruct (mem s !! tm0) as [[| | | |T0| |]|]; first [done | eauto].
  - rewrite (GetMetadataCount_run model s' a d b mdp _ Hb' Hmd HMD').
    + rewrite lookup_insert_eq. cbn [default id]. unfold tags_in at 1.
      rewrite HT'. fold T.
      destruct (T !! key) as [o|] eqn:Hk.
      * rewrite map_size_insert_Some by eauto. by rewrite Z.add_0_r.
      * rewrite map_size_insert_None by exact Hk. by rewrite Nat2Z.inj_succ.
    + intros tm0. rewrite lookup_insert_eq. intros [= <-]. eauto.
Qed.

Lemma X2_count_after_store_witness :
  exists s',
    FreeImage_GetMetadataCount FIMD_COMMENTS (Some 1%positive) (final_state bitmap_and_tag)
    = Some (0, final_state bitmap_and_tag)
    /\ stored_comment = Some (true, s')
    /\ FreeImage_GetMetadataCount FIMD_COMMENTS (Some 1%positive) s' = Some (1, s').
Proof.
  set (s := final_state bitmap_and_tag).
  assert (Hb : bitmap_at s 1%positive 2%positive (block_at s 2%positive))
    by (split; vm_compute; reflexivity).
  assert (HMD : mem s !! 3%positive = Some (CMetadata (metadata_at s 3%positive)))
    by (vm_compute; reflexivity).
  assert (Ht : mem s !! 4%positive = Some (CTag text_tag)) by (vm_compute; reflexivity).
  assert (Hslot : slot_ready s (default None (metadata_at s 3%positive !! FIMD_COMMENTS))
                    "a" (Some 4%positive))
    by (apply (@bool_decide_unpack _ (slot_ready_dec s _ "a" (Some 4%positive)));
        vm_compute; exact I).
  assert (Hwc : well_counted example_environment text_tag) by (vm_compute; reflexivity).
  destruct (X2_count_after_store example_environment FIMD_COMMENTS 1%positive 2%positive
              (block_at s 2%positive) 3%positive (metadata_at s 3%positive) "a" 4%positive
              text_tag s Hb eq_refl HMD Ht Hslot Hwc)
    as (s' & Hbefore & Hrun & Hafter).
  assert (HT : tags_in s (default None (metadata_at s 3%positive !! FIMD_COMMENTS)) = ∅)
    by (vm_compute; reflexivity).
  rewrite HT in Hbefore, Hafter.
  exists s'. unfold stored_comment. exact (conj Hbefore (conj Hrun Hafter)).
Defined.

(** ** Removing a key, destroying a model *)

Lemma GetMetadata_inv (model : Z) (key : string) (s : state) (a d : loc) (b : BLOCK)
    (mdp : loc) (MD : gmap Z ptr) (r : bool * ptr) (s1 : state) :
  bitmap_at s a d b -> metadata (fih b) = Some mdp ->
  mem s !! mdp = Some (CMetadata MD) ->
  FreeImage_GetMetadata model (Some a) (Some key) s = Some (r, s1) ->
  s1 = s
  /\ match MD !! model with
     | Some p => exists tm T, p = Some tm /\ mem s !! tm = Some (CTagMap T)
                   /\ r = (negb (is_null (default None (T !! key))), default None (T !! key))
     | None => r = (false, None)
     end.
Proof.
  intros Hb Hmd HMD H. unfold FreeImage_GetMetadata in H.
  rewrite (read_block_run _ _ _ _ _ Hb) in H. cbv beta iota in H. rewrite Hmd in H.
  rewrite (bind_run _ _ s s mdp) in H by reflexivity.
  rewrite (bind_run _ _ _ _ _ (load_metadata_run _ _ _ HMD)) in H.
  destruct (MD !! model) as [p|].
  - apply bind_inv in H as (tm & s2 & H1 & H). apply deref_inv in H1 as [-> ->].
    apply bind_inv in H as (T & s2 & H1 & H). apply load_tagmap_inv in H1 as [-> HT].
    apply mret_inv in H. inversion H; subst. split; [reflexivity|]. by exists tm, T.
  - apply mret_inv in H. by inversion H.
Qed.

(** X3. Removing a key: [FreeImage_SetMetadata] with a key and a null
    tag, on a model that has a tag map, returns [TRUE], releases the
    tag that was stored under the key, and erases the key; a lookup of
    the key then fails with a null tag, and every other key of the model
    is looked up as before. *)
Theorem X3_removed_key_is_not_found (E : environment) (model : Z) (a d : loc) (b : BLOCK)
    (mdp : loc) (MD : gmap Z ptr) (tm : loc) (T : gmap string ptr) (key : string)
    (s : state) :
  bitmap_at s a d b -> metadata (fih b) = Some mdp ->
  mem s !! mdp = Some (CMetadata MD) ->
  MD !! model = Some (Some tm) ->
  mem s !! tm = Some (CTagMap T) ->
  (forall old, T !! key = Some (Some old) -> is_tag s old) ->
  exists s',
    FreeImage_SetMetadata E model (Some a) (Some key) None s = Some (true, s')
    /\ FreeImage_GetMetadata model (Some a) (Some key) s' = Some ((false, None), s')
    /\ (forall old, T !! key = Some (Some old) -> mem s' !! old = Some Freed)
    /\ (forall k r, k <> key ->
          FreeImage_GetMetadata model (Some a) (Some k) s = Some (r, s) ->
          FreeImage_GetMetadata model (Some a) (Some k) s' = Some (r, s'))
    /\ messages s' = messages s.
Proof.
  intros Hb Hmd HMD Hm HT Hold.
  assert (Hkinds : tm <> mdp /\ tm <> a /\ tm <> d).
  { destruct Hb as [Ha Hd]. repeat split; intros ->; congruence. }
  destruct Hkinds as (Hn1 & Hn2 & Hn3).
  assert (Hrun : exists s',
    FreeImage_SetMetadata E model (Some a) (Some key) None s = Some (true, s')
    /\ mem s' !! tm = Some (CTagMap (delete key T))
    /\ bitmap_at s' a d b /\ mem s' !! mdp = Some (CMetadata MD)
    /\ (forall old, T !! key = Some (Some old) -> mem s' !! old = Some Freed)
    /\ messages s' = messages s).
  { unfold FreeImage_SetMetadata.
    rewrite (read_block_run _ _ _ _ _ Hb). cbv beta iota. rewrite Hmd.
    rewrite (bind_run _ _ s s mdp) by reflexivity.
    rewrite (bind_run _ _ _ _ _ (load_metadata_run _ _ _ HMD)). cbv zeta. rewrite Hm.
    cbn [default id is_null andb].
    rewrite (bind_run _ _ s s tm) by reflexivity.
    rewrite (bind_run _ _ _ _ _ (load_tagmap_run _ _ _ HT)).
    destruct (T !! key) as [[old|]|] eqn:Hk.
    - destruct (DeleteTag_defined old s (Hold old eq_refl)) as (s1 & H1).
      pose proof (DeleteTag_inv _ _ _ _ H1) as ((co & Hco) & Hm1 & Hg1).
      assert (Hne : forall x cx, mem s !! x = Some cx -> (forall t, cx <> CTag t) ->
                      mem s1 !! x = Some cx).
      { intros x cx Hx Hc. rewrite Hm1, lookup_insert_ne; [exact Hx|].
        intros ->. rewrite Hco in Hx. inversion Hx. by eapply Hc. }
      destruct (store_defined tm (CTagMap (delete key T)) _ s1 (Hne _ _ HT ltac:(done))
                  ltac:(done)) as (s2 & H2).
      assert (Hrun2 : (FreeImage_DeleteTag (Some old);; store tm (CTagMap (delete key T))) s
                      = Some (tt, s2)) by (by rewrite (bind_run _ _ _ _ _ H1)).
      rewrite (bind_run _ _ _ _ _ Hrun2).
      apply store_inv in H2 as (_ & Hm2 & Hg2).
      exists s2. split; [reflexivity|]. unfold bitmap_at. rewrite Hm2.
      split; [apply lookup_insert_eq|].
      destruct Hb as [Ha Hd].
      split; [split; rewrite lookup_insert_ne by done; by apply Hne|].
      split; [rewrite lookup_insert_ne by done; by apply Hne|].
      split; [|congruence].
      intros old' [= <-]. rewrite lookup_insert_ne by (intros ->; congruence).
      rewrite Hm1. apply lookup_insert_eq.
    - destruct (store_defined tm (CTagMap (delete key T)) _ s HT ltac:(done)) as (s2 & H2).
      assert (Hrun2 : (FreeImage_DeleteTag None;; store tm (CTagMap (delete key T))) s
                      = Some (tt, s2)) by (by rewrite (bind_run _ _ s s tt)).
      rewrite (bind_run _ _ _ _ _ Hrun2).
      apply store_inv in H2 as (_ & Hm2 & Hg2).
      exists s2. split; [reflexivity|]. unfold bitmap_at. rewrite Hm2.
      split; [apply lookup_insert_eq|].
      destruct Hb as [Ha Hd].
      split; [split; by rewrite lookup_insert_ne|].
      split; [by rewrite lookup_insert_ne|]. split; [done | exact Hg2].
    - rewrite (bind_run _ _ s s tt) by reflexivity.
      exists s. split; [reflexivity|]. rewrite delete_id by exact Hk.
      split; [exact HT|]. split; [exact Hb|]. split; [exact HMD|]. split; done. }
  destruct Hrun as (s' & Hset & HT' & Hb' & HMD' & Hfreed & Hmsg).
  exists s'. split; [exact Hset|]. split; [|split; [exact Hfreed | split; [|exact Hmsg]]].
  - rewrite (GetMetadata_run model key s' a d b mdp MD tm _ Hb' Hmd HMD' Hm HT').
    by rewrite lookup_delete_eq.
  - intros k r Hk Hget.
    apply (GetMetadata_inv model k s a d b mdp MD r s Hb Hmd HMD) in Hget as [_ Hget].
    rewrite Hm in Hget. destruct Hget as (tm0 & T0 & [= <-] & HT0 & ->).
    rewrite HT in HT0. inversion HT0; subst T0.
    rewrite (GetMetadata_run model k s' a d b mdp MD tm _ Hb' Hmd HMD' Hm HT').
    by rewrite lookup_delete_ne.
Qed.

Lemma X3_removed_key_is_not_found_witness :
  exists s',
    FreeImage_SetMetadata example_environment FIMD_COMMENTS (Some 1%positive) (Some "a") None
      (final_state stored_comment) = Some (true, s')
    /\ FreeImage_GetMetadata FIMD_COMMENTS (Some 1%positive) (Some "a") s'
       = Some ((false, None), s')
    /\ mem s' !! 6%positive = Some Freed.
Proof.
  set (s := final_state stored_comment).
  assert (Hb : bitmap_at s 1%positive 2%positive (block_at s 2%positive))
    by (split; vm_compute; reflexivity).
  assert (HMD : mem s !! 3%positive = Some (CMetadata (metadata_at s 3%positive)))
    by (vm_compute; reflexivity).
  assert (Hm : metadata_at s 3%positive !! FIMD_COMMENTS = Some (Some 5%positive))
    by (vm_compute; reflexivity).
  assert (HT : mem s !! 5%positive = Some (CTagMap (tags_in s (Some 5%positive))))
    by (vm_compute; reflexivity).
  assert (Hk : tags_in s (Some 5%positive) !! "a" = Some (Some 6%positive))
    by (vm_compute; reflexivity).
  assert (Hold : forall old, tags_in s (Some 5%positive) !! "a" = Some (Some old) ->
                   is_tag s old).
  { intros old Ho. rewrite Hk in Ho. injection Ho as <-.
    assert (H6 : mem s !! 6%positive = Some (CTag (tag_at s 6%positive)))
      by (vm_compute; reflexivity).
    unfold is_tag. by rewrite H6. }
  destruct (X3_removed_key_is_not_found example_environment FIMD_COMMENTS 1%positive
              2%positive (block_at s 2%positive) 3%positive (metadata_at s 3%positive)
              5%positive (tags_in s (Some 5%positive)) "a" s Hb eq_refl HMD Hm HT Hold)
    as (s' & Hset & Hget & Hfreed & _).
  exists s'. exact (conj Hset (conj Hget (Hfreed _ Hk))).
Defined.

(** X4. Destroying a model: [FreeImage_SetMetadata] with a null key, on
    a model whose tag map and tags are live and held once, returns
    [TRUE], releases the tag map and every tag of it, and erases the
    entry of the model; the count of the model is then zero and no key
    of it is found, and no other object changes. *)
Theorem X4_destroyed_model_is_empty (E : environment) (model : Z) (a d : loc) (b : BLOCK)
    (mdp : loc) (MD : gmap Z ptr) (tm : loc) (s : state) :
  bitmap_at s a d b -> metadata (fih b) = Some mdp ->
  mem s !! mdp = Some (CMetadata MD) ->
  MD !! model = Some (Some tm) ->
  model_owned s (Some tm) ->
  exists s',
    FreeImage_SetMetadata E model (Some a) None None s = Some (true, s')
    /\ FreeImage_GetMetadataCount model (Some a) s' = Some (0, s')
    /\ (forall key, FreeImage_GetMetadata model (Some a) (Some key) s'
                    = Some ((false, None), s'))
    /\ mem s' !! mdp = Some (CMetadata (delete model MD))
    /\ mem s' !! tm = Some Freed
    /\ (forall t, t ∈ tags_of s tm -> mem s' !! t = Some Freed)
    /\ (forall x, x <> mdp -> x <> tm -> x ∉ tags_of s tm -> mem s' !! x = mem s !! x)
    /\ messages s' = messages s.
Proof.
  intros Hb Hmd HMD Hm Hown.
  assert (Hown' : model_owned s (default None (MD !! model))) by (by rewrite Hm).
  destruct (destroy_model_defined E model s a d b mdp MD Hb Hmd HMD Hown') as (s' & Hrun).
  destruct (destroy_model_inv E model s a d b mdp MD true s' Hb Hmd HMD Hrun) as [_ Hpost].
  rewrite Hm in Hpost.
  destruct Hpost as (T & HT & HMD' & Htm & Htags & Hframe & _ & Hmsg).
  assert (Hin : forall x, x ∈ tags_of s tm <-> exists k, T !! k = Some (Some x))
    by (intros x; apply tags_of_spec; exact HT).
  assert (Hb' : bitmap_at s' a d b).
  { destruct Hb as [Ha Hd].
    split; (rewrite Hframe; [assumption| | |]); try (intros ->; congruence);
      intros k Hk; destruct (Htags k _ Hk) as [[c Hc] _]; congruence. }
  exists s'. split; [exact Hrun|].
  split; [|split; [|split; [exact HMD'|split; [exact Htm|split; [|split; [|exact Hmsg]]]]]].
  - rewrite (GetMetadataCount_run model s' a d b mdp _ Hb' Hmd HMD').
    + by rewrite lookup_delete_eq.
    + intros tm0. by rewrite lookup_delete_eq.
  - intros key. apply (GetMetadata_absent model key s' a d b mdp _ Hb' Hmd HMD').
    apply lookup_delete_eq.
  - intros t Ht. apply Hin in Ht as [k Hk]. by destruct (Htags k t Hk).
  - intros x Hx1 Hx2 Hx3. apply Hframe; [exact Hx1 | exact Hx2 |].
    intros k Hk. apply Hx3, Hin. by exists k.
Qed.

Lemma X4_destroyed_model_is_empty_witness :
  exists s',
    FreeImage_SetMetadata example_environment FIMD_COMMENTS (Some 1%positive) None None
      (final_state stored_comment) = Some (true, s')
    /\ FreeImage_GetMetadataCount FIMD_COMMENTS (Some 1%positive) s' = Some (0, s')
    /\ mem s' !! 5%positive = Some Freed
    /\ mem s' !! 6%positive = Some Freed.
Proof.
  set (s := final_state stored_comment).
  assert (Hb : bitmap_at s 1%positive 2%positive (block_at s 2%positive))
    by (split; vm_compute; reflexivity).
  assert (HMD : mem s !! 3%positive = Some (CMetadata (metadata_at s 3%positive)))
    by (vm_compute; reflexivity).
  assert (Hm : metadata_at s 3%positive !! FIMD_COMMENTS = Some (Some 5%positive))
    by (vm_compute; reflexivity).
  assert (Hown : model_owned s (Some 5%positive))
    by (apply (@bool_decide_unpack _ (model_owned_dec s (Some 5%positive)));
        vm_compute; exact I).
  assert (Hin : 6%positive ∈ tags_of s 5%positive).
  { assert (Hl : tags_of s 5%positive = [6%positive]) by (vm_compute; reflexivity).
    rewrite Hl. apply list_elem_of_here. }
  destruct (X4_destroyed_model_is_empty example_environment FIMD_COMMENTS 1%positive
              2%positive (block_at s 2%positive) 3%positive (metadata_at s 3%positive)
              5%positive s Hb eq_refl HMD Hm Hown)
    as (s' & Hset & Hcount & _ & _ & Htm & Htags & _).
  exists s'. exact (conj Hset (conj Hcount (conj Htm (Htags _ Hin)))).
Defined.

(** ** What a store leaves alone *)

(** X5. A store under one key of one model does not change what any
    other lookup finds: when [FreeImage_GetMetadata] of another key, or
    of another model that does not share its tag map with the model
    stored in, returned a result before a successful
    [FreeImage_SetMetadata], it returns the same flag and the same tag
    pointer after it. *)
Theorem X5_store_keeps_other_lookups (E : environment) (model : Z) (a d : loc) (b : BLOCK)
    (mdp : loc) (MD : gmap Z ptr) (key : string) (tg : loc) (t : FITAG) (s : state)
    (model' : Z) (key' : string) (r : bool * ptr) :
  bitmap_at s a d b -> metadata (fih b) = Some mdp ->
  mem s !! mdp = Some (CMetadata MD) ->
  mem s !! tg = Some (CTag t) ->
  slot_ready s (default None (MD !! model)) key (Some tg) ->
  well_counted E t ->
  (model', key') <> (model, key) ->
  (model' <> model -> forall tm, MD !! model = Some (Some tm) -> MD !! model' <> Some (Some tm)) ->
  FreeImage_GetMetadata model' (Some a) (Some key') s = Some (r, s) ->
  exists s',
    FreeImage_SetMetadata E model (Some a) (Some key) (Some tg) s = Some (true, s')
    /\ FreeImage_GetMetadata model' (Some a) (Some key') s' = Some (r, s').
Proof.
  intros Hb Hmd HMD Ht Hslot Hwc Hne Hshare Hget.
  destruct (SetMetadata_stored E model a d b mdp MD key tg t s Hb Hmd HMD Ht Hslot Hwc)
    as (s' & tm & c & Hrun & Hb' & HMD' & HT' & Hc & _ & _ & Hnew & Hsame & Hframe).
  exists s'. split; [exact Hrun|].
  apply (GetMetadata_inv model' key' s a d b mdp MD r s Hb Hmd HMD) in Hget as [_ Hget].
  destruct (decide (model' = model)) as [->|Hm].
  - assert (Hk : key' <> key) by congruence.
    rewrite (GetMetadata_run model key' s' a d b mdp _ tm _ Hb' Hmd HMD'
               (lookup_insert_eq MD model (Some tm)) HT').
    rewrite lookup_insert_ne by congruence.
    destruct (MD !! model) as [p|] eqn:Hp; cbn [default id tags_in].
    + destruct Hget as (tm0 & T0 & -> & HT0 & ->). cbn [tags_in]. by rewrite HT0.
    + subst r. by rewrite lookup_empty.
  - destruct (MD !! model') as [p|] eqn:Hp.
    + destruct Hget as (tm' & T' & -> & HT0 & ->).
      refine (GetMetadata_run model' key' s' a d b mdp _ tm' T' Hb' Hmd HMD' _ _).
      { by rewrite lookup_insert_ne. }
      apply Hframe; [exact HT0 | | | |].
      * intros ->. congruence.
      * intros ->. destruct (default None (MD !! model)) as [tm0|] eqn:Hd.
        -- pose proof (Hsame tm0 eq_refl) as <-.
           destruct (MD !! model) as [[tm1|]|] eqn:Hmm; cbn in Hd; try done.
           injection Hd as ->. by apply (Hshare Hm tm).
        -- rewrite (Hnew eq_refl) in HT0. done.
      * intros ->. congruence.
      * intros Hold. unfold slot_ready in Hslot.
        destruct (default None (MD !! model)) as [tm0|]; cbn [tags_in] in Hold;
          [|by rewrite lookup_empty in Hold].
        destruct (mem s !! tm0) as [[| | | |T| |]|]; try done.
        rewrite Hold in Hslot. destruct Hslot as [_ Htag].
        unfold is_tag in Htag. by rewrite HT0 in Htag.
    + subst r. apply (GetMetadata_absent model' key' s' a d b mdp _ Hb' Hmd HMD').
      by rewrite lookup_insert_ne.
Qed.

Lemma X5_store_keeps_other_lookups_witness :
  exists s',
    FreeImage_SetMetadata example_environment FIMD_COMMENTS (Some 1%positive) (Some "b")
      (Some 4%positive) (final_state stored_comment) = Some (true, s')
    /\ FreeImage_GetMetadata FIMD_COMMENTS (Some 1%positive) (Some "a") s'
       = Some ((true, Some 6%positive), s').
Proof.
  set (s := final_state stored_comment).
  assert (Hb : bitmap_at s 1%positive 2%positive (block_at s 2%positive))
    by (split; vm_compute; reflexivity).
  assert (HMD : mem s !! 3%positive = Some (CMetadata (metadata_at s 3%positive)))
    by (vm_compute; reflexivity).
  assert (Ht : mem s !! 4%positive = Some (CTag (tag_at s 4%positive)))
    by (vm_compute; reflexivity).
  assert (Hslot : slot_ready s (default None (metadata_at s 3%positive !! FIMD_COMMENTS))
                    "b" (Some 4%positive))
    by (apply (@bool_decide_unpack _ (slot_ready_dec s _ "b" (Some 4%positive)));
        vm_compute; exact I).
  assert (Hwc : well_counted example_environment (tag_at s 4%positive))
    by (vm_compute; reflexivity).
  assert (Hne : (FIMD_COMMENTS, "a") <> (FIMD_COMMENTS, "b")) by discriminate.
  assert (Hget : FreeImage_GetMetadata FIMD_COMMENTS (Some 1%positive) (Some "a") s
                 = Some ((true, Some 6%positive), s)) by (vm_compute; reflexivity).
  exact (X5_store_keeps_other_lookups example_environment FIMD_COMMENTS 1%positive
           2%positive (block_at s 2%positive) 3%positive (metadata_at s 3%positive) "b"
           4%positive (tag_at s 4%positive) s FIMD_COMMENTS "a" (true, Some 6%positive)
           Hb eq_refl HMD Ht Hslot Hwc Hne (fun H => False_ind _ (H eq_refl)) Hget).
Defined.

(** ** The metadata copy runs to its end *)

Lemma modify_info_run (a d : loc) (b : BLOCK) (f : FIBITMAPINFOHEADER -> FIBITMAPINFOHEADER)
    (s : state) :
  bitmap_at s a d b ->
  exists s', modify_info a f s = Some (tt, s')
    /\ forall a' d' b', bitmap_at s a' d' b' -> exists b'', bitmap_at s' a' d' b''.
Proof.
  intros Hb. unfold modify_info.
  rewrite (read_block_run _ _ _ _ _ Hb). cbv beta iota.
  destruct Hb as [Ha Hd].
  destruct (store_defined d (CBlock (set_bih (f (bih b)) b)) _ s Hd ltac:(done)) as (s' & H).
  exists s'. split; [exact H|].
  apply store_inv in H as (_ & Hm & _).
  intros a' d' b' [Ha' Hd']. unfold bitmap_at. rewrite Hm.
  assert (a' <> d) by (intros ->; congruence).
  rewrite lookup_insert_ne by done.
  destruct (decide (d' = d)) as [->|Hn].
  - eexists. split; [exact Ha' | apply lookup_insert_eq].
  - exists b'. split; [exact Ha' | by rewrite lookup_insert_ne].
Qed.

(** X6. [FreeImage_CloneMetadata] runs to its end and returns [TRUE]
    on two live bitmaps whose metadata is owned: every model of source
    and destination is null or a live tag map with live tags, each held
    once, and a model of the destination shares no object with the
    source or with another model of the destination. *)
Theorem X6_clone_metadata_returns (E : environment) (s : state) (dst src dd sd : loc)
    (db sb : BLOCK) (dmp smp : loc) (DMD SMD : gmap Z ptr) :
  bitmap_at s dst dd db -> bitmap_at s src sd sb ->
  metadata (fih db) = Some dmp -> metadata (fih sb) = Some smp ->
  mem s !! dmp = Some (CMetadata DMD) -> mem s !! smp = Some (CMetadata SMD) ->
  clone_metadata_ready s DMD SMD ->
  exists s', FreeImage_CloneMetadata E (Some dst) (Some src) s = Some (true, s').
Proof.
  intros Hd Hs Hdm Hsm HDMD HSMD Hready.
  destruct (clone_models_defined E s dst dd db dmp DMD SMD Hd Hdm HDMD Hready)
    as (s2 & Hloop & Hkept).
  assert (Hd2 : bitmap_at s2 dst dd db) by (destruct Hd; split; by apply Hkept).
  assert (Hs2 : bitmap_at s2 src sd sb) by (destruct Hs; split; by apply Hkept).
  destruct (modify_info_run dst dd db (set_resolution_x (s32 (u32 (biXPelsPerMeter (bih sb)))))
              s2 Hd2) as (s3 & Hx & Hkeep3).
  destruct (Hkeep3 _ _ _ Hs2) as (sb3 & Hs3). destruct (Hkeep3 _ _ _ Hd2) as (db3 & Hd3).
  destruct (modify_info_run dst dd db3 (set_resolution_y (s32 (u32 (biYPelsPerMeter (bih sb3)))))
              s3 Hd3) as (s4 & Hy & _).
  exists s4. unfold FreeImage_CloneMetadata.
  rewrite (read_block_run _ _ _ _ _ Hs). cbv beta iota.
  rewrite (read_block_run _ _ _ _ _ Hd). cbv beta iota.
  rewrite Hsm, Hdm.
  rewrite (bind_run _ _ s s smp) by reflexivity.
  rewrite (bind_run _ _ s s dmp) by reflexivity.
  rewrite (bind_run _ _ _ _ _ (load_metadata_run _ _ _ HSMD)).
  rewrite (bind_run _ _ _ _ _ Hloop).
  rewrite (bind_run _ _ _ _ _ (GetDotsPerMeterX_run _ _ _ _ Hs2)).
  assert (Hx' : FreeImage_SetDotsPerMeterX (Some dst) (u32 (biXPelsPerMeter (bih sb))) s2
                = Some (tt, s3)) by exact Hx.
  rewrite (bind_run _ _ _ _ _ Hx').
  rewrite (bind_run _ _ _ _ _ (GetDotsPerMeterY_run _ _ _ _ Hs3)).
  assert (Hy' : FreeImage_SetDotsPerMeterY (Some dst) (u32 (biYPelsPerMeter (bih sb3))) s3
                = Some (tt, s4)) by exact Hy.
  by rewrite (bind_run _ _ _ _ _ Hy').
Qed.

Lemma X6_clone_metadata_returns_witness :
  clone_metadata_ready (final_state two_bitmaps)
    (metadata_at (final_state two_bitmaps) 6%positive)
    (metadata_at (final_state two_bitmaps) 3%positive)
  /\ exists s', clone_metadata_example = Some (true, s').
Proof.
  set (s := final_state two_bitmaps).
  assert (Hdst : bitmap_at s 4%positive 5%positive (block_at s 5%positive))
    by (split; vm_compute; reflexivity).
  assert (Hsrc : bitmap_at s 1%positive 2%positive (block_at s 2%positive))
    by (split; vm_compute; reflexivity).
  assert (Hdmd : mem s !! 6%positive = Some (CMetadata (metadata_at s 6%positive)))
    by (vm_compute; reflexivity).
  assert (Hsmd : mem s !! 3%positive = Some (CMetadata (metadata_at s 3%positive)))
    by (vm_compute; reflexivity).
  assert (Hready : clone_metadata_ready s (metadata_at s 6%positive) (metadata_at s 3%positive))
    by (apply (@bool_decide_unpack _ (clone_metadata_ready_dec s _ _)); vm_compute; exact I).
  split; [exact Hready|].
  exact (X6_clone_metadata_returns example_environment s 4%positive 1%positive 5%positive
           2%positive (block_at s 5%positive) (block_at s 2%positive) 6%positive 3%positive
           (metadata_at s 6%positive) (metadata_at s 3%positive)
           Hdst Hsrc eq_refl eq_refl Hdmd Hsmd Hready).
Defined.

(** * The ICC profile slot *)

Lemma modify_header_run (a d : loc) (b : BLOCK) (f : FREEIMAGEHEADER -> FREEIMAGEHEADER)
    (s : state) :
  bitmap_at s a d b ->
  exists s', modify_header a f s = Some (tt, s')
    /\ mem s' = <[d := CBlock (set_fih (f (fih b)) b)]> (mem s)
    /\ messages s' = messages s.
Proof.
  intros Hb. unfold modify_header.
  rewrite (read_block_run _ _ _ _ _ Hb). cbv beta iota.
  destruct Hb as [Ha Hd].
  destruct (store_defined d (CBlock (set_fih (f (fih b)) b)) _ s Hd ltac:(done)) as (s' & H).
  exists s'. split; [exact H|]. by apply store_inv in H as (_ & Hm & Hg).
Qed.

Lemma load_bytes_run (a : loc) (s : state) (l : list Z) :
  mem s !! a = Some (CBytes l) -> load_bytes a s = Some (l, s).
Proof.
  intros H. unfold load_bytes. rewrite (bind_run _ _ s s (CBytes l)); [reflexivity|].
  by apply load_run.
Qed.

Lemma modify_header_bitmap (a d : loc) (b : BLOCK) (c : BLOCK) (s s' : state) :
  bitmap_at s a d b -> mem s' = <[d := CBlock c]> (mem s) -> bitmap_at s' a d c.
Proof.
  intros [Ha Hd] Hm. unfold bitmap_at. rewrite Hm. split; [|apply lookup_insert_eq].
  rewrite lookup_insert_ne; [exact Ha|]. intros ->. congruence.
Qed.

(** The tag map of the entry and the tag under the key are all that
    [slot_ready] looks at. *)
Lemma slot_ready_agree (s s2 : state) (p : ptr) (key : string) (tag : ptr) :
  (forall x T, mem s !! x = Some (CTagMap T) -> mem s2 !! x = Some (CTagMap T)) ->
  (forall x t, mem s !! x = Some (CTag t) -> mem s2 !! x = Some (CTag t)) ->
  slot_ready s p key tag -> slot_ready s2 p key tag.
Proof.
  intros Hmaps Htags. unfold slot_ready. destruct p as [tm|]; [|done].
  destruct (mem s !! tm) as [[| | | |T| |]|] eqn:HT; try done.
  rewrite (Hmaps tm T HT). destruct (T !! key) as [[old|]|]; try done.
  intros [Hne Hold]. split; [exact Hne|].
  apply is_tag_spec in Hold as [c Hc]. apply is_tag_spec. exists c. by apply Htags.
Qed.

(** [FreeImage_SetMetadata(model, dib, key, NULL)] on a usable entry:
    the key is erased from the tag map of the model, the tag it held is
    released, and nothing else changes. *)
Lemma SetMetadata_remove_run (E : environment) (model : Z) (a d : loc) (b : BLOCK)
    (mdp : loc) (MD : gmap Z ptr) (key : string) (s : state) :
  bitmap_at s a d b -> metadata (fih b) = Some mdp ->
  mem s !! mdp = Some (CMetadata MD) ->
  slot_ready s (default None (MD !! model)) key None ->
  exists s',
    FreeImage_SetMetadata E model (Some a) (Some key) None s = Some (true, s')
    /\ messages s' = messages s
    /\ dom (mem s') = dom (mem s)
    /\ tags_in s' (default None (MD !! model)) = delete key (tags_in s (default None (MD !! model)))
    /\ (forall old, tags_in s (default None (MD !! model)) !! key = Some (Some old) ->
          mem s' !! old = Some Freed)
    /\ (forall x cx, mem s !! x = Some cx -> Some x <> default None (MD !! model) ->
          tags_in s (default None (MD !! model)) !! key <> Some (Some x) ->
          mem s' !! x = Some cx).
Proof.
  intros Hb Hmd HMD Hslot. unfold FreeImage_SetMetadata.
  rewrite (read_block_run _ _ _ _ _ Hb). cbv beta iota. rewrite Hmd.
  rewrite (bind_run _ _ s s mdp) by reflexivity.
  rewrite (bind_run _ _ _ _ _ (load_metadata_run _ _ _ HMD)). cbv zeta.
  destruct (default None (MD !! model)) as [tm|]; cbn [is_null andb].
  2:{ exists s. split; [reflexivity|]. split; [reflexivity|]. split; [reflexivity|].
      cbn [tags_in]. split; [by rewrite delete_empty|]. split; [|by auto].
      intros old. by rewrite lookup_empty. }
  unfold slot_ready in Hslot. cbn [tags_in].
  destruct (mem s !! tm) as [[| | | |T| |]|] eqn:HT; try done.
  rewrite (bind_run _ _ s s tm) by reflexivity.
  rewrite (bind_run _ _ _ _ _ (load_tagmap_run _ _ _ HT)).
  destruct (T !! key) as [[old|]|] eqn:Hk.
  - destruct Hslot as [_ Hold].
    destruct (DeleteTag_defined old s Hold) as (s1 & H1).
    pose proof (DeleteTag_inv _ _ _ _ H1) as ((co & Hco) & Hm1 & Hg1).
    assert (HT1 : mem s1 !! tm = Some (CTagMap T)).
    { rewrite Hm1, lookup_insert_ne; [exact HT|]. intros ->. congruence. }
    destruct (store_defined tm (CTagMap (delete key T)) _ s1 HT1 ltac:(done)) as (s2 & H2).
    assert (Hrun2 : (FreeImage_DeleteTag (Some old);; store tm (CTagMap (delete key T))) s
                    = Some (tt, s2)) by (by rewrite (bind_run _ _ _ _ _ H1)).
    rewrite (bind_run _ _ _ _ _ Hrun2).
    apply store_inv in H2 as (_ & Hm2 & Hg2).
    exists s2. split; [reflexivity|]. split; [congruence|]. rewrite Hm2.
    split; [by rewrite dom_insert_lookup_L, Hm1, dom_insert_lookup_L by eauto|].
    split; [by rewrite lookup_insert_eq|]. split.
    + intros old' [= <-]. rewrite lookup_insert_ne by (intros ->; congruence).
      rewrite Hm1. apply lookup_insert_eq.
    + intros x cx Hx Hx1 Hx2. rewrite lookup_insert_ne by congruence.
      rewrite Hm1, lookup_insert_ne by congruence. exact Hx.
  - destruct (store_defined tm (CTagMap (delete key T)) _ s HT ltac:(done)) as (s2 & H2).
    assert (Hrun2 : (FreeImage_DeleteTag None;; store tm (CTagMap (delete key T))) s
                    = Some (tt, s2)) by (by rewrite (bind_run _ _ s s tt)).
    rewrite (bind_run _ _ _ _ _ Hrun2).
    apply store_inv in H2 as (_ & Hm2 & Hg2).
    exists s2. split; [reflexivity|]. split; [exact Hg2|]. rewrite Hm2.
    split; [by rewrite dom_insert_lookup_L by eauto|].
    split; [by rewrite lookup_insert_eq|]. split; [done|].
    intros x cx Hx Hx1 _. by rewrite lookup_insert_ne by congruence.
  - rewrite (bind_run _ _ s s tt) by reflexivity.
    exists s. split; [reflexivity|]. split; [reflexivity|]. split; [reflexivity|].
    rewrite HT. split; [by rewrite delete_id|]. split; [done | by auto].
Qed.

(** What [FreeImage_DestroyICCProfile] does to a live bitmap whose
    profile buffer, if any, is live, and whose Exif-Main entry is
    usable. *)
Lemma DestroyICCProfile_run (E : environment) (a d : loc) (b : BLOCK) (mdp : loc)
    (MD : gmap Z ptr) (s : state) :
  bitmap_at s a d b -> metadata (fih b) = Some mdp ->
  mem s !! mdp = Some (CMetadata MD) ->
  (forall p, icc_data (iccProfile (fih b)) = Some p -> exists l, mem s !! p = Some (CBytes l)) ->
  slot_ready s (default None (MD !! FIMD_EXIF_MAIN)) "InterColorProfile" None ->
  let exif := default None (MD !! FIMD_EXIF_MAIN) in
  exists s',
    FreeImage_DestroyICCProfile E (Some a) s = Some (tt, s')
    /\ bitmap_at s' a d (set_fih (set_icc_data None 0 (fih b)) b)
    /\ messages s' = messages s
    /\ dom (mem s') = dom (mem s)
    /\ (forall p, icc_data (iccProfile (fih b)) = Some p -> mem s' !! p = Some Freed)
    /\ tags_in s' exif = delete "InterColorProfile" (tags_in s exif)
    /\ (forall old, tags_in s exif !! "InterColorProfile" = Some (Some old) ->
          mem s' !! old = Some Freed)
    /\ (forall x cx, mem s !! x = Some cx -> x <> d ->
          icc_data (iccProfile (fih b)) <> Some x -> Some x <> exif ->
          tags_in s exif !! "InterColorProfile" <> Some (Some x) ->
          mem s' !! x = Some cx).
Proof.
  intros Hb Hmd HMD Hicc Hslot exif.
  (* the buffer *)
  assert (Hfree : exists s1,
    match icc_data (iccProfile (fih b)) with
    | Some p => _ ← load_bytes p; release p
    | None => mret tt
    end s = Some (tt, s1)
    /\ messages s1 = messages s
    /\ dom (mem s1) = dom (mem s)
    /\ (forall p, icc_data (iccProfile (fih b)) = Some p -> mem s1 !! p = Some Freed)
    /\ (forall x, icc_data (iccProfile (fih b)) <> Some x -> mem s1 !! x = mem s !! x)).
  { destruct (icc_data (iccProfile (fih b))) as [p|].
    - destruct (Hicc p eq_refl) as [l Hl].
      destruct (store_defined p Freed _ s Hl ltac:(done)) as (s1 & H1).
      exists s1. rewrite (bind_run _ _ _ _ _ (load_bytes_run _ _ _ Hl)).
      split; [exact H1|]. apply store_inv in H1 as (_ & Hm1 & Hg1).
      split; [exact Hg1|]. rewrite Hm1.
      split; [by rewrite dom_insert_lookup_L by eauto|]. split.
      + intros p' [= <-]. apply lookup_insert_eq.
      + intros x Hx. rewrite lookup_insert_ne; [done | congruence].
    - exists s. split; [reflexivity|]. split; [reflexivity|]. split; [reflexivity|].
      split; done. }
  destruct Hfree as (s1 & Hfree & Hg1 & Hdom1 & Hfreed & Hsame1).
  assert (Hkind : forall x, icc_data (iccProfile (fih b)) = Some x ->
            forall cx, mem s !! x = Some cx -> exists l, cx = CBytes l).
  { intros x Hx cx Hcx. destruct (Hicc x Hx) as [l Hl]. exists l. congruence. }
  assert (Hb1 : bitmap_at s1 a d b).
  { destruct Hb as [Ha Hd]. split; (rewrite Hsame1; [assumption|]); intros Hx;
      [destruct (Hkind _ Hx _ Ha) | destruct (Hkind _ Hx _ Hd)]; done. }
  destruct (modify_header_run a d b (set_icc_data None 0) s1 Hb1) as (s2 & Hmod & Hm2 & Hg2).
  pose proof (modify_header_bitmap a d b _ s1 s2 Hb1 Hm2) as Hb2.
  assert (Hsame2 : forall x cx, mem s !! x = Some cx -> x <> d ->
            icc_data (iccProfile (fih b)) <> Some x -> mem s2 !! x = Some cx).
  { intros x cx Hx Hxd Hxp. rewrite Hm2, lookup_insert_ne by done. by rewrite Hsame1. }
  assert (Hother : forall x cx, mem s !! x = Some cx ->
            (forall l, cx <> CBytes l) -> (forall c, cx <> CBlock c) ->
            mem s2 !! x = Some cx).
  { intros x cx Hx Hnb Hnc. apply Hsame2; [exact Hx | |].
    - intros ->. destruct Hb as [_ Hd]. rewrite Hd in Hx. inversion Hx. by eapply Hnc.
    - intros Hp. destruct (Hkind _ Hp _ Hx) as [l ->]. by eapply Hnb. }
  assert (HMD2 : mem s2 !! mdp = Some (CMetadata MD)) by (by apply Hother).
  assert (Hslot2 : slot_ready s2 (default None (MD !! FIMD_EXIF_MAIN)) "InterColorProfile" None).
  { apply (slot_ready_agree s s2); [| |exact Hslot]; intros; by apply Hother. }
  assert (Htags2 : tags_in s2 exif = tags_in s exif).
  { unfold tags_in. destruct exif as [tm|] eqn:He; [|done].
    unfold slot_ready in Hslot. fold exif in Hslot. rewrite He in Hslot.
    destruct (mem s !! tm) as [[| | | |T| |]|] eqn:HT; try done.
    by rewrite (Hother tm _ HT). }
  destruct (SetMetadata_remove_run E FIMD_EXIF_MAIN a d _ mdp MD "InterColorProfile" s2
              Hb2 Hmd HMD2 Hslot2) as (s3 & Hrem & Hg3 & Hdom3 & HT3 & Hold3 & Hframe3).
  fold exif in HT3, Hold3, Hframe3. rewrite Htags2 in HT3, Hold3, Hframe3.
  exists s3. unfold FreeImage_DestroyICCProfile.
  assert (Hfirst : ('(_, b0) ← block_of a;
                    match icc_data (iccProfile (fih b0)) with
                    | Some p => _ ← load_bytes p; release p
                    | None => mret tt
                    end;;
                    modify_header a (set_icc_data None 0)) s = Some (tt, s2)).
  { rewrite (read_block_run _ _ _ _ _ Hb). cbv beta iota.
    by rewrite (bind_run _ _ _ _ _ Hfree). }
  rewrite (bind_run _ _ _ _ _ Hfirst). rewrite (bind_run _ _ _ _ _ Hrem).
  split; [reflexivity|].
  assert (Hnot_exif : forall x l, mem s !! x = Some (CBytes l) \/ (exists c, mem s !! x = Some (CBlock c))
            \/ (exists w, mem s !! x = Some (CWrapper w)) ->
            Some x <> exif /\ tags_in s exif !! "InterColorProfile" <> Some (Some x)).
  { intros x l Hx. unfold slot_ready in Hslot. fold exif in Hslot. split.
    - intros He. rewrite <- He in Hslot.
      destruct (mem s !! x) as [[| | | |T| |]|]; try done.
      destruct Hx as [?|[[? ?]|[? ?]]]; done.
    - intros Hk. destruct exif as [tm|]; cbn [tags_in] in Hk; [|by rewrite lookup_empty in Hk].
      destruct (mem s !! tm) as [[| | | |T| |]|]; try done.
      rewrite Hk in Hslot. destruct Hslot as [_ Ht]. apply is_tag_spec in Ht as [c Hc].
      destruct Hx as [?|[[? ?]|[? ?]]]; congruence. }
  split.
  { destruct Hb2 as [Ha2 Hd2]. destruct Hb as [Ha Hd]. 
    destruct (Hnot_exif a [] (or_intror (or_intror (ex_intro _ _ Ha)))) as [? ?].
    destruct (Hnot_exif d [] (or_intror (or_introl (ex_intro _ _ Hd)))) as [? ?].
    split; by apply Hframe3. }
  split; [congruence|].
  split.
  { rewrite Hdom3, Hm2, dom_insert_lookup_L, Hdom1; [done|]. destruct Hb1 as [_ Hd1]. eauto. }
  split.
  { intros p Hp. destruct (Hicc p Hp) as [l Hl].
    destruct (Hnot_exif p l (or_introl Hl)) as [? ?].
    apply Hframe3; [|done..]. rewrite Hm2, lookup_insert_ne; [by apply Hfreed|].
    intros ->. destruct Hb as [_ Hd]. congruence. }
  split; [exact HT3|]. split; [exact Hold3|].
  intros x cx Hx Hxd Hxp Hxe Hxk. apply Hframe3; [|done..]. by apply Hsame2.
Qed.



(** X8. [FreeImage_DestroyICCProfile] on a live bitmap releases the
    profile buffer, leaves a profile with no data and size zero but the
    flags it had, and erases the tag "InterColorProfile" of the
    Exif-Main model, releasing it; no other object but the block of the
    bitmap and the tag map of that model changes. *)
Theorem X8_destroyed_icc_profile (E : environment) (a d : loc) (b : BLOCK) (mdp : loc)
    (MD : gmap Z ptr) (s : state) :
  bitmap_at s a d b -> metadata (fih b) = Some mdp ->
  mem s !! mdp = Some (CMetadata MD) ->
  (forall p, icc_data (iccProfile (fih b)) = Some p -> exists l, mem s !! p = Some (CBytes l)) ->
  slot_ready s (default None (MD !! FIMD_EXIF_MAIN)) "InterColorProfile" None ->
  let exif := default None (MD !! FIMD_EXIF_MAIN) in
  exists s',
    FreeImage_DestroyICCProfile E (Some a) s = Some (tt, s')
    /\ FreeImage_GetICCProfile (Some a) s'
       = Some (Some {| icc_flags := icc_flags (iccProfile (fih b));
                       icc_size := 0; icc_data := None |}, s')
    /\ (forall p, icc_data (iccProfile (fih b)) = Some p -> mem s' !! p = Some Freed)
    /\ tags_in s' exif !! "InterColorProfile" = None
    /\ (forall old, tags_in s exif !! "InterColorProfile" = Some (Some old) ->
          mem s' !! old = Some Freed)
    /\ (forall x cx, mem s !! x = Some cx -> x <> d ->
          icc_data (iccProfile (fih b)) <> Some x -> Some x <> exif ->
          tags_in s exif !! "InterColorProfile" <> Some (Some x) ->
          mem s' !! x = Some cx).
Proof.
  intros Hb Hmd HMD Hicc Hslot exif.
  destruct (DestroyICCProfile_run E a d b mdp MD s Hb Hmd HMD Hicc Hslot)
    as (s' & Hdes & Hb' & _ & _ & Hfreed & HT & Hold & Hframe).
  exists s'. split; [exact Hdes|]. split; [by rewrite (GetICCProfile_run _ _ _ _ Hb')|].
  split; [exact Hfreed|]. split; [|exact (conj Hold Hframe)].
  fold exif in HT. rewrite HT. apply lookup_delete_eq.
Qed.

Lemma X8_destroyed_icc_profile_witness :
  exists s',
    FreeImage_DestroyICCProfile example_environment (Some 1%positive)
      (final_state furnished_bitmap) = Some (tt, s')
    /\ FreeImage_GetICCProfile (Some 1%positive) s'
       = Some (Some {| icc_flags := 0; icc_size := 0; icc_data := None |}, s')
    /\ mem s' !! 14%positive = Some Freed.
Proof.
  set (s := final_state furnished_bitmap).
  assert (Hb : bitmap_at s 1%positive 2%positive (block_at s 2%positive))
    by (split; vm_compute; reflexivity).
  assert (HMD : mem s !! 3%positive = Some (CMetadata (metadata_at s 3%positive)))
    by (vm_compute; reflexivity).
  assert (Hdata : icc_data (iccProfile (fih (block_at s 2%positive))) = Some 14%positive)
    by (vm_compute; reflexivity).
  assert (Hicc : forall p, icc_data (iccProfile (fih (block_at s 2%positive))) = Some p ->
                   exists l0, mem s !! p = Some (CBytes l0)).
  { intros p Hp. rewrite Hdata in Hp. injection Hp as <-. exists [1; 2; 3].
    vm_compute. reflexivity. }
  assert (Hslot : slot_ready s (default None (metadata_at s 3%positive !! FIMD_EXIF_MAIN))
                    "InterColorProfile" None)
    by (apply (@bool_decide_unpack _ (slot_ready_dec s _ "InterColorProfile" None));
        vm_compute; exact I).
  destruct (X8_destroyed_icc_profile example_environment 1%positive 2%positive
              (block_at s 2%positive) 3%positive (metadata_at s 3%positive) s
              Hb eq_refl HMD Hicc Hslot)
    as (s' & Hrun & Hget & Hfreed & _).
  assert (Hflags : icc_flags (iccProfile (fih (block_at s 2%positive))) = 0)
    by (vm_compute; reflexivity).
  rewrite Hflags in Hget. exists s'. exact (conj Hrun (conj Hget (Hfreed _ Hdata))).
Defined.

(** * Teardown *)

Lemma unload_model_run (s1 : state) (m : Z) (p : ptr) :
  model_owned s1 p ->
  exists s2,
    unload_model (m, p) s1 = Some (tt, s2)
    /\ (forall x, x ∈ model_objects s1 p -> mem s2 !! x = Some Freed)
    /\ (forall x, x ∉ model_objects s1 p -> mem s2 !! x = mem s1 !! x)
    /\ dom (mem s2) = dom (mem s1)
    /\ messages s2 = messages s1.
Proof.
  unfold unload_model, model_owned, model_objects. cbn [snd].
  destruct p as [tm|].
  2:{ intros _. exists s1. split; [reflexivity|]. split; [by intros x ?%elem_of_nil|]. done. }
  destruct (mem s1 !! tm) as [[| | | |T| |]|] eqn:HT; try done.
  intros [Hlive Hnd].
  rewrite (bind_run _ _ _ _ _ (load_tagmap_run _ _ _ HT)).
  pose proof Hlive as Hlive'. pose proof Hnd as Hnd'.
  unfold tags_of in Hlive', Hnd'. rewrite HT in Hlive', Hnd'.
  destruct (delete_tags_defined (map_to_list T) s1 Hlive' Hnd') as (s2 & H2).
  rewrite (bind_run _ _ _ _ _ H2).
  destruct (delete_tags_inv _ _ _ _ H2) as (Hfreed & Hsame & Hdom2 & Hg2).
  assert (Hin : forall x, x ∈ tags_of s1 tm <-> Some x ∈ (map_to_list T).*2).
  { intros x. rewrite (tags_of_spec s1 tm T x HT). split.
    - intros [k Hk]. apply list_elem_of_fmap. exists (k, Some x).
      split; [reflexivity | by apply elem_of_map_to_list].
    - intros ([k q] & Hq & Hk)%list_elem_of_fmap. cbn in Hq. subst q.
      apply elem_of_map_to_list in Hk. eauto. }
  assert (HT2 : mem s2 !! tm = Some (CTagMap T)).
  { rewrite Hsame; [exact HT|]. intros Htm. destruct (Hfreed tm Htm) as [[c Hc] _]. congruence. }
  destruct (store_defined tm Freed _ s2 HT2 ltac:(done)) as (s3 & H3).
  exists s3. split; [exact H3|]. apply store_inv in H3 as (_ & Hm3 & Hg3). rewrite Hm3.
  split; [|split; [|split]].
  - intros x [->|Hx]%elem_of_cons; [apply lookup_insert_eq|].
    destruct (decide (x = tm)) as [->|Hne]; [apply lookup_insert_eq|].
    rewrite lookup_insert_ne by done. by apply Hfreed, Hin.
  - intros x [Hne Hx]%not_elem_of_cons. rewrite lookup_insert_ne by done.
    apply Hsame. intros Hx'. by apply Hx, Hin.
  - rewrite dom_insert_lookup_L by eauto. exact Hdom2.
  - congruence.
Qed.

(** The model loop of [FreeImage_Unload] releases the tag map and the
    tags of every model, and nothing else. *)
Lemma unload_models_run (s s0 : state) (MD : gmap Z ptr) :
  owned s MD -> separate s true MD MD ->
  (forall m x, x ∈ model_objects s (default None (MD !! m)) -> mem s0 !! x = mem s !! x) ->
  exists s2,
    forM (map_to_list MD) unload_model s0 = Some (tt, s2)
    /\ (forall m x, x ∈ model_objects s (default None (MD !! m)) -> mem s2 !! x = Some Freed)
    /\ (forall x, (forall m, x ∉ model_objects s (default None (MD !! m))) ->
          mem s2 !! x = mem s0 !! x)
    /\ dom (mem s2) = dom (mem s0)
    /\ messages s2 = messages s0.
Proof.
  intros Hown Hsep Hstart.
  assert (Hgen : forall l s1,
    NoDup l.*1 -> (forall m p, (m, p) ∈ l -> MD !! m = Some p) ->
    (forall m p x, (m, p) ∈ l -> x ∈ model_objects s p -> mem s1 !! x = mem s !! x) ->
    exists s2,
      forM l unload_model s1 = Some (tt, s2)
      /\ (forall m p x, (m, p) ∈ l -> x ∈ model_objects s p -> mem s2 !! x = Some Freed)
      /\ (forall x, (forall m p, (m, p) ∈ l -> x ∉ model_objects s p) ->
            mem s2 !! x = mem s1 !! x)
      /\ dom (mem s2) = dom (mem s1)
      /\ messages s2 = messages s1).
  { induction l as [|[m p] l IH]; intros s1 Hnd Hl Hagree.
    { exists s1. split; [reflexivity|]. split; [by intros m p x ?%elem_of_nil|]. done. }
    cbn in Hnd. apply NoDup_cons in Hnd as [Hm_notin Hnd].
    assert (Hp : MD !! m = Some p) by (apply Hl; left).
    pose proof (owned_lookup s MD m Hown) as Hown0. rewrite Hp in Hown0. cbn [default] in Hown0.
    destruct (model_owned_agree s s1 p) as [Hown1 Hobj1]; [|exact Hown0|].
    { intros x Hx. apply (Hagree m p); [left | exact Hx]. }
    destruct (unload_model_run s1 m p Hown1) as (s1' & Hturn & Hfreed1 & Hsame1 & Hdom1 & Hg1).
    rewrite Hobj1 in Hfreed1, Hsame1.
    assert (Hother : forall m' p' x, (m', p') ∈ l -> x ∈ model_objects s p' ->
              x ∉ model_objects s p).
    { intros m' p' x Hin Hx Hx'.
      assert (Hp' : MD !! m' = Some p') by (apply Hl; by right).
      apply (separate_lookup s true MD MD m m' x Hsep).
      - right. intros ->. apply Hm_notin. apply list_elem_of_fmap. by exists (m', p').
      - by rewrite Hp.
      - by rewrite Hp'. }
    destruct (IH s1' Hnd) as (s2 & Hrest & Hfreed2 & Hsame2 & Hdom2 & Hg2).
    { intros m' p' Hin. apply Hl. by right. }
    { intros m' p' x Hin Hx. rewrite Hsame1 by (by apply (Hother m' p')).
      apply (Hagree m' p'); [by right | exact Hx]. }
    exists s2. cbn [forM]. rewrite (bind_run _ _ _ _ _ Hturn).
    split; [exact Hrest|]. split; [|split; [|split; congruence]].
    - intros m' p' x [[= -> ->]|Hin]%elem_of_cons Hx.
      + rewrite Hsame2; [by apply Hfreed1|].
        intros m'' p'' Hin'' Hx''. exact (Hother m'' p'' x Hin'' Hx'' Hx).
      + by apply (Hfreed2 m' p').
    - intros x Hx. rewrite Hsame2 by (intros m' p' Hin; apply (Hx m' p'); by right).
      apply Hsame1. apply (Hx m p). left. }
  destruct (Hgen (map_to_list MD) s0) as (s2 & Hrun & Hfreed & Hsame & Hdom & Hg).
  - apply NoDup_fst_map_to_list.
  - intros m p Hin. by apply elem_of_map_to_list.
  - intros m p x Hin Hx. apply elem_of_map_to_list in Hin. apply (Hstart m). by rewrite Hin.
  - exists s2. split; [exact Hrun|]. split; [|split; [|done]].
    + intros m x Hx. destruct (MD !! m) as [p|] eqn:Hp; [|by apply elem_of_nil in Hx].
      apply (Hfreed m p); [by apply elem_of_map_to_list | exact Hx].
    + intros x Hx. apply Hsame. intros m p Hin Hx'.
      apply elem_of_map_to_list in Hin. apply (Hx m). by rewrite Hin.
Qed.

(** X9. [FreeImage_Unload] releases what the bitmap owns and nothing
    else: on a live bitmap without thumbnail, whose profile buffer (if
    any) is live and whose models are owned and share no object, it
    runs to its end; afterwards the wrapper, the backing block, the
    metadata map, the profile buffer and the tag map and tags of every
    model are released, and every other object is as it was. *)
Theorem X9_unload_releases_the_bitmap (fuel : nat) (a d : loc) (b : BLOCK) (mdp : loc)
    (MD : gmap Z ptr) (s : state) :
  bitmap_at s a d b -> thumbnail (fih b) = None ->
  metadata (fih b) = Some mdp -> mem s !! mdp = Some (CMetadata MD) ->
  (forall p, icc_data (iccProfile (fih b)) = Some p -> exists l, mem s !! p = Some (CBytes l)) ->
  owned s MD -> separate s true MD MD ->
  exists s',
    FreeImage_Unload (S fuel) (Some a) s = Some (tt, s')
    /\ mem s' !! a = Some Freed /\ mem s' !! d = Some Freed /\ mem s' !! mdp = Some Freed
    /\ (forall p, icc_data (iccProfile (fih b)) = Some p -> mem s' !! p = Some Freed)
    /\ (forall m x, x ∈ model_objects s (default None (MD !! m)) -> mem s' !! x = Some Freed)
    /\ (forall x, x <> a -> x <> d -> x <> mdp -> icc_data (iccProfile (fih b)) <> Some x ->
          (forall m, x ∉ model_objects s (default None (MD !! m))) ->
          mem s' !! x = mem s !! x)
    /\ dom (mem s') = dom (mem s)
    /\ messages s' = messages s.
Proof.
  intros Hb Hth Hmd HMD Hicc Hown Hsep.
  pose proof Hb as [Ha Hd].
  assert (Hkind : forall m x, x ∈ model_objects s (default None (MD !! m)) ->
            (exists T, mem s !! x = Some (CTagMap T)) \/ (exists c, mem s !! x = Some (CTag c))).
  { intros m x Hx. exact (model_objects_kind s _ x (owned_lookup s MD m Hown) Hx). }
  assert (Hnot : forall m x cx, mem s !! x = Some cx ->
            (forall T, cx <> CTagMap T) -> (forall c, cx <> CTag c) ->
            x ∉ model_objects s (default None (MD !! m))).
  { intros m x cx Hx H1 H2 Hin. destruct (Hkind m x Hin) as [[T HT]|[c Hc]].
    - rewrite Hx in HT. inversion HT. by eapply H1.
    - rewrite Hx in Hc. inversion Hc. by eapply H2. }
  (* the profile buffer *)
  assert (Hfree : exists s1,
    match icc_data (iccProfile (fih b)) with
    | Some p => release p
    | None => mret tt
    end s = Some (tt, s1)
    /\ messages s1 = messages s /\ dom (mem s1) = dom (mem s)
    /\ (forall p, icc_data (iccProfile (fih b)) = Some p -> mem s1 !! p = Some Freed)
    /\ (forall x, icc_data (iccProfile (fih b)) <> Some x -> mem s1 !! x = mem s !! x)).
  { destruct (icc_data (iccProfile (fih b))) as [p|].
    - destruct (Hicc p eq_refl) as [l Hl].
      destruct (store_defined p Freed _ s Hl ltac:(done)) as (s1 & H1).
      exists s1. split; [exact H1|]. apply store_inv in H1 as (_ & Hm1 & Hg1).
      split; [exact Hg1|]. rewrite Hm1.
      split; [by rewrite dom_insert_lookup_L by eauto|]. split.
      + intros p' [= <-]. apply lookup_insert_eq.
      + intros x Hx. rewrite lookup_insert_ne; [done | congruence].
    - exists s. split; [reflexivity|]. split; [reflexivity|]. split; [reflexivity|].
      split; done. }
  destruct Hfree as (s1 & Hfree & Hg1 & Hdom1 & Hfreed1 & Hsame1).
  assert (Hbytes : forall x cx, mem s !! x = Some cx -> (forall l, cx <> CBytes l) ->
            mem s1 !! x = Some cx).
  { intros x cx Hx Hnb. rewrite Hsame1; [exact Hx|]. intros Hp.
    destruct (Hicc x Hp) as [l Hl]. rewrite Hx in Hl. inversion Hl. by eapply Hnb. }
  assert (HMD1 : mem s1 !! mdp = Some (CMetadata MD)) by (by apply Hbytes).
  (* the models *)
  destruct (unload_models_run s s1 MD Hown Hsep) as (s2 & Hloop & Hfreed2 & Hsame2 & Hdom2 & Hg2).
  { intros m x Hx. destruct (Hkind m x Hx) as [[T HT]|[c Hc]].
    - rewrite HT. by apply Hbytes.
    - rewrite Hc. by apply Hbytes. }
  assert (Hkeep : forall x cx, mem s !! x = Some cx ->
            (forall l, cx <> CBytes l) -> (forall T, cx <> CTagMap T) -> (forall c, cx <> CTag c) ->
            mem s2 !! x = Some cx).
  { intros x cx Hx H0 H1 H2. rewrite Hsame2; [by apply Hbytes|].
    intros m. by apply (Hnot m x cx). }
  assert (HMD2 : mem s2 !! mdp = Some (CMetadata MD)) by (by apply Hkeep).
  destruct (store_defined mdp Freed _ s2 HMD2 ltac:(done)) as (s3 & H3).
  pose proof (store_inv _ _ _ _ _ H3) as (_ & Hm3 & Hg3).
  assert (Hd3 : mem s3 !! d = Some (CBlock b)).
  { rewrite Hm3, lookup_insert_ne by (intros ->; congruence). by apply Hkeep. }
  destruct (store_defined d Freed _ s3 Hd3 ltac:(done)) as (s4 & H4).
  pose proof (store_inv _ _ _ _ _ H4) as (_ & Hm4 & Hg4).
  assert (Ha4 : mem s4 !! a = Some (CWrapper (Some d))).
  { rewrite Hm4, lookup_insert_ne by (intros ->; congruence).
    rewrite Hm3, lookup_insert_ne by (intros ->; congruence). by apply Hkeep. }
  destruct (store_defined a Freed _ s4 Ha4 ltac:(done)) as (s5 & H5).
  pose proof (store_inv _ _ _ _ _ H5) as (_ & Hm5 & Hg5).
  assert (Hnad : a <> d) by (intros ->; congruence).
  assert (Hnam : a <> mdp) by (intros ->; congruence).
  assert (Hndm : d <> mdp) by (intros ->; congruence).
  exists s5. split.
  { cbn [FreeImage_Unload].
    assert (Hw : load_wrapper a s = Some (Some d, s)).
    { unfold load_wrapper. by rewrite (bind_run _ _ s s (CWrapper (Some d))) by (by apply load_run). }
    assert (Hbl : load_block d s = Some (b, s)).
    { unfold load_block. by rewrite (bind_run _ _ s s (CBlock b)) by (by apply load_run). }
    rewrite (bind_run _ _ _ _ _ Hw).
    assert (Hinner : (b0 ← load_block d;
                      match icc_data (iccProfile (fih b0)) with
                      | Some p => release p
                      | None => mret tt
                      end;;
                      mdp0 ← deref (metadata (fih b0));
                      md ← load_metadata mdp0;
                      forM (map_to_list md) (fun i =>
                        match i.2 with
                        | Some tm =>
                            t ← load_tagmap tm;
                            forM (map_to_list t) (fun j => FreeImage_DeleteTag j.2);;
                            release tm
                        | None => mret tt
                        end);;
                      release mdp0;;
                      FreeImage_Unload fuel (thumbnail (fih b0));;
                      release d) s = Some (tt, s4)).
    { rewrite (bind_run _ _ _ _ _ Hbl).
      rewrite (bind_run _ _ _ _ _ Hfree). rewrite Hmd, Hth.
      rewrite (bind_run _ _ s1 s1 mdp) by reflexivity.
      rewrite (bind_run _ _ _ _ _ (load_metadata_run _ _ _ HMD1)).
      change (forM (map_to_list MD) _) with (forM (map_to_list MD) unload_model).
      rewrite (bind_run _ _ _ _ _ Hloop). rewrite (bind_run _ _ _ _ _ H3).
      assert (Hnull : FreeImage_Unload fuel None s3 = Some (tt, s3)) by (by destruct fuel).
      rewrite (bind_run _ _ _ _ _ Hnull). exact H4. }
    rewrite (bind_run _ _ _ _ _ Hinner). exact H5. }
  rewrite Hm5, Hm4, Hm3.
  split; [apply lookup_insert_eq|].
  split; [rewrite lookup_insert_ne by done; apply lookup_insert_eq|].
  split; [rewrite !lookup_insert_ne by done; apply lookup_insert_eq|].
  split.
  { intros p Hp. destruct (Hicc p Hp) as [l Hl].
    rewrite !lookup_insert_ne by (intros ->; congruence).
    rewrite Hsame2; [by apply Hfreed1|]. intros m. by apply (Hnot m p (CBytes l)). }
  split.
  { intros m x Hx. pose proof (Hfreed2 m x Hx) as Hf.
    destruct (Hkind m x Hx) as [[T HT]|[c Hc]];
      rewrite !lookup_insert_ne by (intros ->; congruence); exact Hf. }
  split.
  { intros x Hxa Hxd Hxm Hxp Hxo. rewrite !lookup_insert_ne by done.
    rewrite Hsame2 by exact Hxo. by apply Hsame1. }
  split; [|congruence].
  rewrite !dom_insert_lookup_L; [congruence| | |].
  - exists (CMetadata MD). exact HMD2.
  - exists (CBlock b). rewrite <- Hm3. exact Hd3.
  - exists (CWrapper (Some d)). rewrite <- Hm3, <- Hm4. exact Ha4.
Qed.

Lemma X9_unload_releases_the_bitmap_witness :
  exists s',
    FreeImage_Unload 1 (Some 1%positive) (final_state stored_comment) = Some (tt, s')
    /\ mem s' !! 1%positive = Some Freed /\ mem s' !! 2%positive = Some Freed
    /\ mem s' !! 3%positive = Some Freed /\ mem s' !! 5%positive = Some Freed
    /\ mem s' !! 6%positive = Some Freed
    /\ mem s' !! 4%positive = Some (CTag (stored_tag example_environment FIMD_COMMENTS "a"
                                            text_tag)).
Proof.
  set (s := final_state stored_comment).
  assert (Hb : bitmap_at s 1%positive 2%positive (block_at s 2%positive))
    by (split; vm_compute; reflexivity).
  assert (HMD : mem s !! 3%positive = Some (CMetadata (metadata_at s 3%positive)))
    by (vm_compute; reflexivity).
  assert (Hicc : forall p, icc_data (iccProfile (fih (block_at s 2%positive))) = Some p ->
                   exists l0, mem s !! p = Some (CBytes l0)).
  { intros p Hp.
    assert (Hdata : icc_data (iccProfile (fih (block_at s 2%positive))) = None)
      by (vm_compute; reflexivity).
    rewrite Hdata in Hp. discriminate Hp. }
  assert (Hown : owned s (metadata_at s 3%positive)).
  { apply (@bool_decide_unpack _ (owned_dec s _)). vm_compute. exact I. }
  assert (Hsep : separate s true (metadata_at s 3%positive) (metadata_at s 3%positive)).
  { apply (@bool_decide_unpack _ (separate_dec s true _ _)). vm_compute. exact I. }
  destruct (X9_unload_releases_the_bitmap 0 1%positive 2%positive (block_at s 2%positive)
              3%positive (metadata_at s 3%positive) s Hb eq_refl eq_refl HMD Hicc Hown Hsep)
    as (s' & Hrun & Ha & Hd & Hm & _ & Hobj & Hframe & _).
  assert (H5 : 5%positive ∈ model_objects s
                 (default None (metadata_at s 3%positive !! FIMD_COMMENTS))).
  { assert (Hl : model_objects s (default None (metadata_at s 3%positive !! FIMD_COMMENTS))
                 = [5%positive; 6%positive]) by (vm_compute; reflexivity).
    rewrite Hl. apply list_elem_of_here. }
  assert (H6 : 6%positive ∈ model_objects s
                 (default None (metadata_at s 3%positive !! FIMD_COMMENTS))).
  { assert (Hl : model_objects s (default None (metadata_at s 3%positive !! FIMD_COMMENTS))
                 = [5%positive; 6%positive]) by (vm_compute; reflexivity).
    rewrite Hl. apply list_elem_of_further, list_elem_of_here. }
  assert (H4 : mem s' !! 4%positive = mem s !! 4%positive).
  { assert (Hdata : icc_data (iccProfile (fih (block_at s 2%positive))) = None)
      by (vm_compute; reflexivity).
    apply Hframe; [discriminate | discriminate | discriminate | by rewrite Hdata |].
    intros m Hin.
    assert (Hall : forall x, x ∈ model_objects s (default None (metadata_at s 3%positive !! m)) ->
              x = 5%positive \/ x = 6%positive).
    { intros x Hx. destruct (decide (m = FIMD_COMMENTS)) as [->|Hne].
      - assert (Hl : model_objects s (default None (metadata_at s 3%positive !! FIMD_COMMENTS))
                     = [5%positive; 6%positive]) by (vm_compute; reflexivity).
        rewrite Hl in Hx. apply elem_of_cons in Hx as [Hx|Hx]; [left; exact Hx|].
        apply elem_of_cons in Hx as [Hx|Hx]; [right; exact Hx|].
        apply elem_of_nil in Hx. destruct Hx.
      - assert (HM : metadata_at s 3%positive = {[ FIMD_COMMENTS := Some 5%positive ]})
          by (vm_compute; reflexivity).
        rewrite HM, lookup_singleton_ne in Hx by (intros Hc; apply Hne; symmetry; exact Hc).
        apply elem_of_nil in Hx. destruct Hx. }
    destruct (Hall _ Hin) as [H45|H46]; [discriminate H45 | discriminate H46]. }
  exists s'.
  assert (H4s : mem s !! 4%positive
                = Some (CTag (stored_tag example_environment FIMD_COMMENTS "a" text_tag)))
    by (vm_compute; reflexivity).
  rewrite H4s in H4.
  exact (conj Hrun (conj Ha (conj Hd (conj Hm (conj (Hobj _ _ H5) (conj (Hobj _ _ H6) H4)))))).
Defined.

(** * Allocation *)



(** * Transparency and background colour *)

Lemma GetBPP_of (s : state) (a d : loc) (b : BLOCK) :
  bitmap_at s a d b -> FreeImage_GetBPP (Some a) s = Some (biBitCount (bih b), s).
Proof. intros Hb. exact (GetBPP_run s a d b Hb). Qed.

Lemma header_update_run (a d : loc) (b : BLOCK) (f : FREEIMAGEHEADER -> FREEIMAGEHEADER)
    (s : state) :
  bitmap_at s a d b ->
  exists s', modify_header a f s = Some (tt, s')
    /\ bitmap_at s' a d (set_fih (f (fih b)) b)
    /\ (forall x c, mem s !! x = Some c -> x <> d -> mem s' !! x = Some c)
    /\ dom (mem s') = dom (mem s)
    /\ messages s' = messages s.
Proof.
  intros Hb. destruct (modify_header_run a d b f s Hb) as (s' & Hrun & Hm & Hg).
  exists s'. split; [exact Hrun|]. split; [exact (modify_header_bitmap a d b _ s s' Hb Hm)|].
  split; [|split; [|exact Hg]].
  - intros x c Hx Hne. by rewrite Hm, lookup_insert_ne.
  - rewrite Hm. apply dom_insert_lookup_L. destruct Hb as [_ Hd]. eauto.
Qed.

Lemma GetTransparencyCount_run (s : state) (a d : loc) (b : BLOCK) :
  bitmap_at s a d b ->
  FreeImage_GetTransparencyCount (Some a) s = Some (u32 (transparency_count (fih b)), s).
Proof. intros Hb. unfold FreeImage_GetTransparencyCount. by rewrite (read_block_run _ _ _ _ _ Hb). Qed.

Lemma GetTransparencyTable_run (s : state) (a d : loc) (b : BLOCK) :
  bitmap_at s a d b ->
  FreeImage_GetTransparencyTable (Some a) s = Some (Some (transparent_table (fih b)), s).
Proof. intros Hb. unfold FreeImage_GetTransparencyTable. by rewrite (read_block_run _ _ _ _ _ Hb). Qed.

Lemma IsTransparent_palettized (P : platform) (s : state) (a d : loc) (b : BLOCK) :
  bitmap_at s a d b -> type (fih b) = FIT_BITMAP -> biBitCount (bih b) <> 32 ->
  FreeImage_IsTransparent P (Some a) s = Some (transparent (fih b), s).
Proof.
  intros Hb Hty Hbpp. unfold FreeImage_IsTransparent.
  rewrite (bind_run _ _ _ _ _ (GetImageType_run s a d b Hb)), Hty.
  rewrite (bind_run _ _ _ _ _ (GetBPP_run s a d b Hb)).
  destruct (Z.eqb_spec (biBitCount (bih b)) 32); [done|].
  by rewrite (read_block_run _ _ _ _ _ Hb).
Qed.

(** The search of [FreeImage_GetTransparentIndex]. *)
Lemma first_transparent_none (T : list Z) (l : list Z) (s : state) :
  (forall i, i ∈ l -> exists v, T !! Z.to_nat i = Some v /\ v <> 0) ->
  first_transparent (Some T) l s = Some (-1, s).
Proof.
  induction l as [|i l IH]; intros Hall; [reflexivity|].
  cbn [first_transparent]. destruct (Hall i) as (v & Hv & Hne); [left|].
  rewrite Hv. rewrite (bind_run _ _ s s v) by reflexivity.
  destruct (Z.eqb_spec v 0); [done|]. apply IH. intros j Hj. apply Hall. by right.
Qed.

Lemma first_transparent_found (T : list Z) (l1 l2 : list Z) (i : Z) (s : state) :
  (forall j, j ∈ l1 -> exists v, T !! Z.to_nat j = Some v /\ v <> 0) ->
  T !! Z.to_nat i = Some 0 ->
  first_transparent (Some T) (l1 ++ i :: l2) s = Some (i, s).
Proof.
  induction l1 as [|j l1 IH]; intros Hall Hi.
  - cbn [app first_transparent]. rewrite Hi. by rewrite (bind_run _ _ s s 0) by reflexivity.
  - cbn [app first_transparent]. destruct (Hall j) as (v & Hv & Hne); [left|].
    rewrite Hv. rewrite (bind_run _ _ s s v) by reflexivity.
    destruct (Z.eqb_spec v 0); [done|]. apply IH; [|exact Hi]. intros k Hk. apply Hall. by right.
Qed.

Lemma slice_whole (n : Z) (l : list Z) : n = Z.of_nat (length l) -> slice 0 n l = l.
Proof. intros ->. apply slice_all. Qed.

(** What [FreeImage_SetTransparencyTable] does to a palettized
    bitmap, from a caller's buffer. *)
Lemma SetTransparencyTable_run (a d : loc) (b : BLOCK) (p : loc) (l : list Z) (count : Z)
    (s : state) :
  bitmap_at s a d b -> biBitCount (bih b) <= 8 ->
  mem s !! p = Some (CBytes l) ->
  Z.max 0 (Z.min count 256) <= Z.of_nat (length l) ->
  let n := Z.max 0 (Z.min count 256) in
  exists s',
    FreeImage_SetTransparencyTable (Some a) (Some (p, 0)) count s = Some (tt, s')
    /\ bitmap_at s' a d
         (set_fih (set_transparency
                     (take (Z.to_nat n) l ++ drop (Z.to_nat n) (transparent_table (fih b)))
                     n (0 <? n) (fih b)) b)
    /\ (forall x c, mem s !! x = Some c -> x <> d -> mem s' !! x = Some c)
    /\ dom (mem s') = dom (mem s)
    /\ messages s' = messages s.
Proof.
  intros Hb Hbpp Hp Hlen n.
  assert (Hn : 0 <= n <= 256) by (unfold n; lia).
  assert (Hread : read_bytes (Some (p, 0)) n s = Some (take (Z.to_nat n) l, s)).
  { unfold read_bytes. rewrite (bind_run _ _ s s (p, 0)) by reflexivity.
    rewrite (bind_run _ _ s s (CBytes l)) by (by apply load_run).
    cbv beta iota. destruct (Z.leb_spec 0 n); [|lia].
    destruct (Z.leb_spec (0 + n) (Z.of_nat (length l))); [|unfold n in *; lia].
    cbn [andb Z.leb]. unfold slice. change (Z.to_nat 0) with 0%nat. by rewrite drop_0. }
  destruct (header_update_run a d b
              (fun f => set_transparency (splice 0 (take (Z.to_nat n) l) (transparent_table f))
                          n (0 <? n) f) s Hb) as (s' & Hrun & Hb' & Hframe & Hdom & Hg).
  exists s'. split.
  { unfold FreeImage_SetTransparencyTable. cbv zeta. fold n.
    rewrite (bind_run _ _ _ _ _ (GetBPP_run s a d b Hb)).
    destruct (Z.leb_spec (biBitCount (bih b)) 8); [|lia].
    rewrite (bind_run _ _ _ _ _ Hread). exact Hrun. }
  split; [|by auto].
  assert (Hsp : splice 0 (take (Z.to_nat n) l) (transparent_table (fih b))
                = take (Z.to_nat n) l ++ drop (Z.to_nat n) (transparent_table (fih b))).
  { unfold splice. change (Z.to_nat 0) with 0%nat. rewrite take_0. cbn [app Nat.add].
    rewrite length_take. f_equal. f_equal. lia. }
  by rewrite <- Hsp.
Qed.

(** X11. The transparent index is read back as it was set: on a
    palettized bitmap ([bpp <= 8], between 1 and 256 colours used),
    [FreeImage_SetTransparentIndex] makes the bitmap transparent with
    as many table entries as colours; [FreeImage_GetTransparentIndex]
    then returns the index when it names a palette entry, and -1 when
    it does not. Nothing but the block of the bitmap changes, and the
    buffer the function allocates is released. *)
Theorem X11_transparent_index_round_trip (P : platform) (a d : loc) (b : BLOCK)
    (index : Z) (s : state) :
  bitmap_at s a d b -> type (fih b) = FIT_BITMAP -> biBitCount (bih b) <= 8 ->
  0 < biClrUsed (bih b) <= 256 ->
  exists s',
    FreeImage_SetTransparentIndex (Some a) index s = Some (tt, s')
    /\ FreeImage_GetTransparentIndex (Some a) s'
       = Some (if (0 <=? index) && (index <? biClrUsed (bih b)) then index else -1, s')
    /\ FreeImage_GetTransparencyCount (Some a) s' = Some (biClrUsed (bih b), s')
    /\ FreeImage_IsTransparent P (Some a) s' = Some (true, s')
    /\ (forall x c, mem s !! x = Some c -> x <> d -> mem s' !! x = Some c)
    /\ (forall x, mem s !! x = None -> mem s' !! x = None \/ mem s' !! x = Some Freed).
Proof.
  intros Hb Hty Hbpp Hcount.
  set (count := biClrUsed (bih b)) in *.
  assert (Hs32 : s32 count = count).
  { unfold s32, u32, wrap. rewrite Z.mod_small by lia.
    destruct (Z.ltb_spec count (2 ^ 31)); lia. }
  set (filled := replicate (Z.to_nat count) 0xFF).
  set (tbl := if (0 <=? index) && (index <? count)
              then <[Z.to_nat index := 0x00]> filled else filled).
  assert (Hlen : length tbl = Z.to_nat count).
  { unfold tbl. destruct ((0 <=? index) && (index <? count));
      [rewrite length_insert|]; apply length_replicate. }
  set (p := fresh (dom (mem s))).
  set (s1 := set_mem s (<[p := CBytes tbl]> (mem s))).
  assert (Hp : mem s !! p = None) by (apply not_elem_of_dom, is_fresh).
  assert (Hb1 : bitmap_at s1 a d b).
  { destruct Hb as [Ha Hd]. split; cbn; rewrite lookup_insert_ne; try done;
      intros <-; congruence. }
  assert (Hp1 : mem s1 !! p = Some (CBytes tbl)) by apply lookup_insert_eq.
  assert (Hclamp : Z.max 0 (Z.min count 256) = count) by lia.
  destruct (SetTransparencyTable_run a d b p tbl count s1 Hb1 Hbpp Hp1)
    as (s2 & Hset & Hb2 & Hframe2 & Hdom2 & _); [rewrite Hclamp; lia|].
  rewrite Hclamp in Hb2.
  assert (Htake : take (Z.to_nat count) tbl = tbl) by (apply take_ge; lia).
  rewrite Htake in Hb2.
  assert (Hp2 : mem s2 !! p = Some (CBytes tbl)).
  { apply Hframe2; [exact Hp1|]. intros ->. destruct Hb1 as [_ Hd1]. congruence. }
  destruct (store_defined p Freed _ s2 Hp2 ltac:(done)) as (s3 & H3).
  pose proof (store_inv _ _ _ _ _ H3) as (_ & Hm3 & _).
  set (b2 := set_fih (set_transparency
                        (tbl ++ drop (Z.to_nat count) (transparent_table (fih b)))
                        count (0 <? count) (fih b)) b) in *.
  assert (Hb3 : bitmap_at s3 a d b2).
  { destruct Hb2 as [Ha2 Hd2]. unfold bitmap_at. rewrite Hm3.
    split; rewrite lookup_insert_ne; try done; intros <-; congruence. }
  exists s3. split; [|split; [|split; [|split; [|split]]]].
  - unfold FreeImage_SetTransparentIndex.
    rewrite (bind_run _ _ _ _ _ (GetColorsUsed_run s a d b Hb)). cbv zeta. fold count.
    rewrite Hs32. destruct (Z.eqb_spec count 0); [lia|]. destruct (Z.ltb_spec count 0); [lia|].
    rewrite (bind_run _ _ s s1 p) by reflexivity.
    rewrite (bind_run _ _ _ _ _ Hset). exact H3.
  - unfold FreeImage_GetTransparentIndex.
    rewrite (bind_run _ _ _ _ _ (GetTransparencyCount_run s3 a d b2 Hb3)).
    rewrite (bind_run _ _ _ _ _ (GetTransparencyTable_run s3 a d b2 Hb3)).
    cbn [b2 set_fih fih set_transparency transparency_count transparent_table].
    assert (Hu : u32 count = count) by (unfold u32, wrap; apply Z.mod_small; lia).
    rewrite Hu, Hs32.
    assert (Hentry : forall j, 0 <= j < count ->
              (tbl ++ drop (Z.to_nat count) (transparent_table (fih b))) !! Z.to_nat j
              = tbl !! Z.to_nat j).
    { intros j Hj. apply lookup_app_l. lia. }
    destruct ((0 <=? index) && (index <? count)) eqn:Hin.
    + apply andb_true_iff in Hin as [H0 H1]. apply Z.leb_le in H0. apply Z.ltb_lt in H1.
      assert (Hsplit : seqZ 0 count
                = seqZ 0 index ++ index :: seqZ (index + 1) (count - index - 1)).
      { replace count with (index + (count - index)) at 1 by lia.
        rewrite seqZ_app by lia. rewrite Z.add_0_l. f_equal.
        rewrite seqZ_cons by lia.
        replace (Z.succ index) with (index + 1) by lia.
        replace (Z.pred (count - index)) with (count - index - 1) by lia.
        replace (index + (count - index) - index - 1) with (count - index - 1) by lia.
        reflexivity. }
      rewrite Hsplit. apply first_transparent_found.
      * intros j Hj. apply elem_of_seqZ in Hj. exists 0xFF. split; [|done].
        rewrite Hentry by lia. unfold tbl.
        rewrite list_lookup_insert_ne by lia. apply lookup_replicate_2. lia.
      * rewrite Hentry by lia. unfold tbl. apply list_lookup_insert_eq.
        unfold filled. rewrite length_replicate. lia.
    + apply first_transparent_none. intros j Hj. apply elem_of_seqZ in Hj.
      exists 0xFF. split; [|done]. rewrite Hentry by lia. unfold tbl.
      apply lookup_replicate_2. lia.
  - rewrite (GetTransparencyCount_run s3 a d b2 Hb3). cbn.
    f_equal. f_equal. unfold u32, wrap. apply Z.mod_small. lia.
  - rewrite (IsTransparent_palettized P s3 a d b2 Hb3); [|exact Hty|cbn; lia].
    cbn. destruct (Z.ltb_spec 0 count); [done | lia].
  - intros x c Hx Hne. rewrite Hm3.
    assert (x <> p) by (intros ->; congruence).
    rewrite lookup_insert_ne by done. apply Hframe2; [|exact Hne].
    cbn. by rewrite lookup_insert_ne.
  - intros x Hx. rewrite Hm3. destruct (decide (x = p)) as [->|Hne].
    + right. apply lookup_insert_eq.
    + left. rewrite lookup_insert_ne by done. apply not_elem_of_dom. rewrite Hdom2.
      cbn. rewrite dom_insert_L. apply not_elem_of_union. split; [set_solver|].
      by apply not_elem_of_dom.
Qed.

Lemma X11_transparent_index_round_trip_witness :
  exists s',
    FreeImage_SetTransparentIndex (Some 1%positive) 3 (final_state bitmap_and_tag)
      = Some (tt, s')
    /\ FreeImage_GetTransparentIndex (Some 1%positive) s' = Some (3, s')
    /\ FreeImage_GetTransparencyCount (Some 1%positive) s' = Some (256, s')
    /\ FreeImage_IsTransparent LP64 (Some 1%positive) s' = Some (true, s').
Proof.
  set (s := final_state bitmap_and_tag).
  assert (Hb : bitmap_at s 1%positive 2%positive (block_at s 2%positive))
    by (split; vm_compute; reflexivity).
  assert (Hty : type (fih (block_at s 2%positive)) = FIT_BITMAP) by (vm_compute; reflexivity).
  assert (Hbpp : biBitCount (bih (block_at s 2%positive)) <= 8) by (vm_compute; discriminate).
  assert (Hused : biClrUsed (bih (block_at s 2%positive)) = 256) by (vm_compute; reflexivity).
  assert (Hcount : 0 < biClrUsed (bih (block_at s 2%positive)) <= 256)
    by (rewrite Hused; lia).
  destruct (X11_transparent_index_round_trip LP64 1%positive 2%positive
              (block_at s 2%positive) 3 s Hb Hty Hbpp Hcount)
    as (s' & Hset & Hget & Hn & Htr & _).
  rewrite Hused in Hget, Hn. exists s'. exact (conj Hset (conj Hget (conj Hn Htr))).
Defined.

(** X12. The transparency table takes a clamped count: on a
    palettized bitmap, [FreeImage_SetTransparencyTable] with a caller's
    table of at least [n] bytes, [n] being [count] brought into
    [0..256], stores [n] as the transparency count, the first [n] bytes
    of the caller's table as the first [n] entries of the table of the
    bitmap, whose other entries stay, and makes the bitmap transparent
    exactly when [n] is not zero. *)
Theorem X12_transparency_table_is_clamped (P : platform) (a d : loc) (b : BLOCK) (p : loc)
    (l : list Z) (count : Z) (s : state) :
  bitmap_at s a d b -> type (fih b) = FIT_BITMAP -> biBitCount (bih b) <= 8 ->
  mem s !! p = Some (CBytes l) ->
  Z.max 0 (Z.min count 256) <= Z.of_nat (length l) ->
  let n := Z.max 0 (Z.min count 256) in
  exists s',
    FreeImage_SetTransparencyTable (Some a) (Some (p, 0)) count s = Some (tt, s')
    /\ FreeImage_GetTransparencyCount (Some a) s' = Some (n, s')
    /\ FreeImage_GetTransparencyTable (Some a) s'
       = Some (Some (take (Z.to_nat n) l ++ drop (Z.to_nat n) (transparent_table (fih b))), s')
    /\ FreeImage_IsTransparent P (Some a) s' = Some (0 <? n, s')
    /\ (forall x c, mem s !! x = Some c -> x <> d -> mem s' !! x = Some c).
Proof.
  intros Hb Hty Hbpp Hp Hlen n.
  destruct (SetTransparencyTable_run a d b p l count s Hb Hbpp Hp Hlen)
    as (s' & Hset & Hb' & Hframe & _). fold n in Hb'.
  exists s'. split; [exact Hset|]. split; [|split; [|split; [|exact Hframe]]].
  - rewrite (GetTransparencyCount_run s' a d _ Hb'). cbn. f_equal. f_equal.
    unfold u32, wrap. apply Z.mod_small. unfold n. lia.
  - by rewrite (GetTransparencyTable_run s' a d _ Hb').
  - rewrite (IsTransparent_palettized P s' a d _ Hb'); [reflexivity | exact Hty | cbn; lia].
Qed.

Lemma X12_transparency_table_is_clamped_witness :
  exists s',
    FreeImage_SetTransparencyTable (Some 1%positive) (Some (4%positive, 0)) (-5)
      (final_state bitmap_and_table) = Some (tt, s')
    /\ FreeImage_GetTransparencyCount (Some 1%positive) s' = Some (0, s')
    /\ FreeImage_IsTransparent LP64 (Some 1%positive) s' = Some (false, s').
Proof.
  set (s := final_state bitmap_and_table).
  assert (Hb : bitmap_at s 1%positive 2%positive (block_at s 2%positive))
    by (split; vm_compute; reflexivity).
  assert (Hty : type (fih (block_at s 2%positive)) = FIT_BITMAP) by (vm_compute; reflexivity).
  assert (Hp : mem s !! 4%positive = Some (CBytes [0; 255; 7])) by (vm_compute; reflexivity).
  assert (Hlen : Z.max 0 (Z.min (-5) 256) <= Z.of_nat (length [0; 255; 7])) by (cbn; lia).
  assert (Hbpp : biBitCount (bih (block_at s 2%positive)) <= 8) by (vm_compute; discriminate).
  destruct (X12_transparency_table_is_clamped LP64 1%positive 2%positive
              (block_at s 2%positive) 4%positive [0; 255; 7] (-5) s Hb Hty Hbpp Hp Hlen)
    as (s' & Hset & Hn & _ & Htr & _).
  exists s'. exact (conj Hset (conj Hn Htr)).
Defined.

(** X13. Enabling transparency works on palettized bitmaps only: on
    a bitmap of the standard type whose depth is not 32,
    [FreeImage_IsTransparent] after [FreeImage_SetTransparent(dib,
    enabled)] returns [enabled] when the depth is at most 8, and
    [FALSE] whatever [enabled] is when it is more. *)
Theorem X13_transparency_flag (P : platform) (a d : loc) (b : BLOCK) (enabled : bool)
    (s : state) :
  bitmap_at s a d b -> type (fih b) = FIT_BITMAP -> biBitCount (bih b) <> 32 ->
  exists s',
    FreeImage_SetTransparent (Some a) enabled s = Some (tt, s')
    /\ FreeImage_IsTransparent P (Some a) s'
       = Some (enabled && (biBitCount (bih b) <=? 8), s')
    /\ (forall x c, mem s !! x = Some c -> x <> d -> mem s' !! x = Some c).
Proof.
  intros Hb Hty Hbpp.
  destruct (header_update_run a d b
              (set_transparent (enabled && (biBitCount (bih b) <=? 8))) s Hb)
    as (s' & Hrun & Hb' & Hframe & _).
  exists s'. split; [|split; [|exact Hframe]].
  - unfold FreeImage_SetTransparent.
    rewrite (bind_run _ _ _ _ _ (GetBPP_run s a d b Hb)).
    destruct (Z.eqb_spec (biBitCount (bih b)) 32); [done|]. rewrite orb_false_r.
    destruct (biBitCount (bih b) <=? 8); [by rewrite andb_true_r in Hrun|].
    by rewrite andb_false_r in Hrun.
  - by rewrite (IsTransparent_palettized P s' a d _ Hb').
Qed.

Lemma X13_transparency_flag_witness :
  exists s',
    FreeImage_SetTransparent (Some 1%positive) true (final_state furnished_bitmap)
      = Some (tt, s')
    /\ FreeImage_IsTransparent LP64 (Some 1%positive) s' = Some (false, s').
Proof.
  set (s := final_state furnished_bitmap).
  assert (Hb : bitmap_at s 1%positive 2%positive (block_at s 2%positive))
    by (split; vm_compute; reflexivity).
  assert (Hty : type (fih (block_at s 2%positive)) = FIT_BITMAP) by (vm_compute; reflexivity).
  assert (H24 : biBitCount (bih (block_at s 2%positive)) = 24) by (vm_compute; reflexivity).
  assert (Hbpp : biBitCount (bih (block_at s 2%positive)) <> 32)
    by (rewrite H24; discriminate).
  destruct (X13_transparency_flag LP64 1%positive 2%positive (block_at s 2%positive) true s
              Hb Hty Hbpp) as (s' & Hset & Hget & _).
  rewrite H24 in Hget. exists s'. exact (conj Hset Hget).
Defined.

(** The search of [FreeImage_GetBackgroundColor] through the first
    entries of a palette that has them. *)
Lemma background_index_spec (b : BLOCK) (c : FIRGBA8) (n : nat) (k : nat) (s : state) :
  (k + n <= length (palette b))%nat ->
  exists r,
    background_index b c (seqZ (Z.of_nat k) (Z.of_nat n)) s = Some (r, s)
    /\ match r with
       | Some i =>
           exists j p, i = Z.of_nat j /\ (k <= j < k + n)%nat
             /\ palette b !! j = Some p /\ is_rgb (red c) (green c) (blue c) p = true
             /\ forall j' q, (k <= j' < j)%nat -> palette b !! j' = Some q ->
                   is_rgb (red c) (green c) (blue c) q = false
       | None =>
           forall j q, (k <= j < k + n)%nat -> palette b !! j = Some q ->
             is_rgb (red c) (green c) (blue c) q = false
       end.
Proof.
  revert k. induction n as [|n IH]; intros k Hlen.
  { exists None. split; [reflexivity|]. intros j q Hj. lia. }
  rewrite seqZ_cons by lia.
  replace (Z.succ (Z.of_nat k)) with (Z.of_nat (S k)) by lia.
  replace (Z.pred (Z.of_nat (S n))) with (Z.of_nat n) by lia.
  cbn [background_index].
  destruct (lookup_lt_is_Some_2 (palette b) k) as [p Hp]; [lia|].
  assert (Hentry : palette_entry b (Z.of_nat k) s = Some (p, s)).
  { unfold palette_entry. destruct (Z.ltb_spec (Z.of_nat k) 0); [lia|].
    by rewrite Nat2Z.id, Hp. }
  rewrite (bind_run _ _ _ _ _ Hentry).
  destruct (is_rgb (red c) (green c) (blue c) p) eqn:Hmatch.
  - exists (Some (Z.of_nat k)). split; [reflexivity|].
    exists k, p. split; [reflexivity|]. split; [lia|]. split; [exact Hp|].
    split; [exact Hmatch|]. intros j' q Hj'. lia.
  - destruct (IH (S k)) as (r & Hrun & Hr); [lia|].
    exists r. split; [exact Hrun|]. destruct r as [i|].
    + destruct Hr as (j & q & -> & Hj & Hq & Hm & Hbefore).
      exists j, q. split; [reflexivity|]. split; [lia|]. split; [exact Hq|].
      split; [exact Hm|]. intros j' q' Hj' Hq'.
      destruct (decide (j' = k)) as [->|Hne]; [congruence|]. apply (Hbefore j'); [lia|exact Hq'].
    + intros j q Hj Hq. destruct (decide (j = k)) as [->|Hne]; [congruence|].
      apply (Hr j); [lia | exact Hq].
Qed.

(** X14. The background colour is read back as it was set, but for
    its alpha: after [FreeImage_SetBackgroundColor] with a colour,
    [FreeImage_HasBackgroundColor] is [TRUE] and
    [FreeImage_GetBackgroundColor] returns [TRUE] with the red, green
    and blue that were set; the alpha that was set is not kept: the
    alpha returned is 0, or, on an 8-bit bitmap, the index of the first
    palette entry of that colour when there is one. After a set with a
    null colour the bitmap has no background colour. *)
Theorem X14_background_colour_round_trip (a d : loc) (b : BLOCK) (c : FIRGBA8) (s : state) :
  bitmap_at s a d b ->
  (biBitCount (bih b) = 8 ->
     0 <= biClrUsed (bih b) <= Z.of_nat (length (palette b))) ->
  (exists s' index,
     FreeImage_SetBackgroundColor (Some a) (Some c) s = Some (true, s')
     /\ FreeImage_HasBackgroundColor (Some a) s' = Some (true, s')
     /\ FreeImage_GetBackgroundColor (Some a) true s'
        = Some ((true, Some {| red := red c; green := green c; blue := blue c;
                               alpha := from_option u8 0 index |}), s')
     /\ (biBitCount (bih b) <> 8 -> index = None)
     /\ (biBitCount (bih b) = 8 ->
           match index with
           | Some i =>
               exists j p, i = Z.of_nat j /\ Z.of_nat j < biClrUsed (bih b)
                 /\ palette b !! j = Some p /\ is_rgb (red c) (green c) (blue c) p = true
                 /\ forall j' q, (j' < j)%nat -> palette b !! j' = Some q ->
                       is_rgb (red c) (green c) (blue c) q = false
           | None =>
               forall j q, Z.of_nat j < biClrUsed (bih b) -> palette b !! j = Some q ->
                 is_rgb (red c) (green c) (blue c) q = false
           end))
  /\ (exists s',
        FreeImage_SetBackgroundColor (Some a) None s = Some (true, s')
        /\ FreeImage_HasBackgroundColor (Some a) s' = Some (false, s')
        /\ FreeImage_GetBackgroundColor (Some a) true s' = Some ((false, None), s')).
Proof.
  intros Hb Hpal. split.
  - set (c1 := {| red := red c; green := green c; blue := blue c; alpha := 1 |}).
    destruct (header_update_run a d b (set_bkgnd_color c1) s Hb)
      as (s' & Hrun & Hb' & _).
    set (b' := set_fih (set_bkgnd_color c1 (fih b)) b) in *.
    assert (Hhas : FreeImage_HasBackgroundColor (Some a) s' = Some (true, s')).
    { unfold FreeImage_HasBackgroundColor. by rewrite (read_block_run _ _ _ _ _ Hb'). }
    assert (Hindex : exists index,
      (if biBitCount (bih b) =? 8
       then colors ← FreeImage_GetColorsUsed (Some a);
            background_index b' c1 (seqZ 0 colors)
       else mret None) s' = Some (index, s')
      /\ (biBitCount (bih b) <> 8 -> index = None)
      /\ (biBitCount (bih b) = 8 ->
            match index with
            | Some i =>
                exists j p, i = Z.of_nat j /\ Z.of_nat j < biClrUsed (bih b)
                  /\ palette b !! j = Some p /\ is_rgb (red c) (green c) (blue c) p = true
                  /\ forall j' q, (j' < j)%nat -> palette b !! j' = Some q ->
                        is_rgb (red c) (green c) (blue c) q = false
            | None =>
                forall j q, Z.of_nat j < biClrUsed (bih b) -> palette b !! j = Some q ->
                  is_rgb (red c) (green c) (blue c) q = false
            end)).
    { destruct (Z.eqb_spec (biBitCount (bih b)) 8) as [H8|H8].
      - destruct (Hpal H8) as [Hlo Hhi].
        destruct (background_index_spec b' c1 (Z.to_nat (biClrUsed (bih b))) 0 s')
          as (r & Hrun_index & Hr); [cbn; lia|].
        exists r. rewrite (bind_run _ _ _ _ _ (GetColorsUsed_run s' a d b' Hb')).
        cbn [b' set_fih bih]. rewrite Z2Nat.id in Hrun_index by lia.
        split; [exact Hrun_index|]. split; [done|]. intros _.
        destruct r as [i|].
        + destruct Hr as (j & p & -> & Hj & Hp & Hm & Hbefore).
          exists j, p. split; [reflexivity|]. split; [lia|]. split; [exact Hp|].
          split; [exact Hm|]. intros j' q Hj'. apply Hbefore. lia.
        + intros j q Hj. apply Hr. lia.
      - exists None. split; [reflexivity|]. split; done. }
    destruct Hindex as (index & Hindex & Hnot8 & H8).
    exists s', index. split; [|split; [exact Hhas|split; [|exact (conj Hnot8 H8)]]].
    + unfold FreeImage_SetBackgroundColor. by rewrite (bind_run _ _ _ _ _ Hrun).
    + unfold FreeImage_GetBackgroundColor. rewrite (bind_run _ _ _ _ _ Hhas).
      rewrite (read_block_run _ _ _ _ _ Hb'). cbv beta iota zeta.
      rewrite (bind_run _ _ _ _ _ (GetBPP_run s' a d b' Hb')).
      cbn [b' set_fih bih]. by rewrite (bind_run _ _ _ _ _ Hindex).
  - destruct (header_update_run a d b (set_bkgnd_color zero_rgba) s Hb)
      as (s' & Hrun & Hb' & _).
    assert (Hhas : FreeImage_HasBackgroundColor (Some a) s' = Some (false, s')).
    { unfold FreeImage_HasBackgroundColor. by rewrite (read_block_run _ _ _ _ _ Hb'). }
    exists s'. split; [|split; [exact Hhas|]].
    + unfold FreeImage_SetBackgroundColor. by rewrite (bind_run _ _ _ _ _ Hrun).
    + unfold FreeImage_GetBackgroundColor. by rewrite (bind_run _ _ _ _ _ Hhas).
Qed.

Lemma X14_background_colour_round_trip_witness :
  exists s',
    FreeImage_SetBackgroundColor (Some 1%positive)
      (Some {| red := 7; green := 7; blue := 7; alpha := 200 |})
      (final_state bitmap_and_table) = Some (true, s')
    /\ FreeImage_GetBackgroundColor (Some 1%positive) true s'
       = Some ((true, Some {| red := 7; green := 7; blue := 7; alpha := 7 |}), s').
Proof.
  set (s := final_state bitmap_and_table).
  assert (Hb : bitmap_at s 1%positive 2%positive (block_at s 2%positive))
    by (split; vm_compute; reflexivity).
  assert (Hused : biClrUsed (bih (block_at s 2%positive)) = 256) by (vm_compute; reflexivity).
  assert (Hlen : length (palette (block_at s 2%positive)) = 256%nat)
    by (vm_compute; reflexivity).
  assert (Hpal : biBitCount (bih (block_at s 2%positive)) = 8 ->
            0 <= biClrUsed (bih (block_at s 2%positive))
              <= Z.of_nat (length (palette (block_at s 2%positive))))
    by (intros _; rewrite Hused, Hlen; lia).
  destruct (X14_background_colour_round_trip 1%positive 2%positive (block_at s 2%positive)
              {| red := 7; green := 7; blue := 7; alpha := 200 |} s Hb Hpal)
    as [(s' & index & Hset & _ & Hget & _ & H8) _].
  assert (Hbpp : biBitCount (bih (block_at s 2%positive)) = 8) by (vm_compute; reflexivity).
  specialize (H8 Hbpp). exists s'. split; [exact Hset|].
  assert (Hgrey : forall j q, palette (block_at s 2%positive) !! j = Some q ->
            is_rgb 7 7 7 q = true -> j = 7%nat).
  { intros j q Hq Hm.
    assert (Hp : palette (block_at s 2%positive) = grey <$> seqZ 0 256)
      by (vm_compute; reflexivity).
    rewrite Hp in Hq. apply list_lookup_fmap_Some in Hq as (i & -> & Hi).
    apply lookup_seqZ in Hi as [-> Hj]. unfold is_rgb, grey in Hm. cbn in Hm.
    apply andb_true_iff in Hm as [Hm _]. apply andb_true_iff in Hm as [Hm _].
    apply Z.eqb_eq in Hm. unfold u8, wrap in Hm. rewrite Z.mod_small in Hm by lia. lia. }
  destruct index as [i|].
  - destruct H8 as (j & p & -> & _ & Hp & Hm & _).
    cbn [red green blue] in Hm. rewrite (Hgrey j p Hp Hm) in Hget. exact Hget.
  - exfalso.
    assert (H7 : palette (block_at s 2%positive) !! 7%nat = Some (grey 7))
      by (vm_compute; reflexivity).
    assert (Hlt : Z.of_nat 7 < biClrUsed (bih (block_at s 2%positive)))
      by (rewrite Hused; lia).
    pose proof (H8 7%nat (grey 7) Hlt H7) as Hno. cbn in Hno. discriminate Hno.
Defined.

(** * Colour type *)

Lemma palette_entry_at (b : BLOCK) (i : nat) (c : FIRGBA8) (s : state) :
  palette b !! i = Some c -> palette_entry b (Z.of_nat i) s = Some (c, s).
Proof.
  intros H. unfold palette_entry. destruct (Z.ltb_spec (Z.of_nat i) 0); [lia|].
  by rewrite Nat2Z.id, H.
Qed.

(** The classifier on a bitmap of the standard type: what is done
    before the depth is looked at. *)
Lemma GetColorType2_bitmap (P : platform) (s : state) (a d : loc) (b : BLOCK)
    (scan_alpha : bool) :
  bitmap_at s a d b -> type (fih b) = FIT_BITMAP ->
  FreeImage_GetColorType2 P (Some a) scan_alpha s
  = (let flags := icc_flags (iccProfile (fih b)) in
     let bpp := biBitCount (bih b) in
     if bpp =? 1 then classify_1bpp b
     else if (bpp =? 4) || (bpp =? 8) then classify_palette (Some a) b
     else if (bpp =? 16) || (bpp =? 24) then
       mret (if has_flag flags FIICC_COLOR_IS_YUV then FIC_YUV else FIC_RGB)
     else if bpp =? 32 then
       if has_flag flags FIICC_COLOR_IS_CMYK then mret FIC_CMYK
       else if has_flag flags FIICC_COLOR_IS_YUV then mret FIC_YUV
       else
         has ← FreeImage_HasPixels (Some a);
         if scan_alpha && has then
           height ← FreeImage_GetHeight (Some a);
           width ← FreeImage_GetWidth (Some a);
           found ← image_has_alpha P (Some a) width (seqZ 0 height);
           mret (if found : bool then FIC_RGBALPHA else FIC_RGB)
         else mret FIC_RGBALPHA
     else mret FIC_MINISBLACK) s.
Proof.
  intros Hb Hty. unfold FreeImage_GetColorType2.
  rewrite (bind_run _ _ _ _ _ (GetImageType_run s a d b Hb)).
  rewrite (bind_run _ _ _ _ _ (GetICCProfile_run s a d b Hb)). rewrite Hty.
  rewrite (bind_run _ _ s s a) by reflexivity.
  rewrite (read_block_run _ _ _ _ _ Hb). cbv beta iota.
  by rewrite (bind_run _ _ _ _ _ (GetBPP_run s a d b Hb)).
Qed.

(** X15. The colour type of a 1-bit bitmap is decided by its two
    palette entries: black then white is [FIC_MINISBLACK], white then
    black is [FIC_MINISWHITE], and every other pair is [FIC_PALETTE];
    no entry past the second is read. *)
Theorem X15_colour_type_of_1bpp (P : platform) (s : state) (a d : loc) (b : BLOCK)
    (c0 c1 : FIRGBA8) (scan_alpha : bool) :
  bitmap_at s a d b -> type (fih b) = FIT_BITMAP -> biBitCount (bih b) = 1 ->
  palette b = [c0; c1] ->
  FreeImage_GetColorType2 P (Some a) scan_alpha s
  = Some (if is_rgb 0 0 0 c0 && is_rgb 255 255 255 c1 then FIC_MINISBLACK
          else if is_rgb 255 255 255 c0 && is_rgb 0 0 0 c1 then FIC_MINISWHITE
          else FIC_PALETTE, s).
Proof.
  intros Hb Hty Hbpp Hpal.
  rewrite (GetColorType2_bitmap P s a d b scan_alpha Hb Hty). cbv zeta. rewrite Hbpp.
  change (1 =? 1) with true. cbv iota. unfold classify_1bpp.
  assert (H0 : palette_entry b 0 s = Some (c0, s))
    by (apply (palette_entry_at b 0); by rewrite Hpal).
  assert (H1 : palette_entry b 1 s = Some (c1, s))
    by (apply (palette_entry_at b 1); by rewrite Hpal).
  rewrite (bind_run _ _ _ _ _ H0).
  destruct (is_rgb 0 0 0 c0) eqn:Hblack0.
  - assert (Hin : (rgb1 ← palette_entry b 1; mret (1, is_rgb 255 255 255 rgb1)) s
                  = Some ((1, is_rgb 255 255 255 c1), s))
      by (by rewrite (bind_run _ _ _ _ _ H1)).
    rewrite (bind_run _ _ _ _ _ Hin). cbv beta iota.
    destruct (is_rgb 255 255 255 c1) eqn:Hwhite1; cbn [andb]; [reflexivity|].
    rewrite (bind_run _ _ _ _ _ H1), Hwhite1.
    assert (Hnw : is_rgb 255 255 255 c0 = false).
    { unfold is_rgb in *. apply andb_true_iff in Hblack0 as [Hrg _].
      apply andb_true_iff in Hrg as [Hr _]. apply Z.eqb_eq in Hr. rewrite Hr. reflexivity. }
    by rewrite Hnw.
  - rewrite (bind_run _ _ s s (0, false)) by reflexivity. cbv beta iota. cbn [andb].
    rewrite (bind_run _ _ _ _ _ H0).
    destruct (is_rgb 255 255 255 c0) eqn:Hwhite0; cbn [andb]; [|reflexivity].
    change (0 + 1) with 1. rewrite (bind_run _ _ _ _ _ H1).
    by destruct (is_rgb 0 0 0 c1).
Qed.

Lemma X15_colour_type_of_1bpp_witness :
  FreeImage_GetColorType2 LP64 (Some 1%positive) true
    (final_state (FreeImage_Allocate example_environment 3 3 1 0 0 0 empty_state))
  = Some (FIC_PALETTE,
          final_state (FreeImage_Allocate example_environment 3 3 1 0 0 0 empty_state)).
Proof.
  set (s := final_state (FreeImage_Allocate example_environment 3 3 1 0 0 0 empty_state)).
  assert (Hb : bitmap_at s 1%positive 2%positive (block_at s 2%positive))
    by (split; vm_compute; reflexivity).
  assert (Hty : type (fih (block_at s 2%positive)) = FIT_BITMAP) by (vm_compute; reflexivity).
  assert (Hbpp : biBitCount (bih (block_at s 2%positive)) = 1) by (vm_compute; reflexivity).
  assert (Hpal : palette (block_at s 2%positive) = [zero_rgba; zero_rgba])
    by (vm_compute; reflexivity).
  exact (X15_colour_type_of_1bpp LP64 s 1%positive 2%positive (block_at s 2%positive)
           zero_rgba zero_rgba true Hb Hty Hbpp Hpal).
Defined.

(** The scan of a palette that is the grey ramp. *)
Lemma grey_ramp_is_minisblack (b : BLOCK) (ncolors : Z) (n : nat) (i : nat) (s : state) :
  palette b = grey <$> seqZ 0 256 -> (i + n <= 256)%nat ->
  grey_ramp_scan b ncolors n (Z.of_nat i) true s = Some (FIC_MINISBLACK, s).
Proof.
  intros Hpal. revert i. induction n as [|n IH]; intros i Hi; [reflexivity|].
  cbn [grey_ramp_scan].
  assert (Hentry : palette b !! i = Some (grey (Z.of_nat i))).
  { rewrite Hpal, list_lookup_fmap.
    rewrite (proj2 (lookup_seqZ 0 256 i (0 + Z.of_nat i))) by lia.
    by rewrite Z.add_0_l. }
  rewrite (bind_run _ _ _ _ _ (palette_entry_at b i _ s Hentry)).
  assert (Hu : u8 (Z.of_nat i) = Z.of_nat i) by (unfold u8, wrap; apply Z.mod_small; lia).
  cbn [grey red green blue]. rewrite Hu, !Z.eqb_refl. cbn [negb orb].
  replace (Z.of_nat i + 1) with (Z.of_nat (S i)) by lia. apply IH. lia.
Qed.

(** The scan of a palette that starts with two black entries. *)
Lemma black_palette_is_palette (b : BLOCK) (ncolors : Z) (n : nat) (s : state) :
  palette b !! 0%nat = Some zero_rgba -> palette b !! 1%nat = Some zero_rgba ->
  ncolors <> 2 ->
  grey_ramp_scan b ncolors (S (S n)) 0 true s = Some (FIC_PALETTE, s).
Proof.
  intros H0 H1 Hn. cbn [grey_ramp_scan].
  rewrite (bind_run _ _ _ _ _ (palette_entry_at b 0 _ s H0)).
  cbn [zero_rgba red green blue Z.eqb negb orb].
  change (0 + 1) with 1.
  rewrite (bind_run _ _ _ _ _ (palette_entry_at b 1 _ s H1)).
  cbn [zero_rgba red green blue Z.eqb negb orb].
  destruct (Z.eqb_spec (ncolors - 1 - 1) 0); [lia | reflexivity].
Qed.

(** X16. The colour type of a new bitmap follows from its depth: a
    bitmap that [FreeImage_Allocate] returned is classified by
    [FreeImage_GetColorType] as [FIC_MINISBLACK] at 8 bits (its palette
    is the grey ramp), as [FIC_PALETTE] at 1 and 4 bits (its palette is
    all black), and as [FIC_RGB] at 16 and 24 bits. *)
Theorem X16_colour_type_of_new_bitmap (E : environment) (width height bpp r g b : Z)
    (s : state) (a : loc) (s' : state) :
  bpp ∈ [1; 4; 8; 16; 24] ->
  FreeImage_Allocate E width height bpp r g b s = Some (Some a, s') ->
  FreeImage_GetColorType (target E) (Some a) s'
  = Some (if bpp =? 8 then FIC_MINISBLACK
          else if bpp <? 8 then FIC_PALETTE else FIC_RGB, s').
Proof.
  intros Hbpp Hrun. unfold FreeImage_Allocate in Hrun.
  destruct (AllocateBitmap_inv _ _ _ _ _ _ _ _ _ _ _ _ _ _ Hrun)
    as (bpp' & nm & d & md & Hc & _ & _ & _ & _ & _ & _ & _ & Had & Ham & Hdm & Hm & _).
  cbv zeta in Hm.
  pose proof (AllocateBitmap_bitmap_at s' _ a d md _ Had Ham Hdm Hm) as Hb.
  set (blk := allocated_block _ _ _ _ _ _ _ _ _ _ _ _ _ _) in *.
  assert (Hdepth : bpp' = bpp /\ nm = (bpp =? 16)).
  { repeat (apply elem_of_cons in Hbpp as [->|Hbpp]); cbn in Hc;
      try (injection Hc as <- <-; done). by apply elem_of_nil in Hbpp. }
  destruct Hdepth as [-> ->].
  unfold FreeImage_GetColorType.
  rewrite (GetColorType2_bitmap (target E) s' a d blk true Hb eq_refl). cbv zeta.
  assert (Hcount : biBitCount (bih blk) = bpp).
  { cbn. repeat (apply elem_of_cons in Hbpp as [->|Hbpp]); try reflexivity.
    by apply elem_of_nil in Hbpp. }
  rewrite Hcount.
  repeat (apply elem_of_cons in Hbpp as [->|Hbpp]); cbn [Z.eqb Z.ltb Z.compare Pos.compare
    Pos.compare_cont orb Pos.eqb]; cbv iota.
  - (* 1 bit *)
    unfold classify_1bpp.
    assert (H0 : palette_entry blk 0 s' = Some (zero_rgba, s'))
      by (by apply (palette_entry_at blk 0)).
    assert (H1 : palette_entry blk 1 s' = Some (zero_rgba, s'))
      by (by apply (palette_entry_at blk 1)).
    rewrite (bind_run _ _ _ _ _ H0). change (is_rgb 0 0 0 zero_rgba) with true. cbv iota.
    assert (Hin : (rgb1 ← palette_entry blk 1; mret (1, is_rgb 255 255 255 rgb1)) s'
                  = Some ((1, false), s')) by (by rewrite (bind_run _ _ _ _ _ H1)).
    rewrite (bind_run _ _ _ _ _ Hin). cbv beta iota.
    by rewrite (bind_run _ _ _ _ _ H1).
  - (* 4 bits *)
    unfold classify_palette.
    rewrite (bind_run _ _ _ _ _ (GetColorsUsed_run s' a d blk Hb)). cbv zeta.
    change (biClrUsed (bih blk)) with 16. change (s32 16) with 16.
    change (Z.to_nat 16) with (S (S 14)).
    apply black_palette_is_palette; [reflexivity | reflexivity | discriminate].
  - (* 8 bits *)
    unfold classify_palette.
    rewrite (bind_run _ _ _ _ _ (GetColorsUsed_run s' a d blk Hb)). cbv zeta.
    change (biClrUsed (bih blk)) with 256. change (s32 256) with 256.
    apply (grey_ramp_is_minisblack blk 256 (Z.to_nat 256) 0 s'); [reflexivity | lia].
  - reflexivity.
  - reflexivity.
  - by apply elem_of_nil in Hbpp.
Qed.

Lemma X16_colour_type_of_new_bitmap_witness :
  FreeImage_GetColorType LP64 (Some 1%positive)
    (final_state (FreeImage_Allocate example_environment 1 1 8 0 0 0 empty_state))
  = Some (FIC_MINISBLACK,
          final_state (FreeImage_Allocate example_environment 1 1 8 0 0 0 empty_state)).
Proof.
  assert (Hrun : FreeImage_Allocate example_environment 1 1 8 0 0 0 empty_state
                 = Some (Some 1%positive,
                         final_state (FreeImage_Allocate example_environment 1 1 8 0 0 0
                                        empty_state))) by (vm_compute; reflexivity).
  assert (Hin : 8 ∈ [1; 4; 8; 16; 24]).
  { apply list_elem_of_further, list_elem_of_further, list_elem_of_here. }
  exact (X16_colour_type_of_new_bitmap example_environment 1 1 8 0 0 0 empty_state
           1%positive _ Hin Hrun).
Defined.

(** * The alpha scan *)

Lemma alpha_of_pixel_run (s : state) (d : loc) (b : BLOCK) (off x : Z) :
  mem s !! d = Some (CBlock b) ->
  0 <= off + 4 * x + 3 - pixels_at b < Z.of_nat (length (pixels b)) ->
  alpha_of_pixel (d, off) x s
  = Some (default 0 (pixels b !! Z.to_nat (off + 4 * x + 3 - pixels_at b)), s).
Proof.
  intros Hd Hi. unfold alpha_of_pixel. cbn [fst snd].
  rewrite (bind_run _ _ _ _ _ (read_bytes_block s d b (off + 4 * x + 3) 1 Hd
                                 ltac:(lia) ltac:(lia) ltac:(lia))).
  unfold slice. change (Z.to_nat 1) with 1%nat.
  destruct (lookup_lt_is_Some_2 (pixels b) (Z.to_nat (off + 4 * x + 3 - pixels_at b)))
    as [v Hv]; [lia|].
  by rewrite (drop_S _ _ _ Hv), Hv.
Qed.

Section AlphaScan.
Context (P : platform) (s : state) (a d : loc) (b : BLOCK).
Context (Hb : bitmap_at s a d b).
Context (Hpix : has_pixels (fih b) = true) (Hown : external_bits (fih b) = None).
Context (Hoff : pixels_at b <= bits_offset P b).
Context (Hpitch : 4 * u32 (biWidth (bih b)) <= pitch_of b).
Context (Hroom : bits_offset P b - pixels_at b + pitch_of b * u32 (biHeight (bih b))
                 <= Z.of_nat (length (pixels b))).

Lemma line_has_alpha_run (y : Z) (xs : list Z) :
  0 <= y < u32 (biHeight (bih b)) ->
  (forall x, x ∈ xs -> 0 <= x < u32 (biWidth (bih b))) ->
  line_has_alpha (d, bits_offset P b + pitch_of b * y) xs s
  = Some (existsb (fun x => negb (alpha_byte P b y x =? 0xFF)) xs, s).
Proof.
  intros Hy. induction xs as [|x xs IH]; intros Hxs; [reflexivity|].
  cbn [line_has_alpha existsb].
  assert (Hx : 0 <= x < u32 (biWidth (bih b))) by (apply Hxs; left).
  assert (Hnext : pitch_of b * (y + 1) <= pitch_of b * u32 (biHeight (bih b)))
    by (apply Z.mul_le_mono_nonneg_l; lia).
  assert (Hline : 0 <= pitch_of b * y) by (apply Z.mul_nonneg_nonneg; lia).
  assert (Hrange : 0 <= bits_offset P b + pitch_of b * y + 4 * x + 3 - pixels_at b
                   < Z.of_nat (length (pixels b))) by lia.
  rewrite (bind_run _ _ _ _ _ (alpha_of_pixel_run s d b _ x (proj2 Hb) Hrange)).
  fold (alpha_byte P b y x).
  destruct (negb (alpha_byte P b y x =? 0xFF)); [reflexivity|].
  cbn [orb]. apply IH. intros x' Hx'. apply Hxs. by right.
Qed.

Lemma image_has_alpha_run (ys : list Z) :
  (forall y, y ∈ ys -> 0 <= y < u32 (biHeight (bih b))) ->
  image_has_alpha P (Some a) (u32 (biWidth (bih b))) ys s
  = Some (existsb (fun y =>
            existsb (fun x => negb (alpha_byte P b y x =? 0xFF))
              (seqZ 0 (u32 (biWidth (bih b))))) ys, s).
Proof.
  induction ys as [|y ys IH]; intros Hys; [reflexivity|].
  cbn [image_has_alpha existsb].
  rewrite (bind_run _ _ _ _ _ (GetScanLine_owned P s a d b y Hb Hown)), Hpix.
  rewrite (bind_run _ _ s s (d, bits_offset P b + pitch_of b * y)) by reflexivity.
  assert (Hxs : forall x, x ∈ seqZ 0 (u32 (biWidth (bih b))) ->
            0 <= x < u32 (biWidth (bih b)))
    by (intros x Hx; apply elem_of_seqZ in Hx; lia).
  assert (Hy : 0 <= y < u32 (biHeight (bih b))) by (apply Hys; left).
  rewrite (bind_run _ _ _ _ _ (line_has_alpha_run y _ Hy Hxs)).
  destruct (existsb _ (seqZ 0 (u32 (biWidth (bih b))))); [reflexivity|].
  cbn [orb]. apply IH. intros y' Hy'. apply Hys. by right.
Qed.
End AlphaScan.

(** X19. A 32-bit bitmap is reported as [FIC_RGB] exactly when it is
    fully opaque: on a bitmap of the standard type with 32 bits per
    pixel that owns its pixels and whose profile is flagged neither
    CMYK nor YUV, [FreeImage_GetColorType] reads the alpha byte of the
    pixels, scanline by scanline, and returns [FIC_RGBALPHA] when one of
    them is not 255, and [FIC_RGB] when all are. *)
Theorem X19_colour_type_of_32bpp (P : platform) (s : state) (a d : loc) (b : BLOCK) :
  bitmap_at s a d b -> type (fih b) = FIT_BITMAP -> biBitCount (bih b) = 32 ->
  has_pixels (fih b) = true -> external_bits (fih b) = None ->
  has_flag (icc_flags (iccProfile (fih b))) FIICC_COLOR_IS_CMYK = false ->
  has_flag (icc_flags (iccProfile (fih b))) FIICC_COLOR_IS_YUV = false ->
  pixels_at b <= bits_offset P b ->
  4 * u32 (biWidth (bih b)) <= pitch_of b ->
  bits_offset P b - pixels_at b + pitch_of b * u32 (biHeight (bih b))
    <= Z.of_nat (length (pixels b)) ->
  FreeImage_GetColorType P (Some a) s
  = Some (if some_alpha P b then FIC_RGBALPHA else FIC_RGB, s).
Proof.
  intros Hb Hty Hbpp Hpix Hown Hcmyk Hyuv Hoff Hpitch Hroom.
  unfold FreeImage_GetColorType.
  rewrite (GetColorType2_bitmap P s a d b true Hb Hty). cbv zeta.
  rewrite Hbpp, Hcmyk, Hyuv.
  change (32 =? 1) with false. change ((32 =? 4) || (32 =? 8)) with false.
  change ((32 =? 16) || (32 =? 24)) with false. change (32 =? 32) with true. cbv iota.
  rewrite (bind_run _ _ _ _ _ (HasPixels_run s a d b Hb)), Hpix. cbn [andb].
  rewrite (bind_run _ _ _ _ _ (GetHeight_run s a d b Hb)).
  rewrite (bind_run _ _ _ _ _ (GetWidth_run s a d b Hb)).
  assert (Hys : forall y, y ∈ seqZ 0 (u32 (biHeight (bih b))) ->
            0 <= y < u32 (biHeight (bih b)))
    by (intros y Hy; apply elem_of_seqZ in Hy; lia).
  rewrite (bind_run _ _ _ _ _ (image_has_alpha_run P s a d b Hb Hpix Hown Hoff Hpitch Hroom
             (seqZ 0 (u32 (biHeight (bih b)))) Hys)).
  reflexivity.
Qed.

Lemma X19_colour_type_of_32bpp_witness :
  FreeImage_GetColorType LP64 (Some 1%positive) (final_state (written_pixel [9; 8; 7; 255]))
  = Some (FIC_RGB, final_state (written_pixel [9; 8; 7; 255]))
  /\ FreeImage_GetColorType LP64 (Some 1%positive) (final_state (written_pixel [9; 8; 7; 254]))
     = Some (FIC_RGBALPHA, final_state (written_pixel [9; 8; 7; 254])).
Proof.
  split.
  - set (s := final_state (written_pixel [9; 8; 7; 255])).
    assert (Hb : bitmap_at s 1%positive 2%positive (block_at s 2%positive))
      by (split; vm_compute; reflexivity).
    assert (Hct := X19_colour_type_of_32bpp LP64 s 1%positive 2%positive
                     (block_at s 2%positive) Hb).
    assert (Hopaque : some_alpha LP64 (block_at s 2%positive) = false)
      by (vm_compute; reflexivity).
    rewrite Hopaque in Hct.
    apply Hct; try (vm_compute; reflexivity); vm_compute; discriminate.
  - set (s := final_state (written_pixel [9; 8; 7; 254])).
    assert (Hb : bitmap_at s 1%positive 2%positive (block_at s 2%positive))
      by (split; vm_compute; reflexivity).
    assert (Hct := X19_colour_type_of_32bpp LP64 s 1%positive 2%positive
                     (block_at s 2%positive) Hb).
    assert (Halpha : some_alpha LP64 (block_at s 2%positive) = true)
      by (vm_compute; reflexivity).
    rewrite Halpha in Hct.
    apply Hct; try (vm_compute; reflexivity); vm_compute; discriminate.
Defined.

(** * Layout of the backing block *)

Lemma size_t_small (P : platform) (x : Z) :
  32 <= size_bits P -> 0 <= x < 2 ^ 32 -> size_t P x = x.
Proof.
  intros HP Hx. unfold size_t, wrap. apply Z.mod_small.
  assert (2 ^ 32 <= 2 ^ size_bits P) by (apply Z.pow_le_mono_r; lia). lia.
Qed.

Lemma align_pad_spec (n : Z) :
  0 <= align_pad n < FIBITMAP_ALIGNMENT /\ (n + align_pad n) mod FIBITMAP_ALIGNMENT = 0.
Proof.
  unfold align_pad, FIBITMAP_ALIGNMENT.
  pose proof (Z.mod_pos_bound n 16 ltac:(lia)) as Hm.
  destruct (Z.eqb_spec (n mod 16) 0) as [H0|H0].
  - split; [lia|]. by rewrite Z.add_0_r.
  - split; [lia|].
    rewrite (Z.div_mod n 16) at 1 by lia.
    replace (16 * (n / 16) + n mod 16 + (16 - n mod 16)) with ((n / 16 + 1) * 16) by lia.
    apply Z.mod_mul. lia.
Qed.

Lemma palette_entries_range (bpp : Z) : 0 <= CalculateUsedPaletteEntries bpp <= 256.
Proof.
  unfold CalculateUsedPaletteEntries.
  destruct ((1 <=? bpp) && (bpp <=? 8)) eqn:H; [|lia].
  apply andb_true_iff in H as [H1 H8]. apply Z.leb_le in H1, H8.
  assert (2 ^ bpp <= 2 ^ 8) by (apply Z.pow_le_mono_r; lia).
  assert (0 < 2 ^ bpp) by (apply Z.pow_pos_nonneg; lia). lia.
Qed.

(** The header part of the size that [FreeImage_GetInternalImageSize]
    computes is the offset that [FreeImage_GetBits] computes. *)
Lemma header_size_is_bits_offset (P : platform) (bpp : Z) (need_masks : bool) :
  32 <= size_bits P -> 0 <= sizeof_FREEIMAGEHEADER P < 2 ^ 16 ->
  header_size P bpp need_masks
  = (let lp := info_offset P + sizeof_FIBITMAPINFOHEADER
               + sizeof_FIRGBA8 * CalculateUsedPaletteEntries bpp in
     let lp := lp + (if need_masks then sizeof_uint32_t * 3 else 0) in
     lp + align_pad lp).
Proof.
  intros HP Hh. unfold header_size, info_offset. cbv zeta.
  pose proof (palette_entries_range bpp) as Hc.
  unfold sizeof_FIBITMAPINFOHEADER, sizeof_FIRGBA8, sizeof_uint32_t, FIBITMAP_ALIGNMENT in *.
  change (40 mod 16) with 8.
  set (h := sizeof_FREEIMAGEHEADER P) in *.
  rewrite (size_t_small P h) by lia.
  pose proof (align_pad_spec h) as [Hp1 _]. unfold FIBITMAP_ALIGNMENT in Hp1.
  rewrite (size_t_small P (h + align_pad h)) by lia.
  rewrite (size_t_small P (h + align_pad h + (16 - 8))) by lia.
  rewrite (size_t_small P (h + align_pad h + (16 - 8) + 40)) by lia.
  rewrite (size_t_small P (4 * CalculateUsedPaletteEntries bpp)) by lia.
  rewrite (size_t_small P (h + align_pad h + (16 - 8) + 40
                           + 4 * CalculateUsedPaletteEntries bpp)) by lia.
  set (lp := h + align_pad h + (16 - 8) + 40 + 4 * CalculateUsedPaletteEntries bpp) in *.
  assert (Hm : 0 <= (if need_masks then 4 * 3 else 0) <= 12) by (destruct need_masks; lia).
  rewrite (size_t_small P (lp + (if need_masks then 4 * 3 else 0))) by (unfold lp; lia).
  pose proof (align_pad_spec (lp + (if need_masks then 4 * 3 else 0))) as [Hp2 _].
  unfold FIBITMAP_ALIGNMENT in Hp2.
  apply size_t_small; [exact HP | unfold lp in *; lia].
Qed.

(** X17. The pixels of a new bitmap are aligned, and are where the
    size calculator put them: on a target whose [size_t] has at least
    32 bits, for a bitmap that [FreeImage_AllocateT] returned,
    [FreeImage_GetBits] returns a pointer into the backing block whose
    offset is a multiple of [FIBITMAP_ALIGNMENT], is the offset at which
    the pixel bytes of the block start, and is the size that
    [FreeImage_GetInternalImageSize] gives for the header alone. *)
Theorem X17_pixels_are_aligned (E : environment) (t : FREE_IMAGE_TYPE)
    (width height bpp r g b : Z) (s : state) (a : loc) (s' : state) :
  32 <= size_bits (target E) -> 0 <= sizeof_FREEIMAGEHEADER (target E) < 2 ^ 16 ->
  FreeImage_AllocateT E t width height bpp r g b s = Some (Some a, s') ->
  exists d blk off bpp' need_masks,
    bitmap_at s' a d blk
    /\ FreeImage_GetBits (target E) (Some a) s' = Some (Some (d, off), s')
    /\ off mod FIBITMAP_ALIGNMENT = 0
    /\ off = pixels_at blk
    /\ check_bit_depth t bpp = Some (bpp', need_masks)
    /\ off = FreeImage_GetInternalImageSize (target E) true
               (abs_int width) (abs_int height) bpp' need_masks.
Proof.
  intros HP Hh Hrun. unfold FreeImage_AllocateT in Hrun.
  destruct (AllocateBitmap_inv _ _ _ _ _ _ _ _ _ _ _ _ _ _ Hrun)
    as (bpp' & nm & d & md & Hc & _ & _ & _ & _ & _ & _ & _ & Had & Ham & Hdm & Hm & _).
  cbv zeta in Hm.
  pose proof (AllocateBitmap_bitmap_at s' _ a d md _ Had Ham Hdm Hm) as Hb.
  set (blk := allocated_block _ _ _ _ _ _ _ _ _ _ _ _ _ _) in *.
  assert (Hscan : FreeImage_GetScanLine (target E) (Some a) 0 s'
                  = Some (Some (d, bits_offset (target E) blk + pitch_of blk * 0), s'))
    by exact (GetScanLine_owned (target E) s' a d blk 0 Hb eq_refl).
  assert (Hbits : FreeImage_GetBits (target E) (Some a) s'
                  = Some (Some (d, bits_offset (target E) blk), s')).
  { unfold FreeImage_GetBits.
    rewrite (bind_run _ _ _ _ _ (HasPixels_run _ _ _ _ Hb)). cbn [blk allocated_block fih
      initial_header has_pixels negb].
    rewrite (bind_run _ _ s' s' a) by reflexivity.
    rewrite (read_block_run _ _ _ _ _ Hb). cbv beta iota.
    cbn [blk allocated_block fih initial_header external_bits].
    rewrite (bind_run _ _ _ _ _ (GetColorsUsed_run _ _ _ _ Hb)).
    rewrite (bind_run _ _ _ _ _ (HasRGBMasks_run _ _ _ _ Hb)). reflexivity. }
  assert (Hoff : bits_offset (target E) blk = header_size (target E) bpp' nm).
  { rewrite (header_size_is_bits_offset (target E) bpp' nm HP Hh).
    unfold bits_offset. cbn [blk allocated_block bih initial_info biClrUsed biCompression].
    by destruct nm. }
  exists d, blk, (bits_offset (target E) blk), bpp', nm.
  split; [exact Hb|]. split; [exact Hbits|]. split; [|split; [|split; [exact Hc|]]].
  - unfold bits_offset. cbv zeta. apply align_pad_spec.
  - exact Hoff.
  - exact Hoff.
Qed.

Lemma X17_pixels_are_aligned_witness :
  exists d off,
    FreeImage_GetBits LP64 (Some 1%positive)
      (final_state (FreeImage_AllocateT example_environment FIT_BITMAP 3 2 16 0 0 0
                      empty_state))
    = Some (Some (d, off),
            final_state (FreeImage_AllocateT example_environment FIT_BITMAP 3 2 16 0 0 0
                           empty_state))
    /\ off mod 16 = 0.
Proof.
  assert (Hrun : FreeImage_AllocateT example_environment FIT_BITMAP 3 2 16 0 0 0 empty_state
                 = Some (Some 1%positive,
                         final_state (FreeImage_AllocateT example_environment FIT_BITMAP
                                        3 2 16 0 0 0 empty_state)))
    by (vm_compute; reflexivity).
  assert (HP : 32 <= size_bits (target example_environment)) by (vm_compute; discriminate).
  assert (Hh : 0 <= sizeof_FREEIMAGEHEADER (target example_environment) < 2 ^ 16)
    by (vm_compute; split; [discriminate | reflexivity]).
  destruct (X17_pixels_are_aligned example_environment FIT_BITMAP 3 2 16 0 0 0 empty_state
              1%positive _ HP Hh Hrun)
    as (d & blk & off & bpp' & nm & _ & Hbits & Hal & _).
  exists d, off. exact (conj Hbits Hal).
Defined.

(** * The state of a new bitmap *)

(** X18. A new bitmap is bare: a bitmap that
    [FreeImage_AllocateHeaderT] returned has no tag in any metadata
    model, no thumbnail, an ICC profile without data, size or flags, no
    background colour and no transparent colour; it has pixels exactly
    when it was not allocated header-only, and its resolution is 2835
    dots per meter (72 dpi) both ways. *)
Theorem X18_new_bitmap_is_bare (E : environment) (header_only : bool)
    (t : FREE_IMAGE_TYPE) (width height bpp r g b : Z) (s : state) (a : loc) (s' : state) :
  FreeImage_AllocateHeaderT E header_only t width height bpp r g b s = Some (Some a, s') ->
  (forall model, FreeImage_GetMetadataCount model (Some a) s' = Some (0, s'))
  /\ (forall model key,
        FreeImage_GetMetadata model (Some a) (Some key) s' = Some ((false, None), s'))
  /\ FreeImage_GetThumbnail (Some a) s' = Some (None, s')
  /\ FreeImage_GetICCProfile (Some a) s'
     = Some (Some {| icc_flags := 0; icc_size := 0; icc_data := None |}, s')
  /\ FreeImage_HasBackgroundColor (Some a) s' = Some (false, s')
  /\ FreeImage_GetTransparencyCount (Some a) s' = Some (0, s')
  /\ FreeImage_GetTransparentIndex (Some a) s' = Some (-1, s')
  /\ FreeImage_HasPixels (Some a) s' = Some (negb header_only, s')
  /\ FreeImage_GetDotsPerMeterX (Some a) s' = Some (2835, s')
  /\ FreeImage_GetDotsPerMeterY (Some a) s' = Some (2835, s').
Proof.
  intros Hrun. unfold FreeImage_AllocateHeaderT in Hrun.
  destruct (AllocateBitmap_inv _ _ _ _ _ _ _ _ _ _ _ _ _ _ Hrun)
    as (bpp' & nm & d & md & Hc & _ & _ & _ & _ & _ & _ & _ & Had & Ham & Hdm & Hm & _).
  cbv zeta in Hm.
  pose proof (AllocateBitmap_bitmap_at s' _ a d md _ Had Ham Hdm Hm) as Hb.
  set (blk := allocated_block _ _ _ _ _ _ _ _ _ _ _ _ _ _) in *.
  assert (HMD : mem s' !! md = Some (CMetadata ∅)).
  { rewrite Hm, lookup_insert_ne by done. apply lookup_insert_eq. }
  split; [|split; [|split; [|split; [|split; [|split; [|split; [|split; [|split]]]]]]]].
  - intros model.
    rewrite (GetMetadataCount_run model s' a d blk md ∅ Hb eq_refl HMD).
    + by rewrite lookup_empty.
    + intros tm. by rewrite lookup_empty.
  - intros model key.
    apply (GetMetadata_absent model key s' a d blk md ∅ Hb eq_refl HMD), lookup_empty.
  - exact (GetThumbnail_run s' a d blk Hb).
  - exact (GetICCProfile_run s' a d blk Hb).
  - unfold FreeImage_HasBackgroundColor. by rewrite (read_block_run _ _ _ _ _ Hb).
  - exact (GetTransparencyCount_run s' a d blk Hb).
  - unfold FreeImage_GetTransparentIndex.
    rewrite (bind_run _ _ _ _ _ (GetTransparencyCount_run s' a d blk Hb)).
    by rewrite (bind_run _ _ _ _ _ (GetTransparencyTable_run s' a d blk Hb)).
  - exact (HasPixels_run s' a d blk Hb).
  - exact (GetDotsPerMeterX_run s' a d blk Hb).
  - exact (GetDotsPerMeterY_run s' a d blk Hb).
Qed.

Lemma X18_new_bitmap_is_bare_witness :
  FreeImage_GetMetadataCount FIMD_COMMENTS (Some 1%positive)
    (final_state (FreeImage_AllocateHeaderT example_environment true FIT_BITMAP 3 2 24 0 0 0
                    empty_state))
  = Some (0, final_state (FreeImage_AllocateHeaderT example_environment true FIT_BITMAP
                            3 2 24 0 0 0 empty_state))
  /\ FreeImage_HasPixels (Some 1%positive)
       (final_state (FreeImage_AllocateHeaderT example_environment true FIT_BITMAP 3 2 24
                       0 0 0 empty_state))
     = Some (false, final_state (FreeImage_AllocateHeaderT example_environment true
                                   FIT_BITMAP 3 2 24 0 0 0 empty_state)).
Proof.
  assert (Hrun : FreeImage_AllocateHeaderT example_environment true FIT_BITMAP 3 2 24 0 0 0
                   empty_state
                 = Some (Some 1%positive,
                         final_state (FreeImage_AllocateHeaderT example_environment true
                                        FIT_BITMAP 3 2 24 0 0 0 empty_state)))
    by (vm_compute; reflexivity).
  destruct (X18_new_bitmap_is_bare example_environment true FIT_BITMAP 3 2 24 0 0 0
              empty_state 1%positive _ Hrun)
    as (Hcount & _ & _ & _ & _ & _ & _ & Hpix & _).
  exact (conj (Hcount FIMD_COMMENTS) Hpix).
Defined.

(** * The thumbnail *)

Lemma SetThumbnail_with_result (unload : ptr -> M unit) (clone : ptr -> M ptr)
    (a : loc) (th : ptr) (s : state) (r : bool) (s' : state) :
  SetThumbnail_with unload clone (Some a) th s = Some (r, s') -> r = true.
Proof.
  intros H. unfold SetThumbnail_with in H.
  apply bind_inv in H as (cur & s1 & _ & H).
  destruct (decide (cur = th)); [apply mret_inv in H; by inversion H|].
  apply bind_inv in H as (u1 & s2 & _ & H).
  apply bind_inv in H as (has & s3 & _ & H).
  apply bind_inv in H as (t & s4 & _ & H).
  apply bind_inv in H as (u2 & s5 & _ & H).
  apply mret_inv in H. by inversion H.
Qed.

Lemma Clone_gives_result (E : environment) (fuel : nat) (t : loc) (s : state) (r : ptr)
    (s' : state) :
  FreeImage_Clone E fuel (Some t) s = Some (r, s') -> clone_result (target E) s s' t r.
Proof.
  intros H. destruct (Clone_post E fuel t s r s' H) as (He & _ & Hpost).
  split; [exact He|]. intros td tb Hb. destruct (Hpost td tb Hb) as (Hacc & Hcl).
  split; [exact Hacc|]. intros t' ->.
  destruct (Hcl t' eq_refl) as (dd & db & md & DMD & Hb' & Hn1 & Hn2 & _ & _ & _ & _ & _ & _ & _
                                 & Himg & _).
  exists dd, db. split; [exact Hb'|]. split; [exact Hn1|]. split; [exact Hn2|].
  intros Hnz. apply (Himg Hnz).
Qed.


